(** * mmg-wasm: the handle-indirection and bulk-marshalling layer

    A shallow embedding of the three C wrapper files of the repository
    ([src/mmg2d.c], [src/mmg3d.c], [src/mmgs.c]) and the properties of the
    handle tables, of the allocate-or-rollback discipline of the bulk
    getters and of the quality queries.

    The C program is modelled by explicit state passing over one [World]:
    the three static handle tables with their lazy-initialisation flags,
    the allocator ([malloc]/[free]) and the state of the external MMG
    kernel.  The MMG library itself is not part of the repository: each of
    its three headers is an interface (a type class) over an abstract
    kernel state. *)

From Stdlib Require Import ZArith List Bool Lia String.
From Stdlib Require Import Floats.PrimFloat.
From stdpp Require Import base option list gmap.

Local Open Scope Z_scope.

(* stdpp's [set_solver] clears hypotheses by name as it goes *)
#[local] Set Warnings "-clear-no-such-hyp".

(** ** C data: integers, pointers, doubles

    [int], [int32_t] and [MMG5_int] are 32-bit (the [_Static_assert] of
    each file); values of these types are carried as [Z].  The wrappers do
    no arithmetic on handles besides comparisons with [0] and
    [MAX_HANDLES].  A pointer is an address of the 32-bit linear memory,
    [NULL] is address 0.  A [double] is a binary64 float. *)

Definition ptr := Z.
Definition NULL : ptr := 0.
Definition double := float.

(** An [int*] out-parameter handed over by the caller: [None] is a [NULL]
    pointer, [Some v] a pointer to a cell that currently holds [v].  The
    operations return the cell as they leave it. *)
Definition OutInt := option Z.

(** [if (out) *out = v;] *)
Definition store_out (out : OutInt) (v : Z) : OutInt :=
  match out with
  | None => None
  | Some _ => Some v
  end.

(** ** The allocator

    The memory handed out by [malloc] is a finite map from the addresses
    of the live blocks to the blocks.  A block remembers the byte size it
    was requested with and the cells written so far (index by element,
    as the C code indexes its typed arrays).  Whether an allocation
    succeeds, and at which address, is the allocator's choice: [supply]
    scripts the answers of the coming [malloc] calls; an answer that is
    [NULL] or the address of a live block, and an exhausted script, are
    failed allocations. *)

Inductive Cell :=
| CInt (z : Z)
| CDouble (d : double).

Record Block := mkBlock { bytes : Z; cells : gmap Z Cell }.

Record Heap := mkHeap { live : gmap Z Block; supply : list Z }.

Definition malloc (size : Z) (h : Heap) : ptr * Heap :=
  match supply h with
  | [] => (NULL, h)
  | p :: rest =>
      if bool_decide (p ≠ NULL ∧ live h !! p = None)
      then (p, mkHeap (<[p := mkBlock size ∅]> (live h)) rest)
      else (NULL, mkHeap (live h) rest)
  end.

(** [free(NULL)] does nothing. *)
Definition free (p : ptr) (h : Heap) : Heap :=
  if p =? NULL then h else mkHeap (delete p (live h)) (supply h).

(** [p[i] = c] *)
Definition store (p : ptr) (i : Z) (c : Cell) (h : Heap) : Heap :=
  mkHeap (alter (λ b, mkBlock (bytes b) (<[i := c]> (cells b))) p (live h))
         (supply h).

(** [p[i]] *)
Definition load (p : ptr) (i : Z) (h : Heap) : option Cell :=
  live h !! p ≫= λ b, cells b !! i.

(** The kernel writes a whole array through a pointer: element [i] of
    [cs] lands in [p[i]]. *)
Fixpoint fill_from (p : ptr) (i : Z) (cs : list Cell) (h : Heap) : Heap :=
  match cs with
  | [] => h
  | c :: cs' => fill_from p (i + 1) cs' (store p i c h)
  end.

Definition fill (p : ptr) (cs : list Cell) (h : Heap) : Heap :=
  fill_from p 0 cs h.

(** [size_t] is 32 bits wide on the wasm32 target: the product
    [(count) * sizeof(type)] of the allocation sites wraps around. *)
Definition size_t (z : Z) : Z := z mod 2 ^ 32.

Definition sizeof_double : Z := 8.
Definition sizeof_int : Z := 4.
Definition sizeof_MMG5_int : Z := 4.

(** ** Handle tables *)

Definition MAX_HANDLES : Z := 64.

(** [HandleEntry2D], [HandleEntry] and [HandleEntryS] are the same
    struct. *)
Record HandleEntry := mkEntry { mesh : ptr; sol : ptr; active : Z }.

Definition zero_entry : HandleEntry := mkEntry NULL NULL 0.

(** [memset(g_handles, 0, sizeof(g_handles))] *)
Definition memset_zero : list HandleEntry :=
  replicate (Z.to_nat MAX_HANDLES) zero_entry.

(** [t[i]] for an index within the array. *)
Definition entry_at (t : list HandleEntry) (i : Z) : HandleEntry :=
  default zero_entry (t !! Z.to_nat i).

(** [t[i].mesh = m; t[i].sol = s; t[i].active = a;] *)
Definition set_entry (t : list HandleEntry) (i : Z) (m s : ptr) (a : Z)
  : list HandleEntry :=
  alter (λ e, mkEntry (mesh e) (sol e) a) (Z.to_nat i)
    (alter (λ e, mkEntry (mesh e) s (active e)) (Z.to_nat i)
       (alter (λ e, mkEntry m (sol e) (active e)) (Z.to_nat i) t)).

(** [for (int i = 0; i < MAX_HANDLES; i++) if (!t[i].active) return i;
    return -1;] with [fuel] the iterations that remain. *)
Fixpoint find_free_loop (t : list HandleEntry) (i : Z) (fuel : nat) : Z :=
  match fuel with
  | O => -1
  | S fuel' =>
      if active (entry_at t i) =? 0 then i
      else find_free_loop t (i + 1) fuel'
  end.

(** [for (int i = 0; i < MAX_HANDLES; i++) if (!t[i].active) count++;] *)
Fixpoint count_free_loop (t : list HandleEntry) (i count : Z) (fuel : nat)
  : Z :=
  match fuel with
  | O => count
  | S fuel' =>
      count_free_loop t (i + 1)
        (if active (entry_at t i) =? 0 then count + 1 else count) fuel'
  end.

(** ** The program state *)

Record World (K : Type) := mkWorld {
  g_handles_2d : list HandleEntry;
  g_initialized_2d : Z;
  g_handles : list HandleEntry;
  g_initialized : Z;
  g_handles_s : list HandleEntry;
  g_initialized_s : Z;
  heap : Heap;
  kernel : K
}.

Arguments mkWorld {K}.
Arguments g_handles_2d {K}.
Arguments g_initialized_2d {K}.
Arguments g_handles {K}.
Arguments g_initialized {K}.
Arguments g_handles_s {K}.
Arguments g_initialized_s {K}.
Arguments heap {K}.
Arguments kernel {K}.

(** A C program starts with its static storage zeroed. *)
Definition boot {K} (h : Heap) (k : K) : World K :=
  mkWorld memset_zero 0 memset_zero 0 memset_zero 0 h k.

Section Setters.
Context {K : Type}.

Definition set_table_2d (t : list HandleEntry) (i : Z) (w : World K) :=
  mkWorld t i (g_handles w) (g_initialized w) (g_handles_s w)
    (g_initialized_s w) (heap w) (kernel w).

Definition set_table_3d (t : list HandleEntry) (i : Z) (w : World K) :=
  mkWorld (g_handles_2d w) (g_initialized_2d w) t i (g_handles_s w)
    (g_initialized_s w) (heap w) (kernel w).

Definition set_table_s (t : list HandleEntry) (i : Z) (w : World K) :=
  mkWorld (g_handles_2d w) (g_initialized_2d w) (g_handles w)
    (g_initialized w) t i (heap w) (kernel w).

Definition set_heap (h : Heap) (w : World K) :=
  mkWorld (g_handles_2d w) (g_initialized_2d w) (g_handles w)
    (g_initialized w) (g_handles_s w) (g_initialized_s w) h (kernel w).

Definition set_kernel (k : K) (w : World K) :=
  mkWorld (g_handles_2d w) (g_initialized_2d w) (g_handles w)
    (g_initialized w) (g_handles_s w) (g_initialized_s w) (heap w) k.
End Setters.

(** ** A state monad for the wrappers *)

Definition M (K A : Type) : Type := World K → A * World K.

#[global] Instance M_ret {K} : MRet (M K) := λ A a w, (a, w).
#[global] Instance M_bind {K} : MBind (M K) :=
  λ A B f m w, let (a, w') := m w in f a w'.

Section Lift.
Context {K : Type}.

(** read part of the state *)
Definition gets {A} (f : World K → A) : M K A := λ w, (f w, w).

(** change part of the state *)
Definition modify (f : World K → World K) : M K unit := λ w, (tt, f w).

(** a kernel call that may change the kernel's state *)
Definition kcall {A} (f : K → A * K) : M K A :=
  λ w, let (a, k) := f (kernel w) in (a, set_kernel k w).

(** a kernel call with no result the wrapper looks at *)
Definition kdo (f : K → K) : M K unit :=
  λ w, (tt, set_kernel (f (kernel w)) w).

(** a kernel query *)
Definition kget {A} (f : K → A) : M K A := λ w, (f (kernel w), w).

(** a kernel call that reads the caller's arrays *)
Definition kcall_mem {A} (f : Heap → K → A * K) : M K A :=
  λ w, let (a, k) := f (heap w) (kernel w) in (a, set_kernel k w).

Definition c_malloc (size : Z) : M K ptr :=
  λ w, let (p, h) := malloc size (heap w) in (p, set_heap h w).

Definition c_free (p : ptr) : M K unit :=
  λ w, (tt, set_heap (free p (heap w)) w).

Definition c_fill (p : ptr) (cs : list Cell) : M K unit :=
  λ w, (tt, set_heap (fill p cs (heap w)) w).

Definition c_store (p : ptr) (i : Z) (c : Cell) : M K unit :=
  λ w, (tt, set_heap (store p i c (heap w)) w).
End Lift.

(** [fail_with_count]: set the count to 0 and return [NULL]. *)
Definition fail_with_count (out_count : OutInt) : ptr * OutInt :=
  (NULL, store_out out_count 0).

(** What an entry point hands back to the caller: its C return value
    together with the out-parameters as it leaves them. *)
Inductive ret :=
| RVoid
| RInt (z : Z)
| RIntOuts (z : Z) (outs : list OutInt)
| RDouble (d : double)
| RBuf (p : ptr) (out_count : OutInt).

Definition r_int {K} (m : M K Z) : M K ret := z ← m; mret (RInt z).
Definition r_buf {K} (m : M K (ptr * OutInt)) : M K ret :=
  '(p, n) ← m; mret (RBuf p n).

(** ** The external kernel: [mmg/mmg2d/libmmg2d.h]

    The functions of the MMG2D library the wrappers call, over the
    kernel's own state [K] (its meshes, its solutions, the file system).
    A mutator returns its [int] result and the new state; a [Get_*]
    function is a query.  A bulk [Get_*] returns, next to its result, the
    arrays it writes through the pointers it is given; a bulk [Set_*]
    reads the caller's arrays from the memory. *)
Class libmmg2d (K : Type) := {
  MMG2D_Init_mesh : K → (Z * ptr * ptr) * K;
  MMG2D_Init_parameters : ptr → K → K;
  MMG2D_Free_all : ptr → ptr → K → K;
  MMG2D_Set_meshSize : ptr → Z → Z → Z → Z → K → Z * K;
  MMG2D_Get_meshSize : ptr → K → Z * (Z * Z * Z * Z);
  MMG2D_Set_vertex : ptr → double → double → Z → Z → K → Z * K;
  MMG2D_Set_vertices : ptr → ptr → ptr → Heap → K → Z * K;
  MMG2D_Get_vertices :
    ptr → K → Z * (list double * list Z * list Z * list Z);
  MMG2D_Set_triangle : ptr → Z → Z → Z → Z → Z → K → Z * K;
  MMG2D_Set_triangles : ptr → ptr → ptr → Heap → K → Z * K;
  MMG2D_Get_triangles : ptr → K → Z * (list Z * list Z * list Z);
  MMG2D_Set_edge : ptr → Z → Z → Z → Z → K → Z * K;
  MMG2D_Set_edges : ptr → ptr → ptr → Heap → K → Z * K;
  MMG2D_Get_edges : ptr → K → Z * (list Z * list Z * list Z * list Z);
  MMG2D_Set_iparameter : ptr → ptr → Z → Z → K → Z * K;
  MMG2D_Set_dparameter : ptr → ptr → Z → double → K → Z * K;
  MMG2D_Set_solSize : ptr → ptr → Z → Z → Z → K → Z * K;
  MMG2D_Get_solSize : ptr → ptr → K → Z * (Z * Z * Z);
  MMG2D_Set_scalarSols : ptr → ptr → Heap → K → Z * K;
  MMG2D_Get_scalarSols : ptr → K → Z * list double;
  MMG2D_Set_tensorSols : ptr → ptr → Heap → K → Z * K;
  MMG2D_Get_tensorSols : ptr → K → Z * list double;
  MMG2D_mmg2dlib : ptr → ptr → K → Z * K;
  MMG2D_loadMesh : ptr → string → K → Z * K;
  MMG2D_saveMesh : ptr → string → K → Z * K;
  MMG2D_loadSol : ptr → ptr → string → K → Z * K;
  MMG2D_saveSol : ptr → ptr → string → K → Z * K;
  MMG2D_Get_triangleQuality : ptr → ptr → Z → K → double
}.

(** ** [src/mmg2d.c] *)
Module Mmg2d.
Section Wrappers.
Context {K : Type} `{!libmmg2d K}.

Definition ensure_initialized_2d : M K unit := λ w,
  if g_initialized_2d w =? 0
  then (tt, set_table_2d memset_zero 1 w)
  else (tt, w).

Definition find_free_handle_2d : M K Z :=
  ensure_initialized_2d;;
  t ← gets g_handles_2d;
  mret (find_free_loop t 0 (Z.to_nat MAX_HANDLES)).

Definition validate_handle_2d (handle : Z) : M K Z :=
  ensure_initialized_2d;;
  if (handle <? 0) || (handle >=? MAX_HANDLES) then mret 0
  else gets (λ w, active (entry_at (g_handles_2d w) handle)).

Definition mmg2d_get_available_handles : M K Z :=
  ensure_initialized_2d;;
  t ← gets g_handles_2d;
  mret (count_free_loop t 0 0 (Z.to_nat MAX_HANDLES)).

Definition mmg2d_get_max_handles : M K Z := mret MAX_HANDLES.

(** [g_handles_2d[handle].mesh] and [.sol] *)
Definition mesh_of (handle : Z) : M K ptr :=
  gets (λ w, mesh (entry_at (g_handles_2d w) handle)).
Definition sol_of (handle : Z) : M K ptr :=
  gets (λ w, sol (entry_at (g_handles_2d w) handle)).

Definition mmg2d_init : M K Z :=
  handle ← find_free_handle_2d;
  if handle <? 0 then mret (-1) else
  '(result, mesh, sol) ← kcall MMG2D_Init_mesh;
  if negb (result =? 1) || (mesh =? NULL) then mret (-1) else
  kdo (MMG2D_Init_parameters mesh);;
  modify (λ w, set_table_2d (set_entry (g_handles_2d w) handle mesh sol 1)
                 (g_initialized_2d w) w);;
  mret handle.

Definition mmg2d_free (handle : Z) : M K Z :=
  v ← validate_handle_2d handle;
  if v =? 0 then mret 0 else
  mesh ← mesh_of handle;
  sol ← sol_of handle;
  kdo (MMG2D_Free_all mesh sol);;
  modify (λ w, set_table_2d (set_entry (g_handles_2d w) handle NULL NULL 0)
                 (g_initialized_2d w) w);;
  mret 1.

Definition mmg2d_set_mesh_size (handle np nt nquad na : Z) : M K Z :=
  v ← validate_handle_2d handle;
  if v =? 0 then mret 0 else
  mesh ← mesh_of handle;
  kcall (MMG2D_Set_meshSize mesh np nt nquad na).

Definition mmg2d_get_mesh_size (handle : Z) (np nt nquad na : OutInt)
  : M K (Z * (OutInt * OutInt * OutInt * OutInt)) :=
  v ← validate_handle_2d handle;
  if v =? 0 then mret (0, (np, nt, nquad, na)) else
  mesh ← mesh_of handle;
  '(result, (_np, _nt, _nquad, _na)) ← kget (MMG2D_Get_meshSize mesh);
  if result =? 1
  then mret (result, (store_out np _np, store_out nt _nt,
                      store_out nquad _nquad, store_out na _na))
  else mret (result, (np, nt, nquad, na)).

Definition mmg2d_set_vertex (handle : Z) (x y : double) (ref pos : Z)
  : M K Z :=
  v ← validate_handle_2d handle;
  if v =? 0 then mret 0 else
  mesh ← mesh_of handle;
  kcall (MMG2D_Set_vertex mesh x y ref pos).

Definition mmg2d_set_vertices (handle : Z) (vertices refs : ptr) : M K Z :=
  v ← validate_handle_2d handle;
  if v =? 0 then mret 0 else
  mesh ← mesh_of handle;
  kcall_mem (MMG2D_Set_vertices mesh vertices refs).

Definition mmg2d_get_vertices (handle : Z) (out_count : OutInt)
  : M K (ptr * OutInt) :=
  v ← validate_handle_2d handle;
  if v =? 0 then mret (fail_with_count out_count) else
  mesh ← mesh_of handle;
  '(r, (np, nt, nquad, na)) ← kget (MMG2D_Get_meshSize mesh);
  if negb (r =? 1) then mret (fail_with_count out_count) else
  if np =? 0 then mret (fail_with_count out_count) else
  let cleanup (vertices refs corners required : ptr) : M K (ptr * OutInt) :=
    c_free vertices;; c_free refs;; c_free corners;; c_free required;;
    mret (fail_with_count out_count) in
  vertices ← c_malloc (size_t (2 * np * sizeof_double));
  if vertices =? NULL then cleanup vertices NULL NULL NULL else
  refs ← c_malloc (size_t (np * sizeof_MMG5_int));
  if refs =? NULL then cleanup vertices refs NULL NULL else
  corners ← c_malloc (size_t (np * sizeof_int));
  if corners =? NULL then cleanup vertices refs corners NULL else
  required ← c_malloc (size_t (np * sizeof_int));
  if required =? NULL then cleanup vertices refs corners required else
  '(result, (d_vertices, d_refs, d_corners, d_required)) ←
    kget (MMG2D_Get_vertices mesh);
  c_fill vertices (CDouble <$> d_vertices);;
  c_fill refs (CInt <$> d_refs);;
  c_fill corners (CInt <$> d_corners);;
  c_fill required (CInt <$> d_required);;
  c_free refs;;
  c_free corners;;
  c_free required;;
  if negb (result =? 1)
  then (c_free vertices;; mret (fail_with_count out_count))
  else mret (vertices, store_out out_count np).

Definition mmg2d_set_triangle (handle v0 v1 v2 ref pos : Z) : M K Z :=
  v ← validate_handle_2d handle;
  if v =? 0 then mret 0 else
  mesh ← mesh_of handle;
  kcall (MMG2D_Set_triangle mesh v0 v1 v2 ref pos).

Definition mmg2d_set_triangles (handle : Z) (tria refs : ptr) : M K Z :=
  v ← validate_handle_2d handle;
  if v =? 0 then mret 0 else
  mesh ← mesh_of handle;
  kcall_mem (MMG2D_Set_triangles mesh tria refs).

Definition mmg2d_get_triangles (handle : Z) (out_count : OutInt)
  : M K (ptr * OutInt) :=
  v ← validate_handle_2d handle;
  if v =? 0 then mret (fail_with_count out_count) else
  mesh ← mesh_of handle;
  '(r, (np, nt, nquad, na)) ← kget (MMG2D_Get_meshSize mesh);
  if negb (r =? 1) then mret (fail_with_count out_count) else
  if nt =? 0 then mret (fail_with_count out_count) else
  let cleanup (tria refs required : ptr) : M K (ptr * OutInt) :=
    c_free tria;; c_free refs;; c_free required;;
    mret (fail_with_count out_count) in
  tria ← c_malloc (size_t (3 * nt * sizeof_MMG5_int));
  if tria =? NULL then cleanup tria NULL NULL else
  refs ← c_malloc (size_t (nt * sizeof_MMG5_int));
  if refs =? NULL then cleanup tria refs NULL else
  required ← c_malloc (size_t (nt * sizeof_int));
  if required =? NULL then cleanup tria refs required else
  '(result, (d_tria, d_refs, d_required)) ←
    kget (MMG2D_Get_triangles mesh);
  c_fill tria (CInt <$> d_tria);;
  c_fill refs (CInt <$> d_refs);;
  c_fill required (CInt <$> d_required);;
  c_free refs;;
  c_free required;;
  if negb (result =? 1)
  then (c_free tria;; mret (fail_with_count out_count))
  else mret (tria, store_out out_count nt).

Definition mmg2d_set_edge (handle v0 v1 ref pos : Z) : M K Z :=
  v ← validate_handle_2d handle;
  if v =? 0 then mret 0 else
  mesh ← mesh_of handle;
  kcall (MMG2D_Set_edge mesh v0 v1 ref pos).

Definition mmg2d_set_edges (handle : Z) (edges refs : ptr) : M K Z :=
  v ← validate_handle_2d handle;
  if v =? 0 then mret 0 else
  mesh ← mesh_of handle;
  kcall_mem (MMG2D_Set_edges mesh edges refs).

Definition mmg2d_get_edges (handle : Z) (out_count : OutInt)
  : M K (ptr * OutInt) :=
  v ← validate_handle_2d handle;
  if v =? 0 then mret (fail_with_count out_count) else
  mesh ← mesh_of handle;
  '(r, (np, nt, nquad, na)) ← kget (MMG2D_Get_meshSize mesh);
  if negb (r =? 1) then mret (fail_with_count out_count) else
  if na =? 0 then mret (fail_with_count out_count) else
  let cleanup (edges refs ridges required : ptr) : M K (ptr * OutInt) :=
    c_free edges;; c_free refs;; c_free ridges;; c_free required;;
    mret (fail_with_count out_count) in
  edges ← c_malloc (size_t (2 * na * sizeof_MMG5_int));
  if edges =? NULL then cleanup edges NULL NULL NULL else
  refs ← c_malloc (size_t (na * sizeof_MMG5_int));
  if refs =? NULL then cleanup edges refs NULL NULL else
  ridges ← c_malloc (size_t (na * sizeof_int));
  if ridges =? NULL then cleanup edges refs ridges NULL else
  required ← c_malloc (size_t (na * sizeof_int));
  if required =? NULL then cleanup edges refs ridges required else
  '(result, (d_edges, d_refs, d_ridges, d_required)) ←
    kget (MMG2D_Get_edges mesh);
  c_fill edges (CInt <$> d_edges);;
  c_fill refs (CInt <$> d_refs);;
  c_fill ridges (CInt <$> d_ridges);;
  c_fill required (CInt <$> d_required);;
  c_free refs;;
  c_free ridges;;
  c_free required;;
  if negb (result =? 1)
  then (c_free edges;; mret (fail_with_count out_count))
  else mret (edges, store_out out_count na).

Definition mmg2d_set_iparameter (handle iparam val : Z) : M K Z :=
  v ← validate_handle_2d handle;
  if v =? 0 then mret 0 else
  mesh ← mesh_of handle;
  sol ← sol_of handle;
  kcall (MMG2D_Set_iparameter mesh sol iparam val).

Definition mmg2d_set_dparameter (handle dparam : Z) (val : double)
  : M K Z :=
  v ← validate_handle_2d handle;
  if v =? 0 then mret 0 else
  mesh ← mesh_of handle;
  sol ← sol_of handle;
  kcall (MMG2D_Set_dparameter mesh sol dparam val).

Definition mmg2d_set_sol_size (handle typEntity np typSol : Z) : M K Z :=
  v ← validate_handle_2d handle;
  if v =? 0 then mret 0 else
  mesh ← mesh_of handle;
  sol ← sol_of handle;
  kcall (MMG2D_Set_solSize mesh sol typEntity np typSol).

Definition mmg2d_get_sol_size (handle : Z) (typEntity np typSol : OutInt)
  : M K (Z * (OutInt * OutInt * OutInt)) :=
  v ← validate_handle_2d handle;
  if v =? 0 then mret (0, (typEntity, np, typSol)) else
  mesh ← mesh_of handle;
  sol ← sol_of handle;
  '(result, (_typEntity, _np, _typSol)) ←
    kget (MMG2D_Get_solSize mesh sol);
  if result =? 1
  then mret (result, (store_out typEntity _typEntity, store_out np _np,
                      store_out typSol _typSol))
  else mret (result, (typEntity, np, typSol)).

Definition mmg2d_set_scalar_sols (handle : Z) (values : ptr) : M K Z :=
  v ← validate_handle_2d handle;
  if v =? 0 then mret 0 else
  sol ← sol_of handle;
  kcall_mem (MMG2D_Set_scalarSols sol values).

Definition mmg2d_get_scalar_sols (handle : Z) (out_count : OutInt)
  : M K (ptr * OutInt) :=
  v ← validate_handle_2d handle;
  if v =? 0 then mret (NULL, store_out out_count 0) else
  mesh ← mesh_of handle;
  sol ← sol_of handle;
  '(r, (typEntity, np, typSol)) ← kget (MMG2D_Get_solSize mesh sol);
  if negb (r =? 1) then mret (NULL, store_out out_count 0) else
  if (np =? 0) || negb (typSol =? 1)
  then mret (NULL, store_out out_count 0) else
  values ← c_malloc (size_t (np * sizeof_double));
  if values =? NULL then mret (NULL, store_out out_count 0) else
  '(result, d_values) ← kget (MMG2D_Get_scalarSols sol);
  c_fill values (CDouble <$> d_values);;
  if negb (result =? 1)
  then (c_free values;; mret (NULL, store_out out_count 0))
  else mret (values, store_out out_count np).

Definition mmg2d_set_tensor_sols (handle : Z) (values : ptr) : M K Z :=
  v ← validate_handle_2d handle;
  if v =? 0 then mret 0 else
  sol ← sol_of handle;
  kcall_mem (MMG2D_Set_tensorSols sol values).

Definition mmg2d_get_tensor_sols (handle : Z) (out_count : OutInt)
  : M K (ptr * OutInt) :=
  v ← validate_handle_2d handle;
  if v =? 0 then mret (NULL, store_out out_count 0) else
  mesh ← mesh_of handle;
  sol ← sol_of handle;
  '(r, (typEntity, np, typSol)) ← kget (MMG2D_Get_solSize mesh sol);
  if negb (r =? 1) then mret (NULL, store_out out_count 0) else
  if (np =? 0) || negb (typSol =? 3)
  then mret (NULL, store_out out_count 0) else
  values ← c_malloc (size_t (np * 3 * sizeof_double));
  if values =? NULL then mret (NULL, store_out out_count 0) else
  '(result, d_values) ← kget (MMG2D_Get_tensorSols sol);
  c_fill values (CDouble <$> d_values);;
  if negb (result =? 1)
  then (c_free values;; mret (NULL, store_out out_count 0))
  else mret (values, store_out out_count np).

Definition mmg2d_remesh (handle : Z) : M K Z :=
  v ← validate_handle_2d handle;
  if v =? 0 then mret (-1) else
  mesh ← mesh_of handle;
  sol ← sol_of handle;
  kcall (MMG2D_mmg2dlib mesh sol).

Definition mmg2d_free_array (p : ptr) : M K unit :=
  if p =? NULL then mret tt else c_free p.

Definition mmg2d_load_mesh (handle : Z) (filename : string) : M K Z :=
  v ← validate_handle_2d handle;
  if v =? 0 then mret 0 else
  mesh ← mesh_of handle;
  kcall (MMG2D_loadMesh mesh filename).

Definition mmg2d_save_mesh (handle : Z) (filename : string) : M K Z :=
  v ← validate_handle_2d handle;
  if v =? 0 then mret 0 else
  mesh ← mesh_of handle;
  kcall (MMG2D_saveMesh mesh filename).

Definition mmg2d_load_sol (handle : Z) (filename : string) : M K Z :=
  v ← validate_handle_2d handle;
  if v =? 0 then mret 0 else
  mesh ← mesh_of handle;
  sol ← sol_of handle;
  kcall (MMG2D_loadSol mesh sol filename).

Definition mmg2d_save_sol (handle : Z) (filename : string) : M K Z :=
  v ← validate_handle_2d handle;
  if v =? 0 then mret 0 else
  mesh ← mesh_of handle;
  sol ← sol_of handle;
  kcall (MMG2D_saveSol mesh sol filename).

Definition mmg2d_get_triangle_quality (handle k : Z) : M K double :=
  v ← validate_handle_2d handle;
  if v =? 0 then mret 0%float else
  mesh ← mesh_of handle;
  sol ← sol_of handle;
  kget (MMG2D_Get_triangleQuality mesh sol k).

(** [for (MMG5_int k = 1; k <= nt; k++)
      qualities[k - 1] = MMG2D_Get_triangleQuality(mesh, sol, k);]
    from the current [k], with [fuel] the iterations that remain. *)
Fixpoint qualities_loop (fuel : nat) (k nt : Z) (mesh sol qualities : ptr)
  : M K unit :=
  match fuel with
  | O => mret tt
  | S fuel' =>
      if k <=? nt then
        q ← kget (MMG2D_Get_triangleQuality mesh sol k);
        c_store qualities (k - 1) (CDouble q);;
        qualities_loop fuel' (k + 1) nt mesh sol qualities
      else mret tt
  end.

Definition mmg2d_get_triangles_qualities (handle : Z) (out_count : OutInt)
  : M K (ptr * OutInt) :=
  v ← validate_handle_2d handle;
  if v =? 0 then mret (NULL, store_out out_count 0) else
  mesh ← mesh_of handle;
  sol ← sol_of handle;
  '(r, (np, nt, nquad, na)) ← kget (MMG2D_Get_meshSize mesh);
  if negb (r =? 1) then mret (NULL, store_out out_count 0) else
  if nt =? 0 then mret (NULL, store_out out_count 0) else
  qualities ← c_malloc (size_t (nt * sizeof_double));
  if qualities =? NULL then mret (NULL, store_out out_count 0) else
  qualities_loop (Z.to_nat nt) 1 nt mesh sol qualities;;
  mret (qualities, store_out out_count nt).
End Wrappers.

(** The entry points of the file as one type of calls, for the
    statements about sequences of operations. *)
Inductive call :=
| Init
| Free (handle : Z)
| Get_available_handles
| Get_max_handles
| Set_mesh_size (handle np nt nquad na : Z)
| Get_mesh_size (handle : Z) (np nt nquad na : OutInt)
| Set_vertex (handle : Z) (x y : double) (ref pos : Z)
| Set_vertices (handle : Z) (vertices refs : ptr)
| Get_vertices (handle : Z) (out_count : OutInt)
| Set_triangle (handle v0 v1 v2 ref pos : Z)
| Set_triangles (handle : Z) (tria refs : ptr)
| Get_triangles (handle : Z) (out_count : OutInt)
| Set_edge (handle v0 v1 ref pos : Z)
| Set_edges (handle : Z) (edges refs : ptr)
| Get_edges (handle : Z) (out_count : OutInt)
| Set_iparameter (handle iparam val : Z)
| Set_dparameter (handle dparam : Z) (val : double)
| Set_sol_size (handle typEntity np typSol : Z)
| Get_sol_size (handle : Z) (typEntity np typSol : OutInt)
| Set_scalar_sols (handle : Z) (values : ptr)
| Get_scalar_sols (handle : Z) (out_count : OutInt)
| Set_tensor_sols (handle : Z) (values : ptr)
| Get_tensor_sols (handle : Z) (out_count : OutInt)
| Remesh (handle : Z)
| Free_array (p : ptr)
| Load_mesh (handle : Z) (filename : string)
| Save_mesh (handle : Z) (filename : string)
| Load_sol (handle : Z) (filename : string)
| Save_sol (handle : Z) (filename : string)
| Get_triangle_quality (handle k : Z)
| Get_triangles_qualities (handle : Z) (out_count : OutInt).

Definition exec {K} `{!libmmg2d K} (c : call) : M K ret :=
  match c with
  | Init => r_int mmg2d_init
  | Free h => r_int (mmg2d_free h)
  | Get_available_handles => r_int mmg2d_get_available_handles
  | Get_max_handles => r_int mmg2d_get_max_handles
  | Set_mesh_size h np nt nquad na =>
      r_int (mmg2d_set_mesh_size h np nt nquad na)
  | Get_mesh_size h np nt nquad na =>
      '(r, (o1, o2, o3, o4)) ← mmg2d_get_mesh_size h np nt nquad na;
      mret (RIntOuts r [o1; o2; o3; o4])
  | Set_vertex h x y ref pos => r_int (mmg2d_set_vertex h x y ref pos)
  | Set_vertices h v r => r_int (mmg2d_set_vertices h v r)
  | Get_vertices h n => r_buf (mmg2d_get_vertices h n)
  | Set_triangle h v0 v1 v2 ref pos =>
      r_int (mmg2d_set_triangle h v0 v1 v2 ref pos)
  | Set_triangles h t r => r_int (mmg2d_set_triangles h t r)
  | Get_triangles h n => r_buf (mmg2d_get_triangles h n)
  | Set_edge h v0 v1 ref pos => r_int (mmg2d_set_edge h v0 v1 ref pos)
  | Set_edges h e r => r_int (mmg2d_set_edges h e r)
  | Get_edges h n => r_buf (mmg2d_get_edges h n)
  | Set_iparameter h i v => r_int (mmg2d_set_iparameter h i v)
  | Set_dparameter h i v => r_int (mmg2d_set_dparameter h i v)
  | Set_sol_size h e np t => r_int (mmg2d_set_sol_size h e np t)
  | Get_sol_size h e np t =>
      '(r, (o1, o2, o3)) ← mmg2d_get_sol_size h e np t;
      mret (RIntOuts r [o1; o2; o3])
  | Set_scalar_sols h v => r_int (mmg2d_set_scalar_sols h v)
  | Get_scalar_sols h n => r_buf (mmg2d_get_scalar_sols h n)
  | Set_tensor_sols h v => r_int (mmg2d_set_tensor_sols h v)
  | Get_tensor_sols h n => r_buf (mmg2d_get_tensor_sols h n)
  | Remesh h => r_int (mmg2d_remesh h)
  | Free_array p => mmg2d_free_array p;; mret RVoid
  | Load_mesh h f => r_int (mmg2d_load_mesh h f)
  | Save_mesh h f => r_int (mmg2d_save_mesh h f)
  | Load_sol h f => r_int (mmg2d_load_sol h f)
  | Save_sol h f => r_int (mmg2d_save_sol h f)
  | Get_triangle_quality h k =>
      q ← mmg2d_get_triangle_quality h k; mret (RDouble q)
  | Get_triangles_qualities h n =>
      r_buf (mmg2d_get_triangles_qualities h n)
  end.

(** The handle a call is about. *)
Definition handle_of (c : call) : option Z :=
  match c with
  | Init | Get_available_handles | Get_max_handles | Free_array _ => None
  | Free h | Set_mesh_size h _ _ _ _ | Get_mesh_size h _ _ _ _
  | Set_vertex h _ _ _ _ | Set_vertices h _ _ | Get_vertices h _
  | Set_triangle h _ _ _ _ _ | Set_triangles h _ _ | Get_triangles h _
  | Set_edge h _ _ _ _ | Set_edges h _ _ | Get_edges h _
  | Set_iparameter h _ _ | Set_dparameter h _ _
  | Set_sol_size h _ _ _ | Get_sol_size h _ _ _
  | Set_scalar_sols h _ | Get_scalar_sols h _
  | Set_tensor_sols h _ | Get_tensor_sols h _
  | Remesh h | Load_mesh h _ | Save_mesh h _ | Load_sol h _ | Save_sol h _
  | Get_triangle_quality h _ | Get_triangles_qualities h _ => Some h
  end.

(** The failure value the operation is designed to give: 0 for the
    operations that return a status, -1 for the remesher, [NULL] with a
    zero count for the getters of arrays, 0.0 for the quality. *)
Definition sentinel (c : call) : ret :=
  match c with
  | Remesh _ => RInt (-1)
  | Get_mesh_size _ np nt nquad na => RIntOuts 0 [np; nt; nquad; na]
  | Get_sol_size _ e np t => RIntOuts 0 [e; np; t]
  | Get_vertices _ n | Get_triangles _ n | Get_edges _ n
  | Get_scalar_sols _ n | Get_tensor_sols _ n
  | Get_triangles_qualities _ n => RBuf NULL (store_out n 0)
  | Get_triangle_quality _ _ => RDouble 0%float
  | Free_array _ => RVoid
  | _ => RInt 0
  end.

(** A sequence of calls, with the result of each. *)
Fixpoint run {K} `{!libmmg2d K} (cs : list call) (w : World K)
  : list ret * World K :=
  match cs with
  | [] => ([], w)
  | c :: cs' =>
      let (r, w1) := exec c w in
      let (rs, w2) := run cs' w1 in
      (r :: rs, w2)
  end.
End Mmg2d.

(** ** The external kernel: [mmg/mmg3d/libmmg3d.h] *)
Class libmmg3d (K : Type) := {
  MMG3D_Init_mesh : K → (Z * ptr * ptr) * K;
  MMG3D_Init_parameters : ptr → K → K;
  MMG3D_Free_all : ptr → ptr → K → K;
  MMG3D_Set_meshSize : ptr → Z → Z → Z → Z → Z → Z → K → Z * K;
  MMG3D_Get_meshSize : ptr → K → Z * (Z * Z * Z * Z * Z * Z);
  MMG3D_Set_vertex : ptr → double → double → double → Z → Z → K → Z * K;
  MMG3D_Set_vertices : ptr → ptr → ptr → Heap → K → Z * K;
  MMG3D_Get_vertices :
    ptr → K → Z * (list double * list Z * list Z * list Z);
  MMG3D_Set_tetrahedron : ptr → Z → Z → Z → Z → Z → Z → K → Z * K;
  MMG3D_Set_tetrahedra : ptr → ptr → ptr → Heap → K → Z * K;
  MMG3D_Get_tetrahedra : ptr → K → Z * (list Z * list Z * list Z);
  MMG3D_Set_triangle : ptr → Z → Z → Z → Z → Z → K → Z * K;
  MMG3D_Set_triangles : ptr → ptr → ptr → Heap → K → Z * K;
  MMG3D_Get_triangles : ptr → K → Z * (list Z * list Z * list Z);
  MMG3D_Set_iparameter : ptr → ptr → Z → Z → K → Z * K;
  MMG3D_Set_dparameter : ptr → ptr → Z → double → K → Z * K;
  MMG3D_Set_solSize : ptr → ptr → Z → Z → Z → K → Z * K;
  MMG3D_Get_solSize : ptr → ptr → K → Z * (Z * Z * Z);
  MMG3D_Set_scalarSols : ptr → ptr → Heap → K → Z * K;
  MMG3D_Get_scalarSols : ptr → K → Z * list double;
  MMG3D_Set_tensorSols : ptr → ptr → Heap → K → Z * K;
  MMG3D_Get_tensorSols : ptr → K → Z * list double;
  MMG3D_mmg3dlib : ptr → ptr → K → Z * K;
  MMG3D_loadMesh : ptr → string → K → Z * K;
  MMG3D_saveMesh : ptr → string → K → Z * K;
  MMG3D_loadSol : ptr → ptr → string → K → Z * K;
  MMG3D_saveSol : ptr → ptr → string → K → Z * K;
  MMG3D_Get_tetrahedronQuality : ptr → ptr → Z → K → double
}.

(** ** [src/mmg3d.c] *)
Module Mmg3d.
Section Wrappers.
Context {K : Type} `{!libmmg3d K}.

Definition ensure_initialized : M K unit := λ w,
  if g_initialized w =? 0
  then (tt, set_table_3d memset_zero 1 w)
  else (tt, w).

Definition find_free_handle : M K Z :=
  ensure_initialized;;
  t ← gets g_handles;
  mret (find_free_loop t 0 (Z.to_nat MAX_HANDLES)).

Definition validate_handle (handle : Z) : M K Z :=
  ensure_initialized;;
  if (handle <? 0) || (handle >=? MAX_HANDLES) then mret 0
  else gets (λ w, active (entry_at (g_handles w) handle)).

Definition mmg3d_get_available_handles : M K Z :=
  ensure_initialized;;
  t ← gets g_handles;
  mret (count_free_loop t 0 0 (Z.to_nat MAX_HANDLES)).

Definition mmg3d_get_max_handles : M K Z := mret MAX_HANDLES.

Definition mesh_of (handle : Z) : M K ptr :=
  gets (λ w, mesh (entry_at (g_handles w) handle)).
Definition sol_of (handle : Z) : M K ptr :=
  gets (λ w, sol (entry_at (g_handles w) handle)).

Definition mmg3d_init : M K Z :=
  handle ← find_free_handle;
  if handle <? 0 then mret (-1) else
  '(result, mesh, sol) ← kcall MMG3D_Init_mesh;
  if negb (result =? 1) || (mesh =? NULL) then mret (-1) else
  kdo (MMG3D_Init_parameters mesh);;
  modify (λ w, set_table_3d (set_entry (g_handles w) handle mesh sol 1)
                 (g_initialized w) w);;
  mret handle.

Definition mmg3d_free (handle : Z) : M K Z :=
  v ← validate_handle handle;
  if v =? 0 then mret 0 else
  mesh ← mesh_of handle;
  sol ← sol_of handle;
  kdo (MMG3D_Free_all mesh sol);;
  modify (λ w, set_table_3d (set_entry (g_handles w) handle NULL NULL 0)
                 (g_initialized w) w);;
  mret 1.

Definition mmg3d_set_mesh_size (handle np ne nprism nt nquad na : Z)
  : M K Z :=
  v ← validate_handle handle;
  if v =? 0 then mret 0 else
  mesh ← mesh_of handle;
  kcall (MMG3D_Set_meshSize mesh np ne nprism nt nquad na).

Definition mmg3d_get_mesh_size (handle : Z)
  (np ne nprism nt nquad na : OutInt)
  : M K (Z * (OutInt * OutInt * OutInt * OutInt * OutInt * OutInt)) :=
  v ← validate_handle handle;
  if v =? 0 then mret (0, (np, ne, nprism, nt, nquad, na)) else
  mesh ← mesh_of handle;
  '(result, (_np, _ne, _nprism, _nt, _nquad, _na)) ←
    kget (MMG3D_Get_meshSize mesh);
  if result =? 1
  then mret (result, (store_out np _np, store_out ne _ne,
                      store_out nprism _nprism, store_out nt _nt,
                      store_out nquad _nquad, store_out na _na))
  else mret (result, (np, ne, nprism, nt, nquad, na)).

Definition mmg3d_set_vertex (handle : Z) (x y z : double) (ref pos : Z)
  : M K Z :=
  v ← validate_handle handle;
  if v =? 0 then mret 0 else
  mesh ← mesh_of handle;
  kcall (MMG3D_Set_vertex mesh x y z ref pos).

Definition mmg3d_set_vertices (handle : Z) (vertices refs : ptr) : M K Z :=
  v ← validate_handle handle;
  if v =? 0 then mret 0 else
  mesh ← mesh_of handle;
  kcall_mem (MMG3D_Set_vertices mesh vertices refs).

(** This file allocates the returned array first and gives up at once
    when that fails; the three side arrays are then all requested
    before any of them is tested. *)
Definition mmg3d_get_vertices (handle : Z) (out_count : OutInt)
  : M K (ptr * OutInt) :=
  v ← validate_handle handle;
  if v =? 0 then mret (NULL, store_out out_count 0) else
  mesh ← mesh_of handle;
  '(r, (np, ne, nprism, nt, nquad, na)) ← kget (MMG3D_Get_meshSize mesh);
  if negb (r =? 1) then mret (NULL, store_out out_count 0) else
  if np =? 0 then mret (NULL, store_out out_count 0) else
  vertices ← c_malloc (size_t (3 * np * sizeof_double));
  if vertices =? NULL then mret (NULL, store_out out_count 0) else
  refs ← c_malloc (size_t (np * sizeof_MMG5_int));
  corners ← c_malloc (size_t (np * sizeof_int));
  required ← c_malloc (size_t (np * sizeof_int));
  if (refs =? NULL) || (corners =? NULL) || (required =? NULL)
  then (c_free vertices;; c_free refs;; c_free corners;;
        c_free required;; mret (NULL, store_out out_count 0))
  else
  '(result, (d_vertices, d_refs, d_corners, d_required)) ←
    kget (MMG3D_Get_vertices mesh);
  c_fill vertices (CDouble <$> d_vertices);;
  c_fill refs (CInt <$> d_refs);;
  c_fill corners (CInt <$> d_corners);;
  c_fill required (CInt <$> d_required);;
  c_free refs;;
  c_free corners;;
  c_free required;;
  if negb (result =? 1)
  then (c_free vertices;; mret (NULL, store_out out_count 0))
  else mret (vertices, store_out out_count np).

Definition mmg3d_set_tetrahedron (handle v0 v1 v2 v3 ref pos : Z)
  : M K Z :=
  v ← validate_handle handle;
  if v =? 0 then mret 0 else
  mesh ← mesh_of handle;
  kcall (MMG3D_Set_tetrahedron mesh v0 v1 v2 v3 ref pos).

Definition mmg3d_set_tetrahedra (handle : Z) (tetra refs : ptr) : M K Z :=
  v ← validate_handle handle;
  if v =? 0 then mret 0 else
  mesh ← mesh_of handle;
  kcall_mem (MMG3D_Set_tetrahedra mesh tetra refs).

Definition mmg3d_get_tetrahedra (handle : Z) (out_count : OutInt)
  : M K (ptr * OutInt) :=
  v ← validate_handle handle;
  if v =? 0 then mret (NULL, store_out out_count 0) else
  mesh ← mesh_of handle;
  '(r, (np, ne, nprism, nt, nquad, na)) ← kget (MMG3D_Get_meshSize mesh);
  if negb (r =? 1) then mret (NULL, store_out out_count 0) else
  if ne =? 0 then mret (NULL, store_out out_count 0) else
  tetra ← c_malloc (size_t (4 * ne * sizeof_MMG5_int));
  if tetra =? NULL then mret (NULL, store_out out_count 0) else
  refs ← c_malloc (size_t (ne * sizeof_MMG5_int));
  required ← c_malloc (size_t (ne * sizeof_int));
  if (refs =? NULL) || (required =? NULL)
  then (c_free tetra;; c_free refs;; c_free required;;
        mret (NULL, store_out out_count 0))
  else
  '(result, (d_tetra, d_refs, d_required)) ←
    kget (MMG3D_Get_tetrahedra mesh);
  c_fill tetra (CInt <$> d_tetra);;
  c_fill refs (CInt <$> d_refs);;
  c_fill required (CInt <$> d_required);;
  c_free refs;;
  c_free required;;
  if negb (result =? 1)
  then (c_free tetra;; mret (NULL, store_out out_count 0))
  else mret (tetra, store_out out_count ne).

Definition mmg3d_set_triangle (handle v0 v1 v2 ref pos : Z) : M K Z :=
  v ← validate_handle handle;
  if v =? 0 then mret 0 else
  mesh ← mesh_of handle;
  kcall (MMG3D_Set_triangle mesh v0 v1 v2 ref pos).

Definition mmg3d_set_triangles (handle : Z) (tria refs : ptr) : M K Z :=
  v ← validate_handle handle;
  if v =? 0 then mret 0 else
  mesh ← mesh_of handle;
  kcall_mem (MMG3D_Set_triangles mesh tria refs).

Definition mmg3d_get_triangles (handle : Z) (out_count : OutInt)
  : M K (ptr * OutInt) :=
  v ← validate_handle handle;
  if v =? 0 then mret (NULL, store_out out_count 0) else
  mesh ← mesh_of handle;
  '(r, (np, ne, nprism, nt, nquad, na)) ← kget (MMG3D_Get_meshSize mesh);
  if negb (r =? 1) then mret (NULL, store_out out_count 0) else
  if nt =? 0 then mret (NULL, store_out out_count 0) else
  tria ← c_malloc (size_t (3 * nt * sizeof_MMG5_int));
  if tria =? NULL then mret (NULL, store_out out_count 0) else
  refs ← c_malloc (size_t (nt * sizeof_MMG5_int));
  required ← c_malloc (size_t (nt * sizeof_int));
  if (refs =? NULL) || (required =? NULL)
  then (c_free tria;; c_free refs;; c_free required;;
        mret (NULL, store_out out_count 0))
  else
  '(result, (d_tria, d_refs, d_required)) ←
    kget (MMG3D_Get_triangles mesh);
  c_fill tria (CInt <$> d_tria);;
  c_fill refs (CInt <$> d_refs);;
  c_fill required (CInt <$> d_required);;
  c_free refs;;
  c_free required;;
  if negb (result =? 1)
  then (c_free tria;; mret (NULL, store_out out_count 0))
  else mret (tria, store_out out_count nt).

Definition mmg3d_set_iparameter (handle iparam val : Z) : M K Z :=
  v ← validate_handle handle;
  if v =? 0 then mret 0 else
  mesh ← mesh_of handle;
  sol ← sol_of handle;
  kcall (MMG3D_Set_iparameter mesh sol iparam val).

Definition mmg3d_set_dparameter (handle dparam : Z) (val : double)
  : M K Z :=
  v ← validate_handle handle;
  if v =? 0 then mret 0 else
  mesh ← mesh_of handle;
  sol ← sol_of handle;
  kcall (MMG3D_Set_dparameter mesh sol dparam val).

Definition mmg3d_set_sol_size (handle typEntity np typSol : Z) : M K Z :=
  v ← validate_handle handle;
  if v =? 0 then mret 0 else
  mesh ← mesh_of handle;
  sol ← sol_of handle;
  kcall (MMG3D_Set_solSize mesh sol typEntity np typSol).

Definition mmg3d_get_sol_size (handle : Z) (typEntity np typSol : OutInt)
  : M K (Z * (OutInt * OutInt * OutInt)) :=
  v ← validate_handle handle;
  if v =? 0 then mret (0, (typEntity, np, typSol)) else
  mesh ← mesh_of handle;
  sol ← sol_of handle;
  '(result, (_typEntity, _np, _typSol)) ←
    kget (MMG3D_Get_solSize mesh sol);
  if result =? 1
  then mret (result, (store_out typEntity _typEntity, store_out np _np,
                      store_out typSol _typSol))
  else mret (result, (typEntity, np, typSol)).

Definition mmg3d_set_scalar_sols (handle : Z) (values : ptr) : M K Z :=
  v ← validate_handle handle;
  if v =? 0 then mret 0 else
  sol ← sol_of handle;
  kcall_mem (MMG3D_Set_scalarSols sol values).

Definition mmg3d_get_scalar_sols (handle : Z) (out_count : OutInt)
  : M K (ptr * OutInt) :=
  v ← validate_handle handle;
  if v =? 0 then mret (NULL, store_out out_count 0) else
  mesh ← mesh_of handle;
  sol ← sol_of handle;
  '(r, (typEntity, np, typSol)) ← kget (MMG3D_Get_solSize mesh sol);
  if negb (r =? 1) then mret (NULL, store_out out_count 0) else
  if (np =? 0) || negb (typSol =? 1)
  then mret (NULL, store_out out_count 0) else
  values ← c_malloc (size_t (np * sizeof_double));
  if values =? NULL then mret (NULL, store_out out_count 0) else
  '(result, d_values) ← kget (MMG3D_Get_scalarSols sol);
  c_fill values (CDouble <$> d_values);;
  if negb (result =? 1)
  then (c_free values;; mret (NULL, store_out out_count 0))
  else mret (values, store_out out_count np).

Definition mmg3d_set_tensor_sols (handle : Z) (values : ptr) : M K Z :=
  v ← validate_handle handle;
  if v =? 0 then mret 0 else
  sol ← sol_of handle;
  kcall_mem (MMG3D_Set_tensorSols sol values).

Definition mmg3d_get_tensor_sols (handle : Z) (out_count : OutInt)
  : M K (ptr * OutInt) :=
  v ← validate_handle handle;
  if v =? 0 then mret (NULL, store_out out_count 0) else
  mesh ← mesh_of handle;
  sol ← sol_of handle;
  '(r, (typEntity, np, typSol)) ← kget (MMG3D_Get_solSize mesh sol);
  if negb (r =? 1) then mret (NULL, store_out out_count 0) else
  if (np =? 0) || negb (typSol =? 3)
  then mret (NULL, store_out out_count 0) else
  values ← c_malloc (size_t (np * 6 * sizeof_double));
  if values =? NULL then mret (NULL, store_out out_count 0) else
  '(result, d_values) ← kget (MMG3D_Get_tensorSols sol);
  c_fill values (CDouble <$> d_values);;
  if negb (result =? 1)
  then (c_free values;; mret (NULL, store_out out_count 0))
  else mret (values, store_out out_count np).

Definition mmg3d_remesh (handle : Z) : M K Z :=
  v ← validate_handle handle;
  if v =? 0 then mret (-1) else
  mesh ← mesh_of handle;
  sol ← sol_of handle;
  kcall (MMG3D_mmg3dlib mesh sol).

Definition mmg3d_free_array (p : ptr) : M K unit :=
  if p =? NULL then mret tt else c_free p.

Definition mmg3d_load_mesh (handle : Z) (filename : string) : M K Z :=
  v ← validate_handle handle;
  if v =? 0 then mret 0 else
  mesh ← mesh_of handle;
  kcall (MMG3D_loadMesh mesh filename).

Definition mmg3d_save_mesh (handle : Z) (filename : string) : M K Z :=
  v ← validate_handle handle;
  if v =? 0 then mret 0 else
  mesh ← mesh_of handle;
  kcall (MMG3D_saveMesh mesh filename).

Definition mmg3d_load_sol (handle : Z) (filename : string) : M K Z :=
  v ← validate_handle handle;
  if v =? 0 then mret 0 else
  mesh ← mesh_of handle;
  sol ← sol_of handle;
  kcall (MMG3D_loadSol mesh sol filename).

Definition mmg3d_save_sol (handle : Z) (filename : string) : M K Z :=
  v ← validate_handle handle;
  if v =? 0 then mret 0 else
  mesh ← mesh_of handle;
  sol ← sol_of handle;
  kcall (MMG3D_saveSol mesh sol filename).

Definition mmg3d_get_tetrahedron_quality (handle k : Z) : M K double :=
  v ← validate_handle handle;
  if v =? 0 then mret 0%float else
  mesh ← mesh_of handle;
  sol ← sol_of handle;
  kget (MMG3D_Get_tetrahedronQuality mesh sol k).

Fixpoint qualities_loop (fuel : nat) (k ne : Z) (mesh sol qualities : ptr)
  : M K unit :=
  match fuel with
  | O => mret tt
  | S fuel' =>
      if k <=? ne then
        q ← kget (MMG3D_Get_tetrahedronQuality mesh sol k);
        c_store qualities (k - 1) (CDouble q);;
        qualities_loop fuel' (k + 1) ne mesh sol qualities
      else mret tt
  end.

Definition mmg3d_get_tetrahedra_qualities (handle : Z) (out_count : OutInt)
  : M K (ptr * OutInt) :=
  v ← validate_handle handle;
  if v =? 0 then mret (NULL, store_out out_count 0) else
  mesh ← mesh_of handle;
  sol ← sol_of handle;
  '(r, (np, ne, nprism, nt, nquad, na)) ← kget (MMG3D_Get_meshSize mesh);
  if negb (r =? 1) then mret (NULL, store_out out_count 0) else
  if ne =? 0 then mret (NULL, store_out out_count 0) else
  qualities ← c_malloc (size_t (ne * sizeof_double));
  if qualities =? NULL then mret (NULL, store_out out_count 0) else
  qualities_loop (Z.to_nat ne) 1 ne mesh sol qualities;;
  mret (qualities, store_out out_count ne).
End Wrappers.

(** The entry points of the file. *)
Inductive call :=
| Init
| Free (handle : Z)
| Get_available_handles
| Get_max_handles
| Set_mesh_size (handle np ne nprism nt nquad na : Z)
| Get_mesh_size (handle : Z) (np ne nprism nt nquad na : OutInt)
| Set_vertex (handle : Z) (x y z : double) (ref pos : Z)
| Set_vertices (handle : Z) (vertices refs : ptr)
| Get_vertices (handle : Z) (out_count : OutInt)
| Set_tetrahedron (handle v0 v1 v2 v3 ref pos : Z)
| Set_tetrahedra (handle : Z) (tetra refs : ptr)
| Get_tetrahedra (handle : Z) (out_count : OutInt)
| Set_triangle (handle v0 v1 v2 ref pos : Z)
| Set_triangles (handle : Z) (tria refs : ptr)
| Get_triangles (handle : Z) (out_count : OutInt)
| Set_iparameter (handle iparam val : Z)
| Set_dparameter (handle dparam : Z) (val : double)
| Set_sol_size (handle typEntity np typSol : Z)
| Get_sol_size (handle : Z) (typEntity np typSol : OutInt)
| Set_scalar_sols (handle : Z) (values : ptr)
| Get_scalar_sols (handle : Z) (out_count : OutInt)
| Set_tensor_sols (handle : Z) (values : ptr)
| Get_tensor_sols (handle : Z) (out_count : OutInt)
| Remesh (handle : Z)
| Free_array (p : ptr)
| Load_mesh (handle : Z) (filename : string)
| Save_mesh (handle : Z) (filename : string)
| Load_sol (handle : Z) (filename : string)
| Save_sol (handle : Z) (filename : string)
| Get_tetrahedron_quality (handle k : Z)
| Get_tetrahedra_qualities (handle : Z) (out_count : OutInt).

Definition exec {K} `{!libmmg3d K} (c : call) : M K ret :=
  match c with
  | Init => r_int mmg3d_init
  | Free h => r_int (mmg3d_free h)
  | Get_available_handles => r_int mmg3d_get_available_handles
  | Get_max_handles => r_int mmg3d_get_max_handles
  | Set_mesh_size h np ne nprism nt nquad na =>
      r_int (mmg3d_set_mesh_size h np ne nprism nt nquad na)
  | Get_mesh_size h np ne nprism nt nquad na =>
      '(r, (o1, o2, o3, o4, o5, o6)) ←
        mmg3d_get_mesh_size h np ne nprism nt nquad na;
      mret (RIntOuts r [o1; o2; o3; o4; o5; o6])
  | Set_vertex h x y z ref pos => r_int (mmg3d_set_vertex h x y z ref pos)
  | Set_vertices h v r => r_int (mmg3d_set_vertices h v r)
  | Get_vertices h n => r_buf (mmg3d_get_vertices h n)
  | Set_tetrahedron h v0 v1 v2 v3 ref pos =>
      r_int (mmg3d_set_tetrahedron h v0 v1 v2 v3 ref pos)
  | Set_tetrahedra h t r => r_int (mmg3d_set_tetrahedra h t r)
  | Get_tetrahedra h n => r_buf (mmg3d_get_tetrahedra h n)
  | Set_triangle h v0 v1 v2 ref pos =>
      r_int (mmg3d_set_triangle h v0 v1 v2 ref pos)
  | Set_triangles h t r => r_int (mmg3d_set_triangles h t r)
  | Get_triangles h n => r_buf (mmg3d_get_triangles h n)
  | Set_iparameter h i v => r_int (mmg3d_set_iparameter h i v)
  | Set_dparameter h i v => r_int (mmg3d_set_dparameter h i v)
  | Set_sol_size h e np t => r_int (mmg3d_set_sol_size h e np t)
  | Get_sol_size h e np t =>
      '(r, (o1, o2, o3)) ← mmg3d_get_sol_size h e np t;
      mret (RIntOuts r [o1; o2; o3])
  | Set_scalar_sols h v => r_int (mmg3d_set_scalar_sols h v)
  | Get_scalar_sols h n => r_buf (mmg3d_get_scalar_sols h n)
  | Set_tensor_sols h v => r_int (mmg3d_set_tensor_sols h v)
  | Get_tensor_sols h n => r_buf (mmg3d_get_tensor_sols h n)
  | Remesh h => r_int (mmg3d_remesh h)
  | Free_array p => mmg3d_free_array p;; mret RVoid
  | Load_mesh h f => r_int (mmg3d_load_mesh h f)
  | Save_mesh h f => r_int (mmg3d_save_mesh h f)
  | Load_sol h f => r_int (mmg3d_load_sol h f)
  | Save_sol h f => r_int (mmg3d_save_sol h f)
  | Get_tetrahedron_quality h k =>
      q ← mmg3d_get_tetrahedron_quality h k; mret (RDouble q)
  | Get_tetrahedra_qualities h n =>
      r_buf (mmg3d_get_tetrahedra_qualities h n)
  end.

Definition handle_of (c : call) : option Z :=
  match c with
  | Init | Get_available_handles | Get_max_handles | Free_array _ => None
  | Free h | Set_mesh_size h _ _ _ _ _ _ | Get_mesh_size h _ _ _ _ _ _
  | Set_vertex h _ _ _ _ _ | Set_vertices h _ _ | Get_vertices h _
  | Set_tetrahedron h _ _ _ _ _ _ | Set_tetrahedra h _ _
  | Get_tetrahedra h _
  | Set_triangle h _ _ _ _ _ | Set_triangles h _ _ | Get_triangles h _
  | Set_iparameter h _ _ | Set_dparameter h _ _
  | Set_sol_size h _ _ _ | Get_sol_size h _ _ _
  | Set_scalar_sols h _ | Get_scalar_sols h _
  | Set_tensor_sols h _ | Get_tensor_sols h _
  | Remesh h | Load_mesh h _ | Save_mesh h _ | Load_sol h _ | Save_sol h _
  | Get_tetrahedron_quality h _ | Get_tetrahedra_qualities h _ => Some h
  end.

Definition sentinel (c : call) : ret :=
  match c with
  | Remesh _ => RInt (-1)
  | Get_mesh_size _ np ne nprism nt nquad na =>
      RIntOuts 0 [np; ne; nprism; nt; nquad; na]
  | Get_sol_size _ e np t => RIntOuts 0 [e; np; t]
  | Get_vertices _ n | Get_tetrahedra _ n | Get_triangles _ n
  | Get_scalar_sols _ n | Get_tensor_sols _ n
  | Get_tetrahedra_qualities _ n => RBuf NULL (store_out n 0)
  | Get_tetrahedron_quality _ _ => RDouble 0%float
  | Free_array _ => RVoid
  | _ => RInt 0
  end.

Fixpoint run {K} `{!libmmg3d K} (cs : list call) (w : World K)
  : list ret * World K :=
  match cs with
  | [] => ([], w)
  | c :: cs' =>
      let (r, w1) := exec c w in
      let (rs, w2) := run cs' w1 in
      (r :: rs, w2)
  end.
End Mmg3d.
(** ** The external kernel: [mmg/mmgs/libmmgs.h] *)
Class libmmgs (K : Type) := {
  MMGS_Init_mesh : K → (Z * ptr * ptr) * K;
  MMGS_Init_parameters : ptr → K → K;
  MMGS_Free_all : ptr → ptr → K → K;
  MMGS_Set_meshSize : ptr → Z → Z → Z → K → Z * K;
  MMGS_Get_meshSize : ptr → K → Z * (Z * Z * Z);
  MMGS_Set_vertex : ptr → double → double → double → Z → Z → K → Z * K;
  MMGS_Set_vertices : ptr → ptr → ptr → Heap → K → Z * K;
  MMGS_Get_vertices :
    ptr → K → Z * (list double * list Z * list Z * list Z);
  MMGS_Set_triangle : ptr → Z → Z → Z → Z → Z → K → Z * K;
  MMGS_Set_triangles : ptr → ptr → ptr → Heap → K → Z * K;
  MMGS_Get_triangles : ptr → K → Z * (list Z * list Z * list Z);
  MMGS_Set_edge : ptr → Z → Z → Z → Z → K → Z * K;
  MMGS_Set_edges : ptr → ptr → ptr → Heap → K → Z * K;
  MMGS_Get_edges : ptr → K → Z * (list Z * list Z * list Z * list Z);
  MMGS_Set_iparameter : ptr → ptr → Z → Z → K → Z * K;
  MMGS_Set_dparameter : ptr → ptr → Z → double → K → Z * K;
  MMGS_Set_solSize : ptr → ptr → Z → Z → Z → K → Z * K;
  MMGS_Get_solSize : ptr → ptr → K → Z * (Z * Z * Z);
  MMGS_Set_scalarSols : ptr → ptr → Heap → K → Z * K;
  MMGS_Get_scalarSols : ptr → K → Z * list double;
  MMGS_Set_tensorSols : ptr → ptr → Heap → K → Z * K;
  MMGS_Get_tensorSols : ptr → K → Z * list double;
  MMGS_mmgslib : ptr → ptr → K → Z * K;
  MMGS_loadMesh : ptr → string → K → Z * K;
  MMGS_saveMesh : ptr → string → K → Z * K;
  MMGS_loadSol : ptr → ptr → string → K → Z * K;
  MMGS_saveSol : ptr → ptr → string → K → Z * K;
  MMGS_Get_triangleQuality : ptr → ptr → Z → K → double
}.

(** ** [src/mmgs.c] *)
Module Mmgs.
Section Wrappers.
Context {K : Type} `{!libmmgs K}.

Definition ensure_initialized_s : M K unit := λ w,
  if g_initialized_s w =? 0
  then (tt, set_table_s memset_zero 1 w)
  else (tt, w).

Definition find_free_handle_s : M K Z :=
  ensure_initialized_s;;
  t ← gets g_handles_s;
  mret (find_free_loop t 0 (Z.to_nat MAX_HANDLES)).

Definition validate_handle_s (handle : Z) : M K Z :=
  ensure_initialized_s;;
  if (handle <? 0) || (handle >=? MAX_HANDLES) then mret 0
  else gets (λ w, active (entry_at (g_handles_s w) handle)).

Definition mmgs_get_available_handles : M K Z :=
  ensure_initialized_s;;
  t ← gets g_handles_s;
  mret (count_free_loop t 0 0 (Z.to_nat MAX_HANDLES)).

Definition mmgs_get_max_handles : M K Z := mret MAX_HANDLES.

Definition mesh_of (handle : Z) : M K ptr :=
  gets (λ w, mesh (entry_at (g_handles_s w) handle)).
Definition sol_of (handle : Z) : M K ptr :=
  gets (λ w, sol (entry_at (g_handles_s w) handle)).

Definition mmgs_init : M K Z :=
  handle ← find_free_handle_s;
  if handle <? 0 then mret (-1) else
  '(result, mesh, sol) ← kcall MMGS_Init_mesh;
  if negb (result =? 1) || (mesh =? NULL) then mret (-1) else
  kdo (MMGS_Init_parameters mesh);;
  modify (λ w, set_table_s (set_entry (g_handles_s w) handle mesh sol 1)
                 (g_initialized_s w) w);;
  mret handle.

Definition mmgs_free (handle : Z) : M K Z :=
  v ← validate_handle_s handle;
  if v =? 0 then mret 0 else
  mesh ← mesh_of handle;
  sol ← sol_of handle;
  kdo (MMGS_Free_all mesh sol);;
  modify (λ w, set_table_s (set_entry (g_handles_s w) handle NULL NULL 0)
                 (g_initialized_s w) w);;
  mret 1.

Definition mmgs_set_mesh_size (handle np nt na : Z) : M K Z :=
  v ← validate_handle_s handle;
  if v =? 0 then mret 0 else
  mesh ← mesh_of handle;
  kcall (MMGS_Set_meshSize mesh np nt na).

Definition mmgs_get_mesh_size (handle : Z) (np nt na : OutInt)
  : M K (Z * (OutInt * OutInt * OutInt)) :=
  v ← validate_handle_s handle;
  if v =? 0 then mret (0, (np, nt, na)) else
  mesh ← mesh_of handle;
  '(result, (_np, _nt, _na)) ← kget (MMGS_Get_meshSize mesh);
  if result =? 1
  then mret (result, (store_out np _np, store_out nt _nt,
                      store_out na _na))
  else mret (result, (np, nt, na)).

Definition mmgs_set_vertex (handle : Z) (x y z : double) (ref pos : Z)
  : M K Z :=
  v ← validate_handle_s handle;
  if v =? 0 then mret 0 else
  mesh ← mesh_of handle;
  kcall (MMGS_Set_vertex mesh x y z ref pos).

Definition mmgs_set_vertices (handle : Z) (vertices refs : ptr) : M K Z :=
  v ← validate_handle_s handle;
  if v =? 0 then mret 0 else
  mesh ← mesh_of handle;
  kcall_mem (MMGS_Set_vertices mesh vertices refs).

Definition mmgs_get_vertices (handle : Z) (out_count : OutInt)
  : M K (ptr * OutInt) :=
  v ← validate_handle_s handle;
  if v =? 0 then mret (fail_with_count out_count) else
  mesh ← mesh_of handle;
  '(r, (np, nt, na)) ← kget (MMGS_Get_meshSize mesh);
  if negb (r =? 1) then mret (fail_with_count out_count) else
  if np =? 0 then mret (fail_with_count out_count) else
  let cleanup (vertices refs corners required : ptr) : M K (ptr * OutInt) :=
    c_free vertices;; c_free refs;; c_free corners;; c_free required;;
    mret (fail_with_count out_count) in
  vertices ← c_malloc (size_t (3 * np * sizeof_double));
  if vertices =? NULL then cleanup vertices NULL NULL NULL else
  refs ← c_malloc (size_t (np * sizeof_MMG5_int));
  if refs =? NULL then cleanup vertices refs NULL NULL else
  corners ← c_malloc (size_t (np * sizeof_int));
  if corners =? NULL then cleanup vertices refs corners NULL else
  required ← c_malloc (size_t (np * sizeof_int));
  if required =? NULL then cleanup vertices refs corners required else
  '(result, (d_vertices, d_refs, d_corners, d_required)) ←
    kget (MMGS_Get_vertices mesh);
  c_fill vertices (CDouble <$> d_vertices);;
  c_fill refs (CInt <$> d_refs);;
  c_fill corners (CInt <$> d_corners);;
  c_fill required (CInt <$> d_required);;
  c_free refs;;
  c_free corners;;
  c_free required;;
  if negb (result =? 1)
  then (c_free vertices;; mret (fail_with_count out_count))
  else mret (vertices, store_out out_count np).

Definition mmgs_set_triangle (handle v0 v1 v2 ref pos : Z) : M K Z :=
  v ← validate_handle_s handle;
  if v =? 0 then mret 0 else
  mesh ← mesh_of handle;
  kcall (MMGS_Set_triangle mesh v0 v1 v2 ref pos).

Definition mmgs_set_triangles (handle : Z) (tria refs : ptr) : M K Z :=
  v ← validate_handle_s handle;
  if v =? 0 then mret 0 else
  mesh ← mesh_of handle;
  kcall_mem (MMGS_Set_triangles mesh tria refs).

Definition mmgs_get_triangles (handle : Z) (out_count : OutInt)
  : M K (ptr * OutInt) :=
  v ← validate_handle_s handle;
  if v =? 0 then mret (fail_with_count out_count) else
  mesh ← mesh_of handle;
  '(r, (np, nt, na)) ← kget (MMGS_Get_meshSize mesh);
  if negb (r =? 1) then mret (fail_with_count out_count) else
  if nt =? 0 then mret (fail_with_count out_count) else
  let cleanup (tria refs required : ptr) : M K (ptr * OutInt) :=
    c_free tria;; c_free refs;; c_free required;;
    mret (fail_with_count out_count) in
  tria ← c_malloc (size_t (3 * nt * sizeof_MMG5_int));
  if tria =? NULL then cleanup tria NULL NULL else
  refs ← c_malloc (size_t (nt * sizeof_MMG5_int));
  if refs =? NULL then cleanup tria refs NULL else
  required ← c_malloc (size_t (nt * sizeof_int));
  if required =? NULL then cleanup tria refs required else
  '(result, (d_tria, d_refs, d_required)) ←
    kget (MMGS_Get_triangles mesh);
  c_fill tria (CInt <$> d_tria);;
  c_fill refs (CInt <$> d_refs);;
  c_fill required (CInt <$> d_required);;
  c_free refs;;
  c_free required;;
  if negb (result =? 1)
  then (c_free tria;; mret (fail_with_count out_count))
  else mret (tria, store_out out_count nt).

Definition mmgs_set_edge (handle v0 v1 ref pos : Z) : M K Z :=
  v ← validate_handle_s handle;
  if v =? 0 then mret 0 else
  mesh ← mesh_of handle;
  kcall (MMGS_Set_edge mesh v0 v1 ref pos).

Definition mmgs_set_edges (handle : Z) (edges refs : ptr) : M K Z :=
  v ← validate_handle_s handle;
  if v =? 0 then mret 0 else
  mesh ← mesh_of handle;
  kcall_mem (MMGS_Set_edges mesh edges refs).

Definition mmgs_get_edges (handle : Z) (out_count : OutInt)
  : M K (ptr * OutInt) :=
  v ← validate_handle_s handle;
  if v =? 0 then mret (fail_with_count out_count) else
  mesh ← mesh_of handle;
  '(r, (np, nt, na)) ← kget (MMGS_Get_meshSize mesh);
  if negb (r =? 1) then mret (fail_with_count out_count) else
  if na =? 0 then mret (fail_with_count out_count) else
  let cleanup (edges refs ridges required : ptr) : M K (ptr * OutInt) :=
    c_free edges;; c_free refs;; c_free ridges;; c_free required;;
    mret (fail_with_count out_count) in
  edges ← c_malloc (size_t (2 * na * sizeof_MMG5_int));
  if edges =? NULL then cleanup edges NULL NULL NULL else
  refs ← c_malloc (size_t (na * sizeof_MMG5_int));
  if refs =? NULL then cleanup edges refs NULL NULL else
  ridges ← c_malloc (size_t (na * sizeof_int));
  if ridges =? NULL then cleanup edges refs ridges NULL else
  required ← c_malloc (size_t (na * sizeof_int));
  if required =? NULL then cleanup edges refs ridges required else
  '(result, (d_edges, d_refs, d_ridges, d_required)) ←
    kget (MMGS_Get_edges mesh);
  c_fill edges (CInt <$> d_edges);;
  c_fill refs (CInt <$> d_refs);;
  c_fill ridges (CInt <$> d_ridges);;
  c_fill required (CInt <$> d_required);;
  c_free refs;;
  c_free ridges;;
  c_free required;;
  if negb (result =? 1)
  then (c_free edges;; mret (fail_with_count out_count))
  else mret (edges, store_out out_count na).

Definition mmgs_set_iparameter (handle iparam val : Z) : M K Z :=
  v ← validate_handle_s handle;
  if v =? 0 then mret 0 else
  mesh ← mesh_of handle;
  sol ← sol_of handle;
  kcall (MMGS_Set_iparameter mesh sol iparam val).

Definition mmgs_set_dparameter (handle dparam : Z) (val : double)
  : M K Z :=
  v ← validate_handle_s handle;
  if v =? 0 then mret 0 else
  mesh ← mesh_of handle;
  sol ← sol_of handle;
  kcall (MMGS_Set_dparameter mesh sol dparam val).

Definition mmgs_set_sol_size (handle typEntity np typSol : Z) : M K Z :=
  v ← validate_handle_s handle;
  if v =? 0 then mret 0 else
  mesh ← mesh_of handle;
  sol ← sol_of handle;
  kcall (MMGS_Set_solSize mesh sol typEntity np typSol).

Definition mmgs_get_sol_size (handle : Z) (typEntity np typSol : OutInt)
  : M K (Z * (OutInt * OutInt * OutInt)) :=
  v ← validate_handle_s handle;
  if v =? 0 then mret (0, (typEntity, np, typSol)) else
  mesh ← mesh_of handle;
  sol ← sol_of handle;
  '(result, (_typEntity, _np, _typSol)) ←
    kget (MMGS_Get_solSize mesh sol);
  if result =? 1
  then mret (result, (store_out typEntity _typEntity, store_out np _np,
                      store_out typSol _typSol))
  else mret (result, (typEntity, np, typSol)).

Definition mmgs_set_scalar_sols (handle : Z) (values : ptr) : M K Z :=
  v ← validate_handle_s handle;
  if v =? 0 then mret 0 else
  sol ← sol_of handle;
  kcall_mem (MMGS_Set_scalarSols sol values).

Definition mmgs_get_scalar_sols (handle : Z) (out_count : OutInt)
  : M K (ptr * OutInt) :=
  v ← validate_handle_s handle;
  if v =? 0 then mret (NULL, store_out out_count 0) else
  mesh ← mesh_of handle;
  sol ← sol_of handle;
  '(r, (typEntity, np, typSol)) ← kget (MMGS_Get_solSize mesh sol);
  if negb (r =? 1) then mret (NULL, store_out out_count 0) else
  if (np =? 0) || negb (typSol =? 1)
  then mret (NULL, store_out out_count 0) else
  values ← c_malloc (size_t (np * sizeof_double));
  if values =? NULL then mret (NULL, store_out out_count 0) else
  '(result, d_values) ← kget (MMGS_Get_scalarSols sol);
  c_fill values (CDouble <$> d_values);;
  if negb (result =? 1)
  then (c_free values;; mret (NULL, store_out out_count 0))
  else mret (values, store_out out_count np).

Definition mmgs_set_tensor_sols (handle : Z) (values : ptr) : M K Z :=
  v ← validate_handle_s handle;
  if v =? 0 then mret 0 else
  sol ← sol_of handle;
  kcall_mem (MMGS_Set_tensorSols sol values).

Definition mmgs_get_tensor_sols (handle : Z) (out_count : OutInt)
  : M K (ptr * OutInt) :=
  v ← validate_handle_s handle;
  if v =? 0 then mret (NULL, store_out out_count 0) else
  mesh ← mesh_of handle;
  sol ← sol_of handle;
  '(r, (typEntity, np, typSol)) ← kget (MMGS_Get_solSize mesh sol);
  if negb (r =? 1) then mret (NULL, store_out out_count 0) else
  if (np =? 0) || negb (typSol =? 3)
  then mret (NULL, store_out out_count 0) else
  values ← c_malloc (size_t (np * 6 * sizeof_double));
  if values =? NULL then mret (NULL, store_out out_count 0) else
  '(result, d_values) ← kget (MMGS_Get_tensorSols sol);
  c_fill values (CDouble <$> d_values);;
  if negb (result =? 1)
  then (c_free values;; mret (NULL, store_out out_count 0))
  else mret (values, store_out out_count np).

Definition mmgs_remesh (handle : Z) : M K Z :=
  v ← validate_handle_s handle;
  if v =? 0 then mret (-1) else
  mesh ← mesh_of handle;
  sol ← sol_of handle;
  kcall (MMGS_mmgslib mesh sol).

Definition mmgs_free_array (p : ptr) : M K unit :=
  if p =? NULL then mret tt else c_free p.

Definition mmgs_load_mesh (handle : Z) (filename : string) : M K Z :=
  v ← validate_handle_s handle;
  if v =? 0 then mret 0 else
  mesh ← mesh_of handle;
  kcall (MMGS_loadMesh mesh filename).

Definition mmgs_save_mesh (handle : Z) (filename : string) : M K Z :=
  v ← validate_handle_s handle;
  if v =? 0 then mret 0 else
  mesh ← mesh_of handle;
  kcall (MMGS_saveMesh mesh filename).

Definition mmgs_load_sol (handle : Z) (filename : string) : M K Z :=
  v ← validate_handle_s handle;
  if v =? 0 then mret 0 else
  mesh ← mesh_of handle;
  sol ← sol_of handle;
  kcall (MMGS_loadSol mesh sol filename).

Definition mmgs_save_sol (handle : Z) (filename : string) : M K Z :=
  v ← validate_handle_s handle;
  if v =? 0 then mret 0 else
  mesh ← mesh_of handle;
  sol ← sol_of handle;
  kcall (MMGS_saveSol mesh sol filename).

Definition mmgs_get_triangle_quality (handle k : Z) : M K double :=
  v ← validate_handle_s handle;
  if v =? 0 then mret 0%float else
  mesh ← mesh_of handle;
  sol ← sol_of handle;
  kget (MMGS_Get_triangleQuality mesh sol k).

Fixpoint qualities_loop (fuel : nat) (k nt : Z) (mesh sol qualities : ptr)
  : M K unit :=
  match fuel with
  | O => mret tt
  | S fuel' =>
      if k <=? nt then
        q ← kget (MMGS_Get_triangleQuality mesh sol k);
        c_store qualities (k - 1) (CDouble q);;
        qualities_loop fuel' (k + 1) nt mesh sol qualities
      else mret tt
  end.

Definition mmgs_get_triangles_qualities (handle : Z) (out_count : OutInt)
  : M K (ptr * OutInt) :=
  v ← validate_handle_s handle;
  if v =? 0 then mret (NULL, store_out out_count 0) else
  mesh ← mesh_of handle;
  sol ← sol_of handle;
  '(r, (np, nt, na)) ← kget (MMGS_Get_meshSize mesh);
  if negb (r =? 1) then mret (NULL, store_out out_count 0) else
  if nt =? 0 then mret (NULL, store_out out_count 0) else
  qualities ← c_malloc (size_t (nt * sizeof_double));
  if qualities =? NULL then mret (NULL, store_out out_count 0) else
  qualities_loop (Z.to_nat nt) 1 nt mesh sol qualities;;
  mret (qualities, store_out out_count nt).
End Wrappers.

(** The entry points of the file. *)
Inductive call :=
| Init
| Free (handle : Z)
| Get_available_handles
| Get_max_handles
| Set_mesh_size (handle np nt na : Z)
| Get_mesh_size (handle : Z) (np nt na : OutInt)
| Set_vertex (handle : Z) (x y z : double) (ref pos : Z)
| Set_vertices (handle : Z) (vertices refs : ptr)
| Get_vertices (handle : Z) (out_count : OutInt)
| Set_triangle (handle v0 v1 v2 ref pos : Z)
| Set_triangles (handle : Z) (tria refs : ptr)
| Get_triangles (handle : Z) (out_count : OutInt)
| Set_edge (handle v0 v1 ref pos : Z)
| Set_edges (handle : Z) (edges refs : ptr)
| Get_edges (handle : Z) (out_count : OutInt)
| Set_iparameter (handle iparam val : Z)
| Set_dparameter (handle dparam : Z) (val : double)
| Set_sol_size (handle typEntity np typSol : Z)
| Get_sol_size (handle : Z) (typEntity np typSol : OutInt)
| Set_scalar_sols (handle : Z) (values : ptr)
| Get_scalar_sols (handle : Z) (out_count : OutInt)
| Set_tensor_sols (handle : Z) (values : ptr)
| Get_tensor_sols (handle : Z) (out_count : OutInt)
| Remesh (handle : Z)
| Free_array (p : ptr)
| Load_mesh (handle : Z) (filename : string)
| Save_mesh (handle : Z) (filename : string)
| Load_sol (handle : Z) (filename : string)
| Save_sol (handle : Z) (filename : string)
| Get_triangle_quality (handle k : Z)
| Get_triangles_qualities (handle : Z) (out_count : OutInt).

Definition exec {K} `{!libmmgs K} (c : call) : M K ret :=
  match c with
  | Init => r_int mmgs_init
  | Free h => r_int (mmgs_free h)
  | Get_available_handles => r_int mmgs_get_available_handles
  | Get_max_handles => r_int mmgs_get_max_handles
  | Set_mesh_size h np nt na =>
      r_int (mmgs_set_mesh_size h np nt na)
  | Get_mesh_size h np nt na =>
      '(r, (o1, o2, o3)) ← mmgs_get_mesh_size h np nt na;
      mret (RIntOuts r [o1; o2; o3])
  | Set_vertex h x y z ref pos => r_int (mmgs_set_vertex h x y z ref pos)
  | Set_vertices h v r => r_int (mmgs_set_vertices h v r)
  | Get_vertices h n => r_buf (mmgs_get_vertices h n)
  | Set_triangle h v0 v1 v2 ref pos =>
      r_int (mmgs_set_triangle h v0 v1 v2 ref pos)
  | Set_triangles h t r => r_int (mmgs_set_triangles h t r)
  | Get_triangles h n => r_buf (mmgs_get_triangles h n)
  | Set_edge h v0 v1 ref pos => r_int (mmgs_set_edge h v0 v1 ref pos)
  | Set_edges h e r => r_int (mmgs_set_edges h e r)
  | Get_edges h n => r_buf (mmgs_get_edges h n)
  | Set_iparameter h i v => r_int (mmgs_set_iparameter h i v)
  | Set_dparameter h i v => r_int (mmgs_set_dparameter h i v)
  | Set_sol_size h e np t => r_int (mmgs_set_sol_size h e np t)
  | Get_sol_size h e np t =>
      '(r, (o1, o2, o3)) ← mmgs_get_sol_size h e np t;
      mret (RIntOuts r [o1; o2; o3])
  | Set_scalar_sols h v => r_int (mmgs_set_scalar_sols h v)
  | Get_scalar_sols h n => r_buf (mmgs_get_scalar_sols h n)
  | Set_tensor_sols h v => r_int (mmgs_set_tensor_sols h v)
  | Get_tensor_sols h n => r_buf (mmgs_get_tensor_sols h n)
  | Remesh h => r_int (mmgs_remesh h)
  | Free_array p => mmgs_free_array p;; mret RVoid
  | Load_mesh h f => r_int (mmgs_load_mesh h f)
  | Save_mesh h f => r_int (mmgs_save_mesh h f)
  | Load_sol h f => r_int (mmgs_load_sol h f)
  | Save_sol h f => r_int (mmgs_save_sol h f)
  | Get_triangle_quality h k =>
      q ← mmgs_get_triangle_quality h k; mret (RDouble q)
  | Get_triangles_qualities h n =>
      r_buf (mmgs_get_triangles_qualities h n)
  end.

Definition handle_of (c : call) : option Z :=
  match c with
  | Init | Get_available_handles | Get_max_handles | Free_array _ => None
  | Free h | Set_mesh_size h _ _ _ | Get_mesh_size h _ _ _
  | Set_vertex h _ _ _ _ _ | Set_vertices h _ _ | Get_vertices h _
  | Set_triangle h _ _ _ _ _ | Set_triangles h _ _ | Get_triangles h _
  | Set_edge h _ _ _ _ | Set_edges h _ _ | Get_edges h _
  | Set_iparameter h _ _ | Set_dparameter h _ _
  | Set_sol_size h _ _ _ | Get_sol_size h _ _ _
  | Set_scalar_sols h _ | Get_scalar_sols h _
  | Set_tensor_sols h _ | Get_tensor_sols h _
  | Remesh h | Load_mesh h _ | Save_mesh h _ | Load_sol h _ | Save_sol h _
  | Get_triangle_quality h _ | Get_triangles_qualities h _ => Some h
  end.

Definition sentinel (c : call) : ret :=
  match c with
  | Remesh _ => RInt (-1)
  | Get_mesh_size _ np nt na => RIntOuts 0 [np; nt; na]
  | Get_sol_size _ e np t => RIntOuts 0 [e; np; t]
  | Get_vertices _ n | Get_triangles _ n | Get_edges _ n
  | Get_scalar_sols _ n | Get_tensor_sols _ n
  | Get_triangles_qualities _ n => RBuf NULL (store_out n 0)
  | Get_triangle_quality _ _ => RDouble 0%float
  | Free_array _ => RVoid
  | _ => RInt 0
  end.

Fixpoint run {K} `{!libmmgs K} (cs : list call) (w : World K)
  : list ret * World K :=
  match cs with
  | [] => ([], w)
  | c :: cs' =>
      let (r, w1) := exec c w in
      let (rs, w2) := run cs' w1 in
      (r :: rs, w2)
  end.
End Mmgs.

(** ** [src/stub.c] *)
Module Stub.
Section Wrappers.
Context {K : Type} `{!libmmg3d K}.

(** [MMG_VERSION_RELEASE] is a macro of the MMG headers, which are not
    part of the repository: the string is a parameter. *)
Definition mmg_version (MMG_VERSION_RELEASE : string) : M K string :=
  mret MMG_VERSION_RELEASE.

Definition mmgwasm_version : M K string := mret "0.0.1"%string.

Definition mmg_test_init : M K Z :=
  '(result, mesh, sol) ← kcall MMG3D_Init_mesh;
  if negb (result =? 1) || (mesh =? NULL) then mret 0 else
  kdo (MMG3D_Init_parameters mesh);;
  kdo (MMG3D_Free_all mesh sol);;
  mret 1.
End Wrappers.
End Stub.

(** ** The whole program

    The three files are linked into one module: a caller may interleave
    calls to the three families of entry points at will. *)
Inductive gcall :=
| In2d (c : Mmg2d.call)
| In3d (c : Mmg3d.call)
| InS (c : Mmgs.call).

Section Program.
Context {K : Type} `{!libmmg2d K} `{!libmmg3d K} `{!libmmgs K}.

Definition gexec (c : gcall) : M K ret :=
  match c with
  | In2d c => Mmg2d.exec c
  | In3d c => Mmg3d.exec c
  | InS c => Mmgs.exec c
  end.

Fixpoint grun (cs : list gcall) (w : World K) : list ret * World K :=
  match cs with
  | [] => ([], w)
  | c :: cs' =>
      let (r, w1) := gexec c w in
      let (rs, w2) := grun cs' w1 in
      (r :: rs, w2)
  end.
End Program.

(** ** Notions the properties are stated with *)

(** The number of slots of a table that are in use, and that are not. *)
Definition active_count (t : list HandleEntry) : Z :=
  Z.of_nat (length (filter (λ e, active e ≠ 0) t)).

Definition free_count (t : list HandleEntry) : Z :=
  Z.of_nat (length (filter (λ e, active e = 0) t)).

(** A table as the C program can have it: an array of [MAX_HANDLES]
    entries which, as long as the lazy initialisation has not run, is
    still the zeroed static storage. *)
Definition wf_table (t : list HandleEntry) (initialized : Z) : Prop :=
  length t = Z.to_nat MAX_HANDLES ∧ (initialized = 0 → t = memset_zero).

Definition wf {K} (w : World K) : Prop :=
  wf_table (g_handles_2d w) (g_initialized_2d w) ∧
  wf_table (g_handles w) (g_initialized w) ∧
  wf_table (g_handles_s w) (g_initialized_s w).

(** The activity pattern of a table: which slots are in use. *)
Definition activity (t : list HandleEntry) : list bool :=
  (λ e, negb (active e =? 0)) <$> t.

(** Everything of the state but a given table. *)
Definition outside_2d {K} (w : World K) :=
  (g_handles w, g_initialized w, g_handles_s w, g_initialized_s w,
   heap w, kernel w).
Definition outside_3d {K} (w : World K) :=
  (g_handles_2d w, g_initialized_2d w, g_handles_s w, g_initialized_s w,
   heap w, kernel w).
Definition outside_s {K} (w : World K) :=
  (g_handles_2d w, g_initialized_2d w, g_handles w, g_initialized w,
   heap w, kernel w).

(** The three tables with their flags. *)
Definition tables_2d {K} (w : World K) := (g_handles_2d w, g_initialized_2d w).
Definition tables_3d {K} (w : World K) := (g_handles w, g_initialized w).
Definition tables_s {K} (w : World K) := (g_handles_s w, g_initialized_s w).

(** A computation that leaves the three handle tables alone. *)
Definition keeps_tables {K A} (m : M K A) : Prop :=
  ∀ w, tables_2d (m w).2 = tables_2d w ∧
       tables_3d (m w).2 = tables_3d w ∧
       tables_s (m w).2 = tables_s w.

(** What [fill_from] does to the block it writes. *)
Fixpoint fill_block (i : Z) (cs : list Cell) (b : Block) : Block :=
  match cs with
  | [] => b
  | c :: cs' =>
      fill_block (i + 1) cs' (mkBlock (bytes b) (<[i := c]> (cells b)))
  end.

(** [n] allocations in a row: the addresses if all of them succeed. *)
Fixpoint malloc_seq (sizes : list Z) (h : Heap) : option (list ptr * Heap) :=
  match sizes with
  | [] => Some ([], h)
  | sz :: sizes' =>
      let (p, h1) := malloc sz h in
      if p =? NULL then None
      else '(ps, h2) ← malloc_seq sizes' h1; Some (p :: ps, h2)
  end.

(** A computation that leaves a part [proj] of the state as it finds
    it. *)
Definition preserves {K A S} (proj : World K → S) (m : M K A) : Prop :=
  ∀ w, proj (m w).2 = proj w.

(** A part of the state that is neither the kernel's nor the
    allocator's. *)
Definition static_part {K S} (proj : World K → S) : Prop :=
  (∀ k w, proj (set_kernel k w) = proj w) ∧
  (∀ h w, proj (set_heap h w) = proj w).

(** A computation whose only effect on [proj] is the lazy initialisation
    of its file's table. *)
Definition settles_2d {K A S} (proj : World K → S) (m : M K A) : Prop :=
  ∀ w, proj (m w).2 = proj (Mmg2d.ensure_initialized_2d w).2.
Definition settles_3d {K A S} (proj : World K → S) (m : M K A) : Prop :=
  ∀ w, proj (m w).2 = proj (Mmg3d.ensure_initialized w).2.
Definition settles_s {K A S} (proj : World K → S) (m : M K A) : Prop :=
  ∀ w, proj (m w).2 = proj (Mmgs.ensure_initialized_s w).2.

(** The calls that create and destroy instances. *)
Definition lifecycle_2d (c : Mmg2d.call) : bool :=
  match c with Mmg2d.Init | Mmg2d.Free _ => true | _ => false end.
Definition lifecycle_3d (c : Mmg3d.call) : bool :=
  match c with Mmg3d.Init | Mmg3d.Free _ => true | _ => false end.
Definition lifecycle_s (c : Mmgs.call) : bool :=
  match c with Mmgs.Init | Mmgs.Free _ => true | _ => false end.

(** The outcome of a bulk getter that asks the allocator for the blocks
    [sizes], in that order, and the kernel for the data, with result
    [kres], when it starts from the memory [h0] and the mesh holds [count]
    entities: [p] is the pointer returned, [out] the count cell as left,
    [h] the memory as left.

    - an allocation that fails, or a kernel that reports failure, gives
      [NULL];
    - with [NULL] comes a zero count, and the live blocks are those there
      were before the call: every block of the call has been released;
    - a pointer other than [NULL] is one new live block, the only
      difference to the live blocks before the call, and comes with the
      count. *)
Definition bulk_get_outcome (h0 : Heap) (sizes : list Z) (kres count : Z)
    (out0 : OutInt) (p : ptr) (out : OutInt) (h : Heap) : Prop :=
  (malloc_seq sizes h0 = None → p = NULL) ∧
  (kres ≠ 1 → p = NULL) ∧
  (p = NULL → live h = live h0 ∧ out = store_out out0 0) ∧
  (p ≠ NULL →
   live h0 !! p = None ∧ is_Some (live h !! p) ∧
   delete p (live h) = live h0 ∧ out = store_out out0 count).

(** [m], run from [w], ends with a result and a state that satisfy
    [Q]. *)
Definition wp {K A} (m : M K A) (Q : A → World K → Prop) (w : World K)
  : Prop :=
  Q (m w).1 (m w).2.

(** The memory [h] is the memory [h0] with new live blocks at the
    addresses [new], and nothing else changed. *)
Definition grown (h0 h : Heap) (new : gset Z) : Prop :=
  (∀ q, q ∉ new → live h !! q = live h0 !! q) ∧
  (∀ q, q ∈ new → q ≠ NULL ∧ live h0 !! q = None ∧ is_Some (live h !! q)).

(** What the validity check reads in a table. *)
Definition slot_valid (t : list HandleEntry) (h : Z) : Z :=
  if (h <? 0) || (h >=? MAX_HANDLES) then 0 else active (entry_at t h).

(** Within a run of calls [cs] with results [rs], some [init] handed out
    the handle [h]. *)
Definition reissued_2d (cs : list Mmg2d.call) (rs : list ret) (h : Z)
  : Prop :=
  ∃ i, cs !! i = Some Mmg2d.Init ∧ rs !! i = Some (RInt h).
Definition reissued_3d (cs : list Mmg3d.call) (rs : list ret) (h : Z)
  : Prop :=
  ∃ i, cs !! i = Some Mmg3d.Init ∧ rs !! i = Some (RInt h).
Definition reissued_s (cs : list Mmgs.call) (rs : list ret) (h : Z)
  : Prop :=
  ∃ i, cs !! i = Some Mmgs.Init ∧ rs !! i = Some (RInt h).

(** A [double] within [0, 1]. *)
Definition unit_interval (d : double) : Prop :=
  (PrimFloat.leb 0 d && PrimFloat.leb d 1) = true.

(** ** A small kernel to run the wrappers on

    A stand-in for the MMG library that keeps, per mesh, the sizes it was
    given and, per solution, its declared size and type.  Its
    [Init_mesh] answers as [toy_script] says (1 once the script is
    used up) and hands out the addresses [toy_next], [toy_next + 1];
    its getters return zeroed arrays of the declared sizes; the quality
    of an element is one half. *)
Record ToyK := mkToy {
  toy_script : list Z;
  toy_next : Z;
  toy_size : gmap Z (list Z);
  toy_sol : gmap Z (Z * Z * Z)
}.

Definition toy_init (k : ToyK) : (Z * ptr * ptr) * ToyK :=
  let res := hd 1 (toy_script k) in
  if res =? 1
  then ((1, toy_next k, toy_next k + 1),
        mkToy (tl (toy_script k)) (toy_next k + 2)
          (<[toy_next k := []]> (toy_size k)) (toy_sol k))
  else ((res, NULL, NULL),
        mkToy (tl (toy_script k)) (toy_next k) (toy_size k) (toy_sol k)).

Definition toy_free (m s : ptr) (k : ToyK) : ToyK :=
  mkToy (toy_script k) (toy_next k) (delete m (toy_size k))
    (delete s (toy_sol k)).

Definition toy_set_size (m : ptr) (counts : list Z) (k : ToyK) : Z * ToyK :=
  match toy_size k !! m with
  | Some _ =>
      (1, mkToy (toy_script k) (toy_next k) (<[m := counts]> (toy_size k))
            (toy_sol k))
  | None => (0, k)
  end.

(** the [i]-th count of the mesh [m] *)
Definition toy_count (m : ptr) (i : nat) (k : ToyK) : Z :=
  nth i (default [] (toy_size k !! m)) 0.

Definition toy_known (m : ptr) (k : ToyK) : Z :=
  match toy_size k !! m with Some _ => 1 | None => 0 end.

Definition toy_set_sol (s : ptr) (typEntity np typSol : Z) (k : ToyK)
  : Z * ToyK :=
  (1, mkToy (toy_script k) (toy_next k) (toy_size k)
        (<[s := (typEntity, np, typSol)]> (toy_sol k))).

Definition toy_get_sol (s : ptr) (k : ToyK) : Z * (Z * Z * Z) :=
  (1, default (0, 0, 0) (toy_sol k !! s)).

Definition toy_zeros (n : Z) : list Z := replicate (Z.to_nat n) 0.
Definition toy_fzeros (n : Z) : list double :=
  replicate (Z.to_nat n) 0%float.

Definition toy_get_sols (width : Z) (s : ptr) (k : ToyK) : Z * list double :=
  (1, toy_fzeros (width * (toy_get_sol s k).2.1.2)).

Definition toy_quality (m : ptr) (i : nat) (j : Z) (k : ToyK) : double :=
  if (1 <=? j) && (j <=? toy_count m i k) then 0.5%float else 0%float.

Definition toy_ok {A} (_ : A) (k : ToyK) : Z * ToyK := (1, k).

#[global] Instance toy_mmg2d : libmmg2d ToyK := {
  MMG2D_Init_mesh := toy_init;
  MMG2D_Init_parameters _ k := k;
  MMG2D_Free_all := toy_free;
  MMG2D_Set_meshSize m np nt nquad na := toy_set_size m [np; nt; nquad; na];
  MMG2D_Get_meshSize m k :=
    (toy_known m k,
     (toy_count m 0 k, toy_count m 1 k, toy_count m 2 k, toy_count m 3 k));
  MMG2D_Set_vertex m _ _ _ _ := toy_ok m;
  MMG2D_Set_vertices m _ _ _ := toy_ok m;
  MMG2D_Get_vertices m k :=
    let n := toy_count m 0 k in
    (1, (toy_fzeros (2 * n), toy_zeros n, toy_zeros n, toy_zeros n));
  MMG2D_Set_triangle m _ _ _ _ _ := toy_ok m;
  MMG2D_Set_triangles m _ _ _ := toy_ok m;
  MMG2D_Get_triangles m k :=
    let n := toy_count m 1 k in
    (1, (toy_zeros (3 * n), toy_zeros n, toy_zeros n));
  MMG2D_Set_edge m _ _ _ _ := toy_ok m;
  MMG2D_Set_edges m _ _ _ := toy_ok m;
  MMG2D_Get_edges m k :=
    let n := toy_count m 3 k in
    (1, (toy_zeros (2 * n), toy_zeros n, toy_zeros n, toy_zeros n));
  MMG2D_Set_iparameter m _ _ _ := toy_ok m;
  MMG2D_Set_dparameter m _ _ _ := toy_ok m;
  MMG2D_Set_solSize _ s := toy_set_sol s;
  MMG2D_Get_solSize _ s := toy_get_sol s;
  MMG2D_Set_scalarSols s _ _ := toy_ok s;
  MMG2D_Get_scalarSols := toy_get_sols 1;
  MMG2D_Set_tensorSols s _ _ := toy_ok s;
  MMG2D_Get_tensorSols := toy_get_sols 3;
  MMG2D_mmg2dlib m _ k := (0, k);
  MMG2D_loadMesh m _ := toy_ok m;
  MMG2D_saveMesh m _ := toy_ok m;
  MMG2D_loadSol m _ _ := toy_ok m;
  MMG2D_saveSol m _ _ := toy_ok m;
  MMG2D_Get_triangleQuality m _ := toy_quality m 1
}.

#[global] Instance toy_mmg3d : libmmg3d ToyK := {
  MMG3D_Init_mesh := toy_init;
  MMG3D_Init_parameters _ k := k;
  MMG3D_Free_all := toy_free;
  MMG3D_Set_meshSize m np ne nprism nt nquad na :=
    toy_set_size m [np; ne; nprism; nt; nquad; na];
  MMG3D_Get_meshSize m k :=
    (toy_known m k,
     (toy_count m 0 k, toy_count m 1 k, toy_count m 2 k, toy_count m 3 k,
      toy_count m 4 k, toy_count m 5 k));
  MMG3D_Set_vertex m _ _ _ _ _ := toy_ok m;
  MMG3D_Set_vertices m _ _ _ := toy_ok m;
  MMG3D_Get_vertices m k :=
    let n := toy_count m 0 k in
    (1, (toy_fzeros (3 * n), toy_zeros n, toy_zeros n, toy_zeros n));
  MMG3D_Set_tetrahedron m _ _ _ _ _ _ := toy_ok m;
  MMG3D_Set_tetrahedra m _ _ _ := toy_ok m;
  MMG3D_Get_tetrahedra m k :=
    let n := toy_count m 1 k in
    (1, (toy_zeros (4 * n), toy_zeros n, toy_zeros n));
  MMG3D_Set_triangle m _ _ _ _ _ := toy_ok m;
  MMG3D_Set_triangles m _ _ _ := toy_ok m;
  MMG3D_Get_triangles m k :=
    let n := toy_count m 3 k in
    (1, (toy_zeros (3 * n), toy_zeros n, toy_zeros n));
  MMG3D_Set_iparameter m _ _ _ := toy_ok m;
  MMG3D_Set_dparameter m _ _ _ := toy_ok m;
  MMG3D_Set_solSize _ s := toy_set_sol s;
  MMG3D_Get_solSize _ s := toy_get_sol s;
  MMG3D_Set_scalarSols s _ _ := toy_ok s;
  MMG3D_Get_scalarSols := toy_get_sols 1;
  MMG3D_Set_tensorSols s _ _ := toy_ok s;
  MMG3D_Get_tensorSols := toy_get_sols 6;
  MMG3D_mmg3dlib m _ k := (0, k);
  MMG3D_loadMesh m _ := toy_ok m;
  MMG3D_saveMesh m _ := toy_ok m;
  MMG3D_loadSol m _ _ := toy_ok m;
  MMG3D_saveSol m _ _ := toy_ok m;
  MMG3D_Get_tetrahedronQuality m _ := toy_quality m 1
}.

#[global] Instance toy_mmgs : libmmgs ToyK := {
  MMGS_Init_mesh := toy_init;
  MMGS_Init_parameters _ k := k;
  MMGS_Free_all := toy_free;
  MMGS_Set_meshSize m np nt na := toy_set_size m [np; nt; na];
  MMGS_Get_meshSize m k :=
    (toy_known m k, (toy_count m 0 k, toy_count m 1 k, toy_count m 2 k));
  MMGS_Set_vertex m _ _ _ _ _ := toy_ok m;
  MMGS_Set_vertices m _ _ _ := toy_ok m;
  MMGS_Get_vertices m k :=
    let n := toy_count m 0 k in
    (1, (toy_fzeros (3 * n), toy_zeros n, toy_zeros n, toy_zeros n));
  MMGS_Set_triangle m _ _ _ _ _ := toy_ok m;
  MMGS_Set_triangles m _ _ _ := toy_ok m;
  MMGS_Get_triangles m k :=
    let n := toy_count m 1 k in
    (1, (toy_zeros (3 * n), toy_zeros n, toy_zeros n));
  MMGS_Set_edge m _ _ _ _ := toy_ok m;
  MMGS_Set_edges m _ _ _ := toy_ok m;
  MMGS_Get_edges m k :=
    let n := toy_count m 2 k in
    (1, (toy_zeros (2 * n), toy_zeros n, toy_zeros n, toy_zeros n));
  MMGS_Set_iparameter m _ _ _ := toy_ok m;
  MMGS_Set_dparameter m _ _ _ := toy_ok m;
  MMGS_Set_solSize _ s := toy_set_sol s;
  MMGS_Get_solSize _ s := toy_get_sol s;
  MMGS_Set_scalarSols s _ _ := toy_ok s;
  MMGS_Get_scalarSols := toy_get_sols 1;
  MMGS_Set_tensorSols s _ _ := toy_ok s;
  MMGS_Get_tensorSols := toy_get_sols 6;
  MMGS_mmgslib m _ k := (0, k);
  MMGS_loadMesh m _ := toy_ok m;
  MMGS_saveMesh m _ := toy_ok m;
  MMGS_loadSol m _ _ := toy_ok m;
  MMGS_saveSol m _ _ := toy_ok m;
  MMGS_Get_triangleQuality m _ := toy_quality m 1
}.

(** A kernel whose constructions answer as [script] says, and an
    allocator with the addresses [supply] to give. *)
Definition toy_kernel (script : list Z) : ToyK := mkToy script 1000 ∅ ∅.
Definition toy_heap (supply : list Z) : Heap := mkHeap ∅ supply.
Definition toy_boot (script supply : list Z) : World ToyK :=
  boot (toy_heap supply) (toy_kernel script).

(** A square of two triangles in each of the three tables, under the
    handle 0, with a solution of vectors declared on its four vertices. *)
Definition square_2d (supply : list Z) : World ToyK :=
  (Mmg2d.run [Mmg2d.Init; Mmg2d.Set_mesh_size 0 4 2 0 4;
              Mmg2d.Set_sol_size 0 1 4 2] (toy_boot [] supply)).2.
Definition cube_3d (supply : list Z) : World ToyK :=
  (Mmg3d.run [Mmg3d.Init; Mmg3d.Set_mesh_size 0 4 2 0 2 0 0;
              Mmg3d.Set_sol_size 0 1 4 2] (toy_boot [] supply)).2.
Definition square_s (supply : list Z) : World ToyK :=
  (Mmgs.run [Mmgs.Init; Mmgs.Set_mesh_size 0 4 2 4;
             Mmgs.Set_sol_size 0 1 4 2] (toy_boot [] supply)).2.

(** The same with nothing declared: the meshes are empty. *)
Definition fresh_2d : World ToyK :=
  (Mmg2d.run [Mmg2d.Init] (toy_boot [] [])).2.
Definition fresh_3d : World ToyK :=
  (Mmg3d.run [Mmg3d.Init] (toy_boot [] [])).2.
Definition fresh_s : World ToyK :=
  (Mmgs.run [Mmgs.Init] (toy_boot [] [])).2.

(** A program that has created one instance in each table. *)
Definition three_instances : World ToyK :=
  (grun [In2d Mmg2d.Init; In3d Mmg3d.Init; InS Mmgs.Init]
     (toy_boot [] [])).2.



(** ** More notions *)

(** A table as the program keeps it: every slot is either zeroed or in
    use, with [active] = 1 and an instance bound. *)
Definition tidy (t : list HandleEntry) : Prop :=
  ∀ e, e ∈ t → e = zero_entry ∨ (active e = 1 ∧ mesh e ≠ NULL).

Definition tidy_world {K} (w : World K) : Prop :=
  tidy (g_handles_2d w) ∧ tidy (g_handles w) ∧ tidy (g_handles_s w).

(** The entry points that return a buffer of their own, and those that
    use the allocator at all: the former and [free_array]. *)
Definition bulk_getter_2d (c : Mmg2d.call) : bool :=
  match c with
  | Mmg2d.Get_vertices _ _ | Mmg2d.Get_triangles _ _ | Mmg2d.Get_edges _ _
  | Mmg2d.Get_scalar_sols _ _ | Mmg2d.Get_tensor_sols _ _
  | Mmg2d.Get_triangles_qualities _ _ => true
  | _ => false
  end.
Definition uses_heap_2d (c : Mmg2d.call) : bool :=
  match c with
  | Mmg2d.Free_array _ => true
  | _ => bulk_getter_2d c
  end.

Definition bulk_getter_3d (c : Mmg3d.call) : bool :=
  match c with
  | Mmg3d.Get_vertices _ _ | Mmg3d.Get_triangles _ _ | Mmg3d.Get_tetrahedra _ _
  | Mmg3d.Get_scalar_sols _ _ | Mmg3d.Get_tensor_sols _ _
  | Mmg3d.Get_tetrahedra_qualities _ _ => true
  | _ => false
  end.
Definition uses_heap_3d (c : Mmg3d.call) : bool :=
  match c with
  | Mmg3d.Free_array _ => true
  | _ => bulk_getter_3d c
  end.
Definition bulk_getter_s (c : Mmgs.call) : bool :=
  match c with
  | Mmgs.Get_vertices _ _ | Mmgs.Get_triangles _ _ | Mmgs.Get_edges _ _
  | Mmgs.Get_scalar_sols _ _ | Mmgs.Get_tensor_sols _ _
  | Mmgs.Get_triangles_qualities _ _ => true
  | _ => false
  end.
Definition uses_heap_s (c : Mmgs.call) : bool :=
  match c with
  | Mmgs.Free_array _ => true
  | _ => bulk_getter_s c
  end.

(** A getter that leaves behind at most the block it returns: with
    [NULL] the live blocks are those of before, with a pointer [p] they
    are those of before and the new block at [p]. *)
Definition leaves_only (h0 : Heap) (p : ptr) (h : Heap) : Prop :=
  (p = NULL → live h = live h0) ∧
  (p ≠ NULL →
   live h0 !! p = None ∧ is_Some (live h !! p) ∧
   delete p (live h) = live h0).

(** A table whose slots in use are exactly the first [i]. *)
Definition prefix_full (t : list HandleEntry) (i : Z) : Prop :=
  ∀ j, 0 ≤ j < MAX_HANDLES → (active (entry_at t j) = 0 ↔ i ≤ j).

(** The square with a scalar solution on its four vertices. *)
Definition scalar_2d (supply : list Z) : World ToyK :=
  (Mmg2d.run [Mmg2d.Init; Mmg2d.Set_mesh_size 0 4 2 0 4;
              Mmg2d.Set_sol_size 0 1 4 1] (toy_boot [] supply)).2.

(** The handles a run of calls of [mmg2d.c] with the results [rs] handed
    out, and those it took back. *)
Fixpoint issued_2d (cs : list Mmg2d.call) (rs : list ret) : Z :=
  match cs, rs with
  | c :: cs', r :: rs' =>
      (match c, r with
       | Mmg2d.Init, RInt h => if h =? -1 then 0 else 1
       | _, _ => 0
       end) + issued_2d cs' rs'
  | _, _ => 0
  end.

Fixpoint released_2d (cs : list Mmg2d.call) (rs : list ret) : Z :=
  match cs, rs with
  | c :: cs', r :: rs' =>
      (match c, r with
       | Mmg2d.Free _, RInt v => v
       | _, _ => 0
       end) + released_2d cs' rs'
  | _, _ => 0
  end.

(** The handles a run of calls of [mmg3d.c] with the results [rs] handed
    out, and those it took back. *)
Fixpoint issued_3d (cs : list Mmg3d.call) (rs : list ret) : Z :=
  match cs, rs with
  | c :: cs', r :: rs' =>
      (match c, r with
       | Mmg3d.Init, RInt h => if h =? -1 then 0 else 1
       | _, _ => 0
       end) + issued_3d cs' rs'
  | _, _ => 0
  end.

Fixpoint released_3d (cs : list Mmg3d.call) (rs : list ret) : Z :=
  match cs, rs with
  | c :: cs', r :: rs' =>
      (match c, r with
       | Mmg3d.Free _, RInt v => v
       | _, _ => 0
       end) + released_3d cs' rs'
  | _, _ => 0
  end.

(** The handles a run of calls of [mmgs.c] with the results [rs] handed
    out, and those it took back. *)
Fixpoint issued_s (cs : list Mmgs.call) (rs : list ret) : Z :=
  match cs, rs with
  | c :: cs', r :: rs' =>
      (match c, r with
       | Mmgs.Init, RInt h => if h =? -1 then 0 else 1
       | _, _ => 0
       end) + issued_s cs' rs'
  | _, _ => 0
  end.

Fixpoint released_s (cs : list Mmgs.call) (rs : list ret) : Z :=
  match cs, rs with
  | c :: cs', r :: rs' =>
      (match c, r with
       | Mmgs.Free _, RInt v => v
       | _, _ => 0
       end) + released_s cs' rs'
  | _, _ => 0
  end.

(** * Properties *)

(** ** Handle tables as lists *)

Lemma length_set_entry t i m s a : length (set_entry t i m s a) = length t.
Proof. unfold set_entry. by rewrite !length_alter. Qed.

Lemma entry_at_set_entry_eq t i m s a :
  (Z.to_nat i < length t)%nat →
  entry_at (set_entry t i m s a) i = mkEntry m s a.
Proof.
  intros Hi. unfold entry_at, set_entry.
  rewrite !list_lookup_alter_eq.
  destruct (lookup_lt_is_Some_2 t _ Hi) as [e ->]. done.
Qed.

Lemma entry_at_set_entry_ne t i j m s a :
  0 ≤ i → 0 ≤ j → i ≠ j →
  entry_at (set_entry t i m s a) j = entry_at t j.
Proof.
  intros Hi Hj Hne. unfold entry_at, set_entry.
  rewrite !list_lookup_alter_ne by lia. done.
Qed.

Lemma find_free_loop_spec t fuel : ∀ i,
  let r := find_free_loop t i fuel in
  (r = -1 ∧ ∀ j, i ≤ j < i + Z.of_nat fuel → active (entry_at t j) ≠ 0) ∨
  (i ≤ r < i + Z.of_nat fuel ∧ active (entry_at t r) = 0 ∧
   ∀ j, i ≤ j < r → active (entry_at t j) ≠ 0).
Proof.
  induction fuel as [|fuel IH]; intros i; simpl.
  - left. split; [done | lia].
  - destruct (Z.eqb_spec (active (entry_at t i)) 0) as [Hz | Hnz].
    + right. repeat split; [lia | lia | done | lia].
    + destruct (IH (i + 1)) as [[Hr Hall] | (Hr & Hz & Hall)].
      * left. split; [done |]. intros j Hj.
        destruct (decide (j = i)) as [-> | ?]; [done | apply Hall; lia].
      * right. repeat split; [lia | lia | done |]. intros j Hj.
        destruct (decide (j = i)) as [-> | ?]; [done | apply Hall; lia].
Qed.

Lemma free_count_cons e t :
  free_count (e :: t) = (if active e =? 0 then 1 else 0) + free_count t.
Proof.
  unfold free_count. rewrite filter_cons.
  destruct (Z.eqb_spec (active e) 0); case_decide; simpl; lia.
Qed.

Lemma active_count_cons e t :
  active_count (e :: t) = (if active e =? 0 then 0 else 1) + active_count t.
Proof.
  unfold active_count. rewrite filter_cons.
  destruct (Z.eqb_spec (active e) 0); case_decide; simpl; lia.
Qed.

Lemma free_active_count t :
  free_count t + active_count t = Z.of_nat (length t).
Proof.
  induction t as [|e t IH]; [done |].
  rewrite free_count_cons, active_count_cons. simpl length.
  destruct (active e =? 0); lia.
Qed.

Lemma active_count_bounds t : 0 ≤ active_count t ≤ Z.of_nat (length t).
Proof.
  pose proof (free_active_count t). unfold free_count, active_count in *. lia.
Qed.

Lemma count_free_loop_spec t fuel : ∀ i c,
  0 ≤ i → (Z.to_nat i + fuel ≤ length t)%nat →
  count_free_loop t i c fuel
  = c + free_count (take fuel (drop (Z.to_nat i) t)).
Proof.
  induction fuel as [|fuel IH]; intros i c Hi Hlen; simpl.
  - unfold free_count. simpl. lia.
  - destruct (lookup_lt_is_Some_2 t (Z.to_nat i)) as [e He]; [lia |].
    rewrite (drop_S _ _ _ He). simpl take. rewrite free_count_cons.
    rewrite IH by lia. unfold entry_at. rewrite He. simpl.
    replace (Z.to_nat (i + 1)) with (S (Z.to_nat i)) by lia.
    destruct (active e =? 0); lia.
Qed.

Lemma count_free_loop_full t :
  length t = Z.to_nat MAX_HANDLES →
  count_free_loop t 0 0 (Z.to_nat MAX_HANDLES) = free_count t.
Proof.
  intros Hlen. rewrite count_free_loop_spec by lia.
  change (Z.to_nat 0) with 0%nat. rewrite drop_0, <- Hlen, firstn_all. lia.
Qed.

Lemma free_count_memset : free_count memset_zero = MAX_HANDLES.
Proof. reflexivity. Qed.

Lemma find_free_loop_S t i fuel :
  find_free_loop t i (S fuel)
  = if active (entry_at t i) =? 0 then i else find_free_loop t (i + 1) fuel.
Proof. done. Qed.

#[global] Arguments find_free_loop : simpl never.
#[global] Arguments count_free_loop : simpl never.
#[global] Arguments memset_zero : simpl never.

(** ** The allocator *)

Lemma malloc_spec sz h p h' :
  malloc sz h = (p, h') →
  (p = NULL ∧ live h' = live h) ∨
  (p ≠ NULL ∧ live h !! p = None ∧
   live h' = <[p := mkBlock sz ∅]> (live h)).
Proof.
  unfold malloc. destruct (supply h) as [|q rest].
  - intros [= ? ?]; subst. by left.
  - destruct (decide (q ≠ NULL ∧ live h !! q = None)) as [Hq | Hq].
    + rewrite bool_decide_true by done. intros [= ? ?]; subst.
      right. by destruct Hq.
    + rewrite bool_decide_false by done. intros [= ? ?]; subst. by left.
Qed.

Lemma live_free p h :
  live (free p h) = if p =? NULL then live h else delete p (live h).
Proof. unfold free. by destruct (p =? NULL). Qed.

Lemma live_fill_from p cs : ∀ i h,
  live (fill_from p i cs h) = alter (fill_block i cs) p (live h).
Proof.
  induction cs as [|c cs IH]; intros i h; simpl.
  - symmetry. apply map_eq. intros q. rewrite lookup_alter.
    case_decide; [subst; by destruct (live h !! q) | done].
  - rewrite IH. unfold store. simpl. by rewrite alter_alter_eq.
Qed.

Lemma live_fill p cs h :
  live (fill p cs h) = alter (fill_block 0 cs) p (live h).
Proof. apply live_fill_from. Qed.

#[global] Arguments malloc : simpl never.
#[global] Arguments free : simpl never.
#[global] Arguments fill : simpl never.
#[global] Arguments store : simpl never.
#[global] Arguments size_t : simpl never.

Lemma live_store p i c h :
  live (store p i c h)
  = alter (λ b, mkBlock (bytes b) (<[i := c]> (cells b))) p (live h).
Proof. done. Qed.

Lemma load_store_eq p i c h :
  is_Some (live h !! p) → load p i (store p i c h) = Some c.
Proof.
  intros [b Hb]. unfold load. rewrite live_store, lookup_alter_eq, Hb.
  simpl. apply lookup_insert_eq.
Qed.

Lemma load_store_ne p i j c h :
  i ≠ j → load p j (store p i c h) = load p j h.
Proof.
  intros Hij. unfold load. rewrite live_store, lookup_alter_eq.
  destruct (live h !! p) as [b|]; simpl; [|done].
  by apply lookup_insert_ne.
Qed.

Lemma store_keeps_block p q i c h :
  is_Some (live h !! q) → is_Some (live (store p i c h) !! q).
Proof.
  intros [b Hb]. rewrite live_store, lookup_alter.
  case_decide; subst; rewrite Hb; eauto.
Qed.

Lemma free_NULL h : free NULL h = h.
Proof. done. Qed.

Lemma grown_refl h : grown h h ∅.
Proof. split; [done | set_solver]. Qed.

Lemma grown_malloc h0 h new sz p h1 :
  grown h0 h new → malloc sz h = (p, h1) →
  (p = NULL ∧ grown h0 h1 new) ∨
  (p ≠ NULL ∧ (p ∉ new) ∧ grown h0 h1 ({[p]} ∪ new)).
Proof.
  intros [Hout Hin] Hm.
  destruct (malloc_spec _ _ _ _ Hm) as [[-> Hl] | (Hp & Hfresh & Hl)].
  - left. split; [done |]. split; intros q Hq; rewrite Hl; auto.
  - right. assert (p ∉ new) as Hnew.
    { intros Hq. destruct (Hin p Hq) as (_ & _ & [b Hb]). congruence. }
    split; [done |]. split; [done |]. split; intros q Hq; rewrite Hl.
    + rewrite lookup_insert_ne by set_solver. apply Hout. set_solver.
    + destruct (decide (q = p)) as [-> | Hne].
      * rewrite lookup_insert_eq. rewrite <- Hout by done. eauto.
      * rewrite lookup_insert_ne by done. apply Hin. set_solver.
Qed.

Lemma grown_free h0 h new p :
  grown h0 h new → p ≠ NULL → p ∈ new → grown h0 (free p h) (new ∖ {[p]}).
Proof.
  intros [Hout Hnew] Hp Hin. rewrite <- Z.eqb_neq in Hp.
  split; intros q Hq; rewrite live_free, Hp.
  - destruct (decide (q = p)) as [-> | Hne].
    + rewrite lookup_delete_eq. symmetry. by apply Hnew.
    + rewrite lookup_delete_ne by done. apply Hout. set_solver.
  - rewrite lookup_delete_ne by set_solver. apply Hnew. set_solver.
Qed.

Lemma grown_alter h0 h new p f h' :
  live h' = alter f p (live h) →
  grown h0 h new → p ∈ new → grown h0 h' new.
Proof.
  intros Hl [Hout Hnew] Hin. split; intros q Hq; rewrite Hl.
  - rewrite lookup_alter_ne by set_solver. by apply Hout.
  - destruct (Hnew q Hq) as (? & ? & [b Hb]). repeat split; [done..|].
    rewrite lookup_alter. case_decide; subst; rewrite ?Hb; eauto.
Qed.

Lemma grown_fill h0 h new p cs :
  grown h0 h new → p ∈ new → grown h0 (fill p cs h) new.
Proof. eapply grown_alter, live_fill. Qed.

Lemma grown_store h0 h new p i c :
  grown h0 h new → p ∈ new → grown h0 (store p i c h) new.
Proof. eapply grown_alter, live_store. Qed.

Lemma malloc_seq_cons sz sizes h p h1 :
  malloc sz h = (p, h1) → p ≠ NULL →
  malloc_seq (sz :: sizes) h
  = '(ps, h2) ← malloc_seq sizes h1; Some (p :: ps, h2).
Proof.
  intros E Hp. cbn [malloc_seq]. rewrite E.
  by rewrite (proj2 (Z.eqb_neq p NULL) Hp).
Qed.

Lemma grown_set h0 h new new' :
  new = new' → grown h0 h new → grown h0 h new'.
Proof. by intros ->. Qed.

Lemma grown_none h0 h : grown h0 h ∅ → live h = live h0.
Proof. intros [Hout _]. apply map_eq. intros q. apply Hout. set_solver. Qed.

Lemma grown_one h0 h p :
  grown h0 h {[p]} →
  live h0 !! p = None ∧ is_Some (live h !! p) ∧ delete p (live h) = live h0.
Proof.
  intros [Hout Hnew]. destruct (Hnew p) as (_ & Hf & Hs); [set_solver |].
  repeat split; [done.. |]. apply map_eq. intros q.
  destruct (decide (q = p)) as [-> | Hne].
  - by rewrite lookup_delete_eq.
  - rewrite lookup_delete_ne by done. apply Hout. set_solver.
Qed.


(** ** Framing: what a computation leaves alone *)

Section Frame.
Context {K S : Type} (proj : World K → S).

Lemma preserves_ret {A} (a : A) : preserves proj (mret a).
Proof. done. Qed.

Lemma preserves_bind {A B} (m : M K A) (f : A → M K B) :
  preserves proj m → (∀ a, preserves proj (f a)) →
  preserves proj (m ≫= f).
Proof.
  intros Hm Hf w. unfold mbind, M_bind. specialize (Hm w).
  destruct (m w) as [a w1]. simpl in Hm. by rewrite Hf.
Qed.

Lemma preserves_gets {A} (f : World K → A) : preserves proj (gets f).
Proof. done. Qed.

Lemma preserves_modify (f : World K → World K) :
  (∀ w, proj (f w) = proj w) → preserves proj (modify f).
Proof. intros Hf w. apply Hf. Qed.

Lemma preserves_kget {A} (f : K → A) : preserves proj (kget f).
Proof. done. Qed.

Context (Hstatic : static_part proj).

Lemma preserves_kcall {A} (f : K → A * K) : preserves proj (kcall f).
Proof.
  intros w. unfold kcall. destruct (f (kernel w)). apply Hstatic.
Qed.

Lemma preserves_kdo (f : K → K) : preserves proj (kdo f).
Proof. intros w. apply Hstatic. Qed.

Lemma preserves_kcall_mem {A} (f : Heap → K → A * K) :
  preserves proj (kcall_mem f).
Proof.
  intros w. unfold kcall_mem. destruct (f (heap w) (kernel w)).
  apply Hstatic.
Qed.

Lemma preserves_malloc sz : preserves proj (c_malloc sz).
Proof.
  intros w. unfold c_malloc. destruct (malloc sz (heap w)). apply Hstatic.
Qed.

Lemma preserves_free p : preserves proj (c_free p).
Proof. intros w. apply Hstatic. Qed.

Lemma preserves_fill p cs : preserves proj (c_fill p cs).
Proof. intros w. apply Hstatic. Qed.

Lemma preserves_store p i c : preserves proj (c_store p i c).
Proof. intros w. apply Hstatic. Qed.
End Frame.

Lemma static_tables_2d {K} : static_part (@tables_2d K).
Proof. done. Qed.
Lemma static_tables_3d {K} : static_part (@tables_3d K).
Proof. done. Qed.
Lemma static_tables_s {K} : static_part (@tables_s K).
Proof. done. Qed.

Create HintDb frame discriminated.
#[global] Hint Resolve static_tables_2d static_tables_3d static_tables_s
  : frame.
#[global] Hint Resolve preserves_ret preserves_gets preserves_kget
  preserves_kcall preserves_kdo preserves_kcall_mem preserves_malloc
  preserves_free preserves_fill preserves_store : frame.

(** Walk through a computation bind by bind and branch by branch. *)
#[global] Hint Extern 1 (preserves _ (modify _)) =>
  apply preserves_modify; intros; reflexivity : frame.

Ltac frame :=
  repeat first
    [ progress intros
    | progress cbv zeta
    | apply preserves_bind
    | solve [ eauto with frame ]
    | case_match ].

Lemma wf_table_boot : wf_table memset_zero 0.
Proof. done. Qed.

Lemma wf_table_set_entry t i h m s a :
  wf_table t i → i ≠ 0 → wf_table (set_entry t h m s a) i.
Proof.
  intros [Hlen _] Hi. split; [by rewrite length_set_entry | done].
Qed.

Lemma wf_table_counts t i :
  wf_table t i →
  active_count t ≤ MAX_HANDLES ∧
  count_free_loop t 0 0 (Z.to_nat MAX_HANDLES) + active_count t = MAX_HANDLES.
Proof.
  intros [Hlen _]. pose proof (free_active_count t) as Hsum.
  pose proof (active_count_bounds t) as Hb.
  rewrite count_free_loop_full by done. rewrite Hlen in *.
  unfold free_count in *. unfold MAX_HANDLES in *. lia.
Qed.

(** ** Stepping through a computation *)

Section Wp.
Context {K : Type}.

Lemma wp_ret {A} (a : A) (Q : A → World K → Prop) w :
  Q a w → wp (mret a) Q w.
Proof. done. Qed.

Lemma wp_bind {A B} (m : M K A) (f : A → M K B) Q w :
  wp m (λ a w1, wp (f a) Q w1) w → wp (m ≫= f) Q w.
Proof. cbv [wp mbind M_bind]. by destruct (m w). Qed.

Lemma wp_gets {A} (f : World K → A) Q w : Q (f w) w → wp (gets f) Q w.
Proof. done. Qed.

Lemma wp_kget {A} (f : K → A) Q w : Q (f (kernel w)) w → wp (kget f) Q w.
Proof. done. Qed.

Lemma wp_malloc sz (Q : ptr → World K → Prop) w :
  (∀ p h1, malloc sz (heap w) = (p, h1) → Q p (set_heap h1 w)) →
  wp (c_malloc sz) Q w.
Proof.
  intros HQ. unfold wp, c_malloc.
  destruct (malloc sz (heap w)) as [p h1] eqn:E. by apply HQ.
Qed.

Lemma wp_free p (Q : unit → World K → Prop) w :
  Q tt (set_heap (free p (heap w)) w) → wp (c_free p) Q w.
Proof. done. Qed.

Lemma wp_fill p cs (Q : unit → World K → Prop) w :
  Q tt (set_heap (fill p cs (heap w)) w) → wp (c_fill p cs) Q w.
Proof. done. Qed.

Lemma wp_store p i c (Q : unit → World K → Prop) w :
  Q tt (set_heap (store p i c (heap w)) w) → wp (c_store p i c) Q w.
Proof. done. Qed.

Lemma wp_eq {A} (m : M K A) (a : A) (w w1 : World K) :
  wp m (λ r w', r = a ∧ w' = w1) w → m w = (a, w1).
Proof. unfold wp. destruct (m w). simpl. by intros [-> ->]. Qed.

Lemma wp_run {A} (m : M K A) (Q : A → World K → Prop) w :
  wp m Q w → ∀ a w1, m w = (a, w1) → Q a w1.
Proof. unfold wp. intros HQ a w1 E. by rewrite E in HQ. Qed.
End Wp.

Ltac wp_simpl :=
  cbn [heap kernel g_handles_2d g_initialized_2d g_handles g_initialized
       g_handles_s g_initialized_s set_heap set_kernel fst snd].

Ltac wp_step :=
  lazymatch goal with
  | |- wp (mbind _ _) _ _ => apply wp_bind
  | |- wp (mret _) _ _ => apply wp_ret
  | |- wp (gets _) _ _ => apply wp_gets
  | |- wp (kget _) _ _ => apply wp_kget
  | |- wp (c_free _) _ _ => apply wp_free
  | |- wp (c_fill _ _) _ _ => apply wp_fill
  | |- wp (c_store _ _ _) _ _ => apply wp_store
  end;
  wp_simpl.

(** One allocation: either it fails, or it yields a new block. *)
Ltac wp_alloc G :=
  let p := fresh "p" in
  let h1 := fresh "h" in
  let E := fresh "E" in
  let Hp := fresh "Hp" in
  let Hf := fresh "Hf" in
  let G' := fresh "G" in
  let Hb := fresh "Hb" in
  apply wp_bind, wp_malloc; wp_simpl; intros p h1 E;
  destruct (grown_malloc _ _ _ _ _ _ G E) as [[-> G'] | (Hp & Hf & G')];
  clear G; rename G' into G;
  [ change (NULL =? NULL) with true
  | pose proof (proj2 (Z.eqb_neq p NULL) Hp) as Hb; rewrite ?Hb ];
  cbn [orb].

(** The live blocks of a memory obtained by releasing and writing. *)
Ltac grown_chain G :=
  lazymatch goal with
  | |- grown _ (free _ _) _ =>
      eapply grown_free; [grown_chain G | assumption | set_solver]
  | |- grown _ (fill _ _ _) _ =>
      eapply grown_fill; [grown_chain G | set_solver]
  | |- grown _ (store _ _ _ _) _ =>
      eapply grown_store; [grown_chain G | set_solver]
  | |- _ => exact G
  end.

(** State the outcome of a bulk getter on its run [m w]. *)
Ltac bulk_wp m w :=
  lazymatch goal with
  | |- bulk_get_outcome ?h0 ?sizes ?kres ?count ?out _ _ _ =>
      change (wp m (λ r w', bulk_get_outcome h0 sizes kres count out
                              r.1 r.2 (heap w')) w)
  end.

(** The end of a path through a bulk getter. *)
Ltac bulk_leaf G :=
  let H := fresh "Hleaf" in
  rewrite ?free_NULL; unfold bulk_get_outcome, fail_with_count;
  cbn [fst snd];
  split_and!;
  [ first [ done
          | intros H; exfalso; revert H;
            repeat (erewrite malloc_seq_cons by eassumption); done ]
  | first [ done | intros H; exfalso; lia ]
  | first [ intros H; exfalso; done
          | intros _; split; [|done];
            eapply grown_none, grown_set; [| grown_chain G]; set_solver ]
  | first [ done
          | intros H; exfalso; by apply H
          | intros _;
            cut (∀ A B C D : Prop, A ∧ B ∧ C → D → A ∧ B ∧ C ∧ D);
            [ intros H; apply H; [| done];
              eapply grown_one, grown_set; [| grown_chain G]; set_solver
            | tauto ] ] ].

(** ** Slots: acquiring and releasing *)

Lemma set_entry_insert t i m s a :
  (Z.to_nat i < length t)%nat →
  set_entry t i m s a = <[Z.to_nat i := mkEntry m s a]> t.
Proof.
  intros Hi. apply list_eq. intros j. unfold set_entry.
  destruct (decide (j = Z.to_nat i)) as [-> | Hne].
  - rewrite !list_lookup_alter_eq, list_lookup_insert_eq by done.
    by destruct (lookup_lt_is_Some_2 t _ Hi) as [e ->].
  - by rewrite !list_lookup_alter_ne, list_lookup_insert_ne by done.
Qed.

Lemma free_count_insert t : ∀ i e e',
  t !! i = Some e →
  free_count (<[i := e']> t)
  = free_count t - (if active e =? 0 then 1 else 0)
    + (if active e' =? 0 then 1 else 0).
Proof.
  induction t as [|x t IH]; intros [|i] e e' Hi; try done; simpl in *.
  - injection Hi as ->. rewrite !free_count_cons. lia.
  - rewrite !free_count_cons, (IH _ e) by done. lia.
Qed.

Lemma free_count_set_entry t i m s a :
  0 ≤ i → (Z.to_nat i < length t)%nat →
  free_count (set_entry t i m s a)
  = free_count t - (if active (entry_at t i) =? 0 then 1 else 0)
    + (if a =? 0 then 1 else 0).
Proof.
  intros Hi Hlen. rewrite set_entry_insert by done.
  destruct (lookup_lt_is_Some_2 t _ Hlen) as [e He].
  rewrite (free_count_insert _ _ e) by done.
  unfold entry_at. by rewrite He.
Qed.

Lemma free_count_zero t :
  free_count t = 0 ↔
  ∀ j, 0 ≤ j < Z.of_nat (length t) → active (entry_at t j) ≠ 0.
Proof.
  induction t as [|e t IH].
  - split; [simpl; intros; lia | done].
  - rewrite free_count_cons. cbn [length]. split.
    + intros Hc j Hj. pose proof (free_active_count t) as Hs.
      pose proof (active_count_bounds t) as Hb.
      destruct (Z.eqb_spec (active e) 0) as [Hz | Hz]; [lia |].
      destruct (decide (j = 0)) as [-> | Hne]; [done |].
      unfold entry_at.
      replace (Z.to_nat j) with (S (Z.to_nat (j - 1))) by lia. simpl.
      apply IH; lia.
    + intros Hall. assert (active e ≠ 0) as Hz by (apply (Hall 0); lia).
      destruct (Z.eqb_spec (active e) 0) as [? | _]; [done |].
      rewrite (proj2 IH); [done |]. intros j Hj.
      specialize (Hall (j + 1)). unfold entry_at in *.
      replace (Z.to_nat (j + 1)) with (S (Z.to_nat j)) in Hall by lia.
      apply Hall. lia.
Qed.

(** The scan finds nothing exactly when the table is full. *)
Lemma find_free_full t :
  length t = Z.to_nat MAX_HANDLES →
  find_free_loop t 0 (Z.to_nat MAX_HANDLES) = -1 ↔ free_count t = 0.
Proof.
  intros Hlen. rewrite free_count_zero, Hlen.
  destruct (find_free_loop_spec t (Z.to_nat MAX_HANDLES) 0)
    as [[Hr Hall] | (Hr & Hz & Hall)].
  - split; [intros _ j Hj; apply Hall; lia | done].
  - split; [lia |]. intros Hall'. exfalso. by apply (Hall' _ Hr).
Qed.

(** What the scan finds depends on the activity of the slots alone. *)
Lemma find_free_loop_activity t t' fuel : ∀ i,
  activity t = activity t' →
  find_free_loop t i fuel = find_free_loop t' i fuel.
Proof.
  intros i Hact. revert i.
  assert (∀ i, (active (entry_at t i) =? 0) = (active (entry_at t' i) =? 0))
    as Hsame.
  { intros i. apply (f_equal (λ l, l !! Z.to_nat i)) in Hact.
    unfold activity in Hact. rewrite !list_lookup_fmap in Hact.
    unfold entry_at.
    destruct (t !! Z.to_nat i), (t' !! Z.to_nat i); simpl in *;
      try done. injection Hact as Hact.
    by destruct (active _ =?  0), (active _ =? 0). }
  induction fuel as [|fuel IH]; intros i; [done |].
  rewrite !find_free_loop_S, Hsame, IH. done.
Qed.

Lemma slot_valid_set_entry t i h m s a :
  0 ≤ i → (Z.to_nat i < length t)%nat →
  length t = Z.to_nat MAX_HANDLES →
  slot_valid (set_entry t i m s a) h
  = if h =? i then a else slot_valid t h.
Proof.
  intros Hi Hlt Hlen. unfold slot_valid.
  destruct (Z.eqb_spec h i) as [-> | Hne].
  - rewrite entry_at_set_entry_eq by done.
    destruct (Z.ltb_spec i 0); [lia |].
    destruct (Z.geb_spec i MAX_HANDLES); [lia | done].
  - destruct (Z.ltb_spec h 0); [done |]. simpl.
    by rewrite entry_at_set_entry_ne.
Qed.

(** Unfold the monad down to pairs of a value and a state. *)
Ltac unfold_M :=
  unfold mbind, M_bind, mret, M_ret, gets, modify, kcall, kdo, kget,
    kcall_mem, c_malloc, c_free, c_fill, c_store.

(** ** [mmg2d.c]: the handle table *)

Section Table_2d.
Context {K : Type} `{!libmmg2d K}.
Import Mmg2d.

Lemma ensure_2d_outside (w : World K) :
  outside_2d (ensure_initialized_2d w).2 = outside_2d w.
Proof. unfold ensure_initialized_2d. by case_match. Qed.

Lemma ensure_2d_initialized (w : World K) :
  g_initialized_2d (ensure_initialized_2d w).2 ≠ 0.
Proof.
  unfold ensure_initialized_2d.
  destruct (Z.eqb_spec (g_initialized_2d w) 0); simpl; lia.
Qed.

Lemma ensure_2d_handles (w : World K) :
  wf_table (g_handles_2d w) (g_initialized_2d w) →
  g_handles_2d (ensure_initialized_2d w).2 = g_handles_2d w.
Proof.
  intros [_ Hz]. unfold ensure_initialized_2d.
  destruct (Z.eqb_spec (g_initialized_2d w) 0); simpl; [|done].
  symmetry. by apply Hz.
Qed.

Lemma ensure_2d_ready (w : World K) :
  g_initialized_2d w ≠ 0 → ensure_initialized_2d w = (tt, w).
Proof.
  intros Hi. unfold ensure_initialized_2d.
  by destruct (Z.eqb_spec (g_initialized_2d w) 0).
Qed.

Lemma ensure_2d_wf (w : World K) :
  wf_table (g_handles_2d w) (g_initialized_2d w) →
  wf_table (g_handles_2d (ensure_initialized_2d w).2)
           (g_initialized_2d (ensure_initialized_2d w).2).
Proof.
  intros Hwf. split.
  - rewrite ensure_2d_handles by done. apply Hwf.
  - intros Hi. by apply ensure_2d_initialized in Hi.
Qed.

Lemma preserves_ensure_2d {S} (proj : World K → S) :
  (∀ t i w, proj (set_table_2d t i w) = proj w) →
  preserves proj ensure_initialized_2d.
Proof.
  intros Hp w. unfold ensure_initialized_2d. case_match; simpl; auto.
Qed.

Lemma settles_2d_ensure {S} (proj : World K → S) :
  settles_2d proj ensure_initialized_2d.
Proof. done. Qed.

Lemma settles_2d_bind {S A B} (proj : World K → S) (m : M K A)
    (f : A → M K B) :
  settles_2d proj m → (∀ a, preserves proj (f a)) →
  settles_2d proj (m ≫= f).
Proof.
  intros Hm Hf w. unfold mbind, M_bind. specialize (Hm w).
  destruct (m w) as [a w1]. simpl in Hm. by rewrite Hf.
Qed.

Lemma preserves_qualities_loop_2d {S} (proj : World K → S) fuel :
  static_part proj → ∀ k nt m s q,
  preserves proj (qualities_loop fuel k nt m s q).
Proof.
  intros Hs. induction fuel as [|fuel IH]; intros; simpl; frame.
Qed.
End Table_2d.

#[global] Hint Resolve preserves_qualities_loop_2d : frame.

#[global] Hint Extern 1 (preserves _ Mmg2d.ensure_initialized_2d) =>
  apply preserves_ensure_2d; intros; reflexivity : frame.

Ltac unfold_ops_2d :=
  unfold Mmg2d.exec, r_int, r_buf,
    Mmg2d.mmg2d_init, Mmg2d.mmg2d_free, Mmg2d.mmg2d_get_available_handles,
    Mmg2d.mmg2d_get_max_handles, Mmg2d.mmg2d_set_mesh_size,
    Mmg2d.mmg2d_get_mesh_size, Mmg2d.mmg2d_set_vertex,
    Mmg2d.mmg2d_set_vertices, Mmg2d.mmg2d_get_vertices,
    Mmg2d.mmg2d_set_triangle, Mmg2d.mmg2d_set_triangles,
    Mmg2d.mmg2d_get_triangles, Mmg2d.mmg2d_set_edge, Mmg2d.mmg2d_set_edges,
    Mmg2d.mmg2d_get_edges, Mmg2d.mmg2d_set_iparameter,
    Mmg2d.mmg2d_set_dparameter, Mmg2d.mmg2d_set_sol_size,
    Mmg2d.mmg2d_get_sol_size, Mmg2d.mmg2d_set_scalar_sols,
    Mmg2d.mmg2d_get_scalar_sols, Mmg2d.mmg2d_set_tensor_sols,
    Mmg2d.mmg2d_get_tensor_sols, Mmg2d.mmg2d_remesh, Mmg2d.mmg2d_free_array,
    Mmg2d.mmg2d_load_mesh, Mmg2d.mmg2d_save_mesh, Mmg2d.mmg2d_load_sol,
    Mmg2d.mmg2d_save_sol, Mmg2d.mmg2d_get_triangle_quality,
    Mmg2d.mmg2d_get_triangles_qualities.

Ltac unfold_2d :=
  unfold_ops_2d;
  unfold Mmg2d.find_free_handle_2d, Mmg2d.validate_handle_2d,
    Mmg2d.mesh_of, Mmg2d.sol_of.

Ltac settle_2d :=
  unfold_2d;
  repeat (apply settles_2d_bind; [| frame]);
  apply settles_2d_ensure.

Section Exec_2d.
Context {K : Type} `{!libmmg2d K}.
Import Mmg2d.

(** No entry point of [mmg2d.c] touches the tables of the other two
    files. *)
Lemma exec_2d_frame_3d (c : call) : preserves (@tables_3d K) (exec c).
Proof. destruct c; unfold_2d; frame. Qed.

Lemma exec_2d_frame_s (c : call) : preserves (@tables_s K) (exec c).
Proof. destruct c; unfold_2d; frame. Qed.

(** Besides [init] and [free], an entry point does nothing to its own
    table but initialise it on first use. *)
Lemma exec_2d_tables (c : call) :
  lifecycle_2d c = false →
  settles_2d (@tables_2d K) (exec c) ∨ preserves (@tables_2d K) (exec c).
Proof.
  destruct c; try discriminate; intros _;
    first [ left; settle_2d | right; unfold_2d; frame ].
Qed.
End Exec_2d.

Section Lifecycle_2d.
Context {K : Type} `{!libmmg2d K}.
Import Mmg2d.

Lemma validate_2d_eq (h : Z) (w : World K) :
  validate_handle_2d h w
  = (if (h <? 0) || (h >=? MAX_HANDLES) then 0
     else active (entry_at (g_handles_2d (ensure_initialized_2d w).2) h),
     (ensure_initialized_2d w).2).
Proof.
  unfold validate_handle_2d. unfold_M.
  destruct (ensure_initialized_2d w) as [[] w1]. simpl.
  by destruct ((h <? 0) || (h >=? MAX_HANDLES)).
Qed.

Lemma available_2d_eq (w : World K) :
  mmg2d_get_available_handles w
  = (count_free_loop (g_handles_2d (ensure_initialized_2d w).2) 0 0
       (Z.to_nat MAX_HANDLES),
     (ensure_initialized_2d w).2).
Proof.
  unfold mmg2d_get_available_handles. unfold_M.
  by destruct (ensure_initialized_2d w) as [[] w1].
Qed.

Lemma init_2d_eq (w : World K) :
  mmg2d_init w
  = let w1 := (ensure_initialized_2d w).2 in
    let h := find_free_loop (g_handles_2d w1) 0 (Z.to_nat MAX_HANDLES) in
    if h <? 0 then (-1, w1)
    else
      let '((r, m, s), k1) := MMG2D_Init_mesh (kernel w1) in
      if negb (r =? 1) || (m =? NULL) then (-1, set_kernel k1 w1)
      else (h, set_table_2d (set_entry (g_handles_2d w1) h m s 1)
                 (g_initialized_2d w1)
                 (set_kernel (MMG2D_Init_parameters m k1) w1)).
Proof.
  unfold mmg2d_init, find_free_handle_2d. unfold_M.
  destruct (ensure_initialized_2d w) as [[] w1]. simpl.
  case_match; [done |].
  destruct (MMG2D_Init_mesh (kernel w1)) as [[[r m] s] k1].
  by case_match.
Qed.

Lemma free_2d_eq (h : Z) (w : World K) :
  mmg2d_free h w
  = let w1 := (ensure_initialized_2d w).2 in
    if (validate_handle_2d h w).1 =? 0 then (0, w1)
    else
      let e := entry_at (g_handles_2d w1) h in
      (1, set_table_2d (set_entry (g_handles_2d w1) h NULL NULL 0)
            (g_initialized_2d w1)
            (set_kernel (MMG2D_Free_all (mesh e) (sol e) (kernel w1)) w1)).
Proof.
  unfold mmg2d_free, mesh_of, sol_of. unfold_M.
  rewrite validate_2d_eq. simpl. by case_match.
Qed.

(** An entry point called on a handle that is not valid gives its
    failure value and does nothing else. *)
Lemma exec_2d_invalid (c : call) (h : Z) (w : World K) :
  handle_of c = Some h →
  (validate_handle_2d h w).1 = 0 →
  exec c w = (sentinel c, (ensure_initialized_2d w).2).
Proof.
  intros Hc Hv. pose proof (validate_2d_eq h w) as E.
  destruct (validate_handle_2d h w) as [v w1] eqn:Ev. simpl in Hv. subst v.
  apply (f_equal snd) in E. simpl in E. subst w1.
  destruct c; simpl in Hc; try discriminate; injection Hc as ->;
    unfold_ops_2d; unfold mbind, M_bind; rewrite Ev; reflexivity.
Qed.
End Lifecycle_2d.

Section Invariant_2d.
Context {K : Type} `{!libmmg2d K}.
Import Mmg2d.

Local Abbreviation wf_2d w :=
  (wf_table (g_handles_2d w) (g_initialized_2d w)).

Lemma exec_2d_fst_snd {A} (m : M K A) (f : A → ret) (w : World K) :
  ((a ← m; mret (f a)) w).2 = (m w).2.
Proof. cbv [mbind M_bind mret M_ret]. by destruct (m w). Qed.

Lemma init_2d_wf (w : World K) : wf_2d w → wf_2d (mmg2d_init w).2.
Proof.
  intros Hwf. rewrite init_2d_eq. cbv zeta.
  pose proof (ensure_2d_wf w Hwf) as Hwf1.
  pose proof (ensure_2d_initialized w) as Hi.
  set (w1 := (ensure_initialized_2d w).2) in *.
  case_match; [done |].
  destruct (MMG2D_Init_mesh (kernel w1)) as [[[r m] s] k1].
  case_match; [done |]. simpl. by apply wf_table_set_entry.
Qed.

Lemma free_2d_wf (h : Z) (w : World K) : wf_2d w → wf_2d (mmg2d_free h w).2.
Proof.
  intros Hwf. rewrite free_2d_eq. cbv zeta.
  pose proof (ensure_2d_wf w Hwf) as Hwf1.
  pose proof (ensure_2d_initialized w) as Hi.
  set (w1 := (ensure_initialized_2d w).2) in *.
  case_match; [done |]. simpl. by apply wf_table_set_entry.
Qed.

Lemma exec_2d_wf (c : call) (w : World K) : wf_2d w → wf_2d (exec c w).2.
Proof.
  intros Hwf. destruct (lifecycle_2d c) eqn:Hc.
  - destruct c; try discriminate; unfold exec, r_int;
      rewrite exec_2d_fst_snd; [by apply init_2d_wf | by apply free_2d_wf].
  - destruct (exec_2d_tables c Hc) as [Hs | Hp].
    + specialize (Hs w). unfold tables_2d in Hs.
      injection Hs as -> ->. by apply ensure_2d_wf.
    + specialize (Hp w). unfold tables_2d in Hp. by injection Hp as -> ->.
Qed.

(** What [available_count()] and [max_handles()] read in a state. *)
Lemma counts_2d (w : World K) :
  wf_2d w →
  active_count (g_handles_2d w) ≤ MAX_HANDLES ∧
  (mmg2d_get_available_handles w).1 + active_count (g_handles_2d w)
  = (mmg2d_get_max_handles w).1.
Proof.
  intros Hwf. rewrite available_2d_eq. simpl.
  rewrite ensure_2d_handles by done. by eapply wf_table_counts.
Qed.
End Invariant_2d.

Section Bulk_2d.
Context {K : Type} `{!libmmg2d K}.
Import Mmg2d.

Lemma valid_2d_ready (h : Z) (w : World K) :
  wf_table (g_handles_2d w) (g_initialized_2d w) →
  (validate_handle_2d h w).1 ≠ 0 →
  ensure_initialized_2d w = (tt, w) ∧
  validate_handle_2d h w = (active (entry_at (g_handles_2d w) h), w) ∧
  0 ≤ h < MAX_HANDLES.
Proof.
  intros [_ Hz] Hv. rewrite validate_2d_eq in *. simpl in Hv.
  destruct ((h <? 0) || (h >=? MAX_HANDLES)) eqn:Hr; [done |].
  assert (g_initialized_2d w ≠ 0) as Hi.
  { intros Hi. unfold ensure_initialized_2d in Hv.
    rewrite Hi in Hv. simpl in Hv. apply Hv. unfold entry_at.
    destruct (memset_zero !! Z.to_nat h) as [e|] eqn:He; [|done].
    apply lookup_replicate in He as [-> _]. done. }
  rewrite ensure_2d_ready by done. repeat split; try done; lia.
Qed.

Lemma wp_validate_2d (h : Z) (Q : Z → World K → Prop) (w : World K) :
  wf_table (g_handles_2d w) (g_initialized_2d w) →
  (validate_handle_2d h w).1 ≠ 0 →
  Q (validate_handle_2d h w).1 w →
  wp (validate_handle_2d h) Q w.
Proof.
  intros Hwf Hv HQ. destruct (valid_2d_ready h w Hwf Hv) as (_ & E & _).
  unfold wp. by rewrite E in *.
Qed.
End Bulk_2d.

(** Enter a wrapper of [mmg2d.c] with a valid handle. *)
Ltac enter_2d Hwf Hv :=
  apply wp_bind, wp_validate_2d; [exact Hwf | exact Hv |];
  rewrite (proj2 (Z.eqb_neq _ _) Hv);
  repeat wp_step.

Section Getters_2d.
Context {K : Type} `{!libmmg2d K}.
Import Mmg2d.

Lemma get_vertices_2d_outcome (h : Z) (out_count : OutInt) (w : World K)
    (np nt nquad na : Z) :
  wf_table (g_handles_2d w) (g_initialized_2d w) →
  (validate_handle_2d h w).1 ≠ 0 →
  MMG2D_Get_meshSize (mesh (entry_at (g_handles_2d w) h)) (kernel w)
  = (1, (np, nt, nquad, na)) →
  np ≠ 0 →
  let r := mmg2d_get_vertices h out_count w in
  bulk_get_outcome (heap w)
    [size_t (2 * np * sizeof_double); size_t (np * sizeof_MMG5_int);
     size_t (np * sizeof_int); size_t (np * sizeof_int)]
    (MMG2D_Get_vertices (mesh (entry_at (g_handles_2d w) h)) (kernel w)).1
    np out_count r.1.1 r.1.2 (heap r.2).
Proof.
  intros Hwf Hv Hsz Hn. cbv zeta.
  destruct (MMG2D_Get_vertices _ _) as [kres [[[d1 d2] d3] d4]] eqn:Eget.
  cbn [fst]. bulk_wp (mmg2d_get_vertices h out_count) w.
  pose proof (grown_refl (heap w)) as G.
  unfold mmg2d_get_vertices, mesh_of. enter_2d Hwf Hv.
  rewrite Hsz. cbn [negb Z.eqb Pos.eqb].
  rewrite (proj2 (Z.eqb_neq _ _) Hn). cbv zeta.
  do 4 (wp_alloc G; [repeat wp_step; bulk_leaf G |]).
  repeat wp_step. rewrite Eget. repeat wp_step.
  destruct (Z.eqb_spec kres 1); cbn [negb]; repeat wp_step; bulk_leaf G.
Qed.

Lemma get_triangles_2d_outcome (h : Z) (out_count : OutInt) (w : World K)
    (np nt nquad na : Z) :
  wf_table (g_handles_2d w) (g_initialized_2d w) →
  (validate_handle_2d h w).1 ≠ 0 →
  MMG2D_Get_meshSize (mesh (entry_at (g_handles_2d w) h)) (kernel w)
  = (1, (np, nt, nquad, na)) →
  nt ≠ 0 →
  let r := mmg2d_get_triangles h out_count w in
  bulk_get_outcome (heap w)
    [size_t (3 * nt * sizeof_MMG5_int); size_t (nt * sizeof_MMG5_int);
     size_t (nt * sizeof_int)]
    (MMG2D_Get_triangles (mesh (entry_at (g_handles_2d w) h)) (kernel w)).1
    nt out_count r.1.1 r.1.2 (heap r.2).
Proof.
  intros Hwf Hv Hsz Hn. cbv zeta.
  destruct (MMG2D_Get_triangles _ _) as [kres [[d1 d2] d3]] eqn:Eget.
  cbn [fst]. bulk_wp (mmg2d_get_triangles h out_count) w.
  pose proof (grown_refl (heap w)) as G.
  unfold mmg2d_get_triangles, mesh_of. enter_2d Hwf Hv.
  rewrite Hsz. cbn [negb Z.eqb Pos.eqb].
  rewrite (proj2 (Z.eqb_neq _ _) Hn). cbv zeta.
  do 3 (wp_alloc G; [repeat wp_step; bulk_leaf G |]).
  repeat wp_step. rewrite Eget. repeat wp_step.
  destruct (Z.eqb_spec kres 1); cbn [negb]; repeat wp_step; bulk_leaf G.
Qed.

Lemma get_edges_2d_outcome (h : Z) (out_count : OutInt) (w : World K)
    (np nt nquad na : Z) :
  wf_table (g_handles_2d w) (g_initialized_2d w) →
  (validate_handle_2d h w).1 ≠ 0 →
  MMG2D_Get_meshSize (mesh (entry_at (g_handles_2d w) h)) (kernel w)
  = (1, (np, nt, nquad, na)) →
  na ≠ 0 →
  let r := mmg2d_get_edges h out_count w in
  bulk_get_outcome (heap w)
    [size_t (2 * na * sizeof_MMG5_int); size_t (na * sizeof_MMG5_int);
     size_t (na * sizeof_int); size_t (na * sizeof_int)]
    (MMG2D_Get_edges (mesh (entry_at (g_handles_2d w) h)) (kernel w)).1
    na out_count r.1.1 r.1.2 (heap r.2).
Proof.
  intros Hwf Hv Hsz Hn. cbv zeta.
  destruct (MMG2D_Get_edges _ _) as [kres [[[d1 d2] d3] d4]] eqn:Eget.
  cbn [fst]. bulk_wp (mmg2d_get_edges h out_count) w.
  pose proof (grown_refl (heap w)) as G.
  unfold mmg2d_get_edges, mesh_of. enter_2d Hwf Hv.
  rewrite Hsz. cbn [negb Z.eqb Pos.eqb].
  rewrite (proj2 (Z.eqb_neq _ _) Hn). cbv zeta.
  do 4 (wp_alloc G; [repeat wp_step; bulk_leaf G |]).
  repeat wp_step. rewrite Eget. repeat wp_step.
  destruct (Z.eqb_spec kres 1); cbn [negb]; repeat wp_step; bulk_leaf G.
Qed.
End Getters_2d.
Section Empty_2d.
Context {K : Type} `{!libmmg2d K}.
Import Mmg2d.

Lemma get_vertices_2d_empty (h : Z) (out_count : OutInt) (w : World K)
    (r nt nquad na : Z) :
  wf_table (g_handles_2d w) (g_initialized_2d w) →
  (validate_handle_2d h w).1 ≠ 0 →
  MMG2D_Get_meshSize (mesh (entry_at (g_handles_2d w) h)) (kernel w)
  = (r, (0, nt, nquad, na)) →
  mmg2d_get_vertices h out_count w = ((NULL, store_out out_count 0), w).
Proof.
  intros Hwf Hv Hsz. apply wp_eq.
  unfold mmg2d_get_vertices, mesh_of. enter_2d Hwf Hv.
  rewrite Hsz. by case_match; repeat wp_step.
Qed.

Lemma get_triangles_2d_empty (h : Z) (out_count : OutInt) (w : World K)
    (r np nquad na : Z) :
  wf_table (g_handles_2d w) (g_initialized_2d w) →
  (validate_handle_2d h w).1 ≠ 0 →
  MMG2D_Get_meshSize (mesh (entry_at (g_handles_2d w) h)) (kernel w)
  = (r, (np, 0, nquad, na)) →
  mmg2d_get_triangles h out_count w = ((NULL, store_out out_count 0), w).
Proof.
  intros Hwf Hv Hsz. apply wp_eq.
  unfold mmg2d_get_triangles, mesh_of. enter_2d Hwf Hv.
  rewrite Hsz. by case_match; repeat wp_step.
Qed.

Lemma get_edges_2d_empty (h : Z) (out_count : OutInt) (w : World K)
    (r np nt nquad : Z) :
  wf_table (g_handles_2d w) (g_initialized_2d w) →
  (validate_handle_2d h w).1 ≠ 0 →
  MMG2D_Get_meshSize (mesh (entry_at (g_handles_2d w) h)) (kernel w)
  = (r, (np, nt, nquad, 0)) →
  mmg2d_get_edges h out_count w = ((NULL, store_out out_count 0), w).
Proof.
  intros Hwf Hv Hsz. apply wp_eq.
  unfold mmg2d_get_edges, mesh_of. enter_2d Hwf Hv.
  rewrite Hsz. by case_match; repeat wp_step.
Qed.

Lemma get_qualities_2d_empty (h : Z) (out_count : OutInt) (w : World K)
    (r np nquad na : Z) :
  wf_table (g_handles_2d w) (g_initialized_2d w) →
  (validate_handle_2d h w).1 ≠ 0 →
  MMG2D_Get_meshSize (mesh (entry_at (g_handles_2d w) h)) (kernel w)
  = (r, (np, 0, nquad, na)) →
  mmg2d_get_triangles_qualities h out_count w
  = ((NULL, store_out out_count 0), w).
Proof.
  intros Hwf Hv Hsz. apply wp_eq.
  unfold mmg2d_get_triangles_qualities, mesh_of, sol_of. enter_2d Hwf Hv.
  rewrite Hsz. by case_match; repeat wp_step.
Qed.

(** The getters of the solution give up on an empty solution and on a
    solution of another type than the one they return. *)
Lemma get_scalar_sols_2d_guard (h : Z) (out_count : OutInt) (w : World K)
    (r typEntity np typSol : Z) :
  wf_table (g_handles_2d w) (g_initialized_2d w) →
  (validate_handle_2d h w).1 ≠ 0 →
  MMG2D_Get_solSize (mesh (entry_at (g_handles_2d w) h))
    (sol (entry_at (g_handles_2d w) h)) (kernel w)
  = (r, (typEntity, np, typSol)) →
  np = 0 ∨ typSol ≠ 1 →
  mmg2d_get_scalar_sols h out_count w = ((NULL, store_out out_count 0), w).
Proof.
  intros Hwf Hv Hsz Hg. apply wp_eq.
  unfold mmg2d_get_scalar_sols, mesh_of, sol_of. enter_2d Hwf Hv.
  rewrite Hsz. case_match; repeat wp_step; [done |].
  replace ((np =? 0) || negb (typSol =? 1)) with true; [by repeat wp_step |].
  symmetry. apply orb_true_iff. rewrite negb_true_iff, Z.eqb_eq, Z.eqb_neq.
  done.
Qed.

Lemma get_tensor_sols_2d_guard (h : Z) (out_count : OutInt) (w : World K)
    (r typEntity np typSol : Z) :
  wf_table (g_handles_2d w) (g_initialized_2d w) →
  (validate_handle_2d h w).1 ≠ 0 →
  MMG2D_Get_solSize (mesh (entry_at (g_handles_2d w) h))
    (sol (entry_at (g_handles_2d w) h)) (kernel w)
  = (r, (typEntity, np, typSol)) →
  np = 0 ∨ typSol ≠ 3 →
  mmg2d_get_tensor_sols h out_count w = ((NULL, store_out out_count 0), w).
Proof.
  intros Hwf Hv Hsz Hg. apply wp_eq.
  unfold mmg2d_get_tensor_sols, mesh_of, sol_of. enter_2d Hwf Hv.
  rewrite Hsz. case_match; repeat wp_step; [done |].
  replace ((np =? 0) || negb (typSol =? 3)) with true; [by repeat wp_step |].
  symmetry. apply orb_true_iff. rewrite negb_true_iff, Z.eqb_eq, Z.eqb_neq.
  done.
Qed.
End Empty_2d.

Section Quality_2d.
Context {K : Type} `{!libmmg2d K}.
Import Mmg2d.

Lemma quality_2d_valid (h k : Z) (w : World K) :
  wf_table (g_handles_2d w) (g_initialized_2d w) →
  (validate_handle_2d h w).1 ≠ 0 →
  mmg2d_get_triangle_quality h k w
  = (MMG2D_Get_triangleQuality (mesh (entry_at (g_handles_2d w) h))
       (sol (entry_at (g_handles_2d w) h)) k (kernel w), w).
Proof.
  intros Hwf Hv. apply wp_eq.
  unfold mmg2d_get_triangle_quality, mesh_of, sol_of. by enter_2d Hwf Hv.
Qed.

Lemma quality_2d_invalid (h k : Z) (w : World K) :
  (validate_handle_2d h w).1 = 0 →
  (mmg2d_get_triangle_quality h k w).1 = 0%float.
Proof.
  intros Hv. unfold mmg2d_get_triangle_quality. cbv [mbind M_bind].
  destruct (validate_handle_2d h w) as [v w1]. simpl in Hv. by subst v.
Qed.

(** The loop of the bulk quality: cell [j - 1] receives the quality of
    element [j], for every [j] it runs through, and nothing else is
    touched. *)
Lemma qualities_loop_2d_spec (nt : Z) (m s q : ptr) (fuel : nat) :
  ∀ (k : Z) (w : World K),
  is_Some (live (heap w) !! q) →
  let w' := (qualities_loop fuel k nt m s q w).2 in
  (∀ j, k ≤ j < k + Z.of_nat fuel → j ≤ nt →
     load q (j - 1) (heap w')
     = Some (CDouble (MMG2D_Get_triangleQuality m s j (kernel w)))) ∧
  (∀ j, j < k → load q (j - 1) (heap w') = load q (j - 1) (heap w)) ∧
  (∀ h0 new, grown h0 (heap w) new → q ∈ new → grown h0 (heap w') new) ∧
  w' = set_heap (heap w') w.
Proof.
  induction fuel as [|fuel IH]; intros k w Hq; cbn [qualities_loop].
  - split_and!; [intros; lia | done | done | by destruct w].
  - destruct (Z.leb_spec k nt) as [Hk | Hk]; cycle 1.
    { split_and!; [intros; lia | done | done | by destruct w]. }
    cbv [mbind M_bind kget c_store]. cbn [fst snd].
    set (w1 := set_heap _ w).
    destruct (IH (k + 1) w1) as (Hset & Hkeep & Hg & Hw).
    { by apply store_keeps_block. }
    split_and!.
    + intros j Hj Hjn. destruct (decide (j = k)) as [-> | Hne].
      * rewrite Hkeep by lia. by apply load_store_eq.
      * apply Hset; lia.
    + intros j Hj. rewrite Hkeep by lia. apply load_store_ne. lia.
    + intros h0 new G Hin. apply Hg; [| done]. by apply grown_store.
    + rewrite Hw at 1. by destruct w.
Qed.

(** The bulk quality on a mesh with [nt > 0] elements: with the outcome
    [(p, h1)] of the one allocation it makes. *)
Lemma get_qualities_2d_outcome (h : Z) (out_count : OutInt) (w : World K)
    (np nt nquad na : Z) (p : ptr) (h1 : Heap) :
  wf_table (g_handles_2d w) (g_initialized_2d w) →
  (validate_handle_2d h w).1 ≠ 0 →
  MMG2D_Get_meshSize (mesh (entry_at (g_handles_2d w) h)) (kernel w)
  = (1, (np, nt, nquad, na)) →
  0 < nt →
  malloc (size_t (nt * sizeof_double)) (heap w) = (p, h1) →
  let r := mmg2d_get_triangles_qualities h out_count w in
  (p = NULL →
   r = ((NULL, store_out out_count 0), set_heap h1 w) ∧
   live h1 = live (heap w)) ∧
  (p ≠ NULL →
   r.1 = (p, store_out out_count nt) ∧
   live (heap w) !! p = None ∧
   delete p (live (heap r.2)) = live (heap w) ∧
   r.2 = set_heap (heap r.2) w ∧
   ∀ k, 1 ≤ k ≤ nt →
     load p (k - 1) (heap r.2)
     = Some (CDouble (mmg2d_get_triangle_quality h k w).1)).
Proof.
  intros Hwf Hv Hsz Hn Em. cbv zeta.
  destruct (grown_malloc _ _ _ _ _ _ (grown_refl (heap w)) Em)
    as [[-> G] | (Hp & _ & G)].
  - split; [intros _ | done]. split; [| by apply grown_none].
    apply wp_eq. unfold mmg2d_get_triangles_qualities, mesh_of, sol_of.
    enter_2d Hwf Hv. rewrite Hsz. cbn [negb Z.eqb Pos.eqb].
    rewrite (proj2 (Z.eqb_neq nt 0)) by lia.
    apply wp_bind. unfold wp, c_malloc. rewrite Em. done.
  - split; [done | intros _].
    set (m := mesh (entry_at (g_handles_2d w) h)) in *.
    set (s := sol (entry_at (g_handles_2d w) h)).
    assert (is_Some (live (heap (set_heap h1 w)) !! p)) as Hlive.
    { destruct G as [_ Hin]. apply (Hin p). set_solver. }
    destruct (qualities_loop_2d_spec nt m s p (Z.to_nat nt) 1
                (set_heap h1 w) Hlive) as (Hset & _ & Hg & Hw).
    assert (mmg2d_get_triangles_qualities h out_count w
            = ((p, store_out out_count nt),
               (qualities_loop (Z.to_nat nt) 1 nt m s p (set_heap h1 w)).2))
      as ->.
    { apply wp_eq. unfold mmg2d_get_triangles_qualities, mesh_of, sol_of.
      enter_2d Hwf Hv. fold m s. rewrite Hsz. cbn [negb Z.eqb Pos.eqb].
      rewrite (proj2 (Z.eqb_neq nt 0)) by lia.
      apply wp_bind. unfold wp at 1, c_malloc. rewrite Em. cbn [fst snd].
      rewrite (proj2 (Z.eqb_neq p NULL) Hp).
      apply wp_bind. unfold wp.
      by destruct (qualities_loop _ _ _ _ _ _ _). }
    cbn [fst snd].
    assert (grown (heap w)
              (heap (qualities_loop (Z.to_nat nt) 1 nt m s p
                       (set_heap h1 w)).2) {[p]}) as G1.
    { eapply grown_set; [| apply Hg; [exact G | set_solver]]. set_solver. }
    destruct (grown_one _ _ _ G1) as (Hfresh & _ & Hdel).
    split_and!; [done | done | done | |].
    + rewrite Hw at 1. by destruct w.
    + intros k Hk. rewrite quality_2d_valid by done. cbn [fst].
      apply Hset; lia.
Qed.
End Quality_2d.

Section Slots_2d.
Context {K : Type} `{!libmmg2d K}.
Import Mmg2d.

Local Abbreviation wf_2d w :=
  (wf_table (g_handles_2d w) (g_initialized_2d w)).

Lemma validate_2d_wf (h : Z) (w : World K) :
  wf_2d w → (validate_handle_2d h w).1 = slot_valid (g_handles_2d w) h.
Proof.
  intros Hwf. rewrite validate_2d_eq. cbn [fst].
  by rewrite ensure_2d_handles.
Qed.

Lemma available_2d_wf (w : World K) :
  wf_2d w →
  (mmg2d_get_available_handles w).1 = free_count (g_handles_2d w).
Proof.
  intros Hwf. rewrite available_2d_eq. cbn [fst].
  rewrite ensure_2d_handles by done. apply count_free_loop_full, Hwf.
Qed.

Lemma exec_2d_handles_other (c : call) (w : World K) :
  wf_2d w → lifecycle_2d c = false →
  g_handles_2d (exec c w).2 = g_handles_2d w.
Proof.
  intros Hwf Hc. destruct (exec_2d_tables c Hc) as [Hs | Hp].
  - specialize (Hs w). unfold tables_2d in Hs. injection Hs as -> _.
    by apply ensure_2d_handles.
  - specialize (Hp w). unfold tables_2d in Hp. by injection Hp as -> _.
Qed.

(** [init]: the handle is the first free slot, found by
    [find_free_handle_2d], or -1; the table changes in that slot, and
    only when a handle is returned. *)
Lemma init_2d_outcome (w : World K) :
  wf_2d w →
  let t := g_handles_2d w in
  let f := find_free_loop t 0 (Z.to_nat MAX_HANDLES) in
  let '((res, m, s), k1) := MMG2D_Init_mesh (kernel w) in
  let r := mmg2d_init w in
  (find_free_handle_2d w).1 = f ∧
  g_handles_2d (find_free_handle_2d w).2 = t ∧
  heap r.2 = heap w ∧
  if (f <? 0) || negb (res =? 1) || (m =? NULL)
  then r.1 = -1 ∧ g_handles_2d r.2 = t
  else r.1 = f ∧ g_handles_2d r.2 = set_entry t f m s 1 ∧
       kernel r.2 = MMG2D_Init_parameters m k1.
Proof.
  intros Hwf. cbv zeta.
  pose proof (ensure_2d_handles w Hwf) as Ht.
  pose proof (ensure_2d_outside w) as Ho.
  rewrite init_2d_eq. unfold find_free_handle_2d. unfold_M.
  destruct (ensure_initialized_2d w) as [[] w1]. cbn [fst snd] in *.
  unfold outside_2d in Ho. injection Ho as _ _ _ _ Hh Hk.
  rewrite Ht, Hk.
  destruct (MMG2D_Init_mesh (kernel w)) as [[[res m] s] k1].
  split_and!; [done | done | |].
  - repeat case_match; done.
  - destruct (_ <? 0); [done |]. cbn [orb].
    destruct (negb (res =? 1) || (m =? NULL)); done.
Qed.

Lemma init_2d_result (w : World K) :
  wf_2d w →
  let t := g_handles_2d w in
  let r := (mmg2d_init w).1 in
  r = -1 ∨
  (0 ≤ r < MAX_HANDLES ∧
   r = find_free_loop t 0 (Z.to_nat MAX_HANDLES) ∧
   active (entry_at t r) = 0 ∧
   (∀ j, 0 ≤ j < r → active (entry_at t j) ≠ 0) ∧
   ∃ m s, g_handles_2d (mmg2d_init w).2 = set_entry t r m s 1).
Proof.
  intros Hwf. cbv zeta. pose proof (init_2d_outcome w Hwf) as Ho.
  cbv zeta in Ho. destruct (MMG2D_Init_mesh (kernel w)) as [[[res m] s] k1].
  destruct Ho as (_ & _ & _ & Ho).
  destruct (find_free_loop_spec (g_handles_2d w) (Z.to_nat MAX_HANDLES) 0)
    as [[Hr Hall] | (Hr & Hz & Hall)]; cbv zeta in *.
  - rewrite Hr in Ho. left. apply Ho.
  - destruct (_ || _); [left; apply Ho | right].
    destruct Ho as (-> & Ht & _).
    split_and!; [lia | unfold MAX_HANDLES in *; lia | done.. | eauto].
Qed.

Lemma init_2d_failed (w : World K) :
  wf_2d w → (mmg2d_init w).1 = -1 →
  g_handles_2d (mmg2d_init w).2 = g_handles_2d w.
Proof.
  intros Hwf Hr. pose proof (init_2d_outcome w Hwf) as Ho.
  cbv zeta in Ho. destruct (MMG2D_Init_mesh (kernel w)) as [[[res m] s] k1].
  destruct Ho as (_ & _ & _ & Ho).
  destruct (_ || _) eqn:Hc; [apply Ho |]. destruct Ho as (Hf & _).
  apply orb_false_elim in Hc as [Hc _].
  apply orb_false_elim in Hc as [Hc _]. lia.
Qed.

Lemma init_2d_count (w : World K) :
  wf_2d w →
  free_count (g_handles_2d (mmg2d_init w).2)
  = free_count (g_handles_2d w)
    - (if (mmg2d_init w).1 =? -1 then 0 else 1).
Proof.
  intros Hwf. destruct (init_2d_result w Hwf) as [Hr | Hr]; cbv zeta in Hr.
  - rewrite init_2d_failed, Hr by done. simpl. lia.
  - destruct Hr as (Hr & _ & Hz & _ & m & s & ->).
    rewrite free_count_set_entry, Hz; [| lia | destruct Hwf; lia].
    destruct (Z.eqb_spec (mmg2d_init w).1 (-1)); simpl; lia.
Qed.

Lemma free_2d_outcome (h : Z) (w : World K) :
  wf_2d w →
  let t := g_handles_2d w in
  let r := mmg2d_free h w in
  heap r.2 = heap w ∧
  if slot_valid t h =? 0
  then r.1 = 0 ∧ g_handles_2d r.2 = t ∧ kernel r.2 = kernel w
  else r.1 = 1 ∧ g_handles_2d r.2 = set_entry t h NULL NULL 0 ∧
       kernel r.2
       = MMG2D_Free_all (mesh (entry_at t h)) (sol (entry_at t h))
           (kernel w).
Proof.
  intros Hwf. cbv zeta. rewrite free_2d_eq, validate_2d_wf by done.
  pose proof (ensure_2d_handles w Hwf) as Ht.
  pose proof (ensure_2d_outside w) as Ho.
  destruct (ensure_initialized_2d w) as [[] w1]. cbn [fst snd] in *.
  unfold outside_2d in Ho. injection Ho as _ _ _ _ Hh Hk.
  cbv zeta. rewrite Ht, Hk. by destruct (slot_valid _ _ =? 0).
Qed.
End Slots_2d.

Section Runs_2d.
Context {K : Type} `{!libmmg2d K}.
Import Mmg2d.

Local Abbreviation wf_2d w :=
  (wf_table (g_handles_2d w) (g_initialized_2d w)).

Lemma exec_init_2d (w : World K) :
  exec Init w = (RInt (mmg2d_init w).1, (mmg2d_init w).2).
Proof. unfold exec, r_int. unfold_M. by destruct (mmg2d_init w). Qed.

Lemma exec_free_2d (h : Z) (w : World K) :
  exec (Free h) w = (RInt (mmg2d_free h w).1, (mmg2d_free h w).2).
Proof. unfold exec, r_int. unfold_M. by destruct (mmg2d_free h w). Qed.

Lemma run_2d_cons (c : call) (cs : list call) (w : World K) :
  run (c :: cs) w
  = ((exec c w).1 :: (run cs (exec c w).2).1, (run cs (exec c w).2).2).
Proof.
  cbn [run]. destruct (exec c w) as [r w1]. cbn [fst snd].
  by destruct (run cs w1).
Qed.

Lemma run_2d_wf (cs : list call) : ∀ w : World K,
  wf_2d w → wf_2d (run cs w).2.
Proof.
  induction cs as [|c cs IH]; intros w Hwf; [done |].
  rewrite run_2d_cons. cbn [snd]. by apply IH, exec_2d_wf.
Qed.

(** A valid handle stays valid through every call but its own [free]. *)
Lemma exec_2d_valid_step (c : call) (h : Z) (w : World K) :
  wf_2d w → c ≠ Free h → slot_valid (g_handles_2d w) h ≠ 0 →
  slot_valid (g_handles_2d (exec c w).2) h = slot_valid (g_handles_2d w) h.
Proof.
  intros Hwf Hc Hv. destruct (lifecycle_2d c) eqn:Hl.
  - destruct c; try discriminate.
    + rewrite exec_init_2d. cbn [snd].
      destruct (init_2d_result w Hwf) as [Hr | Hr]; cbv zeta in Hr.
      * by rewrite init_2d_failed.
      * destruct Hr as (Hr & _ & Hz & _ & m & s & ->).
        rewrite slot_valid_set_entry;
          [| lia | destruct Hwf; unfold MAX_HANDLES in *; lia | apply Hwf].
        destruct (Z.eqb_spec h (mmg2d_init w).1) as [-> | _]; [| done].
        exfalso. apply Hv. unfold slot_valid.
        by destruct ((_ <? 0) || _).
    + rewrite exec_free_2d. cbn [snd].
      pose proof (free_2d_outcome handle w Hwf) as Ho. cbv zeta in Ho.
      destruct Ho as [_ Ho].
      destruct (Z.eqb_spec (slot_valid (g_handles_2d w) handle) 0)
        as [Hz | Hnz].
      * by destruct Ho as (_ & -> & _).
      * destruct Ho as (_ & -> & _).
        assert (0 ≤ handle < MAX_HANDLES) as Hr.
        { unfold slot_valid in Hnz.
          destruct (Z.ltb_spec handle 0); [done |].
          destruct (Z.geb_spec handle MAX_HANDLES); [done | lia]. }
        rewrite slot_valid_set_entry;
          [| lia | destruct Hwf; unfold MAX_HANDLES in *; lia | apply Hwf].
        destruct (Z.eqb_spec h handle) as [-> | _]; [| done].
        by destruct Hc.
  - by rewrite exec_2d_handles_other.
Qed.

(** A handle that is not valid stays so through every call but an
    [init] that hands it out. *)
Lemma exec_2d_invalid_step (c : call) (h : Z) (w : World K) :
  wf_2d w → slot_valid (g_handles_2d w) h = 0 →
  (c = Init → (exec c w).1 ≠ RInt h) →
  slot_valid (g_handles_2d (exec c w).2) h = 0.
Proof.
  intros Hwf Hv Hc. destruct (lifecycle_2d c) eqn:Hl.
  - destruct c; try discriminate.
    + specialize (Hc eq_refl). rewrite exec_init_2d in *. cbn [fst snd] in *.
      destruct (init_2d_result w Hwf) as [Hr | Hr]; cbv zeta in Hr.
      * by rewrite init_2d_failed.
      * destruct Hr as (Hr & _ & Hz & _ & m & s & ->).
        rewrite slot_valid_set_entry;
          [| lia | destruct Hwf; unfold MAX_HANDLES in *; lia | apply Hwf].
        destruct (Z.eqb_spec h (mmg2d_init w).1) as [-> | _]; [| done].
        by destruct Hc.
    + rewrite exec_free_2d. cbn [snd].
      pose proof (free_2d_outcome handle w Hwf) as Ho. cbv zeta in Ho.
      destruct Ho as [_ Ho].
      destruct (Z.eqb_spec (slot_valid (g_handles_2d w) handle) 0)
        as [Hz | Hnz].
      * by destruct Ho as (_ & -> & _).
      * destruct Ho as (_ & -> & _).
        assert (0 ≤ handle < MAX_HANDLES) as Hr.
        { unfold slot_valid in Hnz.
          destruct (Z.ltb_spec handle 0); [done |].
          destruct (Z.geb_spec handle MAX_HANDLES); [done | lia]. }
        rewrite slot_valid_set_entry;
          [| lia | destruct Hwf; unfold MAX_HANDLES in *; lia | apply Hwf].
        by destruct (h =? handle).
  - by rewrite exec_2d_handles_other.
Qed.

Lemma run_2d_valid (h : Z) (cs : list call) : ∀ w : World K,
  wf_2d w → Free h ∉ cs → slot_valid (g_handles_2d w) h ≠ 0 →
  slot_valid (g_handles_2d (run cs w).2) h = slot_valid (g_handles_2d w) h.
Proof.
  induction cs as [|c cs IH]; intros w Hwf Hcs Hv; [done |].
  rewrite run_2d_cons. cbn [snd].
  apply not_elem_of_cons in Hcs as [Hc Hcs].
  pose proof (exec_2d_valid_step c h w Hwf ltac:(done) Hv) as Hstep.
  rewrite IH; [done | by apply exec_2d_wf | done | by rewrite Hstep].
Qed.

Lemma run_2d_invalid (h : Z) (cs : list call) : ∀ w : World K,
  wf_2d w → slot_valid (g_handles_2d w) h = 0 →
  ¬ reissued_2d cs (run cs w).1 h →
  slot_valid (g_handles_2d (run cs w).2) h = 0.
Proof.
  induction cs as [|c cs IH]; intros w Hwf Hv Hre; [done |].
  rewrite run_2d_cons in *. cbn [fst snd] in *.
  apply IH; [by apply exec_2d_wf | |].
  - apply exec_2d_invalid_step; [done.. |]. intros -> Hr.
    apply Hre. exists 0%nat. by rewrite Hr.
  - intros (i & Hi & Hr). apply Hre. by exists (S i).
Qed.

(** [n] calls of [init] that all hand out a handle take [n] slots. *)
Lemma run_inits_2d (n : nat) : ∀ w : World K,
  wf_2d w →
  (∀ r, r ∈ (run (replicate n Init) w).1 → r ≠ RInt (-1)) →
  free_count (g_handles_2d (run (replicate n Init) w).2)
  = free_count (g_handles_2d w) - Z.of_nat n.
Proof.
  induction n as [|n IH]; intros w Hwf Hok; [simpl; lia |].
  cbn [replicate] in *. rewrite run_2d_cons in *. cbn [fst snd] in *.
  rewrite exec_init_2d in *. cbn [fst snd] in *.
  rewrite IH, init_2d_count; [| done | by apply init_2d_wf |].
  - destruct (Z.eqb_spec (mmg2d_init w).1 (-1)) as [Hr | _]; [| lia].
    exfalso. apply (Hok (RInt (mmg2d_init w).1)); [left | by rewrite Hr].
  - intros r Hr. apply Hok. by right.
Qed.
End Runs_2d.

(** ** [mmg3d.c]: the handle table *)

Section Table_3d.
Context {K : Type} `{!libmmg3d K}.
Import Mmg3d.

Lemma ensure_3d_outside (w : World K) :
  outside_3d (ensure_initialized w).2 = outside_3d w.
Proof. unfold ensure_initialized. by case_match. Qed.

Lemma ensure_3d_initialized (w : World K) :
  g_initialized (ensure_initialized w).2 ≠ 0.
Proof.
  unfold ensure_initialized.
  destruct (Z.eqb_spec (g_initialized w) 0); simpl; lia.
Qed.

Lemma ensure_3d_handles (w : World K) :
  wf_table (g_handles w) (g_initialized w) →
  g_handles (ensure_initialized w).2 = g_handles w.
Proof.
  intros [_ Hz]. unfold ensure_initialized.
  destruct (Z.eqb_spec (g_initialized w) 0); simpl; [|done].
  symmetry. by apply Hz.
Qed.

Lemma ensure_3d_ready (w : World K) :
  g_initialized w ≠ 0 → ensure_initialized w = (tt, w).
Proof.
  intros Hi. unfold ensure_initialized.
  by destruct (Z.eqb_spec (g_initialized w) 0).
Qed.

Lemma ensure_3d_wf (w : World K) :
  wf_table (g_handles w) (g_initialized w) →
  wf_table (g_handles (ensure_initialized w).2)
           (g_initialized (ensure_initialized w).2).
Proof.
  intros Hwf. split.
  - rewrite ensure_3d_handles by done. apply Hwf.
  - intros Hi. by apply ensure_3d_initialized in Hi.
Qed.

Lemma preserves_ensure_3d {S} (proj : World K → S) :
  (∀ t i w, proj (set_table_3d t i w) = proj w) →
  preserves proj ensure_initialized.
Proof.
  intros Hp w. unfold ensure_initialized. case_match; simpl; auto.
Qed.

Lemma settles_3d_ensure {S} (proj : World K → S) :
  settles_3d proj ensure_initialized.
Proof. done. Qed.

Lemma settles_3d_bind {S A B} (proj : World K → S) (m : M K A)
    (f : A → M K B) :
  settles_3d proj m → (∀ a, preserves proj (f a)) →
  settles_3d proj (m ≫= f).
Proof.
  intros Hm Hf w. unfold mbind, M_bind. specialize (Hm w).
  destruct (m w) as [a w1]. simpl in Hm. by rewrite Hf.
Qed.

Lemma preserves_qualities_loop_3d {S} (proj : World K → S) fuel :
  static_part proj → ∀ k nt m s q,
  preserves proj (qualities_loop fuel k nt m s q).
Proof.
  intros Hs. induction fuel as [|fuel IH]; intros; simpl; frame.
Qed.
End Table_3d.

#[global] Hint Resolve preserves_qualities_loop_3d : frame.

#[global] Hint Extern 1 (preserves _ Mmg3d.ensure_initialized) =>
  apply preserves_ensure_3d; intros; reflexivity : frame.

Ltac unfold_ops_3d :=
  unfold Mmg3d.exec, r_int, r_buf,
    Mmg3d.mmg3d_init, Mmg3d.mmg3d_free, Mmg3d.mmg3d_get_available_handles,
    Mmg3d.mmg3d_get_max_handles, Mmg3d.mmg3d_set_mesh_size,
    Mmg3d.mmg3d_get_mesh_size, Mmg3d.mmg3d_set_vertex,
    Mmg3d.mmg3d_set_vertices, Mmg3d.mmg3d_get_vertices,
    Mmg3d.mmg3d_set_triangle, Mmg3d.mmg3d_set_triangles,
    Mmg3d.mmg3d_get_triangles, Mmg3d.mmg3d_set_tetrahedron,
    Mmg3d.mmg3d_set_tetrahedra,
    Mmg3d.mmg3d_get_tetrahedra, Mmg3d.mmg3d_set_iparameter,
    Mmg3d.mmg3d_set_dparameter, Mmg3d.mmg3d_set_sol_size,
    Mmg3d.mmg3d_get_sol_size, Mmg3d.mmg3d_set_scalar_sols,
    Mmg3d.mmg3d_get_scalar_sols, Mmg3d.mmg3d_set_tensor_sols,
    Mmg3d.mmg3d_get_tensor_sols, Mmg3d.mmg3d_remesh, Mmg3d.mmg3d_free_array,
    Mmg3d.mmg3d_load_mesh, Mmg3d.mmg3d_save_mesh, Mmg3d.mmg3d_load_sol,
    Mmg3d.mmg3d_save_sol, Mmg3d.mmg3d_get_tetrahedron_quality,
    Mmg3d.mmg3d_get_tetrahedra_qualities.

Ltac unfold_3d :=
  unfold_ops_3d;
  unfold Mmg3d.find_free_handle, Mmg3d.validate_handle,
    Mmg3d.mesh_of, Mmg3d.sol_of.

Ltac settle_3d :=
  unfold_3d;
  repeat (apply settles_3d_bind; [| frame]);
  apply settles_3d_ensure.

Section Exec_3d.
Context {K : Type} `{!libmmg3d K}.
Import Mmg3d.

(** No entry point of [mmg3d.c] touches the tables of the other two
    files. *)
Lemma exec_3d_frame_2d (c : call) : preserves (@tables_2d K) (exec c).
Proof. destruct c; unfold_3d; frame. Qed.

Lemma exec_3d_frame_s (c : call) : preserves (@tables_s K) (exec c).
Proof. destruct c; unfold_3d; frame. Qed.

(** Besides [init] and [free], an entry point does nothing to its own
    table but initialise it on first use. *)
Lemma exec_3d_tables (c : call) :
  lifecycle_3d c = false →
  settles_3d (@tables_3d K) (exec c) ∨ preserves (@tables_3d K) (exec c).
Proof.
  destruct c; try discriminate; intros _;
    first [ left; settle_3d | right; unfold_3d; frame ].
Qed.
End Exec_3d.

Section Lifecycle_3d.
Context {K : Type} `{!libmmg3d K}.
Import Mmg3d.

Lemma validate_3d_eq (h : Z) (w : World K) :
  validate_handle h w
  = (if (h <? 0) || (h >=? MAX_HANDLES) then 0
     else active (entry_at (g_handles (ensure_initialized w).2) h),
     (ensure_initialized w).2).
Proof.
  unfold validate_handle. unfold_M.
  destruct (ensure_initialized w) as [[] w1]. simpl.
  by destruct ((h <? 0) || (h >=? MAX_HANDLES)).
Qed.

Lemma available_3d_eq (w : World K) :
  mmg3d_get_available_handles w
  = (count_free_loop (g_handles (ensure_initialized w).2) 0 0
       (Z.to_nat MAX_HANDLES),
     (ensure_initialized w).2).
Proof.
  unfold mmg3d_get_available_handles. unfold_M.
  by destruct (ensure_initialized w) as [[] w1].
Qed.

Lemma init_3d_eq (w : World K) :
  mmg3d_init w
  = let w1 := (ensure_initialized w).2 in
    let h := find_free_loop (g_handles w1) 0 (Z.to_nat MAX_HANDLES) in
    if h <? 0 then (-1, w1)
    else
      let '((r, m, s), k1) := MMG3D_Init_mesh (kernel w1) in
      if negb (r =? 1) || (m =? NULL) then (-1, set_kernel k1 w1)
      else (h, set_table_3d (set_entry (g_handles w1) h m s 1)
                 (g_initialized w1)
                 (set_kernel (MMG3D_Init_parameters m k1) w1)).
Proof.
  unfold mmg3d_init, find_free_handle. unfold_M.
  destruct (ensure_initialized w) as [[] w1]. simpl.
  case_match; [done |].
  destruct (MMG3D_Init_mesh (kernel w1)) as [[[r m] s] k1].
  by case_match.
Qed.

Lemma free_3d_eq (h : Z) (w : World K) :
  mmg3d_free h w
  = let w1 := (ensure_initialized w).2 in
    if (validate_handle h w).1 =? 0 then (0, w1)
    else
      let e := entry_at (g_handles w1) h in
      (1, set_table_3d (set_entry (g_handles w1) h NULL NULL 0)
            (g_initialized w1)
            (set_kernel (MMG3D_Free_all (mesh e) (sol e) (kernel w1)) w1)).
Proof.
  unfold mmg3d_free, mesh_of, sol_of. unfold_M.
  rewrite validate_3d_eq. simpl. by case_match.
Qed.

(** An entry point called on a handle that is not valid gives its
    failure value and does nothing else. *)
Lemma exec_3d_invalid (c : call) (h : Z) (w : World K) :
  handle_of c = Some h →
  (validate_handle h w).1 = 0 →
  exec c w = (sentinel c, (ensure_initialized w).2).
Proof.
  intros Hc Hv. pose proof (validate_3d_eq h w) as E.
  destruct (validate_handle h w) as [v w1] eqn:Ev. simpl in Hv. subst v.
  apply (f_equal snd) in E. simpl in E. subst w1.
  destruct c; simpl in Hc; try discriminate; injection Hc as ->;
    unfold_ops_3d; unfold mbind, M_bind; rewrite Ev; reflexivity.
Qed.
End Lifecycle_3d.

Section Invariant_3d.
Context {K : Type} `{!libmmg3d K}.
Import Mmg3d.

Local Abbreviation wf_3d w :=
  (wf_table (g_handles w) (g_initialized w)).

Lemma exec_3d_fst_snd {A} (m : M K A) (f : A → ret) (w : World K) :
  ((a ← m; mret (f a)) w).2 = (m w).2.
Proof. cbv [mbind M_bind mret M_ret]. by destruct (m w). Qed.

Lemma init_3d_wf (w : World K) : wf_3d w → wf_3d (mmg3d_init w).2.
Proof.
  intros Hwf. rewrite init_3d_eq. cbv zeta.
  pose proof (ensure_3d_wf w Hwf) as Hwf1.
  pose proof (ensure_3d_initialized w) as Hi.
  set (w1 := (ensure_initialized w).2) in *.
  case_match; [done |].
  destruct (MMG3D_Init_mesh (kernel w1)) as [[[r m] s] k1].
  case_match; [done |]. simpl. by apply wf_table_set_entry.
Qed.

Lemma free_3d_wf (h : Z) (w : World K) : wf_3d w → wf_3d (mmg3d_free h w).2.
Proof.
  intros Hwf. rewrite free_3d_eq. cbv zeta.
  pose proof (ensure_3d_wf w Hwf) as Hwf1.
  pose proof (ensure_3d_initialized w) as Hi.
  set (w1 := (ensure_initialized w).2) in *.
  case_match; [done |]. simpl. by apply wf_table_set_entry.
Qed.

Lemma exec_3d_wf (c : call) (w : World K) : wf_3d w → wf_3d (exec c w).2.
Proof.
  intros Hwf. destruct (lifecycle_3d c) eqn:Hc.
  - destruct c; try discriminate; unfold exec, r_int;
      rewrite exec_3d_fst_snd; [by apply init_3d_wf | by apply free_3d_wf].
  - destruct (exec_3d_tables c Hc) as [Hs | Hp].
    + specialize (Hs w). unfold tables_3d in Hs.
      injection Hs as -> ->. by apply ensure_3d_wf.
    + specialize (Hp w). unfold tables_3d in Hp. by injection Hp as -> ->.
Qed.

(** What [available_count()] and [max_handles()] read in a state. *)
Lemma counts_3d (w : World K) :
  wf_3d w →
  active_count (g_handles w) ≤ MAX_HANDLES ∧
  (mmg3d_get_available_handles w).1 + active_count (g_handles w)
  = (mmg3d_get_max_handles w).1.
Proof.
  intros Hwf. rewrite available_3d_eq. simpl.
  rewrite ensure_3d_handles by done. by eapply wf_table_counts.
Qed.
End Invariant_3d.

Section Bulk_3d.
Context {K : Type} `{!libmmg3d K}.
Import Mmg3d.

Lemma valid_3d_ready (h : Z) (w : World K) :
  wf_table (g_handles w) (g_initialized w) →
  (validate_handle h w).1 ≠ 0 →
  ensure_initialized w = (tt, w) ∧
  validate_handle h w = (active (entry_at (g_handles w) h), w) ∧
  0 ≤ h < MAX_HANDLES.
Proof.
  intros [_ Hz] Hv. rewrite validate_3d_eq in *. simpl in Hv.
  destruct ((h <? 0) || (h >=? MAX_HANDLES)) eqn:Hr; [done |].
  assert (g_initialized w ≠ 0) as Hi.
  { intros Hi. unfold ensure_initialized in Hv.
    rewrite Hi in Hv. simpl in Hv. apply Hv. unfold entry_at.
    destruct (memset_zero !! Z.to_nat h) as [e|] eqn:He; [|done].
    apply lookup_replicate in He as [-> _]. done. }
  rewrite ensure_3d_ready by done. repeat split; try done; lia.
Qed.

Lemma wp_validate_3d (h : Z) (Q : Z → World K → Prop) (w : World K) :
  wf_table (g_handles w) (g_initialized w) →
  (validate_handle h w).1 ≠ 0 →
  Q (validate_handle h w).1 w →
  wp (validate_handle h) Q w.
Proof.
  intros Hwf Hv HQ. destruct (valid_3d_ready h w Hwf Hv) as (_ & E & _).
  unfold wp. by rewrite E in *.
Qed.
End Bulk_3d.

(** Enter a wrapper of [mmg3d.c] with a valid handle. *)
Ltac enter_3d Hwf Hv :=
  apply wp_bind, wp_validate_3d; [exact Hwf | exact Hv |];
  rewrite (proj2 (Z.eqb_neq _ _) Hv);
  repeat wp_step.

Section Getters_3d.
Context {K : Type} `{!libmmg3d K}.
Import Mmg3d.

Lemma get_vertices_3d_outcome (h : Z) (out_count : OutInt) (w : World K)
    (np ne nprism nt nquad na : Z) :
  wf_table (g_handles w) (g_initialized w) →
  (validate_handle h w).1 ≠ 0 →
  MMG3D_Get_meshSize (mesh (entry_at (g_handles w) h)) (kernel w)
  = (1, (np, ne, nprism, nt, nquad, na)) →
  np ≠ 0 →
  let r := mmg3d_get_vertices h out_count w in
  bulk_get_outcome (heap w)
    [size_t (3 * np * sizeof_double); size_t (np * sizeof_MMG5_int);
     size_t (np * sizeof_int); size_t (np * sizeof_int)]
    (MMG3D_Get_vertices (mesh (entry_at (g_handles w) h)) (kernel w)).1
    np out_count r.1.1 r.1.2 (heap r.2).
Proof.
  intros Hwf Hv Hsz Hn. cbv zeta.
  destruct (MMG3D_Get_vertices _ _) as [kres [[[d1 d2] d3] d4]] eqn:Eget.
  cbn [fst]. bulk_wp (mmg3d_get_vertices h out_count) w.
  pose proof (grown_refl (heap w)) as G.
  unfold mmg3d_get_vertices, mesh_of. enter_3d Hwf Hv.
  rewrite Hsz. cbn [negb Z.eqb Pos.eqb].
  rewrite (proj2 (Z.eqb_neq _ _) Hn).
  wp_alloc G; [repeat wp_step; bulk_leaf G |].
  do 3 wp_alloc G; repeat wp_step;
    try (rewrite Eget; repeat wp_step;
         destruct (Z.eqb_spec kres 1); cbn [negb]; repeat wp_step);
    bulk_leaf G.
Qed.

Lemma get_tetrahedra_3d_outcome (h : Z) (out_count : OutInt) (w : World K)
    (np ne nprism nt nquad na : Z) :
  wf_table (g_handles w) (g_initialized w) →
  (validate_handle h w).1 ≠ 0 →
  MMG3D_Get_meshSize (mesh (entry_at (g_handles w) h)) (kernel w)
  = (1, (np, ne, nprism, nt, nquad, na)) →
  ne ≠ 0 →
  let r := mmg3d_get_tetrahedra h out_count w in
  bulk_get_outcome (heap w)
    [size_t (4 * ne * sizeof_MMG5_int); size_t (ne * sizeof_MMG5_int);
     size_t (ne * sizeof_int)]
    (MMG3D_Get_tetrahedra (mesh (entry_at (g_handles w) h)) (kernel w)).1
    ne out_count r.1.1 r.1.2 (heap r.2).
Proof.
  intros Hwf Hv Hsz Hn. cbv zeta.
  destruct (MMG3D_Get_tetrahedra _ _) as [kres [[d1 d2] d3]] eqn:Eget.
  cbn [fst]. bulk_wp (mmg3d_get_tetrahedra h out_count) w.
  pose proof (grown_refl (heap w)) as G.
  unfold mmg3d_get_tetrahedra, mesh_of. enter_3d Hwf Hv.
  rewrite Hsz. cbn [negb Z.eqb Pos.eqb].
  rewrite (proj2 (Z.eqb_neq _ _) Hn).
  wp_alloc G; [repeat wp_step; bulk_leaf G |].
  do 2 wp_alloc G; repeat wp_step;
    try (rewrite Eget; repeat wp_step;
         destruct (Z.eqb_spec kres 1); cbn [negb]; repeat wp_step);
    bulk_leaf G.
Qed.

Lemma get_triangles_3d_outcome (h : Z) (out_count : OutInt) (w : World K)
    (np ne nprism nt nquad na : Z) :
  wf_table (g_handles w) (g_initialized w) →
  (validate_handle h w).1 ≠ 0 →
  MMG3D_Get_meshSize (mesh (entry_at (g_handles w) h)) (kernel w)
  = (1, (np, ne, nprism, nt, nquad, na)) →
  nt ≠ 0 →
  let r := mmg3d_get_triangles h out_count w in
  bulk_get_outcome (heap w)
    [size_t (3 * nt * sizeof_MMG5_int); size_t (nt * sizeof_MMG5_int);
     size_t (nt * sizeof_int)]
    (MMG3D_Get_triangles (mesh (entry_at (g_handles w) h)) (kernel w)).1
    nt out_count r.1.1 r.1.2 (heap r.2).
Proof.
  intros Hwf Hv Hsz Hn. cbv zeta.
  destruct (MMG3D_Get_triangles _ _) as [kres [[d1 d2] d3]] eqn:Eget.
  cbn [fst]. bulk_wp (mmg3d_get_triangles h out_count) w.
  pose proof (grown_refl (heap w)) as G.
  unfold mmg3d_get_triangles, mesh_of. enter_3d Hwf Hv.
  rewrite Hsz. cbn [negb Z.eqb Pos.eqb].
  rewrite (proj2 (Z.eqb_neq _ _) Hn).
  wp_alloc G; [repeat wp_step; bulk_leaf G |].
  do 2 wp_alloc G; repeat wp_step;
    try (rewrite Eget; repeat wp_step;
         destruct (Z.eqb_spec kres 1); cbn [negb]; repeat wp_step);
    bulk_leaf G.
Qed.
End Getters_3d.
Section Empty_3d.
Context {K : Type} `{!libmmg3d K}.
Import Mmg3d.

Lemma get_vertices_3d_empty (h : Z) (out_count : OutInt) (w : World K)
    (r ne nprism nt nquad na : Z) :
  wf_table (g_handles w) (g_initialized w) →
  (validate_handle h w).1 ≠ 0 →
  MMG3D_Get_meshSize (mesh (entry_at (g_handles w) h)) (kernel w)
  = (r, (0, ne, nprism, nt, nquad, na)) →
  mmg3d_get_vertices h out_count w = ((NULL, store_out out_count 0), w).
Proof.
  intros Hwf Hv Hsz. apply wp_eq.
  unfold mmg3d_get_vertices, mesh_of. enter_3d Hwf Hv.
  rewrite Hsz. by case_match; repeat wp_step.
Qed.

Lemma get_tetrahedra_3d_empty (h : Z) (out_count : OutInt) (w : World K)
    (r np nprism nt nquad na : Z) :
  wf_table (g_handles w) (g_initialized w) →
  (validate_handle h w).1 ≠ 0 →
  MMG3D_Get_meshSize (mesh (entry_at (g_handles w) h)) (kernel w)
  = (r, (np, 0, nprism, nt, nquad, na)) →
  mmg3d_get_tetrahedra h out_count w = ((NULL, store_out out_count 0), w).
Proof.
  intros Hwf Hv Hsz. apply wp_eq.
  unfold mmg3d_get_tetrahedra, mesh_of. enter_3d Hwf Hv.
  rewrite Hsz. by case_match; repeat wp_step.
Qed.

Lemma get_triangles_3d_empty (h : Z) (out_count : OutInt) (w : World K)
    (r np ne nprism nquad na : Z) :
  wf_table (g_handles w) (g_initialized w) →
  (validate_handle h w).1 ≠ 0 →
  MMG3D_Get_meshSize (mesh (entry_at (g_handles w) h)) (kernel w)
  = (r, (np, ne, nprism, 0, nquad, na)) →
  mmg3d_get_triangles h out_count w = ((NULL, store_out out_count 0), w).
Proof.
  intros Hwf Hv Hsz. apply wp_eq.
  unfold mmg3d_get_triangles, mesh_of. enter_3d Hwf Hv.
  rewrite Hsz. by case_match; repeat wp_step.
Qed.

Lemma get_qualities_3d_empty (h : Z) (out_count : OutInt) (w : World K)
    (r np nprism nt nquad na : Z) :
  wf_table (g_handles w) (g_initialized w) →
  (validate_handle h w).1 ≠ 0 →
  MMG3D_Get_meshSize (mesh (entry_at (g_handles w) h)) (kernel w)
  = (r, (np, 0, nprism, nt, nquad, na)) →
  mmg3d_get_tetrahedra_qualities h out_count w = ((NULL, store_out out_count 0), w).
Proof.
  intros Hwf Hv Hsz. apply wp_eq.
  unfold mmg3d_get_tetrahedra_qualities, mesh_of, sol_of. enter_3d Hwf Hv.
  rewrite Hsz. by case_match; repeat wp_step.
Qed.

(** The getters of the solution give up on an empty solution and on a
    solution of another type than the one they return. *)
Lemma get_scalar_sols_3d_guard (h : Z) (out_count : OutInt) (w : World K)
    (r typEntity np typSol : Z) :
  wf_table (g_handles w) (g_initialized w) →
  (validate_handle h w).1 ≠ 0 →
  MMG3D_Get_solSize (mesh (entry_at (g_handles w) h))
    (sol (entry_at (g_handles w) h)) (kernel w)
  = (r, (typEntity, np, typSol)) →
  np = 0 ∨ typSol ≠ 1 →
  mmg3d_get_scalar_sols h out_count w = ((NULL, store_out out_count 0), w).
Proof.
  intros Hwf Hv Hsz Hg. apply wp_eq.
  unfold mmg3d_get_scalar_sols, mesh_of, sol_of. enter_3d Hwf Hv.
  rewrite Hsz. case_match; repeat wp_step; [done |].
  replace ((np =? 0) || negb (typSol =? 1)) with true; [by repeat wp_step |].
  symmetry. apply orb_true_iff. rewrite negb_true_iff, Z.eqb_eq, Z.eqb_neq.
  done.
Qed.

Lemma get_tensor_sols_3d_guard (h : Z) (out_count : OutInt) (w : World K)
    (r typEntity np typSol : Z) :
  wf_table (g_handles w) (g_initialized w) →
  (validate_handle h w).1 ≠ 0 →
  MMG3D_Get_solSize (mesh (entry_at (g_handles w) h))
    (sol (entry_at (g_handles w) h)) (kernel w)
  = (r, (typEntity, np, typSol)) →
  np = 0 ∨ typSol ≠ 3 →
  mmg3d_get_tensor_sols h out_count w = ((NULL, store_out out_count 0), w).
Proof.
  intros Hwf Hv Hsz Hg. apply wp_eq.
  unfold mmg3d_get_tensor_sols, mesh_of, sol_of. enter_3d Hwf Hv.
  rewrite Hsz. case_match; repeat wp_step; [done |].
  replace ((np =? 0) || negb (typSol =? 3)) with true; [by repeat wp_step |].
  symmetry. apply orb_true_iff. rewrite negb_true_iff, Z.eqb_eq, Z.eqb_neq.
  done.
Qed.
End Empty_3d.

Section Quality_3d.
Context {K : Type} `{!libmmg3d K}.
Import Mmg3d.

Lemma quality_3d_valid (h k : Z) (w : World K) :
  wf_table (g_handles w) (g_initialized w) →
  (validate_handle h w).1 ≠ 0 →
  mmg3d_get_tetrahedron_quality h k w
  = (MMG3D_Get_tetrahedronQuality (mesh (entry_at (g_handles w) h))
       (sol (entry_at (g_handles w) h)) k (kernel w), w).
Proof.
  intros Hwf Hv. apply wp_eq.
  unfold mmg3d_get_tetrahedron_quality, mesh_of, sol_of. by enter_3d Hwf Hv.
Qed.

Lemma quality_3d_invalid (h k : Z) (w : World K) :
  (validate_handle h w).1 = 0 →
  (mmg3d_get_tetrahedron_quality h k w).1 = 0%float.
Proof.
  intros Hv. unfold mmg3d_get_tetrahedron_quality. cbv [mbind M_bind].
  destruct (validate_handle h w) as [v w1]. simpl in Hv. by subst v.
Qed.

(** The loop of the bulk quality: cell [j - 1] receives the quality of
    element [j], for every [j] it runs through, and nothing else is
    touched. *)
Lemma qualities_loop_3d_spec (nt : Z) (m s q : ptr) (fuel : nat) :
  ∀ (k : Z) (w : World K),
  is_Some (live (heap w) !! q) →
  let w' := (qualities_loop fuel k nt m s q w).2 in
  (∀ j, k ≤ j < k + Z.of_nat fuel → j ≤ nt →
     load q (j - 1) (heap w')
     = Some (CDouble (MMG3D_Get_tetrahedronQuality m s j (kernel w)))) ∧
  (∀ j, j < k → load q (j - 1) (heap w') = load q (j - 1) (heap w)) ∧
  (∀ h0 new, grown h0 (heap w) new → q ∈ new → grown h0 (heap w') new) ∧
  w' = set_heap (heap w') w.
Proof.
  induction fuel as [|fuel IH]; intros k w Hq; cbn [qualities_loop].
  - split_and!; [intros; lia | done | done | by destruct w].
  - destruct (Z.leb_spec k nt) as [Hk | Hk]; cycle 1.
    { split_and!; [intros; lia | done | done | by destruct w]. }
    cbv [mbind M_bind kget c_store]. cbn [fst snd].
    set (w1 := set_heap _ w).
    destruct (IH (k + 1) w1) as (Hset & Hkeep & Hg & Hw).
    { by apply store_keeps_block. }
    split_and!.
    + intros j Hj Hjn. destruct (decide (j = k)) as [-> | Hne].
      * rewrite Hkeep by lia. by apply load_store_eq.
      * apply Hset; lia.
    + intros j Hj. rewrite Hkeep by lia. apply load_store_ne. lia.
    + intros h0 new G Hin. apply Hg; [| done]. by apply grown_store.
    + rewrite Hw at 1. by destruct w.
Qed.

(** The bulk quality on a mesh with [ne > 0] elements: with the outcome
    [(p, h1)] of the one allocation it makes. *)
Lemma get_qualities_3d_outcome (h : Z) (out_count : OutInt) (w : World K)
    (np ne nprism nt nquad na : Z) (p : ptr) (h1 : Heap) :
  wf_table (g_handles w) (g_initialized w) →
  (validate_handle h w).1 ≠ 0 →
  MMG3D_Get_meshSize (mesh (entry_at (g_handles w) h)) (kernel w)
  = (1, (np, ne, nprism, nt, nquad, na)) →
  0 < ne →
  malloc (size_t (ne * sizeof_double)) (heap w) = (p, h1) →
  let r := mmg3d_get_tetrahedra_qualities h out_count w in
  (p = NULL →
   r = ((NULL, store_out out_count 0), set_heap h1 w) ∧
   live h1 = live (heap w)) ∧
  (p ≠ NULL →
   r.1 = (p, store_out out_count ne) ∧
   live (heap w) !! p = None ∧
   delete p (live (heap r.2)) = live (heap w) ∧
   r.2 = set_heap (heap r.2) w ∧
   ∀ k, 1 ≤ k ≤ ne →
     load p (k - 1) (heap r.2)
     = Some (CDouble (mmg3d_get_tetrahedron_quality h k w).1)).
Proof.
  intros Hwf Hv Hsz Hn Em. cbv zeta.
  destruct (grown_malloc _ _ _ _ _ _ (grown_refl (heap w)) Em)
    as [[-> G] | (Hp & _ & G)].
  - split; [intros _ | done]. split; [| by apply grown_none].
    apply wp_eq. unfold mmg3d_get_tetrahedra_qualities, mesh_of, sol_of.
    enter_3d Hwf Hv. rewrite Hsz. cbn [negb Z.eqb Pos.eqb].
    rewrite (proj2 (Z.eqb_neq ne 0)) by lia.
    apply wp_bind. unfold wp, c_malloc. rewrite Em. done.
  - split; [done | intros _].
    set (m := mesh (entry_at (g_handles w) h)) in *.
    set (s := sol (entry_at (g_handles w) h)).
    assert (is_Some (live (heap (set_heap h1 w)) !! p)) as Hlive.
    { destruct G as [_ Hin]. apply (Hin p). set_solver. }
    destruct (qualities_loop_3d_spec ne m s p (Z.to_nat ne) 1
                (set_heap h1 w) Hlive) as (Hset & _ & Hg & Hw).
    assert (mmg3d_get_tetrahedra_qualities h out_count w
            = ((p, store_out out_count ne),
               (qualities_loop (Z.to_nat ne) 1 ne m s p (set_heap h1 w)).2))
      as ->.
    { apply wp_eq. unfold mmg3d_get_tetrahedra_qualities, mesh_of, sol_of.
      enter_3d Hwf Hv. fold m s. rewrite Hsz. cbn [negb Z.eqb Pos.eqb].
      rewrite (proj2 (Z.eqb_neq ne 0)) by lia.
      apply wp_bind. unfold wp at 1, c_malloc. rewrite Em. cbn [fst snd].
      rewrite (proj2 (Z.eqb_neq p NULL) Hp).
      apply wp_bind. unfold wp.
      by destruct (qualities_loop _ _ _ _ _ _ _). }
    cbn [fst snd].
    assert (grown (heap w)
              (heap (qualities_loop (Z.to_nat ne) 1 ne m s p
                       (set_heap h1 w)).2) {[p]}) as G1.
    { eapply grown_set; [| apply Hg; [exact G | set_solver]]. set_solver. }
    destruct (grown_one _ _ _ G1) as (Hfresh & _ & Hdel).
    split_and!; [done | done | done | |].
    + rewrite Hw at 1. by destruct w.
    + intros k Hk. rewrite quality_3d_valid by done. cbn [fst].
      apply Hset; lia.
Qed.
End Quality_3d.

Section Slots_3d.
Context {K : Type} `{!libmmg3d K}.
Import Mmg3d.

Local Abbreviation wf_3d w :=
  (wf_table (g_handles w) (g_initialized w)).

Lemma validate_3d_wf (h : Z) (w : World K) :
  wf_3d w → (validate_handle h w).1 = slot_valid (g_handles w) h.
Proof.
  intros Hwf. rewrite validate_3d_eq. cbn [fst].
  by rewrite ensure_3d_handles.
Qed.

Lemma available_3d_wf (w : World K) :
  wf_3d w →
  (mmg3d_get_available_handles w).1 = free_count (g_handles w).
Proof.
  intros Hwf. rewrite available_3d_eq. cbn [fst].
  rewrite ensure_3d_handles by done. apply count_free_loop_full, Hwf.
Qed.

Lemma exec_3d_handles_other (c : call) (w : World K) :
  wf_3d w → lifecycle_3d c = false →
  g_handles (exec c w).2 = g_handles w.
Proof.
  intros Hwf Hc. destruct (exec_3d_tables c Hc) as [Hs | Hp].
  - specialize (Hs w). unfold tables_3d in Hs. injection Hs as -> _.
    by apply ensure_3d_handles.
  - specialize (Hp w). unfold tables_3d in Hp. by injection Hp as -> _.
Qed.

(** [init]: the handle is the first free slot, found by
    [find_free_handle], or -1; the table changes in that slot, and
    only when a handle is returned. *)
Lemma init_3d_outcome (w : World K) :
  wf_3d w →
  let t := g_handles w in
  let f := find_free_loop t 0 (Z.to_nat MAX_HANDLES) in
  let '((res, m, s), k1) := MMG3D_Init_mesh (kernel w) in
  let r := mmg3d_init w in
  (find_free_handle w).1 = f ∧
  g_handles (find_free_handle w).2 = t ∧
  heap r.2 = heap w ∧
  if (f <? 0) || negb (res =? 1) || (m =? NULL)
  then r.1 = -1 ∧ g_handles r.2 = t
  else r.1 = f ∧ g_handles r.2 = set_entry t f m s 1 ∧
       kernel r.2 = MMG3D_Init_parameters m k1.
Proof.
  intros Hwf. cbv zeta.
  pose proof (ensure_3d_handles w Hwf) as Ht.
  pose proof (ensure_3d_outside w) as Ho.
  rewrite init_3d_eq. unfold find_free_handle. unfold_M.
  destruct (ensure_initialized w) as [[] w1]. cbn [fst snd] in *.
  unfold outside_3d in Ho. injection Ho as _ _ _ _ Hh Hk.
  rewrite Ht, Hk.
  destruct (MMG3D_Init_mesh (kernel w)) as [[[res m] s] k1].
  split_and!; [done | done | |].
  - repeat case_match; done.
  - destruct (_ <? 0); [done |]. cbn [orb].
    destruct (negb (res =? 1) || (m =? NULL)); done.
Qed.

Lemma init_3d_result (w : World K) :
  wf_3d w →
  let t := g_handles w in
  let r := (mmg3d_init w).1 in
  r = -1 ∨
  (0 ≤ r < MAX_HANDLES ∧
   r = find_free_loop t 0 (Z.to_nat MAX_HANDLES) ∧
   active (entry_at t r) = 0 ∧
   (∀ j, 0 ≤ j < r → active (entry_at t j) ≠ 0) ∧
   ∃ m s, g_handles (mmg3d_init w).2 = set_entry t r m s 1).
Proof.
  intros Hwf. cbv zeta. pose proof (init_3d_outcome w Hwf) as Ho.
  cbv zeta in Ho. destruct (MMG3D_Init_mesh (kernel w)) as [[[res m] s] k1].
  destruct Ho as (_ & _ & _ & Ho).
  destruct (find_free_loop_spec (g_handles w) (Z.to_nat MAX_HANDLES) 0)
    as [[Hr Hall] | (Hr & Hz & Hall)]; cbv zeta in *.
  - rewrite Hr in Ho. left. apply Ho.
  - destruct (_ || _); [left; apply Ho | right].
    destruct Ho as (-> & Ht & _).
    split_and!; [lia | unfold MAX_HANDLES in *; lia | done.. | eauto].
Qed.

Lemma init_3d_failed (w : World K) :
  wf_3d w → (mmg3d_init w).1 = -1 →
  g_handles (mmg3d_init w).2 = g_handles w.
Proof.
  intros Hwf Hr. pose proof (init_3d_outcome w Hwf) as Ho.
  cbv zeta in Ho. destruct (MMG3D_Init_mesh (kernel w)) as [[[res m] s] k1].
  destruct Ho as (_ & _ & _ & Ho).
  destruct (_ || _) eqn:Hc; [apply Ho |]. destruct Ho as (Hf & _).
  apply orb_false_elim in Hc as [Hc _].
  apply orb_false_elim in Hc as [Hc _]. lia.
Qed.

Lemma init_3d_count (w : World K) :
  wf_3d w →
  free_count (g_handles (mmg3d_init w).2)
  = free_count (g_handles w)
    - (if (mmg3d_init w).1 =? -1 then 0 else 1).
Proof.
  intros Hwf. destruct (init_3d_result w Hwf) as [Hr | Hr]; cbv zeta in Hr.
  - rewrite init_3d_failed, Hr by done. simpl. lia.
  - destruct Hr as (Hr & _ & Hz & _ & m & s & ->).
    rewrite free_count_set_entry, Hz; [| lia | destruct Hwf; lia].
    destruct (Z.eqb_spec (mmg3d_init w).1 (-1)); simpl; lia.
Qed.

Lemma free_3d_outcome (h : Z) (w : World K) :
  wf_3d w →
  let t := g_handles w in
  let r := mmg3d_free h w in
  heap r.2 = heap w ∧
  if slot_valid t h =? 0
  then r.1 = 0 ∧ g_handles r.2 = t ∧ kernel r.2 = kernel w
  else r.1 = 1 ∧ g_handles r.2 = set_entry t h NULL NULL 0 ∧
       kernel r.2
       = MMG3D_Free_all (mesh (entry_at t h)) (sol (entry_at t h))
           (kernel w).
Proof.
  intros Hwf. cbv zeta. rewrite free_3d_eq, validate_3d_wf by done.
  pose proof (ensure_3d_handles w Hwf) as Ht.
  pose proof (ensure_3d_outside w) as Ho.
  destruct (ensure_initialized w) as [[] w1]. cbn [fst snd] in *.
  unfold outside_3d in Ho. injection Ho as _ _ _ _ Hh Hk.
  cbv zeta. rewrite Ht, Hk. by destruct (slot_valid _ _ =? 0).
Qed.
End Slots_3d.

Section Runs_3d.
Context {K : Type} `{!libmmg3d K}.
Import Mmg3d.

Local Abbreviation wf_3d w :=
  (wf_table (g_handles w) (g_initialized w)).

Lemma exec_init_3d (w : World K) :
  exec Init w = (RInt (mmg3d_init w).1, (mmg3d_init w).2).
Proof. unfold exec, r_int. unfold_M. by destruct (mmg3d_init w). Qed.

Lemma exec_free_3d (h : Z) (w : World K) :
  exec (Free h) w = (RInt (mmg3d_free h w).1, (mmg3d_free h w).2).
Proof. unfold exec, r_int. unfold_M. by destruct (mmg3d_free h w). Qed.

Lemma run_3d_cons (c : call) (cs : list call) (w : World K) :
  run (c :: cs) w
  = ((exec c w).1 :: (run cs (exec c w).2).1, (run cs (exec c w).2).2).
Proof.
  cbn [run]. destruct (exec c w) as [r w1]. cbn [fst snd].
  by destruct (run cs w1).
Qed.

Lemma run_3d_wf (cs : list call) : ∀ w : World K,
  wf_3d w → wf_3d (run cs w).2.
Proof.
  induction cs as [|c cs IH]; intros w Hwf; [done |].
  rewrite run_3d_cons. cbn [snd]. by apply IH, exec_3d_wf.
Qed.

(** A valid handle stays valid through every call but its own [free]. *)
Lemma exec_3d_valid_step (c : call) (h : Z) (w : World K) :
  wf_3d w → c ≠ Free h → slot_valid (g_handles w) h ≠ 0 →
  slot_valid (g_handles (exec c w).2) h = slot_valid (g_handles w) h.
Proof.
  intros Hwf Hc Hv. destruct (lifecycle_3d c) eqn:Hl.
  - destruct c; try discriminate.
    + rewrite exec_init_3d. cbn [snd].
      destruct (init_3d_result w Hwf) as [Hr | Hr]; cbv zeta in Hr.
      * by rewrite init_3d_failed.
      * destruct Hr as (Hr & _ & Hz & _ & m & s & ->).
        rewrite slot_valid_set_entry;
          [| lia | destruct Hwf; unfold MAX_HANDLES in *; lia | apply Hwf].
        destruct (Z.eqb_spec h (mmg3d_init w).1) as [-> | _]; [| done].
        exfalso. apply Hv. unfold slot_valid.
        by destruct ((_ <? 0) || _).
    + rewrite exec_free_3d. cbn [snd].
      pose proof (free_3d_outcome handle w Hwf) as Ho. cbv zeta in Ho.
      destruct Ho as [_ Ho].
      destruct (Z.eqb_spec (slot_valid (g_handles w) handle) 0)
        as [Hz | Hnz].
      * by destruct Ho as (_ & -> & _).
      * destruct Ho as (_ & -> & _).
        assert (0 ≤ handle < MAX_HANDLES) as Hr.
        { unfold slot_valid in Hnz.
          destruct (Z.ltb_spec handle 0); [done |].
          destruct (Z.geb_spec handle MAX_HANDLES); [done | lia]. }
        rewrite slot_valid_set_entry;
          [| lia | destruct Hwf; unfold MAX_HANDLES in *; lia | apply Hwf].
        destruct (Z.eqb_spec h handle) as [-> | _]; [| done].
        by destruct Hc.
  - by rewrite exec_3d_handles_other.
Qed.

(** A handle that is not valid stays so through every call but an
    [init] that hands it out. *)
Lemma exec_3d_invalid_step (c : call) (h : Z) (w : World K) :
  wf_3d w → slot_valid (g_handles w) h = 0 →
  (c = Init → (exec c w).1 ≠ RInt h) →
  slot_valid (g_handles (exec c w).2) h = 0.
Proof.
  intros Hwf Hv Hc. destruct (lifecycle_3d c) eqn:Hl.
  - destruct c; try discriminate.
    + specialize (Hc eq_refl). rewrite exec_init_3d in *. cbn [fst snd] in *.
      destruct (init_3d_result w Hwf) as [Hr | Hr]; cbv zeta in Hr.
      * by rewrite init_3d_failed.
      * destruct Hr as (Hr & _ & Hz & _ & m & s & ->).
        rewrite slot_valid_set_entry;
          [| lia | destruct Hwf; unfold MAX_HANDLES in *; lia | apply Hwf].
        destruct (Z.eqb_spec h (mmg3d_init w).1) as [-> | _]; [| done].
        by destruct Hc.
    + rewrite exec_free_3d. cbn [snd].
      pose proof (free_3d_outcome handle w Hwf) as Ho. cbv zeta in Ho.
      destruct Ho as [_ Ho].
      destruct (Z.eqb_spec (slot_valid (g_handles w) handle) 0)
        as [Hz | Hnz].
      * by destruct Ho as (_ & -> & _).
      * destruct Ho as (_ & -> & _).
        assert (0 ≤ handle < MAX_HANDLES) as Hr.
        { unfold slot_valid in Hnz.
          destruct (Z.ltb_spec handle 0); [done |].
          destruct (Z.geb_spec handle MAX_HANDLES); [done | lia]. }
        rewrite slot_valid_set_entry;
          [| lia | destruct Hwf; unfold MAX_HANDLES in *; lia | apply Hwf].
        by destruct (h =? handle).
  - by rewrite exec_3d_handles_other.
Qed.

Lemma run_3d_valid (h : Z) (cs : list call) : ∀ w : World K,
  wf_3d w → Free h ∉ cs → slot_valid (g_handles w) h ≠ 0 →
  slot_valid (g_handles (run cs w).2) h = slot_valid (g_handles w) h.
Proof.
  induction cs as [|c cs IH]; intros w Hwf Hcs Hv; [done |].
  rewrite run_3d_cons. cbn [snd].
  apply not_elem_of_cons in Hcs as [Hc Hcs].
  pose proof (exec_3d_valid_step c h w Hwf ltac:(done) Hv) as Hstep.
  rewrite IH; [done | by apply exec_3d_wf | done | by rewrite Hstep].
Qed.

Lemma run_3d_invalid (h : Z) (cs : list call) : ∀ w : World K,
  wf_3d w → slot_valid (g_handles w) h = 0 →
  ¬ reissued_3d cs (run cs w).1 h →
  slot_valid (g_handles (run cs w).2) h = 0.
Proof.
  induction cs as [|c cs IH]; intros w Hwf Hv Hre; [done |].
  rewrite run_3d_cons in *. cbn [fst snd] in *.
  apply IH; [by apply exec_3d_wf | |].
  - apply exec_3d_invalid_step; [done.. |]. intros -> Hr.
    apply Hre. exists 0%nat. by rewrite Hr.
  - intros (i & Hi & Hr). apply Hre. by exists (S i).
Qed.

(** [n] calls of [init] that all hand out a handle take [n] slots. *)
Lemma run_inits_3d (n : nat) : ∀ w : World K,
  wf_3d w →
  (∀ r, r ∈ (run (replicate n Init) w).1 → r ≠ RInt (-1)) →
  free_count (g_handles (run (replicate n Init) w).2)
  = free_count (g_handles w) - Z.of_nat n.
Proof.
  induction n as [|n IH]; intros w Hwf Hok; [simpl; lia |].
  cbn [replicate] in *. rewrite run_3d_cons in *. cbn [fst snd] in *.
  rewrite exec_init_3d in *. cbn [fst snd] in *.
  rewrite IH, init_3d_count; [| done | by apply init_3d_wf |].
  - destruct (Z.eqb_spec (mmg3d_init w).1 (-1)) as [Hr | _]; [| lia].
    exfalso. apply (Hok (RInt (mmg3d_init w).1)); [left | by rewrite Hr].
  - intros r Hr. apply Hok. by right.
Qed.
End Runs_3d.

(** ** [mmgs.c]: the handle table *)

Section Table_s.
Context {K : Type} `{!libmmgs K}.
Import Mmgs.

Lemma ensure_s_outside (w : World K) :
  outside_s (ensure_initialized_s w).2 = outside_s w.
Proof. unfold ensure_initialized_s. by case_match. Qed.

Lemma ensure_s_initialized (w : World K) :
  g_initialized_s (ensure_initialized_s w).2 ≠ 0.
Proof.
  unfold ensure_initialized_s.
  destruct (Z.eqb_spec (g_initialized_s w) 0); simpl; lia.
Qed.

Lemma ensure_s_handles (w : World K) :
  wf_table (g_handles_s w) (g_initialized_s w) →
  g_handles_s (ensure_initialized_s w).2 = g_handles_s w.
Proof.
  intros [_ Hz]. unfold ensure_initialized_s.
  destruct (Z.eqb_spec (g_initialized_s w) 0); simpl; [|done].
  symmetry. by apply Hz.
Qed.

Lemma ensure_s_ready (w : World K) :
  g_initialized_s w ≠ 0 → ensure_initialized_s w = (tt, w).
Proof.
  intros Hi. unfold ensure_initialized_s.
  by destruct (Z.eqb_spec (g_initialized_s w) 0).
Qed.

Lemma ensure_s_wf (w : World K) :
  wf_table (g_handles_s w) (g_initialized_s w) →
  wf_table (g_handles_s (ensure_initialized_s w).2)
           (g_initialized_s (ensure_initialized_s w).2).
Proof.
  intros Hwf. split.
  - rewrite ensure_s_handles by done. apply Hwf.
  - intros Hi. by apply ensure_s_initialized in Hi.
Qed.

Lemma preserves_ensure_s {S} (proj : World K → S) :
  (∀ t i w, proj (set_table_s t i w) = proj w) →
  preserves proj ensure_initialized_s.
Proof.
  intros Hp w. unfold ensure_initialized_s. case_match; simpl; auto.
Qed.

Lemma settles_s_ensure {S} (proj : World K → S) :
  settles_s proj ensure_initialized_s.
Proof. done. Qed.

Lemma settles_s_bind {S A B} (proj : World K → S) (m : M K A)
    (f : A → M K B) :
  settles_s proj m → (∀ a, preserves proj (f a)) →
  settles_s proj (m ≫= f).
Proof.
  intros Hm Hf w. unfold mbind, M_bind. specialize (Hm w).
  destruct (m w) as [a w1]. simpl in Hm. by rewrite Hf.
Qed.

Lemma preserves_qualities_loop_s {S} (proj : World K → S) fuel :
  static_part proj → ∀ k nt m s q,
  preserves proj (qualities_loop fuel k nt m s q).
Proof.
  intros Hs. induction fuel as [|fuel IH]; intros; simpl; frame.
Qed.
End Table_s.

#[global] Hint Resolve preserves_qualities_loop_s : frame.

#[global] Hint Extern 1 (preserves _ Mmgs.ensure_initialized_s) =>
  apply preserves_ensure_s; intros; reflexivity : frame.

Ltac unfold_ops_s :=
  unfold Mmgs.exec, r_int, r_buf,
    Mmgs.mmgs_init, Mmgs.mmgs_free, Mmgs.mmgs_get_available_handles,
    Mmgs.mmgs_get_max_handles, Mmgs.mmgs_set_mesh_size,
    Mmgs.mmgs_get_mesh_size, Mmgs.mmgs_set_vertex,
    Mmgs.mmgs_set_vertices, Mmgs.mmgs_get_vertices,
    Mmgs.mmgs_set_triangle, Mmgs.mmgs_set_triangles,
    Mmgs.mmgs_get_triangles, Mmgs.mmgs_set_edge, Mmgs.mmgs_set_edges,
    Mmgs.mmgs_get_edges, Mmgs.mmgs_set_iparameter,
    Mmgs.mmgs_set_dparameter, Mmgs.mmgs_set_sol_size,
    Mmgs.mmgs_get_sol_size, Mmgs.mmgs_set_scalar_sols,
    Mmgs.mmgs_get_scalar_sols, Mmgs.mmgs_set_tensor_sols,
    Mmgs.mmgs_get_tensor_sols, Mmgs.mmgs_remesh, Mmgs.mmgs_free_array,
    Mmgs.mmgs_load_mesh, Mmgs.mmgs_save_mesh, Mmgs.mmgs_load_sol,
    Mmgs.mmgs_save_sol, Mmgs.mmgs_get_triangle_quality,
    Mmgs.mmgs_get_triangles_qualities.

Ltac unfold_s :=
  unfold_ops_s;
  unfold Mmgs.find_free_handle_s, Mmgs.validate_handle_s,
    Mmgs.mesh_of, Mmgs.sol_of.

Ltac settle_s :=
  unfold_s;
  repeat (apply settles_s_bind; [| frame]);
  apply settles_s_ensure.

Section Exec_s.
Context {K : Type} `{!libmmgs K}.
Import Mmgs.

(** No entry point of [mmgs.c] touches the tables of the other two
    files. *)
Lemma exec_s_frame_3d (c : call) : preserves (@tables_3d K) (exec c).
Proof. destruct c; unfold_s; frame. Qed.

Lemma exec_s_frame_2d (c : call) : preserves (@tables_2d K) (exec c).
Proof. destruct c; unfold_s; frame. Qed.

(** Besides [init] and [free], an entry point does nothing to its own
    table but initialise it on first use. *)
Lemma exec_s_tables (c : call) :
  lifecycle_s c = false →
  settles_s (@tables_s K) (exec c) ∨ preserves (@tables_s K) (exec c).
Proof.
  destruct c; try discriminate; intros _;
    first [ left; settle_s | right; unfold_s; frame ].
Qed.
End Exec_s.

Section Lifecycle_s.
Context {K : Type} `{!libmmgs K}.
Import Mmgs.

Lemma validate_s_eq (h : Z) (w : World K) :
  validate_handle_s h w
  = (if (h <? 0) || (h >=? MAX_HANDLES) then 0
     else active (entry_at (g_handles_s (ensure_initialized_s w).2) h),
     (ensure_initialized_s w).2).
Proof.
  unfold validate_handle_s. unfold_M.
  destruct (ensure_initialized_s w) as [[] w1]. simpl.
  by destruct ((h <? 0) || (h >=? MAX_HANDLES)).
Qed.

Lemma available_s_eq (w : World K) :
  mmgs_get_available_handles w
  = (count_free_loop (g_handles_s (ensure_initialized_s w).2) 0 0
       (Z.to_nat MAX_HANDLES),
     (ensure_initialized_s w).2).
Proof.
  unfold mmgs_get_available_handles. unfold_M.
  by destruct (ensure_initialized_s w) as [[] w1].
Qed.

Lemma init_s_eq (w : World K) :
  mmgs_init w
  = let w1 := (ensure_initialized_s w).2 in
    let h := find_free_loop (g_handles_s w1) 0 (Z.to_nat MAX_HANDLES) in
    if h <? 0 then (-1, w1)
    else
      let '((r, m, s), k1) := MMGS_Init_mesh (kernel w1) in
      if negb (r =? 1) || (m =? NULL) then (-1, set_kernel k1 w1)
      else (h, set_table_s (set_entry (g_handles_s w1) h m s 1)
                 (g_initialized_s w1)
                 (set_kernel (MMGS_Init_parameters m k1) w1)).
Proof.
  unfold mmgs_init, find_free_handle_s. unfold_M.
  destruct (ensure_initialized_s w) as [[] w1]. simpl.
  case_match; [done |].
  destruct (MMGS_Init_mesh (kernel w1)) as [[[r m] s] k1].
  by case_match.
Qed.

Lemma free_s_eq (h : Z) (w : World K) :
  mmgs_free h w
  = let w1 := (ensure_initialized_s w).2 in
    if (validate_handle_s h w).1 =? 0 then (0, w1)
    else
      let e := entry_at (g_handles_s w1) h in
      (1, set_table_s (set_entry (g_handles_s w1) h NULL NULL 0)
            (g_initialized_s w1)
            (set_kernel (MMGS_Free_all (mesh e) (sol e) (kernel w1)) w1)).
Proof.
  unfold mmgs_free, mesh_of, sol_of. unfold_M.
  rewrite validate_s_eq. simpl. by case_match.
Qed.

(** An entry point called on a handle that is not valid gives its
    failure value and does nothing else. *)
Lemma exec_s_invalid (c : call) (h : Z) (w : World K) :
  handle_of c = Some h →
  (validate_handle_s h w).1 = 0 →
  exec c w = (sentinel c, (ensure_initialized_s w).2).
Proof.
  intros Hc Hv. pose proof (validate_s_eq h w) as E.
  destruct (validate_handle_s h w) as [v w1] eqn:Ev. simpl in Hv. subst v.
  apply (f_equal snd) in E. simpl in E. subst w1.
  destruct c; simpl in Hc; try discriminate; injection Hc as ->;
    unfold_ops_s; unfold mbind, M_bind; rewrite Ev; reflexivity.
Qed.
End Lifecycle_s.

Section Invariant_s.
Context {K : Type} `{!libmmgs K}.
Import Mmgs.

Local Abbreviation wf_s w :=
  (wf_table (g_handles_s w) (g_initialized_s w)).

Lemma exec_s_fst_snd {A} (m : M K A) (f : A → ret) (w : World K) :
  ((a ← m; mret (f a)) w).2 = (m w).2.
Proof. cbv [mbind M_bind mret M_ret]. by destruct (m w). Qed.

Lemma init_s_wf (w : World K) : wf_s w → wf_s (mmgs_init w).2.
Proof.
  intros Hwf. rewrite init_s_eq. cbv zeta.
  pose proof (ensure_s_wf w Hwf) as Hwf1.
  pose proof (ensure_s_initialized w) as Hi.
  set (w1 := (ensure_initialized_s w).2) in *.
  case_match; [done |].
  destruct (MMGS_Init_mesh (kernel w1)) as [[[r m] s] k1].
  case_match; [done |]. simpl. by apply wf_table_set_entry.
Qed.

Lemma free_s_wf (h : Z) (w : World K) : wf_s w → wf_s (mmgs_free h w).2.
Proof.
  intros Hwf. rewrite free_s_eq. cbv zeta.
  pose proof (ensure_s_wf w Hwf) as Hwf1.
  pose proof (ensure_s_initialized w) as Hi.
  set (w1 := (ensure_initialized_s w).2) in *.
  case_match; [done |]. simpl. by apply wf_table_set_entry.
Qed.

Lemma exec_s_wf (c : call) (w : World K) : wf_s w → wf_s (exec c w).2.
Proof.
  intros Hwf. destruct (lifecycle_s c) eqn:Hc.
  - destruct c; try discriminate; unfold exec, r_int;
      rewrite exec_s_fst_snd; [by apply init_s_wf | by apply free_s_wf].
  - destruct (exec_s_tables c Hc) as [Hs | Hp].
    + specialize (Hs w). unfold tables_s in Hs.
      injection Hs as -> ->. by apply ensure_s_wf.
    + specialize (Hp w). unfold tables_s in Hp. by injection Hp as -> ->.
Qed.

(** What [available_count()] and [max_handles()] read in a state. *)
Lemma counts_s (w : World K) :
  wf_s w →
  active_count (g_handles_s w) ≤ MAX_HANDLES ∧
  (mmgs_get_available_handles w).1 + active_count (g_handles_s w)
  = (mmgs_get_max_handles w).1.
Proof.
  intros Hwf. rewrite available_s_eq. simpl.
  rewrite ensure_s_handles by done. by eapply wf_table_counts.
Qed.
End Invariant_s.

Section Bulk_s.
Context {K : Type} `{!libmmgs K}.
Import Mmgs.

Lemma valid_s_ready (h : Z) (w : World K) :
  wf_table (g_handles_s w) (g_initialized_s w) →
  (validate_handle_s h w).1 ≠ 0 →
  ensure_initialized_s w = (tt, w) ∧
  validate_handle_s h w = (active (entry_at (g_handles_s w) h), w) ∧
  0 ≤ h < MAX_HANDLES.
Proof.
  intros [_ Hz] Hv. rewrite validate_s_eq in *. simpl in Hv.
  destruct ((h <? 0) || (h >=? MAX_HANDLES)) eqn:Hr; [done |].
  assert (g_initialized_s w ≠ 0) as Hi.
  { intros Hi. unfold ensure_initialized_s in Hv.
    rewrite Hi in Hv. simpl in Hv. apply Hv. unfold entry_at.
    destruct (memset_zero !! Z.to_nat h) as [e|] eqn:He; [|done].
    apply lookup_replicate in He as [-> _]. done. }
  rewrite ensure_s_ready by done. repeat split; try done; lia.
Qed.

Lemma wp_validate_s (h : Z) (Q : Z → World K → Prop) (w : World K) :
  wf_table (g_handles_s w) (g_initialized_s w) →
  (validate_handle_s h w).1 ≠ 0 →
  Q (validate_handle_s h w).1 w →
  wp (validate_handle_s h) Q w.
Proof.
  intros Hwf Hv HQ. destruct (valid_s_ready h w Hwf Hv) as (_ & E & _).
  unfold wp. by rewrite E in *.
Qed.
End Bulk_s.

(** Enter a wrapper of [mmgs.c] with a valid handle. *)
Ltac enter_s Hwf Hv :=
  apply wp_bind, wp_validate_s; [exact Hwf | exact Hv |];
  rewrite (proj2 (Z.eqb_neq _ _) Hv);
  repeat wp_step.

Section Getters_s.
Context {K : Type} `{!libmmgs K}.
Import Mmgs.

Lemma get_vertices_s_outcome (h : Z) (out_count : OutInt) (w : World K)
    (np nt na : Z) :
  wf_table (g_handles_s w) (g_initialized_s w) →
  (validate_handle_s h w).1 ≠ 0 →
  MMGS_Get_meshSize (mesh (entry_at (g_handles_s w) h)) (kernel w)
  = (1, (np, nt, na)) →
  np ≠ 0 →
  let r := mmgs_get_vertices h out_count w in
  bulk_get_outcome (heap w)
    [size_t (3 * np * sizeof_double); size_t (np * sizeof_MMG5_int);
     size_t (np * sizeof_int); size_t (np * sizeof_int)]
    (MMGS_Get_vertices (mesh (entry_at (g_handles_s w) h)) (kernel w)).1
    np out_count r.1.1 r.1.2 (heap r.2).
Proof.
  intros Hwf Hv Hsz Hn. cbv zeta.
  destruct (MMGS_Get_vertices _ _) as [kres [[[d1 d2] d3] d4]] eqn:Eget.
  cbn [fst]. bulk_wp (mmgs_get_vertices h out_count) w.
  pose proof (grown_refl (heap w)) as G.
  unfold mmgs_get_vertices, mesh_of. enter_s Hwf Hv.
  rewrite Hsz. cbn [negb Z.eqb Pos.eqb].
  rewrite (proj2 (Z.eqb_neq _ _) Hn). cbv zeta.
  do 4 (wp_alloc G; [repeat wp_step; bulk_leaf G |]).
  repeat wp_step. rewrite Eget. repeat wp_step.
  destruct (Z.eqb_spec kres 1); cbn [negb]; repeat wp_step; bulk_leaf G.
Qed.

Lemma get_triangles_s_outcome (h : Z) (out_count : OutInt) (w : World K)
    (np nt na : Z) :
  wf_table (g_handles_s w) (g_initialized_s w) →
  (validate_handle_s h w).1 ≠ 0 →
  MMGS_Get_meshSize (mesh (entry_at (g_handles_s w) h)) (kernel w)
  = (1, (np, nt, na)) →
  nt ≠ 0 →
  let r := mmgs_get_triangles h out_count w in
  bulk_get_outcome (heap w)
    [size_t (3 * nt * sizeof_MMG5_int); size_t (nt * sizeof_MMG5_int);
     size_t (nt * sizeof_int)]
    (MMGS_Get_triangles (mesh (entry_at (g_handles_s w) h)) (kernel w)).1
    nt out_count r.1.1 r.1.2 (heap r.2).
Proof.
  intros Hwf Hv Hsz Hn. cbv zeta.
  destruct (MMGS_Get_triangles _ _) as [kres [[d1 d2] d3]] eqn:Eget.
  cbn [fst]. bulk_wp (mmgs_get_triangles h out_count) w.
  pose proof (grown_refl (heap w)) as G.
  unfold mmgs_get_triangles, mesh_of. enter_s Hwf Hv.
  rewrite Hsz. cbn [negb Z.eqb Pos.eqb].
  rewrite (proj2 (Z.eqb_neq _ _) Hn). cbv zeta.
  do 3 (wp_alloc G; [repeat wp_step; bulk_leaf G |]).
  repeat wp_step. rewrite Eget. repeat wp_step.
  destruct (Z.eqb_spec kres 1); cbn [negb]; repeat wp_step; bulk_leaf G.
Qed.

Lemma get_edges_s_outcome (h : Z) (out_count : OutInt) (w : World K)
    (np nt na : Z) :
  wf_table (g_handles_s w) (g_initialized_s w) →
  (validate_handle_s h w).1 ≠ 0 →
  MMGS_Get_meshSize (mesh (entry_at (g_handles_s w) h)) (kernel w)
  = (1, (np, nt, na)) →
  na ≠ 0 →
  let r := mmgs_get_edges h out_count w in
  bulk_get_outcome (heap w)
    [size_t (2 * na * sizeof_MMG5_int); size_t (na * sizeof_MMG5_int);
     size_t (na * sizeof_int); size_t (na * sizeof_int)]
    (MMGS_Get_edges (mesh (entry_at (g_handles_s w) h)) (kernel w)).1
    na out_count r.1.1 r.1.2 (heap r.2).
Proof.
  intros Hwf Hv Hsz Hn. cbv zeta.
  destruct (MMGS_Get_edges _ _) as [kres [[[d1 d2] d3] d4]] eqn:Eget.
  cbn [fst]. bulk_wp (mmgs_get_edges h out_count) w.
  pose proof (grown_refl (heap w)) as G.
  unfold mmgs_get_edges, mesh_of. enter_s Hwf Hv.
  rewrite Hsz. cbn [negb Z.eqb Pos.eqb].
  rewrite (proj2 (Z.eqb_neq _ _) Hn). cbv zeta.
  do 4 (wp_alloc G; [repeat wp_step; bulk_leaf G |]).
  repeat wp_step. rewrite Eget. repeat wp_step.
  destruct (Z.eqb_spec kres 1); cbn [negb]; repeat wp_step; bulk_leaf G.
Qed.
End Getters_s.
Section Empty_s.
Context {K : Type} `{!libmmgs K}.
Import Mmgs.

Lemma get_vertices_s_empty (h : Z) (out_count : OutInt) (w : World K)
    (r nt na : Z) :
  wf_table (g_handles_s w) (g_initialized_s w) →
  (validate_handle_s h w).1 ≠ 0 →
  MMGS_Get_meshSize (mesh (entry_at (g_handles_s w) h)) (kernel w)
  = (r, (0, nt, na)) →
  mmgs_get_vertices h out_count w = ((NULL, store_out out_count 0), w).
Proof.
  intros Hwf Hv Hsz. apply wp_eq.
  unfold mmgs_get_vertices, mesh_of. enter_s Hwf Hv.
  rewrite Hsz. by case_match; repeat wp_step.
Qed.

Lemma get_triangles_s_empty (h : Z) (out_count : OutInt) (w : World K)
    (r np na : Z) :
  wf_table (g_handles_s w) (g_initialized_s w) →
  (validate_handle_s h w).1 ≠ 0 →
  MMGS_Get_meshSize (mesh (entry_at (g_handles_s w) h)) (kernel w)
  = (r, (np, 0, na)) →
  mmgs_get_triangles h out_count w = ((NULL, store_out out_count 0), w).
Proof.
  intros Hwf Hv Hsz. apply wp_eq.
  unfold mmgs_get_triangles, mesh_of. enter_s Hwf Hv.
  rewrite Hsz. by case_match; repeat wp_step.
Qed.

Lemma get_edges_s_empty (h : Z) (out_count : OutInt) (w : World K)
    (r np nt : Z) :
  wf_table (g_handles_s w) (g_initialized_s w) →
  (validate_handle_s h w).1 ≠ 0 →
  MMGS_Get_meshSize (mesh (entry_at (g_handles_s w) h)) (kernel w)
  = (r, (np, nt, 0)) →
  mmgs_get_edges h out_count w = ((NULL, store_out out_count 0), w).
Proof.
  intros Hwf Hv Hsz. apply wp_eq.
  unfold mmgs_get_edges, mesh_of. enter_s Hwf Hv.
  rewrite Hsz. by case_match; repeat wp_step.
Qed.

Lemma get_qualities_s_empty (h : Z) (out_count : OutInt) (w : World K)
    (r np na : Z) :
  wf_table (g_handles_s w) (g_initialized_s w) →
  (validate_handle_s h w).1 ≠ 0 →
  MMGS_Get_meshSize (mesh (entry_at (g_handles_s w) h)) (kernel w)
  = (r, (np, 0, na)) →
  mmgs_get_triangles_qualities h out_count w
  = ((NULL, store_out out_count 0), w).
Proof.
  intros Hwf Hv Hsz. apply wp_eq.
  unfold mmgs_get_triangles_qualities, mesh_of, sol_of. enter_s Hwf Hv.
  rewrite Hsz. by case_match; repeat wp_step.
Qed.

(** The getters of the solution give up on an empty solution and on a
    solution of another type than the one they return. *)
Lemma get_scalar_sols_s_guard (h : Z) (out_count : OutInt) (w : World K)
    (r typEntity np typSol : Z) :
  wf_table (g_handles_s w) (g_initialized_s w) →
  (validate_handle_s h w).1 ≠ 0 →
  MMGS_Get_solSize (mesh (entry_at (g_handles_s w) h))
    (sol (entry_at (g_handles_s w) h)) (kernel w)
  = (r, (typEntity, np, typSol)) →
  np = 0 ∨ typSol ≠ 1 →
  mmgs_get_scalar_sols h out_count w = ((NULL, store_out out_count 0), w).
Proof.
  intros Hwf Hv Hsz Hg. apply wp_eq.
  unfold mmgs_get_scalar_sols, mesh_of, sol_of. enter_s Hwf Hv.
  rewrite Hsz. case_match; repeat wp_step; [done |].
  replace ((np =? 0) || negb (typSol =? 1)) with true; [by repeat wp_step |].
  symmetry. apply orb_true_iff. rewrite negb_true_iff, Z.eqb_eq, Z.eqb_neq.
  done.
Qed.

Lemma get_tensor_sols_s_guard (h : Z) (out_count : OutInt) (w : World K)
    (r typEntity np typSol : Z) :
  wf_table (g_handles_s w) (g_initialized_s w) →
  (validate_handle_s h w).1 ≠ 0 →
  MMGS_Get_solSize (mesh (entry_at (g_handles_s w) h))
    (sol (entry_at (g_handles_s w) h)) (kernel w)
  = (r, (typEntity, np, typSol)) →
  np = 0 ∨ typSol ≠ 3 →
  mmgs_get_tensor_sols h out_count w = ((NULL, store_out out_count 0), w).
Proof.
  intros Hwf Hv Hsz Hg. apply wp_eq.
  unfold mmgs_get_tensor_sols, mesh_of, sol_of. enter_s Hwf Hv.
  rewrite Hsz. case_match; repeat wp_step; [done |].
  replace ((np =? 0) || negb (typSol =? 3)) with true; [by repeat wp_step |].
  symmetry. apply orb_true_iff. rewrite negb_true_iff, Z.eqb_eq, Z.eqb_neq.
  done.
Qed.
End Empty_s.

Section Quality_s.
Context {K : Type} `{!libmmgs K}.
Import Mmgs.

Lemma quality_s_valid (h k : Z) (w : World K) :
  wf_table (g_handles_s w) (g_initialized_s w) →
  (validate_handle_s h w).1 ≠ 0 →
  mmgs_get_triangle_quality h k w
  = (MMGS_Get_triangleQuality (mesh (entry_at (g_handles_s w) h))
       (sol (entry_at (g_handles_s w) h)) k (kernel w), w).
Proof.
  intros Hwf Hv. apply wp_eq.
  unfold mmgs_get_triangle_quality, mesh_of, sol_of. by enter_s Hwf Hv.
Qed.

Lemma quality_s_invalid (h k : Z) (w : World K) :
  (validate_handle_s h w).1 = 0 →
  (mmgs_get_triangle_quality h k w).1 = 0%float.
Proof.
  intros Hv. unfold mmgs_get_triangle_quality. cbv [mbind M_bind].
  destruct (validate_handle_s h w) as [v w1]. simpl in Hv. by subst v.
Qed.

(** The loop of the bulk quality: cell [j - 1] receives the quality of
    element [j], for every [j] it runs through, and nothing else is
    touched. *)
Lemma qualities_loop_s_spec (nt : Z) (m s q : ptr) (fuel : nat) :
  ∀ (k : Z) (w : World K),
  is_Some (live (heap w) !! q) →
  let w' := (qualities_loop fuel k nt m s q w).2 in
  (∀ j, k ≤ j < k + Z.of_nat fuel → j ≤ nt →
     load q (j - 1) (heap w')
     = Some (CDouble (MMGS_Get_triangleQuality m s j (kernel w)))) ∧
  (∀ j, j < k → load q (j - 1) (heap w') = load q (j - 1) (heap w)) ∧
  (∀ h0 new, grown h0 (heap w) new → q ∈ new → grown h0 (heap w') new) ∧
  w' = set_heap (heap w') w.
Proof.
  induction fuel as [|fuel IH]; intros k w Hq; cbn [qualities_loop].
  - split_and!; [intros; lia | done | done | by destruct w].
  - destruct (Z.leb_spec k nt) as [Hk | Hk]; cycle 1.
    { split_and!; [intros; lia | done | done | by destruct w]. }
    cbv [mbind M_bind kget c_store]. cbn [fst snd].
    set (w1 := set_heap _ w).
    destruct (IH (k + 1) w1) as (Hset & Hkeep & Hg & Hw).
    { by apply store_keeps_block. }
    split_and!.
    + intros j Hj Hjn. destruct (decide (j = k)) as [-> | Hne].
      * rewrite Hkeep by lia. by apply load_store_eq.
      * apply Hset; lia.
    + intros j Hj. rewrite Hkeep by lia. apply load_store_ne. lia.
    + intros h0 new G Hin. apply Hg; [| done]. by apply grown_store.
    + rewrite Hw at 1. by destruct w.
Qed.

(** The bulk quality on a mesh with [nt > 0] elements: with the outcome
    [(p, h1)] of the one allocation it makes. *)
Lemma get_qualities_s_outcome (h : Z) (out_count : OutInt) (w : World K)
    (np nt na : Z) (p : ptr) (h1 : Heap) :
  wf_table (g_handles_s w) (g_initialized_s w) →
  (validate_handle_s h w).1 ≠ 0 →
  MMGS_Get_meshSize (mesh (entry_at (g_handles_s w) h)) (kernel w)
  = (1, (np, nt, na)) →
  0 < nt →
  malloc (size_t (nt * sizeof_double)) (heap w) = (p, h1) →
  let r := mmgs_get_triangles_qualities h out_count w in
  (p = NULL →
   r = ((NULL, store_out out_count 0), set_heap h1 w) ∧
   live h1 = live (heap w)) ∧
  (p ≠ NULL →
   r.1 = (p, store_out out_count nt) ∧
   live (heap w) !! p = None ∧
   delete p (live (heap r.2)) = live (heap w) ∧
   r.2 = set_heap (heap r.2) w ∧
   ∀ k, 1 ≤ k ≤ nt →
     load p (k - 1) (heap r.2)
     = Some (CDouble (mmgs_get_triangle_quality h k w).1)).
Proof.
  intros Hwf Hv Hsz Hn Em. cbv zeta.
  destruct (grown_malloc _ _ _ _ _ _ (grown_refl (heap w)) Em)
    as [[-> G] | (Hp & _ & G)].
  - split; [intros _ | done]. split; [| by apply grown_none].
    apply wp_eq. unfold mmgs_get_triangles_qualities, mesh_of, sol_of.
    enter_s Hwf Hv. rewrite Hsz. cbn [negb Z.eqb Pos.eqb].
    rewrite (proj2 (Z.eqb_neq nt 0)) by lia.
    apply wp_bind. unfold wp, c_malloc. rewrite Em. done.
  - split; [done | intros _].
    set (m := mesh (entry_at (g_handles_s w) h)) in *.
    set (s := sol (entry_at (g_handles_s w) h)).
    assert (is_Some (live (heap (set_heap h1 w)) !! p)) as Hlive.
    { destruct G as [_ Hin]. apply (Hin p). set_solver. }
    destruct (qualities_loop_s_spec nt m s p (Z.to_nat nt) 1
                (set_heap h1 w) Hlive) as (Hset & _ & Hg & Hw).
    assert (mmgs_get_triangles_qualities h out_count w
            = ((p, store_out out_count nt),
               (qualities_loop (Z.to_nat nt) 1 nt m s p (set_heap h1 w)).2))
      as ->.
    { apply wp_eq. unfold mmgs_get_triangles_qualities, mesh_of, sol_of.
      enter_s Hwf Hv. fold m s. rewrite Hsz. cbn [negb Z.eqb Pos.eqb].
      rewrite (proj2 (Z.eqb_neq nt 0)) by lia.
      apply wp_bind. unfold wp at 1, c_malloc. rewrite Em. cbn [fst snd].
      rewrite (proj2 (Z.eqb_neq p NULL) Hp).
      apply wp_bind. unfold wp.
      by destruct (qualities_loop _ _ _ _ _ _ _). }
    cbn [fst snd].
    assert (grown (heap w)
              (heap (qualities_loop (Z.to_nat nt) 1 nt m s p
                       (set_heap h1 w)).2) {[p]}) as G1.
    { eapply grown_set; [| apply Hg; [exact G | set_solver]]. set_solver. }
    destruct (grown_one _ _ _ G1) as (Hfresh & _ & Hdel).
    split_and!; [done | done | done | |].
    + rewrite Hw at 1. by destruct w.
    + intros k Hk. rewrite quality_s_valid by done. cbn [fst].
      apply Hset; lia.
Qed.
End Quality_s.

Section Slots_s.
Context {K : Type} `{!libmmgs K}.
Import Mmgs.

Local Abbreviation wf_s w :=
  (wf_table (g_handles_s w) (g_initialized_s w)).

Lemma validate_s_wf (h : Z) (w : World K) :
  wf_s w → (validate_handle_s h w).1 = slot_valid (g_handles_s w) h.
Proof.
  intros Hwf. rewrite validate_s_eq. cbn [fst].
  by rewrite ensure_s_handles.
Qed.

Lemma available_s_wf (w : World K) :
  wf_s w →
  (mmgs_get_available_handles w).1 = free_count (g_handles_s w).
Proof.
  intros Hwf. rewrite available_s_eq. cbn [fst].
  rewrite ensure_s_handles by done. apply count_free_loop_full, Hwf.
Qed.

Lemma exec_s_handles_other (c : call) (w : World K) :
  wf_s w → lifecycle_s c = false →
  g_handles_s (exec c w).2 = g_handles_s w.
Proof.
  intros Hwf Hc. destruct (exec_s_tables c Hc) as [Hs | Hp].
  - specialize (Hs w). unfold tables_s in Hs. injection Hs as -> _.
    by apply ensure_s_handles.
  - specialize (Hp w). unfold tables_s in Hp. by injection Hp as -> _.
Qed.

(** [init]: the handle is the first free slot, found by
    [find_free_handle_s], or -1; the table changes in that slot, and
    only when a handle is returned. *)
Lemma init_s_outcome (w : World K) :
  wf_s w →
  let t := g_handles_s w in
  let f := find_free_loop t 0 (Z.to_nat MAX_HANDLES) in
  let '((res, m, s), k1) := MMGS_Init_mesh (kernel w) in
  let r := mmgs_init w in
  (find_free_handle_s w).1 = f ∧
  g_handles_s (find_free_handle_s w).2 = t ∧
  heap r.2 = heap w ∧
  if (f <? 0) || negb (res =? 1) || (m =? NULL)
  then r.1 = -1 ∧ g_handles_s r.2 = t
  else r.1 = f ∧ g_handles_s r.2 = set_entry t f m s 1 ∧
       kernel r.2 = MMGS_Init_parameters m k1.
Proof.
  intros Hwf. cbv zeta.
  pose proof (ensure_s_handles w Hwf) as Ht.
  pose proof (ensure_s_outside w) as Ho.
  rewrite init_s_eq. unfold find_free_handle_s. unfold_M.
  destruct (ensure_initialized_s w) as [[] w1]. cbn [fst snd] in *.
  unfold outside_s in Ho. injection Ho as _ _ _ _ Hh Hk.
  rewrite Ht, Hk.
  destruct (MMGS_Init_mesh (kernel w)) as [[[res m] s] k1].
  split_and!; [done | done | |].
  - repeat case_match; done.
  - destruct (_ <? 0); [done |]. cbn [orb].
    destruct (negb (res =? 1) || (m =? NULL)); done.
Qed.

Lemma init_s_result (w : World K) :
  wf_s w →
  let t := g_handles_s w in
  let r := (mmgs_init w).1 in
  r = -1 ∨
  (0 ≤ r < MAX_HANDLES ∧
   r = find_free_loop t 0 (Z.to_nat MAX_HANDLES) ∧
   active (entry_at t r) = 0 ∧
   (∀ j, 0 ≤ j < r → active (entry_at t j) ≠ 0) ∧
   ∃ m s, g_handles_s (mmgs_init w).2 = set_entry t r m s 1).
Proof.
  intros Hwf. cbv zeta. pose proof (init_s_outcome w Hwf) as Ho.
  cbv zeta in Ho. destruct (MMGS_Init_mesh (kernel w)) as [[[res m] s] k1].
  destruct Ho as (_ & _ & _ & Ho).
  destruct (find_free_loop_spec (g_handles_s w) (Z.to_nat MAX_HANDLES) 0)
    as [[Hr Hall] | (Hr & Hz & Hall)]; cbv zeta in *.
  - rewrite Hr in Ho. left. apply Ho.
  - destruct (_ || _); [left; apply Ho | right].
    destruct Ho as (-> & Ht & _).
    split_and!; [lia | unfold MAX_HANDLES in *; lia | done.. | eauto].
Qed.

Lemma init_s_failed (w : World K) :
  wf_s w → (mmgs_init w).1 = -1 →
  g_handles_s (mmgs_init w).2 = g_handles_s w.
Proof.
  intros Hwf Hr. pose proof (init_s_outcome w Hwf) as Ho.
  cbv zeta in Ho. destruct (MMGS_Init_mesh (kernel w)) as [[[res m] s] k1].
  destruct Ho as (_ & _ & _ & Ho).
  destruct (_ || _) eqn:Hc; [apply Ho |]. destruct Ho as (Hf & _).
  apply orb_false_elim in Hc as [Hc _].
  apply orb_false_elim in Hc as [Hc _]. lia.
Qed.

Lemma init_s_count (w : World K) :
  wf_s w →
  free_count (g_handles_s (mmgs_init w).2)
  = free_count (g_handles_s w)
    - (if (mmgs_init w).1 =? -1 then 0 else 1).
Proof.
  intros Hwf. destruct (init_s_result w Hwf) as [Hr | Hr]; cbv zeta in Hr.
  - rewrite init_s_failed, Hr by done. simpl. lia.
  - destruct Hr as (Hr & _ & Hz & _ & m & s & ->).
    rewrite free_count_set_entry, Hz; [| lia | destruct Hwf; lia].
    destruct (Z.eqb_spec (mmgs_init w).1 (-1)); simpl; lia.
Qed.

Lemma free_s_outcome (h : Z) (w : World K) :
  wf_s w →
  let t := g_handles_s w in
  let r := mmgs_free h w in
  heap r.2 = heap w ∧
  if slot_valid t h =? 0
  then r.1 = 0 ∧ g_handles_s r.2 = t ∧ kernel r.2 = kernel w
  else r.1 = 1 ∧ g_handles_s r.2 = set_entry t h NULL NULL 0 ∧
       kernel r.2
       = MMGS_Free_all (mesh (entry_at t h)) (sol (entry_at t h))
           (kernel w).
Proof.
  intros Hwf. cbv zeta. rewrite free_s_eq, validate_s_wf by done.
  pose proof (ensure_s_handles w Hwf) as Ht.
  pose proof (ensure_s_outside w) as Ho.
  destruct (ensure_initialized_s w) as [[] w1]. cbn [fst snd] in *.
  unfold outside_s in Ho. injection Ho as _ _ _ _ Hh Hk.
  cbv zeta. rewrite Ht, Hk. by destruct (slot_valid _ _ =? 0).
Qed.
End Slots_s.

Section Runs_s.
Context {K : Type} `{!libmmgs K}.
Import Mmgs.

Local Abbreviation wf_s w :=
  (wf_table (g_handles_s w) (g_initialized_s w)).

Lemma exec_init_s (w : World K) :
  exec Init w = (RInt (mmgs_init w).1, (mmgs_init w).2).
Proof. unfold exec, r_int. unfold_M. by destruct (mmgs_init w). Qed.

Lemma exec_free_s (h : Z) (w : World K) :
  exec (Free h) w = (RInt (mmgs_free h w).1, (mmgs_free h w).2).
Proof. unfold exec, r_int. unfold_M. by destruct (mmgs_free h w). Qed.

Lemma run_s_cons (c : call) (cs : list call) (w : World K) :
  run (c :: cs) w
  = ((exec c w).1 :: (run cs (exec c w).2).1, (run cs (exec c w).2).2).
Proof.
  cbn [run]. destruct (exec c w) as [r w1]. cbn [fst snd].
  by destruct (run cs w1).
Qed.

Lemma run_s_wf (cs : list call) : ∀ w : World K,
  wf_s w → wf_s (run cs w).2.
Proof.
  induction cs as [|c cs IH]; intros w Hwf; [done |].
  rewrite run_s_cons. cbn [snd]. by apply IH, exec_s_wf.
Qed.

(** A valid handle stays valid through every call but its own [free]. *)
Lemma exec_s_valid_step (c : call) (h : Z) (w : World K) :
  wf_s w → c ≠ Free h → slot_valid (g_handles_s w) h ≠ 0 →
  slot_valid (g_handles_s (exec c w).2) h = slot_valid (g_handles_s w) h.
Proof.
  intros Hwf Hc Hv. destruct (lifecycle_s c) eqn:Hl.
  - destruct c; try discriminate.
    + rewrite exec_init_s. cbn [snd].
      destruct (init_s_result w Hwf) as [Hr | Hr]; cbv zeta in Hr.
      * by rewrite init_s_failed.
      * destruct Hr as (Hr & _ & Hz & _ & m & s & ->).
        rewrite slot_valid_set_entry;
          [| lia | destruct Hwf; unfold MAX_HANDLES in *; lia | apply Hwf].
        destruct (Z.eqb_spec h (mmgs_init w).1) as [-> | _]; [| done].
        exfalso. apply Hv. unfold slot_valid.
        by destruct ((_ <? 0) || _).
    + rewrite exec_free_s. cbn [snd].
      pose proof (free_s_outcome handle w Hwf) as Ho. cbv zeta in Ho.
      destruct Ho as [_ Ho].
      destruct (Z.eqb_spec (slot_valid (g_handles_s w) handle) 0)
        as [Hz | Hnz].
      * by destruct Ho as (_ & -> & _).
      * destruct Ho as (_ & -> & _).
        assert (0 ≤ handle < MAX_HANDLES) as Hr.
        { unfold slot_valid in Hnz.
          destruct (Z.ltb_spec handle 0); [done |].
          destruct (Z.geb_spec handle MAX_HANDLES); [done | lia]. }
        rewrite slot_valid_set_entry;
          [| lia | destruct Hwf; unfold MAX_HANDLES in *; lia | apply Hwf].
        destruct (Z.eqb_spec h handle) as [-> | _]; [| done].
        by destruct Hc.
  - by rewrite exec_s_handles_other.
Qed.

(** A handle that is not valid stays so through every call but an
    [init] that hands it out. *)
Lemma exec_s_invalid_step (c : call) (h : Z) (w : World K) :
  wf_s w → slot_valid (g_handles_s w) h = 0 →
  (c = Init → (exec c w).1 ≠ RInt h) →
  slot_valid (g_handles_s (exec c w).2) h = 0.
Proof.
  intros Hwf Hv Hc. destruct (lifecycle_s c) eqn:Hl.
  - destruct c; try discriminate.
    + specialize (Hc eq_refl). rewrite exec_init_s in *. cbn [fst snd] in *.
      destruct (init_s_result w Hwf) as [Hr | Hr]; cbv zeta in Hr.
      * by rewrite init_s_failed.
      * destruct Hr as (Hr & _ & Hz & _ & m & s & ->).
        rewrite slot_valid_set_entry;
          [| lia | destruct Hwf; unfold MAX_HANDLES in *; lia | apply Hwf].
        destruct (Z.eqb_spec h (mmgs_init w).1) as [-> | _]; [| done].
        by destruct Hc.
    + rewrite exec_free_s. cbn [snd].
      pose proof (free_s_outcome handle w Hwf) as Ho. cbv zeta in Ho.
      destruct Ho as [_ Ho].
      destruct (Z.eqb_spec (slot_valid (g_handles_s w) handle) 0)
        as [Hz | Hnz].
      * by destruct Ho as (_ & -> & _).
      * destruct Ho as (_ & -> & _).
        assert (0 ≤ handle < MAX_HANDLES) as Hr.
        { unfold slot_valid in Hnz.
          destruct (Z.ltb_spec handle 0); [done |].
          destruct (Z.geb_spec handle MAX_HANDLES); [done | lia]. }
        rewrite slot_valid_set_entry;
          [| lia | destruct Hwf; unfold MAX_HANDLES in *; lia | apply Hwf].
        by destruct (h =? handle).
  - by rewrite exec_s_handles_other.
Qed.

Lemma run_s_valid (h : Z) (cs : list call) : ∀ w : World K,
  wf_s w → Free h ∉ cs → slot_valid (g_handles_s w) h ≠ 0 →
  slot_valid (g_handles_s (run cs w).2) h = slot_valid (g_handles_s w) h.
Proof.
  induction cs as [|c cs IH]; intros w Hwf Hcs Hv; [done |].
  rewrite run_s_cons. cbn [snd].
  apply not_elem_of_cons in Hcs as [Hc Hcs].
  pose proof (exec_s_valid_step c h w Hwf ltac:(done) Hv) as Hstep.
  rewrite IH; [done | by apply exec_s_wf | done | by rewrite Hstep].
Qed.

Lemma run_s_invalid (h : Z) (cs : list call) : ∀ w : World K,
  wf_s w → slot_valid (g_handles_s w) h = 0 →
  ¬ reissued_s cs (run cs w).1 h →
  slot_valid (g_handles_s (run cs w).2) h = 0.
Proof.
  induction cs as [|c cs IH]; intros w Hwf Hv Hre; [done |].
  rewrite run_s_cons in *. cbn [fst snd] in *.
  apply IH; [by apply exec_s_wf | |].
  - apply exec_s_invalid_step; [done.. |]. intros -> Hr.
    apply Hre. exists 0%nat. by rewrite Hr.
  - intros (i & Hi & Hr). apply Hre. by exists (S i).
Qed.

(** [n] calls of [init] that all hand out a handle take [n] slots. *)
Lemma run_inits_s (n : nat) : ∀ w : World K,
  wf_s w →
  (∀ r, r ∈ (run (replicate n Init) w).1 → r ≠ RInt (-1)) →
  free_count (g_handles_s (run (replicate n Init) w).2)
  = free_count (g_handles_s w) - Z.of_nat n.
Proof.
  induction n as [|n IH]; intros w Hwf Hok; [simpl; lia |].
  cbn [replicate] in *. rewrite run_s_cons in *. cbn [fst snd] in *.
  rewrite exec_init_s in *. cbn [fst snd] in *.
  rewrite IH, init_s_count; [| done | by apply init_s_wf |].
  - destruct (Z.eqb_spec (mmgs_init w).1 (-1)) as [Hr | _]; [| lia].
    exfalso. apply (Hok (RInt (mmgs_init w).1)); [left | by rewrite Hr].
  - intros r Hr. apply Hok. by right.
Qed.
End Runs_s.

Section Reads_2d.
Context {K : Type} `{!libmmg2d K}.
Import Mmg2d.

(** What the validity check and the count of free slots read is in the
    file's own table. *)
Lemma reads_2d (w w' : World K) :
  tables_2d w = tables_2d w' →
  (∀ h, (validate_handle_2d h w).1 = (validate_handle_2d h w').1) ∧
  (mmg2d_get_available_handles w).1 = (mmg2d_get_available_handles w').1.
Proof.
  unfold tables_2d. intros [= Ht Hi].
  assert (g_handles_2d (ensure_initialized_2d w).2
          = g_handles_2d (ensure_initialized_2d w').2) as He.
  { unfold ensure_initialized_2d. rewrite Hi. by case_match. }
  split; [intros h |].
  - rewrite !validate_2d_eq. cbn [fst]. by rewrite He.
  - rewrite !available_2d_eq. cbn [fst]. by rewrite He.
Qed.
End Reads_2d.

Section Reads_3d.
Context {K : Type} `{!libmmg3d K}.
Import Mmg3d.

(** What the validity check and the count of free slots read is in the
    file's own table. *)
Lemma reads_3d (w w' : World K) :
  tables_3d w = tables_3d w' →
  (∀ h, (validate_handle h w).1 = (validate_handle h w').1) ∧
  (mmg3d_get_available_handles w).1 = (mmg3d_get_available_handles w').1.
Proof.
  unfold tables_3d. intros [= Ht Hi].
  assert (g_handles (ensure_initialized w).2
          = g_handles (ensure_initialized w').2) as He.
  { unfold ensure_initialized. rewrite Hi. by case_match. }
  split; [intros h |].
  - rewrite !validate_3d_eq. cbn [fst]. by rewrite He.
  - rewrite !available_3d_eq. cbn [fst]. by rewrite He.
Qed.
End Reads_3d.

Section Reads_s.
Context {K : Type} `{!libmmgs K}.
Import Mmgs.

(** What the validity check and the count of free slots read is in the
    file's own table. *)
Lemma reads_s (w w' : World K) :
  tables_s w = tables_s w' →
  (∀ h, (validate_handle_s h w).1 = (validate_handle_s h w').1) ∧
  (mmgs_get_available_handles w).1 = (mmgs_get_available_handles w').1.
Proof.
  unfold tables_s. intros [= Ht Hi].
  assert (g_handles_s (ensure_initialized_s w).2
          = g_handles_s (ensure_initialized_s w').2) as He.
  { unfold ensure_initialized_s. rewrite Hi. by case_match. }
  split; [intros h |].
  - rewrite !validate_s_eq. cbn [fst]. by rewrite He.
  - rewrite !available_s_eq. cbn [fst]. by rewrite He.
Qed.
End Reads_s.

Section Claims_2d.
Context {K : Type} `{!libmmg2d K}.
Import Mmg2d.

Local Abbreviation wf_2d w :=
  (wf_table (g_handles_2d w) (g_initialized_2d w)).

(** [init] gives -1 on a full table and on a failed construction, and a
    call that gives -1 takes no slot. *)
Lemma init_2d_refuses (w : World K) :
  wf_2d w →
  ((mmg2d_get_available_handles w).1 = 0 → (mmg2d_init w).1 = -1) ∧
  (∀ res m s k1,
     MMG2D_Init_mesh (kernel w) = ((res, m, s), k1) →
     res ≠ 1 ∨ m = NULL → (mmg2d_init w).1 = -1) ∧
  ((mmg2d_init w).1 = -1 →
   g_handles_2d (mmg2d_init w).2 = g_handles_2d w ∧
   active_count (g_handles_2d (mmg2d_init w).2)
   = active_count (g_handles_2d w) ∧
   (mmg2d_get_available_handles (mmg2d_init w).2).1
   = (mmg2d_get_available_handles w).1).
Proof.
  intros Hwf. pose proof (init_2d_outcome w Hwf) as Ho. cbv zeta in Ho.
  split_and!.
  - rewrite available_2d_wf by done. intros Hfull.
    apply find_free_full in Hfull; [| apply Hwf].
    destruct (MMG2D_Init_mesh (kernel w)) as [[[res m] s] k1].
    destruct Ho as (_ & _ & _ & Ho). rewrite Hfull in Ho. apply Ho.
  - intros res m s k1 E Hfail. rewrite E in Ho.
    destruct Ho as (_ & _ & _ & Ho).
    replace (_ || _ || _) with true in Ho; [apply Ho |].
    symmetry. rewrite !orb_true_iff, negb_true_iff, Z.eqb_neq, Z.eqb_eq.
    tauto.
  - intros Hr. pose proof (init_2d_failed w Hwf Hr) as Ht.
    rewrite !available_2d_wf, Ht; [done.. | by apply init_2d_wf].
Qed.

(** From the start of the program, [MAX_HANDLES] calls of [init] that all
    hand out a handle fill the table: the count of free slots reads 0
    and one more call gives -1. *)
Lemma init_2d_exhaustion (hp : Heap) (k : K) :
  let r := run (replicate (Z.to_nat MAX_HANDLES) Init) (boot hp k) in
  (∀ x, x ∈ r.1 → x ≠ RInt (-1)) →
  (mmg2d_get_available_handles r.2).1 = 0 ∧ (mmg2d_init r.2).1 = -1.
Proof.
  cbv zeta. intros Hok.
  assert (wf_2d (boot hp k)) as Hwf0 by done.
  pose proof (run_2d_wf (replicate (Z.to_nat MAX_HANDLES) Init) _ Hwf0)
    as Hwf.
  pose proof (run_inits_2d _ _ Hwf0 Hok) as Hc.
  change (g_handles_2d (boot hp k)) with memset_zero in Hc.
  rewrite free_count_memset in Hc.
  assert ((mmg2d_get_available_handles
             (run (replicate (Z.to_nat MAX_HANDLES) Init) (boot hp k)).2).1
          = 0) as Ha.
  { rewrite available_2d_wf by done. rewrite Hc. unfold MAX_HANDLES. lia. }
  split; [done |]. by apply init_2d_refuses.
Qed.

(** The life of a handle: valid from the [init] that hands it out to its
    [free], then not valid until an [init] hands it out again. *)
Lemma handle_2d_lifetime (h : Z) (w : World K) :
  wf_2d w →
  ((mmg2d_init w).1 = h → 0 ≤ h →
   ∀ cs, Free h ∉ cs →
     (validate_handle_2d h (run cs (mmg2d_init w).2).2).1 = 1) ∧
  ((mmg2d_free h w).1 = 1 →
   ∀ cs,
     let r := run cs (mmg2d_free h w).2 in
     ¬ reissued_2d cs r.1 h →
     (validate_handle_2d h r.2).1 = 0 ∧
     (mmg2d_free h r.2).1 = 0 ∧
     ∀ c, handle_of c = Some h → (exec c r.2).1 = sentinel c).
Proof.
  intros Hwf. split.
  - intros Hh Hpos cs Hcs.
    pose proof (init_2d_wf w Hwf) as Hwf1.
    assert (slot_valid (g_handles_2d (mmg2d_init w).2) h = 1) as Hv.
    { destruct (init_2d_result w Hwf) as [Hr | Hr]; cbv zeta in Hr; [lia |].
      destruct Hr as (Hr & _ & _ & _ & m & s & ->). rewrite Hh in *.
      rewrite slot_valid_set_entry, Z.eqb_refl;
        [done | lia | destruct Hwf; unfold MAX_HANDLES in *; lia
        | apply Hwf]. }
    rewrite validate_2d_wf by by apply run_2d_wf.
    rewrite run_2d_valid; [done.. | lia].
  - intros Hf cs. cbv zeta. intros Hre.
    pose proof (free_2d_wf h w Hwf) as Hwf1.
    assert (slot_valid (g_handles_2d (mmg2d_free h w).2) h = 0) as Hv.
    { pose proof (free_2d_outcome h w Hwf) as Ho. cbv zeta in Ho.
      destruct Ho as [_ Ho].
      destruct (Z.eqb_spec (slot_valid (g_handles_2d w) h) 0) as [Hz | Hnz].
      - destruct Ho as (Hr & _). lia.
      - destruct Ho as (_ & -> & _).
        assert (0 ≤ h < MAX_HANDLES) as Hr.
        { unfold slot_valid in Hnz.
          destruct (Z.ltb_spec h 0); [done |].
          destruct (Z.geb_spec h MAX_HANDLES); [done | lia]. }
        rewrite slot_valid_set_entry, Z.eqb_refl;
          [done | lia | destruct Hwf; unfold MAX_HANDLES in *; lia
          | apply Hwf]. }
    pose proof (run_2d_wf cs _ Hwf1) as Hwf2.
    pose proof (run_2d_invalid h cs _ Hwf1 Hv Hre) as Hv2.
    assert ((validate_handle_2d h (run cs (mmg2d_free h w).2).2).1 = 0)
      as Hinv by by rewrite validate_2d_wf.
    split_and!; [done | |].
    + pose proof (exec_2d_invalid (Free h) h _ eq_refl Hinv) as E.
      rewrite exec_free_2d in E. by injection E as -> _.
    + intros c Hc. by rewrite (exec_2d_invalid c h).
Qed.

(** A successful [init]: the handle is the free slot of lowest index;
    finding it changes nothing in the table; the new instance is bound in
    that slot, which becomes active, and no other slot changes; which
    slot it is depends on the activity of the slots alone. *)
Lemma init_2d_acquires (w : World K) (m s : ptr) (k1 : K) :
  wf_2d w →
  (∃ i, 0 ≤ i < MAX_HANDLES ∧ active (entry_at (g_handles_2d w) i) = 0) →
  MMG2D_Init_mesh (kernel w) = ((1, m, s), k1) →
  m ≠ NULL →
  let t := g_handles_2d w in
  let h := (mmg2d_init w).1 in
  let t' := g_handles_2d (mmg2d_init w).2 in
  0 ≤ h ≤ 63 ∧
  active (entry_at t h) = 0 ∧
  (∀ j, 0 ≤ j < h → active (entry_at t j) ≠ 0) ∧
  (find_free_handle_2d w).1 = h ∧
  g_handles_2d (find_free_handle_2d w).2 = t ∧
  entry_at t' h = mkEntry m s 1 ∧
  (∀ j, 0 ≤ j → j ≠ h → entry_at t' j = entry_at t j) ∧
  (∀ w' : World K,
     wf_2d w' → activity (g_handles_2d w') = activity t →
     (find_free_handle_2d w').1 = h).
Proof.
  intros Hwf (i & Hi & Hz) E Hm. cbv zeta.
  pose proof (init_2d_outcome w Hwf) as Ho. cbv zeta in Ho.
  rewrite E in Ho. destruct Ho as (Hf & Hft & _ & Ho).
  destruct (find_free_loop_spec (g_handles_2d w) (Z.to_nat MAX_HANDLES) 0)
    as [[Hr Hall] | (Hr & Hfz & Hall)]; cbv zeta in *.
  { exfalso. apply (Hall i); [unfold MAX_HANDLES in *; lia | done]. }
  replace (_ || _ || _) with false in Ho; cycle 1.
  { symmetry. rewrite !orb_false_iff, negb_false_iff, Z.eqb_neq.
    split_and!; [apply Z.ltb_ge; lia | done | done]. }
  destruct Ho as (-> & -> & _).
  assert ((Z.to_nat (find_free_loop (g_handles_2d w) 0
                       (Z.to_nat MAX_HANDLES)) < length (g_handles_2d w))%nat)
    as Hlen by (destruct Hwf; unfold MAX_HANDLES in *; lia).
  split_and!; [lia | unfold MAX_HANDLES in *; lia | done.. | | | ].
  - by apply entry_at_set_entry_eq.
  - intros j Hj Hne. apply entry_at_set_entry_ne; [lia | done | done].
  - intros w' Hwf' Hact.
    pose proof (init_2d_outcome w' Hwf') as Ho'. cbv zeta in Ho'.
    destruct (MMG2D_Init_mesh (kernel w')) as [[[res' m'] s'] k1'].
    destruct Ho' as (-> & _). by apply find_free_loop_activity.
Qed.

(** The quality of one element and of all: the single query passes the
    kernel's value on, or gives 0.0 on a handle that is not valid; the
    bulk query, on a mesh of [nt > 0] elements, gives [NULL] with a zero
    count when its allocation fails and otherwise a new block whose cell
    [k - 1] holds what the single query gives for [k]. *)
Lemma quality_2d_bulk (h : Z) (out_count : OutInt) (w : World K)
    (np nt nquad na : Z) (p : ptr) (h1 : Heap) :
  wf_2d w →
  (validate_handle_2d h w).1 ≠ 0 →
  MMG2D_Get_meshSize (mesh (entry_at (g_handles_2d w) h)) (kernel w)
  = (1, (np, nt, nquad, na)) →
  0 < nt →
  malloc (size_t (nt * sizeof_double)) (heap w) = (p, h1) →
  let r := mmg2d_get_triangles_qualities h out_count w in
  (p = NULL →
   r.1 = (NULL, store_out out_count 0) ∧ live (heap r.2) = live (heap w)) ∧
  (p ≠ NULL →
   r.1 = (p, store_out out_count nt) ∧
   live (heap w) !! p = None ∧
   delete p (live (heap r.2)) = live (heap w) ∧
   ∀ k, 1 ≤ k ≤ nt →
     load p (k - 1) (heap r.2)
     = Some (CDouble (mmg2d_get_triangle_quality h k w).1)).
Proof.
  intros Hwf Hv Hsz Hn Em. cbv zeta.
  destruct (get_qualities_2d_outcome h out_count w _ _ _ _ _ _
              Hwf Hv Hsz Hn Em) as [Hnull Hok].
  split.
  - intros Hp. destruct (Hnull Hp) as [-> Hl]. done.
  - intros Hp. destruct (Hok Hp) as (? & ? & ? & _ & ?). done.
Qed.

Lemma quality_2d_unit (h k : Z) (w : World K) :
  (∀ m s j k0, unit_interval (MMG2D_Get_triangleQuality m s j k0)) →
  unit_interval (mmg2d_get_triangle_quality h k w).1.
Proof.
  intros Hq. unfold mmg2d_get_triangle_quality, mesh_of, sol_of.
  cbv [mbind M_bind mret M_ret gets kget].
  destruct (validate_handle_2d h w) as [v w1].
  destruct (v =? 0); [reflexivity | apply Hq].
Qed.
End Claims_2d.

Section Claims_3d.
Context {K : Type} `{!libmmg3d K}.
Import Mmg3d.

Local Abbreviation wf_3d w :=
  (wf_table (g_handles w) (g_initialized w)).

(** [init] gives -1 on a full table and on a failed construction, and a
    call that gives -1 takes no slot. *)
Lemma init_3d_refuses (w : World K) :
  wf_3d w →
  ((mmg3d_get_available_handles w).1 = 0 → (mmg3d_init w).1 = -1) ∧
  (∀ res m s k1,
     MMG3D_Init_mesh (kernel w) = ((res, m, s), k1) →
     res ≠ 1 ∨ m = NULL → (mmg3d_init w).1 = -1) ∧
  ((mmg3d_init w).1 = -1 →
   g_handles (mmg3d_init w).2 = g_handles w ∧
   active_count (g_handles (mmg3d_init w).2)
   = active_count (g_handles w) ∧
   (mmg3d_get_available_handles (mmg3d_init w).2).1
   = (mmg3d_get_available_handles w).1).
Proof.
  intros Hwf. pose proof (init_3d_outcome w Hwf) as Ho. cbv zeta in Ho.
  split_and!.
  - rewrite available_3d_wf by done. intros Hfull.
    apply find_free_full in Hfull; [| apply Hwf].
    destruct (MMG3D_Init_mesh (kernel w)) as [[[res m] s] k1].
    destruct Ho as (_ & _ & _ & Ho). rewrite Hfull in Ho. apply Ho.
  - intros res m s k1 E Hfail. rewrite E in Ho.
    destruct Ho as (_ & _ & _ & Ho).
    replace (_ || _ || _) with true in Ho; [apply Ho |].
    symmetry. rewrite !orb_true_iff, negb_true_iff, Z.eqb_neq, Z.eqb_eq.
    tauto.
  - intros Hr. pose proof (init_3d_failed w Hwf Hr) as Ht.
    rewrite !available_3d_wf, Ht; [done.. | by apply init_3d_wf].
Qed.

(** From the start of the program, [MAX_HANDLES] calls of [init] that all
    hand out a handle fill the table: the count of free slots reads 0
    and one more call gives -1. *)
Lemma init_3d_exhaustion (hp : Heap) (k : K) :
  let r := run (replicate (Z.to_nat MAX_HANDLES) Init) (boot hp k) in
  (∀ x, x ∈ r.1 → x ≠ RInt (-1)) →
  (mmg3d_get_available_handles r.2).1 = 0 ∧ (mmg3d_init r.2).1 = -1.
Proof.
  cbv zeta. intros Hok.
  assert (wf_3d (boot hp k)) as Hwf0 by done.
  pose proof (run_3d_wf (replicate (Z.to_nat MAX_HANDLES) Init) _ Hwf0)
    as Hwf.
  pose proof (run_inits_3d _ _ Hwf0 Hok) as Hc.
  change (g_handles (boot hp k)) with memset_zero in Hc.
  rewrite free_count_memset in Hc.
  assert ((mmg3d_get_available_handles
             (run (replicate (Z.to_nat MAX_HANDLES) Init) (boot hp k)).2).1
          = 0) as Ha.
  { rewrite available_3d_wf by done. rewrite Hc. unfold MAX_HANDLES. lia. }
  split; [done |]. by apply init_3d_refuses.
Qed.

(** The life of a handle: valid from the [init] that hands it out to its
    [free], then not valid until an [init] hands it out again. *)
Lemma handle_3d_lifetime (h : Z) (w : World K) :
  wf_3d w →
  ((mmg3d_init w).1 = h → 0 ≤ h →
   ∀ cs, Free h ∉ cs →
     (validate_handle h (run cs (mmg3d_init w).2).2).1 = 1) ∧
  ((mmg3d_free h w).1 = 1 →
   ∀ cs,
     let r := run cs (mmg3d_free h w).2 in
     ¬ reissued_3d cs r.1 h →
     (validate_handle h r.2).1 = 0 ∧
     (mmg3d_free h r.2).1 = 0 ∧
     ∀ c, handle_of c = Some h → (exec c r.2).1 = sentinel c).
Proof.
  intros Hwf. split.
  - intros Hh Hpos cs Hcs.
    pose proof (init_3d_wf w Hwf) as Hwf1.
    assert (slot_valid (g_handles (mmg3d_init w).2) h = 1) as Hv.
    { destruct (init_3d_result w Hwf) as [Hr | Hr]; cbv zeta in Hr; [lia |].
      destruct Hr as (Hr & _ & _ & _ & m & s & ->). rewrite Hh in *.
      rewrite slot_valid_set_entry, Z.eqb_refl;
        [done | lia | destruct Hwf; unfold MAX_HANDLES in *; lia
        | apply Hwf]. }
    rewrite validate_3d_wf by by apply run_3d_wf.
    rewrite run_3d_valid; [done.. | lia].
  - intros Hf cs. cbv zeta. intros Hre.
    pose proof (free_3d_wf h w Hwf) as Hwf1.
    assert (slot_valid (g_handles (mmg3d_free h w).2) h = 0) as Hv.
    { pose proof (free_3d_outcome h w Hwf) as Ho. cbv zeta in Ho.
      destruct Ho as [_ Ho].
      destruct (Z.eqb_spec (slot_valid (g_handles w) h) 0) as [Hz | Hnz].
      - destruct Ho as (Hr & _). lia.
      - destruct Ho as (_ & -> & _).
        assert (0 ≤ h < MAX_HANDLES) as Hr.
        { unfold slot_valid in Hnz.
          destruct (Z.ltb_spec h 0); [done |].
          destruct (Z.geb_spec h MAX_HANDLES); [done | lia]. }
        rewrite slot_valid_set_entry, Z.eqb_refl;
          [done | lia | destruct Hwf; unfold MAX_HANDLES in *; lia
          | apply Hwf]. }
    pose proof (run_3d_wf cs _ Hwf1) as Hwf2.
    pose proof (run_3d_invalid h cs _ Hwf1 Hv Hre) as Hv2.
    assert ((validate_handle h (run cs (mmg3d_free h w).2).2).1 = 0)
      as Hinv by by rewrite validate_3d_wf.
    split_and!; [done | |].
    + pose proof (exec_3d_invalid (Free h) h _ eq_refl Hinv) as E.
      rewrite exec_free_3d in E. by injection E as -> _.
    + intros c Hc. by rewrite (exec_3d_invalid c h).
Qed.

(** A successful [init]: the handle is the free slot of lowest index;
    finding it changes nothing in the table; the new instance is bound in
    that slot, which becomes active, and no other slot changes; which
    slot it is depends on the activity of the slots alone. *)
Lemma init_3d_acquires (w : World K) (m s : ptr) (k1 : K) :
  wf_3d w →
  (∃ i, 0 ≤ i < MAX_HANDLES ∧ active (entry_at (g_handles w) i) = 0) →
  MMG3D_Init_mesh (kernel w) = ((1, m, s), k1) →
  m ≠ NULL →
  let t := g_handles w in
  let h := (mmg3d_init w).1 in
  let t' := g_handles (mmg3d_init w).2 in
  0 ≤ h ≤ 63 ∧
  active (entry_at t h) = 0 ∧
  (∀ j, 0 ≤ j < h → active (entry_at t j) ≠ 0) ∧
  (find_free_handle w).1 = h ∧
  g_handles (find_free_handle w).2 = t ∧
  entry_at t' h = mkEntry m s 1 ∧
  (∀ j, 0 ≤ j → j ≠ h → entry_at t' j = entry_at t j) ∧
  (∀ w' : World K,
     wf_3d w' → activity (g_handles w') = activity t →
     (find_free_handle w').1 = h).
Proof.
  intros Hwf (i & Hi & Hz) E Hm. cbv zeta.
  pose proof (init_3d_outcome w Hwf) as Ho. cbv zeta in Ho.
  rewrite E in Ho. destruct Ho as (Hf & Hft & _ & Ho).
  destruct (find_free_loop_spec (g_handles w) (Z.to_nat MAX_HANDLES) 0)
    as [[Hr Hall] | (Hr & Hfz & Hall)]; cbv zeta in *.
  { exfalso. apply (Hall i); [unfold MAX_HANDLES in *; lia | done]. }
  replace (_ || _ || _) with false in Ho; cycle 1.
  { symmetry. rewrite !orb_false_iff, negb_false_iff, Z.eqb_neq.
    split_and!; [apply Z.ltb_ge; lia | done | done]. }
  destruct Ho as (-> & -> & _).
  assert ((Z.to_nat (find_free_loop (g_handles w) 0
                       (Z.to_nat MAX_HANDLES)) < length (g_handles w))%nat)
    as Hlen by (destruct Hwf; unfold MAX_HANDLES in *; lia).
  split_and!; [lia | unfold MAX_HANDLES in *; lia | done.. | | | ].
  - by apply entry_at_set_entry_eq.
  - intros j Hj Hne. apply entry_at_set_entry_ne; [lia | done | done].
  - intros w' Hwf' Hact.
    pose proof (init_3d_outcome w' Hwf') as Ho'. cbv zeta in Ho'.
    destruct (MMG3D_Init_mesh (kernel w')) as [[[res' m'] s'] k1'].
    destruct Ho' as (-> & _). by apply find_free_loop_activity.
Qed.

(** The quality of one element and of all: the single query passes the
    kernel's value on, or gives 0.0 on a handle that is not valid; the
    bulk query, on a mesh of [ne > 0] elements, gives [NULL] with a zero
    count when its allocation fails and otherwise a new block whose cell
    [k - 1] holds what the single query gives for [k]. *)
Lemma quality_3d_bulk (h : Z) (out_count : OutInt) (w : World K)
    (np ne nprism nt nquad na : Z) (p : ptr) (h1 : Heap) :
  wf_3d w →
  (validate_handle h w).1 ≠ 0 →
  MMG3D_Get_meshSize (mesh (entry_at (g_handles w) h)) (kernel w)
  = (1, (np, ne, nprism, nt, nquad, na)) →
  0 < ne →
  malloc (size_t (ne * sizeof_double)) (heap w) = (p, h1) →
  let r := mmg3d_get_tetrahedra_qualities h out_count w in
  (p = NULL →
   r.1 = (NULL, store_out out_count 0) ∧ live (heap r.2) = live (heap w)) ∧
  (p ≠ NULL →
   r.1 = (p, store_out out_count ne) ∧
   live (heap w) !! p = None ∧
   delete p (live (heap r.2)) = live (heap w) ∧
   ∀ k, 1 ≤ k ≤ ne →
     load p (k - 1) (heap r.2)
     = Some (CDouble (mmg3d_get_tetrahedron_quality h k w).1)).
Proof.
  intros Hwf Hv Hsz Hn Em. cbv zeta.
  destruct (get_qualities_3d_outcome h out_count w _ _ _ _ _ _ _ _
              Hwf Hv Hsz Hn Em) as [Hnull Hok].
  split.
  - intros Hp. destruct (Hnull Hp) as [-> Hl]. done.
  - intros Hp. destruct (Hok Hp) as (? & ? & ? & _ & ?). done.
Qed.

Lemma quality_3d_unit (h k : Z) (w : World K) :
  (∀ m s j k0, unit_interval (MMG3D_Get_tetrahedronQuality m s j k0)) →
  unit_interval (mmg3d_get_tetrahedron_quality h k w).1.
Proof.
  intros Hq. unfold mmg3d_get_tetrahedron_quality, mesh_of, sol_of.
  cbv [mbind M_bind mret M_ret gets kget].
  destruct (validate_handle h w) as [v w1].
  destruct (v =? 0); [reflexivity | apply Hq].
Qed.
End Claims_3d.

Section Claims_s.
Context {K : Type} `{!libmmgs K}.
Import Mmgs.

Local Abbreviation wf_s w :=
  (wf_table (g_handles_s w) (g_initialized_s w)).

(** [init] gives -1 on a full table and on a failed construction, and a
    call that gives -1 takes no slot. *)
Lemma init_s_refuses (w : World K) :
  wf_s w →
  ((mmgs_get_available_handles w).1 = 0 → (mmgs_init w).1 = -1) ∧
  (∀ res m s k1,
     MMGS_Init_mesh (kernel w) = ((res, m, s), k1) →
     res ≠ 1 ∨ m = NULL → (mmgs_init w).1 = -1) ∧
  ((mmgs_init w).1 = -1 →
   g_handles_s (mmgs_init w).2 = g_handles_s w ∧
   active_count (g_handles_s (mmgs_init w).2)
   = active_count (g_handles_s w) ∧
   (mmgs_get_available_handles (mmgs_init w).2).1
   = (mmgs_get_available_handles w).1).
Proof.
  intros Hwf. pose proof (init_s_outcome w Hwf) as Ho. cbv zeta in Ho.
  split_and!.
  - rewrite available_s_wf by done. intros Hfull.
    apply find_free_full in Hfull; [| apply Hwf].
    destruct (MMGS_Init_mesh (kernel w)) as [[[res m] s] k1].
    destruct Ho as (_ & _ & _ & Ho). rewrite Hfull in Ho. apply Ho.
  - intros res m s k1 E Hfail. rewrite E in Ho.
    destruct Ho as (_ & _ & _ & Ho).
    replace (_ || _ || _) with true in Ho; [apply Ho |].
    symmetry. rewrite !orb_true_iff, negb_true_iff, Z.eqb_neq, Z.eqb_eq.
    tauto.
  - intros Hr. pose proof (init_s_failed w Hwf Hr) as Ht.
    rewrite !available_s_wf, Ht; [done.. | by apply init_s_wf].
Qed.

(** From the start of the program, [MAX_HANDLES] calls of [init] that all
    hand out a handle fill the table: the count of free slots reads 0
    and one more call gives -1. *)
Lemma init_s_exhaustion (hp : Heap) (k : K) :
  let r := run (replicate (Z.to_nat MAX_HANDLES) Init) (boot hp k) in
  (∀ x, x ∈ r.1 → x ≠ RInt (-1)) →
  (mmgs_get_available_handles r.2).1 = 0 ∧ (mmgs_init r.2).1 = -1.
Proof.
  cbv zeta. intros Hok.
  assert (wf_s (boot hp k)) as Hwf0 by done.
  pose proof (run_s_wf (replicate (Z.to_nat MAX_HANDLES) Init) _ Hwf0)
    as Hwf.
  pose proof (run_inits_s _ _ Hwf0 Hok) as Hc.
  change (g_handles_s (boot hp k)) with memset_zero in Hc.
  rewrite free_count_memset in Hc.
  assert ((mmgs_get_available_handles
             (run (replicate (Z.to_nat MAX_HANDLES) Init) (boot hp k)).2).1
          = 0) as Ha.
  { rewrite available_s_wf by done. rewrite Hc. unfold MAX_HANDLES. lia. }
  split; [done |]. by apply init_s_refuses.
Qed.

(** The life of a handle: valid from the [init] that hands it out to its
    [free], then not valid until an [init] hands it out again. *)
Lemma handle_s_lifetime (h : Z) (w : World K) :
  wf_s w →
  ((mmgs_init w).1 = h → 0 ≤ h →
   ∀ cs, Free h ∉ cs →
     (validate_handle_s h (run cs (mmgs_init w).2).2).1 = 1) ∧
  ((mmgs_free h w).1 = 1 →
   ∀ cs,
     let r := run cs (mmgs_free h w).2 in
     ¬ reissued_s cs r.1 h →
     (validate_handle_s h r.2).1 = 0 ∧
     (mmgs_free h r.2).1 = 0 ∧
     ∀ c, handle_of c = Some h → (exec c r.2).1 = sentinel c).
Proof.
  intros Hwf. split.
  - intros Hh Hpos cs Hcs.
    pose proof (init_s_wf w Hwf) as Hwf1.
    assert (slot_valid (g_handles_s (mmgs_init w).2) h = 1) as Hv.
    { destruct (init_s_result w Hwf) as [Hr | Hr]; cbv zeta in Hr; [lia |].
      destruct Hr as (Hr & _ & _ & _ & m & s & ->). rewrite Hh in *.
      rewrite slot_valid_set_entry, Z.eqb_refl;
        [done | lia | destruct Hwf; unfold MAX_HANDLES in *; lia
        | apply Hwf]. }
    rewrite validate_s_wf by by apply run_s_wf.
    rewrite run_s_valid; [done.. | lia].
  - intros Hf cs. cbv zeta. intros Hre.
    pose proof (free_s_wf h w Hwf) as Hwf1.
    assert (slot_valid (g_handles_s (mmgs_free h w).2) h = 0) as Hv.
    { pose proof (free_s_outcome h w Hwf) as Ho. cbv zeta in Ho.
      destruct Ho as [_ Ho].
      destruct (Z.eqb_spec (slot_valid (g_handles_s w) h) 0) as [Hz | Hnz].
      - destruct Ho as (Hr & _). lia.
      - destruct Ho as (_ & -> & _).
        assert (0 ≤ h < MAX_HANDLES) as Hr.
        { unfold slot_valid in Hnz.
          destruct (Z.ltb_spec h 0); [done |].
          destruct (Z.geb_spec h MAX_HANDLES); [done | lia]. }
        rewrite slot_valid_set_entry, Z.eqb_refl;
          [done | lia | destruct Hwf; unfold MAX_HANDLES in *; lia
          | apply Hwf]. }
    pose proof (run_s_wf cs _ Hwf1) as Hwf2.
    pose proof (run_s_invalid h cs _ Hwf1 Hv Hre) as Hv2.
    assert ((validate_handle_s h (run cs (mmgs_free h w).2).2).1 = 0)
      as Hinv by by rewrite validate_s_wf.
    split_and!; [done | |].
    + pose proof (exec_s_invalid (Free h) h _ eq_refl Hinv) as E.
      rewrite exec_free_s in E. by injection E as -> _.
    + intros c Hc. by rewrite (exec_s_invalid c h).
Qed.

(** A successful [init]: the handle is the free slot of lowest index;
    finding it changes nothing in the table; the new instance is bound in
    that slot, which becomes active, and no other slot changes; which
    slot it is depends on the activity of the slots alone. *)
Lemma init_s_acquires (w : World K) (m s : ptr) (k1 : K) :
  wf_s w →
  (∃ i, 0 ≤ i < MAX_HANDLES ∧ active (entry_at (g_handles_s w) i) = 0) →
  MMGS_Init_mesh (kernel w) = ((1, m, s), k1) →
  m ≠ NULL →
  let t := g_handles_s w in
  let h := (mmgs_init w).1 in
  let t' := g_handles_s (mmgs_init w).2 in
  0 ≤ h ≤ 63 ∧
  active (entry_at t h) = 0 ∧
  (∀ j, 0 ≤ j < h → active (entry_at t j) ≠ 0) ∧
  (find_free_handle_s w).1 = h ∧
  g_handles_s (find_free_handle_s w).2 = t ∧
  entry_at t' h = mkEntry m s 1 ∧
  (∀ j, 0 ≤ j → j ≠ h → entry_at t' j = entry_at t j) ∧
  (∀ w' : World K,
     wf_s w' → activity (g_handles_s w') = activity t →
     (find_free_handle_s w').1 = h).
Proof.
  intros Hwf (i & Hi & Hz) E Hm. cbv zeta.
  pose proof (init_s_outcome w Hwf) as Ho. cbv zeta in Ho.
  rewrite E in Ho. destruct Ho as (Hf & Hft & _ & Ho).
  destruct (find_free_loop_spec (g_handles_s w) (Z.to_nat MAX_HANDLES) 0)
    as [[Hr Hall] | (Hr & Hfz & Hall)]; cbv zeta in *.
  { exfalso. apply (Hall i); [unfold MAX_HANDLES in *; lia | done]. }
  replace (_ || _ || _) with false in Ho; cycle 1.
  { symmetry. rewrite !orb_false_iff, negb_false_iff, Z.eqb_neq.
    split_and!; [apply Z.ltb_ge; lia | done | done]. }
  destruct Ho as (-> & -> & _).
  assert ((Z.to_nat (find_free_loop (g_handles_s w) 0
                       (Z.to_nat MAX_HANDLES)) < length (g_handles_s w))%nat)
    as Hlen by (destruct Hwf; unfold MAX_HANDLES in *; lia).
  split_and!; [lia | unfold MAX_HANDLES in *; lia | done.. | | | ].
  - by apply entry_at_set_entry_eq.
  - intros j Hj Hne. apply entry_at_set_entry_ne; [lia | done | done].
  - intros w' Hwf' Hact.
    pose proof (init_s_outcome w' Hwf') as Ho'. cbv zeta in Ho'.
    destruct (MMGS_Init_mesh (kernel w')) as [[[res' m'] s'] k1'].
    destruct Ho' as (-> & _). by apply find_free_loop_activity.
Qed.

(** The quality of one element and of all: the single query passes the
    kernel's value on, or gives 0.0 on a handle that is not valid; the
    bulk query, on a mesh of [nt > 0] elements, gives [NULL] with a zero
    count when its allocation fails and otherwise a new block whose cell
    [k - 1] holds what the single query gives for [k]. *)
Lemma quality_s_bulk (h : Z) (out_count : OutInt) (w : World K)
    (np nt na : Z) (p : ptr) (h1 : Heap) :
  wf_s w →
  (validate_handle_s h w).1 ≠ 0 →
  MMGS_Get_meshSize (mesh (entry_at (g_handles_s w) h)) (kernel w)
  = (1, (np, nt, na)) →
  0 < nt →
  malloc (size_t (nt * sizeof_double)) (heap w) = (p, h1) →
  let r := mmgs_get_triangles_qualities h out_count w in
  (p = NULL →
   r.1 = (NULL, store_out out_count 0) ∧ live (heap r.2) = live (heap w)) ∧
  (p ≠ NULL →
   r.1 = (p, store_out out_count nt) ∧
   live (heap w) !! p = None ∧
   delete p (live (heap r.2)) = live (heap w) ∧
   ∀ k, 1 ≤ k ≤ nt →
     load p (k - 1) (heap r.2)
     = Some (CDouble (mmgs_get_triangle_quality h k w).1)).
Proof.
  intros Hwf Hv Hsz Hn Em. cbv zeta.
  destruct (get_qualities_s_outcome h out_count w _ _ _ _ _
              Hwf Hv Hsz Hn Em) as [Hnull Hok].
  split.
  - intros Hp. destruct (Hnull Hp) as [-> Hl]. done.
  - intros Hp. destruct (Hok Hp) as (? & ? & ? & _ & ?). done.
Qed.

Lemma quality_s_unit (h k : Z) (w : World K) :
  (∀ m s j k0, unit_interval (MMGS_Get_triangleQuality m s j k0)) →
  unit_interval (mmgs_get_triangle_quality h k w).1.
Proof.
  intros Hq. unfold mmgs_get_triangle_quality, mesh_of, sol_of.
  cbv [mbind M_bind mret M_ret gets kget].
  destruct (validate_handle_s h w) as [v w1].
  destruct (v =? 0); [reflexivity | apply Hq].
Qed.
End Claims_s.

(** * The claims *)

Section Program_facts.
Context {K : Type} `{!libmmg2d K} `{!libmmg3d K} `{!libmmgs K}.

Lemma wf_boot (h : Heap) (k : K) : wf (boot h k).
Proof. repeat split. Qed.

(** Whatever is called, the three tables stay arrays of [MAX_HANDLES]
    entries. *)
Lemma gexec_wf (c : gcall) (w : World K) : wf w → wf (gexec c w).2.
Proof.
  intros (H2 & H3 & Hs). unfold wf.
  destruct c as [c | c | c]; cbn [gexec].
  - pose proof (exec_2d_frame_3d c w) as [= -> ->].
    pose proof (exec_2d_frame_s c w) as [= -> ->].
    split_and!; [by apply exec_2d_wf | done..].
  - pose proof (exec_3d_frame_2d c w) as [= -> ->].
    pose proof (exec_3d_frame_s c w) as [= -> ->].
    split_and!; [| by apply exec_3d_wf |]; done.
  - pose proof (exec_s_frame_2d c w) as [= -> ->].
    pose proof (exec_s_frame_3d c w) as [= -> ->].
    split_and!; [| | by apply exec_s_wf]; done.
Qed.

Lemma grun_wf (cs : list gcall) : ∀ w : World K, wf w → wf (grun cs w).2.
Proof.
  induction cs as [|c cs IH]; intros w Hwf; [done |].
  cbn [grun]. pose proof (gexec_wf c w Hwf) as Hwf1.
  destruct (gexec c w) as [r w1]. specialize (IH w1 Hwf1).
  by destruct (grun cs w1).
Qed.

Lemma slot_valid_memset (h : Z) : slot_valid memset_zero h = 0.
Proof.
  unfold slot_valid, entry_at. destruct ((h <? 0) || _); [done |].
  destruct (memset_zero !! Z.to_nat h) as [e|] eqn:He; [| done].
  by apply lookup_replicate in He as [-> _].
Qed.

(** At the start of the program no handle is valid, in any table. *)
Lemma boot_invalid (hp : Heap) (k : K) (w : World K) (h : Z) :
  wf w →
  ((g_handles_2d w = memset_zero →
    (Mmg2d.validate_handle_2d h w).1 = 0) ∧
   (g_handles w = memset_zero → (Mmg3d.validate_handle h w).1 = 0) ∧
   (g_handles_s w = memset_zero →
    (Mmgs.validate_handle_s h w).1 = 0)).
Proof.
  intros (H2 & H3 & Hs). split_and!; intros Ht.
  - rewrite validate_2d_wf, Ht by done. apply slot_valid_memset.
  - rewrite validate_3d_wf, Ht by done. apply slot_valid_memset.
  - rewrite validate_s_wf, Ht by done. apply slot_valid_memset.
Qed.
End Program_facts.

Section Claims.
Context {K : Type} `{!libmmg2d K} `{!libmmg3d K} `{!libmmgs K}.

(** C1.  After every sequence of calls to the entry points of the three
    files (of [init] and [free] in particular) from the start of the
    program, and so after each call of it, each table has at most
    [MAX_HANDLES] = 64 active slots, and what [available_handles()] reads
    plus the number of active slots is what [max_handles()] reads. *)
Theorem C1_capacity_invariant (h : Heap) (k : K) (cs : list gcall) :
  let w := (grun cs (boot h k)).2 in
  (active_count (g_handles_2d w) ≤ 64 ∧
   (Mmg2d.mmg2d_get_available_handles w).1 + active_count (g_handles_2d w)
   = (Mmg2d.mmg2d_get_max_handles w).1) ∧
  (active_count (g_handles w) ≤ 64 ∧
   (Mmg3d.mmg3d_get_available_handles w).1 + active_count (g_handles w)
   = (Mmg3d.mmg3d_get_max_handles w).1) ∧
  (active_count (g_handles_s w) ≤ 64 ∧
   (Mmgs.mmgs_get_available_handles w).1 + active_count (g_handles_s w)
   = (Mmgs.mmgs_get_max_handles w).1).
Proof.
  cbv zeta. destruct (grun_wf cs (boot h k) (wf_boot h k)) as (H2 & H3 & Hs).
  split_and!;
    first [ by apply counts_2d | by apply counts_3d | by apply counts_s ].
Qed.

(** C10.  Each of the three files has a table of its own: no entry point
    of one file changes the table of another (its slots, the instances
    bound in them, its initialisation flag), and what the validity check
    and the count of free slots of a file read is in that file's table
    alone.  So a handle that [init] of one file hands out at the start of
    the program is no handle of the other two. *)
Theorem C10_tables_disjoint :
  (∀ (c : Mmg2d.call) (w : World K),
     tables_3d (Mmg2d.exec c w).2 = tables_3d w ∧
     tables_s (Mmg2d.exec c w).2 = tables_s w) ∧
  (∀ (c : Mmg3d.call) (w : World K),
     tables_2d (Mmg3d.exec c w).2 = tables_2d w ∧
     tables_s (Mmg3d.exec c w).2 = tables_s w) ∧
  (∀ (c : Mmgs.call) (w : World K),
     tables_2d (Mmgs.exec c w).2 = tables_2d w ∧
     tables_3d (Mmgs.exec c w).2 = tables_3d w) ∧
  (∀ w w' : World K,
     (tables_2d w = tables_2d w' →
      (∀ h, (Mmg2d.validate_handle_2d h w).1
            = (Mmg2d.validate_handle_2d h w').1) ∧
      (Mmg2d.mmg2d_get_available_handles w).1
      = (Mmg2d.mmg2d_get_available_handles w').1) ∧
     (tables_3d w = tables_3d w' →
      (∀ h, (Mmg3d.validate_handle h w).1 = (Mmg3d.validate_handle h w').1) ∧
      (Mmg3d.mmg3d_get_available_handles w).1
      = (Mmg3d.mmg3d_get_available_handles w').1) ∧
     (tables_s w = tables_s w' →
      (∀ h, (Mmgs.validate_handle_s h w).1
            = (Mmgs.validate_handle_s h w').1) ∧
      (Mmgs.mmgs_get_available_handles w).1
      = (Mmgs.mmgs_get_available_handles w').1)) ∧
  (∀ (hp : Heap) (k : K) (h : Z),
     let w2 := (Mmg2d.mmg2d_init (boot hp k)).2 in
     let w3 := (Mmg3d.mmg3d_init (boot hp k)).2 in
     let ws := (Mmgs.mmgs_init (boot hp k)).2 in
     (Mmg3d.validate_handle h w2).1 = 0 ∧
     (Mmgs.validate_handle_s h w2).1 = 0 ∧
     (Mmg2d.validate_handle_2d h w3).1 = 0 ∧
     (Mmgs.validate_handle_s h w3).1 = 0 ∧
     (Mmg2d.validate_handle_2d h ws).1 = 0 ∧
     (Mmg3d.validate_handle h ws).1 = 0).
Proof.
  split_and!.
  - intros c w. split; [apply exec_2d_frame_3d | apply exec_2d_frame_s].
  - intros c w. split; [apply exec_3d_frame_2d | apply exec_3d_frame_s].
  - intros c w. split; [apply exec_s_frame_2d | apply exec_s_frame_3d].
  - intros w w'. split_and!; [apply reads_2d | apply reads_3d | apply reads_s].
  - intros hp k h. cbv zeta.
    pose proof (gexec_wf (In2d Mmg2d.Init) _ (wf_boot hp k)) as Hw2.
    pose proof (gexec_wf (In3d Mmg3d.Init) _ (wf_boot hp k)) as Hw3.
    pose proof (gexec_wf (InS Mmgs.Init) _ (wf_boot hp k)) as Hws.
    cbn [gexec] in *. rewrite exec_init_2d in Hw2.
    rewrite exec_init_3d in Hw3. rewrite exec_init_s in Hws.
    cbn [snd] in *.
    pose proof (exec_2d_frame_3d Mmg2d.Init (boot hp k)) as E23.
    pose proof (exec_2d_frame_s Mmg2d.Init (boot hp k)) as E2s.
    pose proof (exec_3d_frame_2d Mmg3d.Init (boot hp k)) as E32.
    pose proof (exec_3d_frame_s Mmg3d.Init (boot hp k)) as E3s.
    pose proof (exec_s_frame_2d Mmgs.Init (boot hp k)) as Es2.
    pose proof (exec_s_frame_3d Mmgs.Init (boot hp k)) as Es3.
    rewrite exec_init_2d in E23, E2s. rewrite exec_init_3d in E32, E3s.
    rewrite exec_init_s in Es2, Es3. cbn [snd] in *.
    unfold tables_2d, tables_3d, tables_s in *.
    injection E23 as E23 _. injection E2s as E2s _.
    injection E32 as E32 _. injection E3s as E3s _.
    injection Es2 as Es2 _. injection Es3 as Es3 _.
    split_and!.
    + by apply (boot_invalid hp k _ h Hw2).
    + by apply (boot_invalid hp k _ h Hw2).
    + by apply (boot_invalid hp k _ h Hw3).
    + by apply (boot_invalid hp k _ h Hw3).
    + by apply (boot_invalid hp k _ h Hws).
    + by apply (boot_invalid hp k _ h Hws).
Qed.

(** C3.  A handle that is not active (below 0 and from 64 on, no handle
    is) makes every entry point that takes one return its failure value
    -- 0 for the operations that return a status, -1 for the remesher,
    [NULL] with a zero count for the getters of arrays, 0.0 for the
    quality -- and leave the state as the lazy initialisation of the
    table leaves it: memory, kernel and the other tables untouched, and
    the table itself too. *)
Theorem C3_invalid_handle (h : Z) (w : World K) :
  (h < 0 ∨ MAX_HANDLES ≤ h →
   (Mmg2d.validate_handle_2d h w).1 = 0 ∧
   (Mmg3d.validate_handle h w).1 = 0 ∧
   (Mmgs.validate_handle_s h w).1 = 0) ∧
  (∀ c, Mmg2d.handle_of c = Some h →
     (Mmg2d.validate_handle_2d h w).1 = 0 →
     let w1 := (Mmg2d.ensure_initialized_2d w).2 in
     Mmg2d.exec c w = (Mmg2d.sentinel c, w1) ∧
     outside_2d w1 = outside_2d w ∧
     (wf w → g_handles_2d w1 = g_handles_2d w)) ∧
  (∀ c, Mmg3d.handle_of c = Some h →
     (Mmg3d.validate_handle h w).1 = 0 →
     let w1 := (Mmg3d.ensure_initialized w).2 in
     Mmg3d.exec c w = (Mmg3d.sentinel c, w1) ∧
     outside_3d w1 = outside_3d w ∧
     (wf w → g_handles w1 = g_handles w)) ∧
  (∀ c, Mmgs.handle_of c = Some h →
     (Mmgs.validate_handle_s h w).1 = 0 →
     let w1 := (Mmgs.ensure_initialized_s w).2 in
     Mmgs.exec c w = (Mmgs.sentinel c, w1) ∧
     outside_s w1 = outside_s w ∧
     (wf w → g_handles_s w1 = g_handles_s w)).
Proof.
  split_and!.
  - intros Hr. rewrite validate_2d_eq, validate_3d_eq, validate_s_eq.
    cbn [fst].
    replace ((h <? 0) || (h >=? MAX_HANDLES)) with true; [done |].
    symmetry. apply orb_true_iff. rewrite Z.ltb_lt, Z.geb_le. lia.
  - intros c Hc Hv. split_and!.
    + by apply (exec_2d_invalid c h).
    + apply ensure_2d_outside.
    + intros (H2 & _). by apply ensure_2d_handles.
  - intros c Hc Hv. split_and!.
    + by apply (exec_3d_invalid c h).
    + apply ensure_3d_outside.
    + intros (_ & H3 & _). by apply ensure_3d_handles.
  - intros c Hc Hv. split_and!.
    + by apply (exec_s_invalid c h).
    + apply ensure_s_outside.
    + intros (_ & _ & Hs). by apply ensure_s_handles.
Qed.

(** C2.  A bulk getter of vertices, triangles, edges or tetrahedra, on a
    valid handle whose mesh has entities of the kind, asks the allocator
    for its buffers one after the other.  If one of the allocations
    fails, or if the kernel's bulk getter reports failure once all of
    them succeeded, the operation returns [NULL] with its count cell set
    to 0, and every buffer of the call has been released: the live
    blocks are those of before the call.  A pointer other than [NULL]
    comes only when every allocation and the kernel succeeded; it is the
    one block the call leaves behind, and comes with the count. *)
Theorem C2_bulk_get_rollback (h : Z) (out_count : OutInt) (w : World K) :
  (∀ np nt nquad na,
     wf_table (g_handles_2d w) (g_initialized_2d w) →
     (Mmg2d.validate_handle_2d h w).1 ≠ 0 →
     MMG2D_Get_meshSize (mesh (entry_at (g_handles_2d w) h)) (kernel w)
     = (1, (np, nt, nquad, na)) →
     let m := mesh (entry_at (g_handles_2d w) h) in
     (np ≠ 0 →
      let r := Mmg2d.mmg2d_get_vertices h out_count w in
      bulk_get_outcome (heap w)
        [size_t (2 * np * sizeof_double); size_t (np * sizeof_MMG5_int);
         size_t (np * sizeof_int); size_t (np * sizeof_int)]
        (MMG2D_Get_vertices m (kernel w)).1
        np out_count r.1.1 r.1.2 (heap r.2)) ∧
     (nt ≠ 0 →
      let r := Mmg2d.mmg2d_get_triangles h out_count w in
      bulk_get_outcome (heap w)
        [size_t (3 * nt * sizeof_MMG5_int); size_t (nt * sizeof_MMG5_int);
         size_t (nt * sizeof_int)]
        (MMG2D_Get_triangles m (kernel w)).1
        nt out_count r.1.1 r.1.2 (heap r.2)) ∧
     (na ≠ 0 →
      let r := Mmg2d.mmg2d_get_edges h out_count w in
      bulk_get_outcome (heap w)
        [size_t (2 * na * sizeof_MMG5_int); size_t (na * sizeof_MMG5_int);
         size_t (na * sizeof_int); size_t (na * sizeof_int)]
        (MMG2D_Get_edges m (kernel w)).1
        na out_count r.1.1 r.1.2 (heap r.2))) ∧
  (∀ np ne nprism nt nquad na,
     wf_table (g_handles w) (g_initialized w) →
     (Mmg3d.validate_handle h w).1 ≠ 0 →
     MMG3D_Get_meshSize (mesh (entry_at (g_handles w) h)) (kernel w)
     = (1, (np, ne, nprism, nt, nquad, na)) →
     let m := mesh (entry_at (g_handles w) h) in
     (np ≠ 0 →
      let r := Mmg3d.mmg3d_get_vertices h out_count w in
      bulk_get_outcome (heap w)
        [size_t (3 * np * sizeof_double); size_t (np * sizeof_MMG5_int);
         size_t (np * sizeof_int); size_t (np * sizeof_int)]
        (MMG3D_Get_vertices m (kernel w)).1
        np out_count r.1.1 r.1.2 (heap r.2)) ∧
     (ne ≠ 0 →
      let r := Mmg3d.mmg3d_get_tetrahedra h out_count w in
      bulk_get_outcome (heap w)
        [size_t (4 * ne * sizeof_MMG5_int); size_t (ne * sizeof_MMG5_int);
         size_t (ne * sizeof_int)]
        (MMG3D_Get_tetrahedra m (kernel w)).1
        ne out_count r.1.1 r.1.2 (heap r.2)) ∧
     (nt ≠ 0 →
      let r := Mmg3d.mmg3d_get_triangles h out_count w in
      bulk_get_outcome (heap w)
        [size_t (3 * nt * sizeof_MMG5_int); size_t (nt * sizeof_MMG5_int);
         size_t (nt * sizeof_int)]
        (MMG3D_Get_triangles m (kernel w)).1
        nt out_count r.1.1 r.1.2 (heap r.2))) ∧
  (∀ np nt na,
     wf_table (g_handles_s w) (g_initialized_s w) →
     (Mmgs.validate_handle_s h w).1 ≠ 0 →
     MMGS_Get_meshSize (mesh (entry_at (g_handles_s w) h)) (kernel w)
     = (1, (np, nt, na)) →
     let m := mesh (entry_at (g_handles_s w) h) in
     (np ≠ 0 →
      let r := Mmgs.mmgs_get_vertices h out_count w in
      bulk_get_outcome (heap w)
        [size_t (3 * np * sizeof_double); size_t (np * sizeof_MMG5_int);
         size_t (np * sizeof_int); size_t (np * sizeof_int)]
        (MMGS_Get_vertices m (kernel w)).1
        np out_count r.1.1 r.1.2 (heap r.2)) ∧
     (nt ≠ 0 →
      let r := Mmgs.mmgs_get_triangles h out_count w in
      bulk_get_outcome (heap w)
        [size_t (3 * nt * sizeof_MMG5_int); size_t (nt * sizeof_MMG5_int);
         size_t (nt * sizeof_int)]
        (MMGS_Get_triangles m (kernel w)).1
        nt out_count r.1.1 r.1.2 (heap r.2)) ∧
     (na ≠ 0 →
      let r := Mmgs.mmgs_get_edges h out_count w in
      bulk_get_outcome (heap w)
        [size_t (2 * na * sizeof_MMG5_int); size_t (na * sizeof_MMG5_int);
         size_t (na * sizeof_int); size_t (na * sizeof_int)]
        (MMGS_Get_edges m (kernel w)).1
        na out_count r.1.1 r.1.2 (heap r.2))).
Proof.
  split_and!.
  - intros np nt nquad na Hwf Hv Hsz. cbv zeta. split_and!; intros Hn.
    + by eapply get_vertices_2d_outcome.
    + by eapply get_triangles_2d_outcome.
    + by eapply get_edges_2d_outcome.
  - intros np ne nprism nt nquad na Hwf Hv Hsz. cbv zeta.
    split_and!; intros Hn.
    + by eapply get_vertices_3d_outcome.
    + by eapply get_tetrahedra_3d_outcome.
    + by eapply get_triangles_3d_outcome.
  - intros np nt na Hwf Hv Hsz. cbv zeta. split_and!; intros Hn.
    + by eapply get_vertices_s_outcome.
    + by eapply get_triangles_s_outcome.
    + by eapply get_edges_s_outcome.
Qed.

(** C7.  On a valid handle whose mesh, or solution, has no entity of the
    requested kind, every bulk getter returns [NULL] with its count cell
    set to 0 -- the very result [fail_with_count] gives on an error --
    and the state is the one before the call: nothing was allocated. *)
Theorem C7_empty_get (h : Z) (out_count : OutInt) (w : World K) :
  (wf_table (g_handles_2d w) (g_initialized_2d w) →
   (Mmg2d.validate_handle_2d h w).1 ≠ 0 →
   let e := entry_at (g_handles_2d w) h in
   ∀ r np nt nquad na r' typEntity n typSol,
   MMG2D_Get_meshSize (mesh e) (kernel w) = (r, (np, nt, nquad, na)) →
   MMG2D_Get_solSize (mesh e) (sol e) (kernel w)
   = (r', (typEntity, n, typSol)) →
   (np = 0 →
    Mmg2d.mmg2d_get_vertices h out_count w
    = (fail_with_count out_count, w)) ∧
   (nt = 0 →
    Mmg2d.mmg2d_get_triangles h out_count w
    = (fail_with_count out_count, w) ∧
    Mmg2d.mmg2d_get_triangles_qualities h out_count w
    = (fail_with_count out_count, w)) ∧
   (na = 0 →
    Mmg2d.mmg2d_get_edges h out_count w = (fail_with_count out_count, w)) ∧
   (n = 0 →
    Mmg2d.mmg2d_get_scalar_sols h out_count w
    = (fail_with_count out_count, w) ∧
    Mmg2d.mmg2d_get_tensor_sols h out_count w
    = (fail_with_count out_count, w))) ∧
  (wf_table (g_handles w) (g_initialized w) →
   (Mmg3d.validate_handle h w).1 ≠ 0 →
   let e := entry_at (g_handles w) h in
   ∀ r np ne nprism nt nquad na r' typEntity n typSol,
   MMG3D_Get_meshSize (mesh e) (kernel w)
   = (r, (np, ne, nprism, nt, nquad, na)) →
   MMG3D_Get_solSize (mesh e) (sol e) (kernel w)
   = (r', (typEntity, n, typSol)) →
   (np = 0 →
    Mmg3d.mmg3d_get_vertices h out_count w
    = (fail_with_count out_count, w)) ∧
   (ne = 0 →
    Mmg3d.mmg3d_get_tetrahedra h out_count w
    = (fail_with_count out_count, w) ∧
    Mmg3d.mmg3d_get_tetrahedra_qualities h out_count w
    = (fail_with_count out_count, w)) ∧
   (nt = 0 →
    Mmg3d.mmg3d_get_triangles h out_count w
    = (fail_with_count out_count, w)) ∧
   (n = 0 →
    Mmg3d.mmg3d_get_scalar_sols h out_count w
    = (fail_with_count out_count, w) ∧
    Mmg3d.mmg3d_get_tensor_sols h out_count w
    = (fail_with_count out_count, w))) ∧
  (wf_table (g_handles_s w) (g_initialized_s w) →
   (Mmgs.validate_handle_s h w).1 ≠ 0 →
   let e := entry_at (g_handles_s w) h in
   ∀ r np nt na r' typEntity n typSol,
   MMGS_Get_meshSize (mesh e) (kernel w) = (r, (np, nt, na)) →
   MMGS_Get_solSize (mesh e) (sol e) (kernel w)
   = (r', (typEntity, n, typSol)) →
   (np = 0 →
    Mmgs.mmgs_get_vertices h out_count w
    = (fail_with_count out_count, w)) ∧
   (nt = 0 →
    Mmgs.mmgs_get_triangles h out_count w
    = (fail_with_count out_count, w) ∧
    Mmgs.mmgs_get_triangles_qualities h out_count w
    = (fail_with_count out_count, w)) ∧
   (na = 0 →
    Mmgs.mmgs_get_edges h out_count w = (fail_with_count out_count, w)) ∧
   (n = 0 →
    Mmgs.mmgs_get_scalar_sols h out_count w
    = (fail_with_count out_count, w) ∧
    Mmgs.mmgs_get_tensor_sols h out_count w
    = (fail_with_count out_count, w))).
Proof.
  split_and!; intros Hwf Hv; cbv zeta; intros.
  - split_and!; intros ->; try split.
    + by eapply get_vertices_2d_empty.
    + by eapply get_triangles_2d_empty.
    + by eapply get_qualities_2d_empty.
    + by eapply get_edges_2d_empty.
    + eapply get_scalar_sols_2d_guard; eauto.
    + eapply get_tensor_sols_2d_guard; eauto.
  - split_and!; intros ->; try split.
    + by eapply get_vertices_3d_empty.
    + by eapply get_tetrahedra_3d_empty.
    + by eapply get_qualities_3d_empty.
    + by eapply get_triangles_3d_empty.
    + eapply get_scalar_sols_3d_guard; eauto.
    + eapply get_tensor_sols_3d_guard; eauto.
  - split_and!; intros ->; try split.
    + by eapply get_vertices_s_empty.
    + by eapply get_triangles_s_empty.
    + by eapply get_qualities_s_empty.
    + by eapply get_edges_s_empty.
    + eapply get_scalar_sols_s_guard; eauto.
    + eapply get_tensor_sols_s_guard; eauto.
Qed.

(** C9.  On a valid handle, the bulk getter of the scalar solution
    returns [NULL] with a zero count whenever the declared type of the
    solution is not 1 (scalar), and the bulk getter of the tensor
    solution whenever it is not 3 (tensor), however many entities the
    solution is declared on; the state is the one before the call. *)
Theorem C9_solution_type_guard (h : Z) (out_count : OutInt) (w : World K)
    (r typEntity np typSol : Z) :
  (wf_table (g_handles_2d w) (g_initialized_2d w) →
   (Mmg2d.validate_handle_2d h w).1 ≠ 0 →
   MMG2D_Get_solSize (mesh (entry_at (g_handles_2d w) h))
     (sol (entry_at (g_handles_2d w) h)) (kernel w)
   = (r, (typEntity, np, typSol)) →
   (typSol ≠ 1 →
    Mmg2d.mmg2d_get_scalar_sols h out_count w
    = ((NULL, store_out out_count 0), w)) ∧
   (typSol ≠ 3 →
    Mmg2d.mmg2d_get_tensor_sols h out_count w
    = ((NULL, store_out out_count 0), w))) ∧
  (wf_table (g_handles w) (g_initialized w) →
   (Mmg3d.validate_handle h w).1 ≠ 0 →
   MMG3D_Get_solSize (mesh (entry_at (g_handles w) h))
     (sol (entry_at (g_handles w) h)) (kernel w)
   = (r, (typEntity, np, typSol)) →
   (typSol ≠ 1 →
    Mmg3d.mmg3d_get_scalar_sols h out_count w
    = ((NULL, store_out out_count 0), w)) ∧
   (typSol ≠ 3 →
    Mmg3d.mmg3d_get_tensor_sols h out_count w
    = ((NULL, store_out out_count 0), w))) ∧
  (wf_table (g_handles_s w) (g_initialized_s w) →
   (Mmgs.validate_handle_s h w).1 ≠ 0 →
   MMGS_Get_solSize (mesh (entry_at (g_handles_s w) h))
     (sol (entry_at (g_handles_s w) h)) (kernel w)
   = (r, (typEntity, np, typSol)) →
   (typSol ≠ 1 →
    Mmgs.mmgs_get_scalar_sols h out_count w
    = ((NULL, store_out out_count 0), w)) ∧
   (typSol ≠ 3 →
    Mmgs.mmgs_get_tensor_sols h out_count w
    = ((NULL, store_out out_count 0), w))).
Proof.
  split_and!; intros Hwf Hv Hsz; split; intros Ht.
  - eapply get_scalar_sols_2d_guard; eauto.
  - eapply get_tensor_sols_2d_guard; eauto.
  - eapply get_scalar_sols_3d_guard; eauto.
  - eapply get_tensor_sols_3d_guard; eauto.
  - eapply get_scalar_sols_s_guard; eauto.
  - eapply get_tensor_sols_s_guard; eauto.
Qed.

(** C4 (amended).  [init] returns -1 when its table has no free slot and
    when the construction by the kernel fails, and a call that returns -1
    takes no slot: the table, its number of active slots and what
    [available_handles()] reads are as before.  From the start of the
    program, when 64 calls of [init] with no [free] between them have
    each handed out a handle, [available_handles()] reads 0 and the next
    call returns -1. *)
Theorem C4_init_refuses :
  (∀ w : World K,
     wf_table (g_handles_2d w) (g_initialized_2d w) →
     ((Mmg2d.mmg2d_get_available_handles w).1 = 0 → (Mmg2d.mmg2d_init w).1 = -1) ∧
     (∀ res m s k1,
        MMG2D_Init_mesh (kernel w) = ((res, m, s), k1) →
        res ≠ 1 ∨ m = NULL → (Mmg2d.mmg2d_init w).1 = -1) ∧
     ((Mmg2d.mmg2d_init w).1 = -1 →
      g_handles_2d (Mmg2d.mmg2d_init w).2 = g_handles_2d w ∧
      active_count (g_handles_2d (Mmg2d.mmg2d_init w).2) = active_count (g_handles_2d w) ∧
      (Mmg2d.mmg2d_get_available_handles (Mmg2d.mmg2d_init w).2).1 = (Mmg2d.mmg2d_get_available_handles w).1)) ∧
  (∀ (hp : Heap) (k : K),
     let r := Mmg2d.run (replicate (Z.to_nat MAX_HANDLES) Mmg2d.Init) (boot hp k) in
     (∀ x, x ∈ r.1 → x ≠ RInt (-1)) →
     (Mmg2d.mmg2d_get_available_handles r.2).1 = 0 ∧ (Mmg2d.mmg2d_init r.2).1 = -1) ∧
  (∀ w : World K,
     wf_table (g_handles w) (g_initialized w) →
     ((Mmg3d.mmg3d_get_available_handles w).1 = 0 → (Mmg3d.mmg3d_init w).1 = -1) ∧
     (∀ res m s k1,
        MMG3D_Init_mesh (kernel w) = ((res, m, s), k1) →
        res ≠ 1 ∨ m = NULL → (Mmg3d.mmg3d_init w).1 = -1) ∧
     ((Mmg3d.mmg3d_init w).1 = -1 →
      g_handles (Mmg3d.mmg3d_init w).2 = g_handles w ∧
      active_count (g_handles (Mmg3d.mmg3d_init w).2) = active_count (g_handles w) ∧
      (Mmg3d.mmg3d_get_available_handles (Mmg3d.mmg3d_init w).2).1 = (Mmg3d.mmg3d_get_available_handles w).1)) ∧
  (∀ (hp : Heap) (k : K),
     let r := Mmg3d.run (replicate (Z.to_nat MAX_HANDLES) Mmg3d.Init) (boot hp k) in
     (∀ x, x ∈ r.1 → x ≠ RInt (-1)) →
     (Mmg3d.mmg3d_get_available_handles r.2).1 = 0 ∧ (Mmg3d.mmg3d_init r.2).1 = -1) ∧
  (∀ w : World K,
     wf_table (g_handles_s w) (g_initialized_s w) →
     ((Mmgs.mmgs_get_available_handles w).1 = 0 → (Mmgs.mmgs_init w).1 = -1) ∧
     (∀ res m s k1,
        MMGS_Init_mesh (kernel w) = ((res, m, s), k1) →
        res ≠ 1 ∨ m = NULL → (Mmgs.mmgs_init w).1 = -1) ∧
     ((Mmgs.mmgs_init w).1 = -1 →
      g_handles_s (Mmgs.mmgs_init w).2 = g_handles_s w ∧
      active_count (g_handles_s (Mmgs.mmgs_init w).2) = active_count (g_handles_s w) ∧
      (Mmgs.mmgs_get_available_handles (Mmgs.mmgs_init w).2).1 = (Mmgs.mmgs_get_available_handles w).1)) ∧
  (∀ (hp : Heap) (k : K),
     let r := Mmgs.run (replicate (Z.to_nat MAX_HANDLES) Mmgs.Init) (boot hp k) in
     (∀ x, x ∈ r.1 → x ≠ RInt (-1)) →
     (Mmgs.mmgs_get_available_handles r.2).1 = 0 ∧ (Mmgs.mmgs_init r.2).1 = -1).
Proof.
  split_and!.
  - intros w Hwf. by apply init_2d_refuses.
  - intros hp k. apply init_2d_exhaustion.
  - intros w Hwf. by apply init_3d_refuses.
  - intros hp k. apply init_3d_exhaustion.
  - intros w Hwf. by apply init_s_refuses.
  - intros hp k. apply init_s_exhaustion.
Qed.

(** C5.  A handle that [init] hands out passes the validity check after
    every sequence of calls without its [free].  Once [free] has
    returned 1 for it, and as long as no [init] hands the same value out
    again, it does not pass: a second [free] returns 0 and every entry
    point called with it returns its failure value. *)
Theorem C5_handle_lifetime :
  (∀ (h : Z) (w : World K),
     wf_table (g_handles_2d w) (g_initialized_2d w) →
     ((Mmg2d.mmg2d_init w).1 = h → 0 ≤ h →
      ∀ cs, Mmg2d.Free h ∉ cs →
        (Mmg2d.validate_handle_2d h (Mmg2d.run cs (Mmg2d.mmg2d_init w).2).2).1 = 1) ∧
     ((Mmg2d.mmg2d_free h w).1 = 1 →
      ∀ cs,
        let r := Mmg2d.run cs (Mmg2d.mmg2d_free h w).2 in
        ¬ reissued_2d cs r.1 h →
        (Mmg2d.validate_handle_2d h r.2).1 = 0 ∧
        (Mmg2d.mmg2d_free h r.2).1 = 0 ∧
        ∀ c, Mmg2d.handle_of c = Some h →
             (Mmg2d.exec c r.2).1 = Mmg2d.sentinel c)) ∧
  (∀ (h : Z) (w : World K),
     wf_table (g_handles w) (g_initialized w) →
     ((Mmg3d.mmg3d_init w).1 = h → 0 ≤ h →
      ∀ cs, Mmg3d.Free h ∉ cs →
        (Mmg3d.validate_handle h (Mmg3d.run cs (Mmg3d.mmg3d_init w).2).2).1 = 1) ∧
     ((Mmg3d.mmg3d_free h w).1 = 1 →
      ∀ cs,
        let r := Mmg3d.run cs (Mmg3d.mmg3d_free h w).2 in
        ¬ reissued_3d cs r.1 h →
        (Mmg3d.validate_handle h r.2).1 = 0 ∧
        (Mmg3d.mmg3d_free h r.2).1 = 0 ∧
        ∀ c, Mmg3d.handle_of c = Some h →
             (Mmg3d.exec c r.2).1 = Mmg3d.sentinel c)) ∧
  (∀ (h : Z) (w : World K),
     wf_table (g_handles_s w) (g_initialized_s w) →
     ((Mmgs.mmgs_init w).1 = h → 0 ≤ h →
      ∀ cs, Mmgs.Free h ∉ cs →
        (Mmgs.validate_handle_s h (Mmgs.run cs (Mmgs.mmgs_init w).2).2).1 = 1) ∧
     ((Mmgs.mmgs_free h w).1 = 1 →
      ∀ cs,
        let r := Mmgs.run cs (Mmgs.mmgs_free h w).2 in
        ¬ reissued_s cs r.1 h →
        (Mmgs.validate_handle_s h r.2).1 = 0 ∧
        (Mmgs.mmgs_free h r.2).1 = 0 ∧
        ∀ c, Mmgs.handle_of c = Some h →
             (Mmgs.exec c r.2).1 = Mmgs.sentinel c)).
Proof.
  split_and!; intros h w Hwf.
  - by apply handle_2d_lifetime.
  - by apply handle_3d_lifetime.
  - by apply handle_s_lifetime.
Qed.

(** C6 (amended).  When a slot of the table is free and the kernel
    constructs an instance, [init] returns the free slot of lowest index,
    a value from 0 to 63.  Finding that slot leaves the table as it is
    (there is no pending mark); the new instance is then bound in exactly
    that slot, which becomes active, and no other slot changes.  The
    handle depends on the activity of the slots alone. *)
Theorem C6_init_lowest_free :
  (∀ (w : World K) (m s : ptr) (k1 : K),
     wf_table (g_handles_2d w) (g_initialized_2d w) →
     (∃ i, 0 ≤ i < MAX_HANDLES ∧ active (entry_at (g_handles_2d w) i) = 0) →
     MMG2D_Init_mesh (kernel w) = ((1, m, s), k1) →
     m ≠ NULL →
     let t := g_handles_2d w in
     let h := (Mmg2d.mmg2d_init w).1 in
     let t' := g_handles_2d (Mmg2d.mmg2d_init w).2 in
     0 ≤ h ≤ 63 ∧
     active (entry_at t h) = 0 ∧
     (∀ j, 0 ≤ j < h → active (entry_at t j) ≠ 0) ∧
     (Mmg2d.find_free_handle_2d w).1 = h ∧
     g_handles_2d (Mmg2d.find_free_handle_2d w).2 = t ∧
     entry_at t' h = mkEntry m s 1 ∧
     (∀ j, 0 ≤ j → j ≠ h → entry_at t' j = entry_at t j) ∧
     (∀ w' : World K,
        wf_table (g_handles_2d w') (g_initialized_2d w') →
        activity (g_handles_2d w') = activity t →
        (Mmg2d.find_free_handle_2d w').1 = h)) ∧
  (∀ (w : World K) (m s : ptr) (k1 : K),
     wf_table (g_handles w) (g_initialized w) →
     (∃ i, 0 ≤ i < MAX_HANDLES ∧ active (entry_at (g_handles w) i) = 0) →
     MMG3D_Init_mesh (kernel w) = ((1, m, s), k1) →
     m ≠ NULL →
     let t := g_handles w in
     let h := (Mmg3d.mmg3d_init w).1 in
     let t' := g_handles (Mmg3d.mmg3d_init w).2 in
     0 ≤ h ≤ 63 ∧
     active (entry_at t h) = 0 ∧
     (∀ j, 0 ≤ j < h → active (entry_at t j) ≠ 0) ∧
     (Mmg3d.find_free_handle w).1 = h ∧
     g_handles (Mmg3d.find_free_handle w).2 = t ∧
     entry_at t' h = mkEntry m s 1 ∧
     (∀ j, 0 ≤ j → j ≠ h → entry_at t' j = entry_at t j) ∧
     (∀ w' : World K,
        wf_table (g_handles w') (g_initialized w') →
        activity (g_handles w') = activity t →
        (Mmg3d.find_free_handle w').1 = h)) ∧
  (∀ (w : World K) (m s : ptr) (k1 : K),
     wf_table (g_handles_s w) (g_initialized_s w) →
     (∃ i, 0 ≤ i < MAX_HANDLES ∧ active (entry_at (g_handles_s w) i) = 0) →
     MMGS_Init_mesh (kernel w) = ((1, m, s), k1) →
     m ≠ NULL →
     let t := g_handles_s w in
     let h := (Mmgs.mmgs_init w).1 in
     let t' := g_handles_s (Mmgs.mmgs_init w).2 in
     0 ≤ h ≤ 63 ∧
     active (entry_at t h) = 0 ∧
     (∀ j, 0 ≤ j < h → active (entry_at t j) ≠ 0) ∧
     (Mmgs.find_free_handle_s w).1 = h ∧
     g_handles_s (Mmgs.find_free_handle_s w).2 = t ∧
     entry_at t' h = mkEntry m s 1 ∧
     (∀ j, 0 ≤ j → j ≠ h → entry_at t' j = entry_at t j) ∧
     (∀ w' : World K,
        wf_table (g_handles_s w') (g_initialized_s w') →
        activity (g_handles_s w') = activity t →
        (Mmgs.find_free_handle_s w').1 = h)).
Proof.
  split_and!; intros w m s k1 Hwf Hfree E Hm.
  - by apply (init_2d_acquires w m s k1).
  - by apply (init_3d_acquires w m s k1).
  - by apply (init_s_acquires w m s k1).
Qed.

(** C8 (amended).  On a valid handle the single quality query returns
    the value the kernel computes for the element [k] of the instance
    bound to the handle, and leaves the state as it was; so when the
    quality the kernel computes lies in [0, 1], so does what the query
    returns; on a handle that is not valid it returns 0.0.  On a valid
    handle whose mesh has [n > 0] elements the bulk query makes one
    allocation: when it fails the result is [NULL] with a zero count and
    no block is left behind; when it succeeds the result is the new
    block with the count [n], and cell [k - 1] of the block holds what
    the single query returns for the element [k], for every [k] from 1
    to [n]. *)
Theorem C8_quality :
  (∀ (h k : Z) (w : World K),
     wf_table (g_handles_2d w) (g_initialized_2d w) →
     (Mmg2d.validate_handle_2d h w).1 ≠ 0 →
     Mmg2d.mmg2d_get_triangle_quality h k w
     = (MMG2D_Get_triangleQuality (mesh (entry_at (g_handles_2d w) h))
          (sol (entry_at (g_handles_2d w) h)) k (kernel w), w)) ∧
  ((∀ m s j k, unit_interval (MMG2D_Get_triangleQuality m s j k)) →
   ∀ (h k : Z) (w : World K), unit_interval (Mmg2d.mmg2d_get_triangle_quality h k w).1) ∧
  (∀ (h k : Z) (w : World K),
     (Mmg2d.validate_handle_2d h w).1 = 0 → (Mmg2d.mmg2d_get_triangle_quality h k w).1 = 0%float) ∧
  (∀ (h : Z) (out_count : OutInt) (w : World K) (np nt nquad na : Z)
     (p : ptr) (h1 : Heap),
     wf_table (g_handles_2d w) (g_initialized_2d w) →
     (Mmg2d.validate_handle_2d h w).1 ≠ 0 →
     MMG2D_Get_meshSize (mesh (entry_at (g_handles_2d w) h)) (kernel w)
     = (1, (np, nt, nquad, na)) →
     0 < nt →
     malloc (size_t (nt * sizeof_double)) (heap w) = (p, h1) →
     let r := Mmg2d.mmg2d_get_triangles_qualities h out_count w in
     (p = NULL →
      r.1 = (NULL, store_out out_count 0) ∧
      live (heap r.2) = live (heap w)) ∧
     (p ≠ NULL →
      r.1 = (p, store_out out_count nt) ∧
      live (heap w) !! p = None ∧
      delete p (live (heap r.2)) = live (heap w) ∧
      ∀ k, 1 ≤ k ≤ nt →
        load p (k - 1) (heap r.2)
        = Some (CDouble (Mmg2d.mmg2d_get_triangle_quality h k w).1))) ∧
  (∀ (h k : Z) (w : World K),
     wf_table (g_handles w) (g_initialized w) →
     (Mmg3d.validate_handle h w).1 ≠ 0 →
     Mmg3d.mmg3d_get_tetrahedron_quality h k w
     = (MMG3D_Get_tetrahedronQuality (mesh (entry_at (g_handles w) h))
          (sol (entry_at (g_handles w) h)) k (kernel w), w)) ∧
  ((∀ m s j k, unit_interval (MMG3D_Get_tetrahedronQuality m s j k)) →
   ∀ (h k : Z) (w : World K), unit_interval (Mmg3d.mmg3d_get_tetrahedron_quality h k w).1) ∧
  (∀ (h k : Z) (w : World K),
     (Mmg3d.validate_handle h w).1 = 0 → (Mmg3d.mmg3d_get_tetrahedron_quality h k w).1 = 0%float) ∧
  (∀ (h : Z) (out_count : OutInt) (w : World K) (np ne nprism nt nquad na : Z)
     (p : ptr) (h1 : Heap),
     wf_table (g_handles w) (g_initialized w) →
     (Mmg3d.validate_handle h w).1 ≠ 0 →
     MMG3D_Get_meshSize (mesh (entry_at (g_handles w) h)) (kernel w)
     = (1, (np, ne, nprism, nt, nquad, na)) →
     0 < ne →
     malloc (size_t (ne * sizeof_double)) (heap w) = (p, h1) →
     let r := Mmg3d.mmg3d_get_tetrahedra_qualities h out_count w in
     (p = NULL →
      r.1 = (NULL, store_out out_count 0) ∧
      live (heap r.2) = live (heap w)) ∧
     (p ≠ NULL →
      r.1 = (p, store_out out_count ne) ∧
      live (heap w) !! p = None ∧
      delete p (live (heap r.2)) = live (heap w) ∧
      ∀ k, 1 ≤ k ≤ ne →
        load p (k - 1) (heap r.2)
        = Some (CDouble (Mmg3d.mmg3d_get_tetrahedron_quality h k w).1))) ∧
  (∀ (h k : Z) (w : World K),
     wf_table (g_handles_s w) (g_initialized_s w) →
     (Mmgs.validate_handle_s h w).1 ≠ 0 →
     Mmgs.mmgs_get_triangle_quality h k w
     = (MMGS_Get_triangleQuality (mesh (entry_at (g_handles_s w) h))
          (sol (entry_at (g_handles_s w) h)) k (kernel w), w)) ∧
  ((∀ m s j k, unit_interval (MMGS_Get_triangleQuality m s j k)) →
   ∀ (h k : Z) (w : World K), unit_interval (Mmgs.mmgs_get_triangle_quality h k w).1) ∧
  (∀ (h k : Z) (w : World K),
     (Mmgs.validate_handle_s h w).1 = 0 → (Mmgs.mmgs_get_triangle_quality h k w).1 = 0%float) ∧
  (∀ (h : Z) (out_count : OutInt) (w : World K) (np nt na : Z)
     (p : ptr) (h1 : Heap),
     wf_table (g_handles_s w) (g_initialized_s w) →
     (Mmgs.validate_handle_s h w).1 ≠ 0 →
     MMGS_Get_meshSize (mesh (entry_at (g_handles_s w) h)) (kernel w)
     = (1, (np, nt, na)) →
     0 < nt →
     malloc (size_t (nt * sizeof_double)) (heap w) = (p, h1) →
     let r := Mmgs.mmgs_get_triangles_qualities h out_count w in
     (p = NULL →
      r.1 = (NULL, store_out out_count 0) ∧
      live (heap r.2) = live (heap w)) ∧
     (p ≠ NULL →
      r.1 = (p, store_out out_count nt) ∧
      live (heap w) !! p = None ∧
      delete p (live (heap r.2)) = live (heap w) ∧
      ∀ k, 1 ≤ k ≤ nt →
        load p (k - 1) (heap r.2)
        = Some (CDouble (Mmgs.mmgs_get_triangle_quality h k w).1))).
Proof.
  split_and!.
  - intros h k w Hwf Hv. by apply quality_2d_valid.
  - intros Hq h k w. by apply quality_2d_unit.
  - intros h k w Hv. by apply quality_2d_invalid.
  - intros. by eapply quality_2d_bulk.
  - intros h k w Hwf Hv. by apply quality_3d_valid.
  - intros Hq h k w. by apply quality_3d_unit.
  - intros h k w Hv. by apply quality_3d_invalid.
  - intros. by eapply quality_3d_bulk.
  - intros h k w Hwf Hv. by apply quality_s_valid.
  - intros Hq h k w. by apply quality_s_unit.
  - intros h k w Hv. by apply quality_s_invalid.
  - intros. by eapply quality_s_bulk.
Qed.
End Claims.

(** C3 on the small kernel: the handle 7 in a program that has created
    one instance in each table. *)

Lemma C3_invalid_handle_witness :
  ((Mmg2d.validate_handle_2d 7 three_instances).1 = 0 ∧
   Mmg2d.exec (Mmg2d.Remesh 7) three_instances
   = (RInt (-1), (Mmg2d.ensure_initialized_2d three_instances).2)) ∧
  ((Mmg3d.validate_handle 7 three_instances).1 = 0 ∧
   Mmg3d.exec (Mmg3d.Get_vertices 7 (Some 5)) three_instances
   = (RBuf NULL (Some 0), (Mmg3d.ensure_initialized three_instances).2)) ∧
  ((Mmgs.validate_handle_s 7 three_instances).1 = 0 ∧
   Mmgs.exec (Mmgs.Get_triangle_quality 7 1) three_instances
   = (RDouble 0%float, (Mmgs.ensure_initialized_s three_instances).2)).
Proof.
  destruct (C3_invalid_handle 7 three_instances) as (_ & H2 & H3 & Hs).
  assert ((Mmg2d.validate_handle_2d 7 three_instances).1 = 0) as V2
    by (vm_compute; reflexivity).
  assert ((Mmg3d.validate_handle 7 three_instances).1 = 0) as V3
    by (vm_compute; reflexivity).
  assert ((Mmgs.validate_handle_s 7 three_instances).1 = 0) as Vs
    by (vm_compute; reflexivity).
  split_and!; [exact V2 | | exact V3 | | exact Vs |].
  - exact (proj1 (H2 (Mmg2d.Remesh 7) eq_refl V2)).
  - exact (proj1 (H3 (Mmg3d.Get_vertices 7 (Some 5)) eq_refl V3)).
  - exact (proj1 (Hs (Mmgs.Get_triangle_quality 7 1) eq_refl Vs)).
Defined.

(** No call among those listed is the [free] in question. *)
Ltac not_in_calls :=
  let H := fresh in
  intros H;
  repeat (apply elem_of_cons in H as [H | H]; [discriminate H |]);
  by apply elem_of_nil in H.

(** The table of a world that was computed is well formed. *)
Ltac toy_wf := split; [by vm_compute | by vm_compute].

(** Every result of a run that was computed is a handle. *)
Ltac all_handles :=
  apply Forall_forall; vm_compute;
  repeat (apply Forall_cons_2; [discriminate |]); apply Forall_nil_2.

(** C2 on the small kernel: the vertices of the square, with an
    allocator whose third answer is a failure, and the tetrahedra of the
    cube, with an allocator that fails after the first buffer. *)
Lemma C2_bulk_get_rollback_witness :
  (let w := square_2d [4096; 4104; 0; 4112] in
   wf_table (g_handles_2d w) (g_initialized_2d w) ∧
   (Mmg2d.validate_handle_2d 0 w).1 ≠ 0 ∧
   MMG2D_Get_meshSize (mesh (entry_at (g_handles_2d w) 0)) (kernel w)
   = (1, (4, 2, 0, 4)) ∧
   let r := Mmg2d.mmg2d_get_vertices 0 (Some 9) w in
   bulk_get_outcome (heap w)
     [size_t (2 * 4 * sizeof_double); size_t (4 * sizeof_MMG5_int);
      size_t (4 * sizeof_int); size_t (4 * sizeof_int)]
     (MMG2D_Get_vertices (mesh (entry_at (g_handles_2d w) 0)) (kernel w)).1
     4 (Some 9) r.1.1 r.1.2 (heap r.2)) ∧
  (let w := cube_3d [4096; 0] in
   wf_table (g_handles w) (g_initialized w) ∧
   (Mmg3d.validate_handle 0 w).1 ≠ 0 ∧
   MMG3D_Get_meshSize (mesh (entry_at (g_handles w) 0)) (kernel w)
   = (1, (4, 2, 0, 2, 0, 0)) ∧
   let r := Mmg3d.mmg3d_get_tetrahedra 0 (Some 9) w in
   bulk_get_outcome (heap w)
     [size_t (4 * 2 * sizeof_MMG5_int); size_t (2 * sizeof_MMG5_int);
      size_t (2 * sizeof_int)]
     (MMG3D_Get_tetrahedra (mesh (entry_at (g_handles w) 0)) (kernel w)).1
     2 (Some 9) r.1.1 r.1.2 (heap r.2)).
Proof.
  cbv zeta.
  assert (wf_table (g_handles_2d (square_2d [4096; 4104; 0; 4112]))
            (g_initialized_2d (square_2d [4096; 4104; 0; 4112]))) as Hwf
    by toy_wf.
  assert ((Mmg2d.validate_handle_2d 0
             (square_2d [4096; 4104; 0; 4112])).1 ≠ 0) as Hv
    by (by vm_compute).
  assert (MMG2D_Get_meshSize
            (mesh (entry_at
                     (g_handles_2d (square_2d [4096; 4104; 0; 4112])) 0))
            (kernel (square_2d [4096; 4104; 0; 4112]))
          = (1, (4, 2, 0, 4))) as Hsz by (by vm_compute).
  assert (wf_table (g_handles (cube_3d [4096; 0]))
            (g_initialized (cube_3d [4096; 0]))) as Hwf' by toy_wf.
  assert ((Mmg3d.validate_handle 0 (cube_3d [4096; 0])).1 ≠ 0) as Hv'
    by (by vm_compute).
  assert (MMG3D_Get_meshSize
            (mesh (entry_at (g_handles (cube_3d [4096; 0])) 0))
            (kernel (cube_3d [4096; 0]))
          = (1, (4, 2, 0, 2, 0, 0))) as Hsz' by (by vm_compute).
  split.
  - do 3 (split; [assumption |]).
    destruct (C2_bulk_get_rollback 0 (Some 9)
                (square_2d [4096; 4104; 0; 4112])) as (H2 & _).
    destruct (H2 4 2 0 4 Hwf Hv Hsz) as (Hvert & _).
    apply Hvert. discriminate.
  - do 3 (split; [assumption |]).
    destruct (C2_bulk_get_rollback 0 (Some 9) (cube_3d [4096; 0]))
      as (_ & H3 & _).
    destruct (H3 4 2 0 2 0 0 Hwf' Hv' Hsz') as (_ & Htet & _).
    apply Htet. discriminate.
Defined.

(** C4 as stated fails: when the first construction fails, the first call
    takes no slot, so that 64 calls of [init] leave one slot free and the
    65th call returns the handle 63. *)
Lemma C4_counterexample :
  let r := Mmg2d.run (replicate 64 Mmg2d.Init) (toy_boot [0] []) in
  r.1 !! 0%nat = Some (RInt (-1)) ∧
  (Mmg2d.mmg2d_get_available_handles r.2).1 = 1 ∧
  (Mmg2d.mmg2d_init r.2).1 = 63.
Proof. by vm_compute. Qed.

(** C4 on the small kernel: 64 constructions that succeed, then a full
    table. *)
Lemma C4_init_refuses_witness :
  let r := Mmg2d.run (replicate (Z.to_nat MAX_HANDLES) Mmg2d.Init)
             (boot (toy_heap []) (toy_kernel [])) in
  (∀ x, x ∈ r.1 → x ≠ RInt (-1)) ∧
  ((Mmg2d.mmg2d_get_available_handles r.2).1 = 0 ∧
   (Mmg2d.mmg2d_init r.2).1 = -1) ∧
  wf_table (g_handles_2d r.2) (g_initialized_2d r.2) ∧
  g_handles_2d (Mmg2d.mmg2d_init r.2).2 = g_handles_2d r.2.
Proof.
  cbv zeta.
  assert (∀ x, x ∈ (Mmg2d.run (replicate (Z.to_nat MAX_HANDLES) Mmg2d.Init)
                      (boot (toy_heap []) (toy_kernel []))).1 → x ≠ RInt (-1)) as Hok
    by all_handles.
  destruct (@C4_init_refuses ToyK _ _ _) as (Hrefuse & Hfull & _).
  pose proof (Hfull (toy_heap []) (toy_kernel []) Hok) as Hend.
  assert (wf_table
            (g_handles_2d
               (Mmg2d.run (replicate (Z.to_nat MAX_HANDLES) Mmg2d.Init)
                  (boot (toy_heap []) (toy_kernel []))).2)
            (g_initialized_2d
               (Mmg2d.run (replicate (Z.to_nat MAX_HANDLES) Mmg2d.Init)
                  (boot (toy_heap []) (toy_kernel []))).2)) as Hwf
    by toy_wf.
  split_and!; [exact Hok | apply Hend | apply Hend | exact Hwf |].
  apply (Hrefuse _ Hwf). apply Hend.
Defined.

(** C5 on the small kernel: the handle 0, from its [init] through other
    calls, and after its [free]. *)
Lemma C5_handle_lifetime_witness :
  let w := toy_boot [] [] in
  let cs := [Mmg2d.Set_mesh_size 0 4 2 0 4; Mmg2d.Init; Mmg2d.Free 1] in
  let cs' := [Mmg2d.Get_available_handles; Mmg2d.Remesh 0] in
  wf_table (g_handles_2d w) (g_initialized_2d w) ∧
  (Mmg2d.mmg2d_init w).1 = 0 ∧
  (Mmg2d.Free 0 ∉ cs) ∧
  (Mmg2d.validate_handle_2d 0 (Mmg2d.run cs (Mmg2d.mmg2d_init w).2).2).1
  = 1 ∧
  wf_table (g_handles_2d fresh_2d) (g_initialized_2d fresh_2d) ∧
  (Mmg2d.mmg2d_free 0 fresh_2d).1 = 1 ∧
  (let r := Mmg2d.run cs' (Mmg2d.mmg2d_free 0 fresh_2d).2 in
   ¬ reissued_2d cs' r.1 0 ∧
   (Mmg2d.validate_handle_2d 0 r.2).1 = 0 ∧
   (Mmg2d.mmg2d_free 0 r.2).1 = 0 ∧
   ∀ c, Mmg2d.handle_of c = Some 0 →
        (Mmg2d.exec c r.2).1 = Mmg2d.sentinel c).
Proof.
  cbv zeta.
  destruct (@C5_handle_lifetime ToyK _ _ _) as (H2 & _).
  assert (wf_table (g_handles_2d (toy_boot [] []))
            (g_initialized_2d (toy_boot [] []))) as Hwf by done.
  assert ((Mmg2d.mmg2d_init (toy_boot [] [])).1 = 0) as Hi
    by (by vm_compute).
  assert (Mmg2d.Free 0
          ∉ [Mmg2d.Set_mesh_size 0 4 2 0 4; Mmg2d.Init; Mmg2d.Free 1])
    as Hcs by not_in_calls.
  assert (wf_table (g_handles_2d fresh_2d) (g_initialized_2d fresh_2d))
    as Hwf' by toy_wf.
  assert ((Mmg2d.mmg2d_free 0 fresh_2d).1 = 1) as Hf by (by vm_compute).
  assert (¬ reissued_2d [Mmg2d.Get_available_handles; Mmg2d.Remesh 0]
            (Mmg2d.run [Mmg2d.Get_available_handles; Mmg2d.Remesh 0]
               (Mmg2d.mmg2d_free 0 fresh_2d).2).1 0) as Hre.
  { intros (i & Hc & _). destruct i as [|[|i]]; discriminate Hc. }
  do 3 (split; [assumption |]).
  split; [apply (proj1 (H2 0 (toy_boot [] []) Hwf) Hi); [lia | exact Hcs] |].
  do 2 (split; [assumption |]).
  split; [exact Hre |].
  exact (proj2 (H2 0 fresh_2d Hwf') Hf _ Hre).
Defined.

(** C6 as stated fails on "marks that slot pending": the slot that
    [find_free_handle_2d] returns is, after the call, the zeroed entry it
    was, the whole table is unchanged, and a second call returns the same
    slot. *)
Lemma C6_counterexample :
  let w := toy_boot [] [] in
  let a := Mmg2d.find_free_handle_2d w in
  a.1 = 0 ∧
  entry_at (g_handles_2d a.2) 0 = zero_entry ∧
  g_handles_2d a.2 = g_handles_2d w ∧
  (Mmg2d.find_free_handle_2d a.2).1 = 0.
Proof. by vm_compute. Qed.

(** C6 on the small kernel: the slot 0 is taken, [init] hands out 1. *)
Lemma C6_init_lowest_free_witness :
  let w := fresh_2d in
  let k1 := (toy_init (kernel w)).2 in
  wf_table (g_handles_2d w) (g_initialized_2d w) ∧
  (∃ i, 0 ≤ i < MAX_HANDLES ∧ active (entry_at (g_handles_2d w) i) = 0) ∧
  MMG2D_Init_mesh (kernel w) = ((1, 1002, 1003), k1) ∧
  1002 ≠ NULL ∧
  (Mmg2d.mmg2d_init w).1 = 1 ∧
  0 ≤ (Mmg2d.mmg2d_init w).1 ≤ 63 ∧
  entry_at (g_handles_2d (Mmg2d.mmg2d_init w).2) (Mmg2d.mmg2d_init w).1
  = mkEntry 1002 1003 1.
Proof.
  cbv zeta.
  assert (wf_table (g_handles_2d fresh_2d) (g_initialized_2d fresh_2d))
    as Hwf by toy_wf.
  assert (∃ i, 0 ≤ i < MAX_HANDLES
               ∧ active (entry_at (g_handles_2d fresh_2d) i) = 0) as Hfree
    by (exists 5; by vm_compute).
  assert (MMG2D_Init_mesh (kernel fresh_2d)
          = ((1, 1002, 1003), (toy_init (kernel fresh_2d)).2)) as E
    by (by vm_compute).
  assert (1002 ≠ NULL) as Hm by discriminate.
  destruct (@C6_init_lowest_free ToyK _ _ _) as (H2 & _).
  destruct (H2 fresh_2d 1002 1003 _ Hwf Hfree E Hm)
    as (Hr & _ & _ & _ & _ & Hbound & _).
  do 4 (split; [assumption |]).
  split; [by vm_compute |].
  split; [exact Hr | exact Hbound].
Defined.

(** C7 on the small kernel: instances on which no size was declared. *)
Lemma C7_empty_get_witness :
  (let w := fresh_2d in
   let e := entry_at (g_handles_2d w) 0 in
   wf_table (g_handles_2d w) (g_initialized_2d w) ∧
   (Mmg2d.validate_handle_2d 0 w).1 ≠ 0 ∧
   MMG2D_Get_meshSize (mesh e) (kernel w) = (1, (0, 0, 0, 0)) ∧
   MMG2D_Get_solSize (mesh e) (sol e) (kernel w) = (1, (0, 0, 0)) ∧
   Mmg2d.mmg2d_get_vertices 0 (Some 9) w = (fail_with_count (Some 9), w) ∧
   Mmg2d.mmg2d_get_edges 0 (Some 9) w = (fail_with_count (Some 9), w) ∧
   Mmg2d.mmg2d_get_tensor_sols 0 (Some 9) w
   = (fail_with_count (Some 9), w)) ∧
  (let w := fresh_3d in
   let e := entry_at (g_handles w) 0 in
   wf_table (g_handles w) (g_initialized w) ∧
   (Mmg3d.validate_handle 0 w).1 ≠ 0 ∧
   MMG3D_Get_meshSize (mesh e) (kernel w) = (1, (0, 0, 0, 0, 0, 0)) ∧
   MMG3D_Get_solSize (mesh e) (sol e) (kernel w) = (1, (0, 0, 0)) ∧
   Mmg3d.mmg3d_get_tetrahedra 0 (Some 9) w
   = (fail_with_count (Some 9), w) ∧
   Mmg3d.mmg3d_get_tetrahedra_qualities 0 (Some 9) w
   = (fail_with_count (Some 9), w)).
Proof.
  cbv zeta.
  assert (wf_table (g_handles_2d fresh_2d) (g_initialized_2d fresh_2d))
    as Hwf by toy_wf.
  assert ((Mmg2d.validate_handle_2d 0 fresh_2d).1 ≠ 0) as Hv
    by (by vm_compute).
  assert (MMG2D_Get_meshSize (mesh (entry_at (g_handles_2d fresh_2d) 0))
            (kernel fresh_2d) = (1, (0, 0, 0, 0))) as Hsz
    by (by vm_compute).
  assert (MMG2D_Get_solSize (mesh (entry_at (g_handles_2d fresh_2d) 0))
            (sol (entry_at (g_handles_2d fresh_2d) 0)) (kernel fresh_2d)
          = (1, (0, 0, 0))) as Hsol by (by vm_compute).
  assert (wf_table (g_handles fresh_3d) (g_initialized fresh_3d))
    as Hwf' by toy_wf.
  assert ((Mmg3d.validate_handle 0 fresh_3d).1 ≠ 0) as Hv'
    by (by vm_compute).
  assert (MMG3D_Get_meshSize (mesh (entry_at (g_handles fresh_3d) 0))
            (kernel fresh_3d) = (1, (0, 0, 0, 0, 0, 0))) as Hsz'
    by (by vm_compute).
  assert (MMG3D_Get_solSize (mesh (entry_at (g_handles fresh_3d) 0))
            (sol (entry_at (g_handles fresh_3d) 0)) (kernel fresh_3d)
          = (1, (0, 0, 0))) as Hsol' by (by vm_compute).
  split.
  - destruct (C7_empty_get 0 (Some 9) fresh_2d) as (H2 & _).
    destruct (H2 Hwf Hv _ _ _ _ _ _ _ _ _ Hsz Hsol)
      as (Hvert & _ & Hedges & Hsols).
    do 4 (split; [assumption |]).
    split; [by apply Hvert |].
    split; [by apply Hedges | by apply Hsols].
  - destruct (C7_empty_get 0 (Some 9) fresh_3d) as (_ & H3 & _).
    destruct (H3 Hwf' Hv' _ _ _ _ _ _ _ _ _ _ _ Hsz' Hsol')
      as (_ & Htet & _).
    do 4 (split; [assumption |]).
    by apply Htet.
Defined.

(** C8 as stated fails when the allocation fails: a valid handle, two
    triangles, and the bulk quality returns [NULL] with a zero count. *)
Lemma C8_counterexample :
  let w := square_2d [] in
  (Mmg2d.validate_handle_2d 0 w).1 = 1 ∧
  MMG2D_Get_meshSize (mesh (entry_at (g_handles_2d w) 0)) (kernel w)
  = (1, (4, 2, 0, 4)) ∧
  (Mmg2d.mmg2d_get_triangles_qualities 0 (Some 9) w).1 = (NULL, Some 0).
Proof. by vm_compute. Qed.

Lemma toy_quality_unit (m : ptr) (i : nat) (j : Z) (k : ToyK) :
  unit_interval (toy_quality m i j k).
Proof. unfold toy_quality. by destruct (_ && _). Qed.

(** C8 on the small kernel: the two triangles of the square and the two
    tetrahedra of the cube. *)
Lemma C8_quality_witness :
  (let w := square_2d [4096] in
   (∀ m s j k, unit_interval (MMG2D_Get_triangleQuality m s j k)) ∧
   unit_interval (Mmg2d.mmg2d_get_triangle_quality 0 1 w).1 ∧
   wf_table (g_handles_2d w) (g_initialized_2d w) ∧
   (Mmg2d.validate_handle_2d 0 w).1 ≠ 0 ∧
   Mmg2d.mmg2d_get_triangle_quality 0 1 w
   = (MMG2D_Get_triangleQuality (mesh (entry_at (g_handles_2d w) 0))
        (sol (entry_at (g_handles_2d w) 0)) 1 (kernel w), w) ∧
   MMG2D_Get_meshSize (mesh (entry_at (g_handles_2d w) 0)) (kernel w)
   = (1, (4, 2, 0, 4)) ∧
   0 < 2 ∧
   malloc (size_t (2 * sizeof_double)) (heap w)
   = (4096, (malloc (size_t (2 * sizeof_double)) (heap w)).2) ∧
   4096 ≠ NULL ∧
   let r := Mmg2d.mmg2d_get_triangles_qualities 0 (Some 9) w in
   r.1 = (4096, store_out (Some 9) 2) ∧
   live (heap w) !! 4096 = None ∧
   delete 4096 (live (heap r.2)) = live (heap w) ∧
   ∀ k, 1 ≤ k ≤ 2 →
     load 4096 (k - 1) (heap r.2)
     = Some (CDouble (Mmg2d.mmg2d_get_triangle_quality 0 k w).1)) ∧
  (let w := cube_3d [4096] in
   (∀ m s j k, unit_interval (MMG3D_Get_tetrahedronQuality m s j k)) ∧
   unit_interval (Mmg3d.mmg3d_get_tetrahedron_quality 0 1 w).1 ∧
   wf_table (g_handles w) (g_initialized w) ∧
   (Mmg3d.validate_handle 0 w).1 ≠ 0 ∧
   Mmg3d.mmg3d_get_tetrahedron_quality 0 1 w
   = (MMG3D_Get_tetrahedronQuality (mesh (entry_at (g_handles w) 0))
        (sol (entry_at (g_handles w) 0)) 1 (kernel w), w) ∧
   MMG3D_Get_meshSize (mesh (entry_at (g_handles w) 0)) (kernel w)
   = (1, (4, 2, 0, 2, 0, 0)) ∧
   0 < 2 ∧
   malloc (size_t (2 * sizeof_double)) (heap w)
   = (4096, (malloc (size_t (2 * sizeof_double)) (heap w)).2) ∧
   4096 ≠ NULL ∧
   let r := Mmg3d.mmg3d_get_tetrahedra_qualities 0 (Some 9) w in
   r.1 = (4096, store_out (Some 9) 2) ∧
   live (heap w) !! 4096 = None ∧
   delete 4096 (live (heap r.2)) = live (heap w) ∧
   ∀ k, 1 ≤ k ≤ 2 →
     load 4096 (k - 1) (heap r.2)
     = Some (CDouble (Mmg3d.mmg3d_get_tetrahedron_quality 0 k w).1)).
Proof.
  cbv zeta.
  assert (∀ m s j (k : ToyK),
            unit_interval (MMG2D_Get_triangleQuality m s j k)) as Hq
    by (intros; apply toy_quality_unit).
  assert (wf_table (g_handles_2d (square_2d [4096]))
            (g_initialized_2d (square_2d [4096]))) as Hwf by toy_wf.
  assert ((Mmg2d.validate_handle_2d 0 (square_2d [4096])).1 ≠ 0) as Hv
    by (by vm_compute).
  assert (MMG2D_Get_meshSize
            (mesh (entry_at (g_handles_2d (square_2d [4096])) 0))
            (kernel (square_2d [4096])) = (1, (4, 2, 0, 4))) as Hsz
    by (by vm_compute).
  assert (malloc (size_t (2 * sizeof_double)) (heap (square_2d [4096]))
          = (4096, (malloc (size_t (2 * sizeof_double))
                      (heap (square_2d [4096]))).2)) as Em
    by (by vm_compute).
  assert (∀ m s j (k : ToyK),
            unit_interval (MMG3D_Get_tetrahedronQuality m s j k)) as Hq'
    by (intros; apply toy_quality_unit).
  assert (wf_table (g_handles (cube_3d [4096]))
            (g_initialized (cube_3d [4096]))) as Hwf' by toy_wf.
  assert ((Mmg3d.validate_handle 0 (cube_3d [4096])).1 ≠ 0) as Hv'
    by (by vm_compute).
  assert (MMG3D_Get_meshSize
            (mesh (entry_at (g_handles (cube_3d [4096])) 0))
            (kernel (cube_3d [4096])) = (1, (4, 2, 0, 2, 0, 0))) as Hsz'
    by (by vm_compute).
  assert (malloc (size_t (2 * sizeof_double)) (heap (cube_3d [4096]))
          = (4096, (malloc (size_t (2 * sizeof_double))
                      (heap (cube_3d [4096]))).2)) as Em'
    by (by vm_compute).
  assert (4096 ≠ NULL) as Hp by discriminate.
  destruct (@C8_quality ToyK _ _ _)
    as (Hval & Hunit & _ & Hbulk & Hval' & Hunit' & _ & Hbulk' & _).
  split.
  - split; [exact Hq |].
    split; [exact (Hunit Hq 0 1 _) |].
    do 2 (split; [assumption |]).
    split; [exact (Hval 0 1 _ Hwf Hv) |].
    split; [assumption |].
    split; [lia |].
    do 2 (split; [assumption |]).
    exact (proj2 (Hbulk 0 (Some 9) _ 4 2 0 4 _ _ Hwf Hv Hsz ltac:(lia) Em)
             Hp).
  - split; [exact Hq' |].
    split; [exact (Hunit' Hq' 0 1 _) |].
    do 2 (split; [assumption |]).
    split; [exact (Hval' 0 1 _ Hwf' Hv') |].
    split; [assumption |].
    split; [lia |].
    do 2 (split; [assumption |]).
    exact (proj2 (Hbulk' 0 (Some 9) _ 4 2 0 2 0 0 _ _ Hwf' Hv' Hsz'
                    ltac:(lia) Em') Hp).
Defined.

(** C9 on the small kernel: a solution of vectors on the four vertices
    of the square, and of the cube, is neither scalar nor tensor. *)
Lemma C9_solution_type_guard_witness :
  (let w := square_2d [4096] in
   wf_table (g_handles_2d w) (g_initialized_2d w) ∧
   (Mmg2d.validate_handle_2d 0 w).1 ≠ 0 ∧
   MMG2D_Get_solSize (mesh (entry_at (g_handles_2d w) 0))
     (sol (entry_at (g_handles_2d w) 0)) (kernel w)
   = (1, (1, 4, 2)) ∧
   Mmg2d.mmg2d_get_scalar_sols 0 (Some 9) w = ((NULL, Some 0), w) ∧
   Mmg2d.mmg2d_get_tensor_sols 0 (Some 9) w = ((NULL, Some 0), w)) ∧
  (let w := cube_3d [4096] in
   wf_table (g_handles w) (g_initialized w) ∧
   (Mmg3d.validate_handle 0 w).1 ≠ 0 ∧
   MMG3D_Get_solSize (mesh (entry_at (g_handles w) 0))
     (sol (entry_at (g_handles w) 0)) (kernel w)
   = (1, (1, 4, 2)) ∧
   Mmg3d.mmg3d_get_scalar_sols 0 (Some 9) w = ((NULL, Some 0), w) ∧
   Mmg3d.mmg3d_get_tensor_sols 0 (Some 9) w = ((NULL, Some 0), w)).
Proof.
  cbv zeta.
  assert (wf_table (g_handles_2d (square_2d [4096]))
            (g_initialized_2d (square_2d [4096]))) as Hwf by toy_wf.
  assert ((Mmg2d.validate_handle_2d 0 (square_2d [4096])).1 ≠ 0) as Hv
    by (by vm_compute).
  assert (MMG2D_Get_solSize
            (mesh (entry_at (g_handles_2d (square_2d [4096])) 0))
            (sol (entry_at (g_handles_2d (square_2d [4096])) 0))
            (kernel (square_2d [4096])) = (1, (1, 4, 2))) as Hsol
    by (by vm_compute).
  assert (wf_table (g_handles (cube_3d [4096]))
            (g_initialized (cube_3d [4096]))) as Hwf' by toy_wf.
  assert ((Mmg3d.validate_handle 0 (cube_3d [4096])).1 ≠ 0) as Hv'
    by (by vm_compute).
  assert (MMG3D_Get_solSize
            (mesh (entry_at (g_handles (cube_3d [4096])) 0))
            (sol (entry_at (g_handles (cube_3d [4096])) 0))
            (kernel (cube_3d [4096])) = (1, (1, 4, 2))) as Hsol'
    by (by vm_compute).
  split.
  - destruct (C9_solution_type_guard 0 (Some 9) (square_2d [4096]) 1 1 4 2)
      as (H2 & _).
    destruct (H2 Hwf Hv Hsol) as (Hs & Ht).
    do 3 (split; [assumption |]).
    split; [apply Hs | apply Ht]; discriminate.
  - destruct (C9_solution_type_guard 0 (Some 9) (cube_3d [4096]) 1 1 4 2)
      as (_ & H3 & _).
    destruct (H3 Hwf' Hv' Hsol') as (Hs & Ht).
    do 3 (split; [assumption |]).
    split; [apply Hs | apply Ht]; discriminate.
Defined.


(** C10 on the small kernel: the handle 0 that [mmg2d_init] hands out at
    the start of the program is no handle of the other two files, whose
    tables a call of the planar file leaves as they were. *)
Lemma C10_tables_disjoint_witness :
  let w := toy_boot [] [] in
  let w2 := (Mmg2d.mmg2d_init w).2 in
  (Mmg2d.validate_handle_2d 0 w2).1 = 1 ∧
  (Mmg3d.validate_handle 0 w2).1 = 0 ∧
  (Mmgs.validate_handle_s 0 w2).1 = 0 ∧
  tables_3d (Mmg2d.exec (Mmg2d.Set_mesh_size 0 4 2 0 4) w2).2
  = tables_3d w2 ∧
  tables_s (Mmg2d.exec (Mmg2d.Set_mesh_size 0 4 2 0 4) w2).2
  = tables_s w2 ∧
  tables_3d w = tables_3d w2 ∧
  (Mmg3d.mmg3d_get_available_handles w).1
  = (Mmg3d.mmg3d_get_available_handles w2).1.
Proof.
  cbv zeta.
  destruct (@C10_tables_disjoint ToyK _ _ _)
    as (F2 & _ & _ & Hreads & Hboot).
  destruct (Hboot (toy_heap []) (toy_kernel []) 0) as (V3 & Vs & _).
  split; [by vm_compute |].
  split; [exact V3 |].
  split; [exact Vs |].
  split; [apply F2 |].
  split; [apply F2 |].
  assert (tables_3d (toy_boot [] [])
          = tables_3d (Mmg2d.mmg2d_init (toy_boot [] [])).2) as E
    by (by vm_compute).
  split; [exact E |].
  destruct (Hreads (toy_boot [] []) (Mmg2d.mmg2d_init (toy_boot [] [])).2)
    as (_ & H3 & _).
  by apply H3.
Defined.
(** * Further properties of the wrappers *)

(** ** Tidy tables *)

Lemma tidy_memset : tidy memset_zero.
Proof.
  intros e He. left. unfold memset_zero in He.
  by apply elem_of_replicate in He as [-> _].
Qed.

Lemma alter_out_of_range {A} (f : A → A) (l : list A) (i : nat) :
  (length l ≤ i)%nat → alter f i l = l.
Proof.
  intros Hi. apply list_eq. intros j.
  destruct (decide (i = j)) as [<- | Hne].
  - rewrite list_lookup_alter_eq. by rewrite (lookup_ge_None_2 l i).
  - by rewrite list_lookup_alter_ne.
Qed.

Lemma elem_of_set_entry t i m s a e :
  e ∈ set_entry t i m s a → e ∈ t ∨ e = mkEntry m s a.
Proof.
  destruct (decide (Z.to_nat i < length t)%nat) as [Hi | Hi].
  - rewrite set_entry_insert by done. intros He.
    apply list_elem_of_lookup in He as [j Hj].
    destruct (decide (j = Z.to_nat i)) as [-> | Hne].
    + rewrite list_lookup_insert_eq in Hj by done. right. congruence.
    + rewrite list_lookup_insert_ne in Hj by done. left.
      by eapply list_elem_of_lookup_2.
  - unfold set_entry. intros He. left.
    rewrite !alter_out_of_range in He; [done | | |];
      rewrite ?length_alter; lia.
Qed.

Lemma tidy_set_entry t i m s a :
  tidy t →
  (m = NULL ∧ s = NULL ∧ a = 0) ∨ (a = 1 ∧ m ≠ NULL) →
  tidy (set_entry t i m s a).
Proof.
  intros Ht Hn e He. apply elem_of_set_entry in He as [He | ->].
  - by apply Ht.
  - destruct Hn as [(-> & -> & ->) | Hn]; [by left | by right].
Qed.

Lemma tidy_entry_at t i :
  tidy t →
  entry_at t i = zero_entry
  ∨ (active (entry_at t i) = 1 ∧ mesh (entry_at t i) ≠ NULL).
Proof.
  intros Ht. unfold entry_at.
  destruct (t !! Z.to_nat i) as [e|] eqn:He; [| by left].
  apply Ht. by eapply list_elem_of_lookup_2.
Qed.

Lemma tidy_slot_valid t h : tidy t → slot_valid t h = 0 ∨ slot_valid t h = 1.
Proof.
  intros Ht. unfold slot_valid. destruct (_ || _); [by left |].
  destruct (tidy_entry_at t h Ht) as [-> | [-> _]]; [by left | by right].
Qed.

(** Taking a zeroed slot and giving it back leaves the table as it
    was. *)
Lemma set_entry_undo t i m s a :
  0 ≤ i → entry_at t i = zero_entry → (Z.to_nat i < length t)%nat →
  set_entry (set_entry t i m s a) i NULL NULL 0 = t.
Proof.
  intros Hi Hz Hlt.
  rewrite (set_entry_insert (set_entry _ _ _ _ _))
    by by rewrite length_set_entry.
  rewrite set_entry_insert by done. rewrite list_insert_insert_eq.
  apply list_insert_id. unfold entry_at in Hz.
  destruct (t !! Z.to_nat i) as [e|] eqn:He; [by simplify_eq/= |].
  apply lookup_ge_None in He. lia.
Qed.

Lemma slot_valid_range t h : slot_valid t h ≠ 0 → 0 ≤ h < MAX_HANDLES.
Proof.
  unfold slot_valid. intros Hv.
  destruct (Z.ltb_spec h 0); [done |].
  destruct (Z.geb_spec h MAX_HANDLES); [done | lia].
Qed.

Lemma slot_valid_active t h :
  slot_valid t h ≠ 0 → active (entry_at t h) = slot_valid t h.
Proof. unfold slot_valid. by destruct (_ || _). Qed.

Lemma prefix_full_memset : prefix_full memset_zero 0.
Proof.
  intros j Hj. unfold entry_at.
  destruct (memset_zero !! Z.to_nat j) as [e|] eqn:He; simpl.
  - apply lookup_replicate in He as [-> _]. simpl. lia.
  - lia.
Qed.


(** ** Framing the allocator *)

Lemma preserves_heap_kcall {K A} (f : K → A * K) :
  preserves (@heap K) (kcall f).
Proof. intros w. unfold kcall. by destruct (f (kernel w)). Qed.

Lemma preserves_heap_kdo {K} (f : K → K) : preserves (@heap K) (kdo f).
Proof. by intros w. Qed.

Lemma preserves_heap_kcall_mem {K A} (f : Heap → K → A * K) :
  preserves (@heap K) (kcall_mem f).
Proof. intros w. unfold kcall_mem. by destruct (f (heap w) (kernel w)). Qed.

#[global] Hint Resolve preserves_heap_kcall preserves_heap_kdo
  preserves_heap_kcall_mem : frame.

(** ** Reading what was written *)

Lemma bytes_fill_block cs : ∀ i b, bytes (fill_block i cs b) = bytes b.
Proof. induction cs as [|c cs IH]; intros i b; [done |]. simpl. by rewrite IH. Qed.

Lemma cells_fill_block cs : ∀ i b j,
  cells (fill_block i cs b) !! j
  = if bool_decide (i ≤ j < i + Z.of_nat (length cs))
    then cs !! Z.to_nat (j - i) else cells b !! j.
Proof.
  induction cs as [|c cs IH]; intros i b j.
  - simpl. case_bool_decide; [lia | done].
  - cbn [fill_block length]. rewrite IH. cbn [cells].
    destruct (decide (j = i)) as [-> | Hne].
    + rewrite bool_decide_eq_false_2 by lia.
      rewrite bool_decide_eq_true_2 by lia.
      rewrite lookup_insert_eq. by rewrite Z.sub_diag.
    + rewrite lookup_insert_ne by done.
      repeat case_bool_decide; try lia; [| done].
      replace (Z.to_nat (j - i)) with (S (Z.to_nat (j - (i + 1)))) by lia.
      done.
Qed.

(** After the kernel has written the array [cs] through [p], cell [i]
    holds element [i]. *)
Lemma load_fill_eq p cs h (i : nat) c :
  is_Some (live h !! p) → cs !! i = Some c →
  load p (Z.of_nat i) (fill p cs h) = Some c.
Proof.
  intros [b Hb] Hc. unfold load. rewrite live_fill, lookup_alter_eq, Hb.
  simpl. rewrite cells_fill_block.
  rewrite bool_decide_eq_true_2
    by (apply lookup_lt_Some in Hc; lia).
  by rewrite Z.sub_0_r, Nat2Z.id.
Qed.

Lemma live_fill_ne p q cs h : p ≠ q → live (fill q cs h) !! p = live h !! p.
Proof. intros Hne. by rewrite live_fill, lookup_alter_ne. Qed.

Lemma live_free_ne p q h : p ≠ q → live (free q h) !! p = live h !! p.
Proof.
  intros Hne. rewrite live_free. destruct (q =? NULL); [done |].
  by rewrite lookup_delete_ne.
Qed.

Lemma load_fill_ne p q i cs h : p ≠ q → load p i (fill q cs h) = load p i h.
Proof. intros Hne. unfold load. by rewrite live_fill_ne. Qed.

Lemma load_free_ne p q i h : p ≠ q → load p i (free q h) = load p i h.
Proof. intros Hne. unfold load. by rewrite live_free_ne. Qed.

(** The byte size a live block was requested with. *)
Lemma bytes_fill p q cs h :
  bytes <$> live (fill q cs h) !! p = bytes <$> live h !! p.
Proof.
  rewrite live_fill. destruct (decide (q = p)) as [-> | Hne].
  - rewrite lookup_alter_eq. destruct (live h !! p); [| done].
    simpl. by rewrite bytes_fill_block.
  - by rewrite lookup_alter_ne.
Qed.

Lemma bytes_store p q i c h :
  bytes <$> live (store q i c h) !! p = bytes <$> live h !! p.
Proof.
  rewrite live_store. destruct (decide (q = p)) as [-> | Hne].
  - rewrite lookup_alter_eq. by destruct (live h !! p).
  - by rewrite lookup_alter_ne.
Qed.

(** A run of allocations that all succeed yields blocks that are new,
    distinct, and of the sizes asked for. *)
Lemma malloc_seq_Some sizes : ∀ h ps h',
  malloc_seq sizes h = Some (ps, h') →
  length ps = length sizes ∧
  NoDup ps ∧
  (∀ p, p ∈ ps → p ≠ NULL ∧ live h !! p = None) ∧
  (∀ i p sz, ps !! i = Some p → sizes !! i = Some sz →
     live h' !! p = Some (mkBlock sz ∅)) ∧
  (∀ q, q ∉ ps → live h' !! q = live h !! q).
Proof.
  induction sizes as [|sz sizes IH]; intros h ps h' Hs.
  - simpl in Hs. simplify_eq. split_and!; [done | constructor | | |].
    + intros p Hp. by apply elem_of_nil in Hp.
    + intros i p sz Hp. done.
    + done.
  - cbn [malloc_seq] in Hs.
    destruct (malloc sz h) as [p h1] eqn:E.
    destruct (Z.eqb_spec p NULL) as [|Hp]; [done |].
    destruct (malloc_seq sizes h1) as [[ps1 h2]|] eqn:E1; [| done].
    simpl in Hs. simplify_eq.
    destruct (IH _ _ _ E1) as (Hlen & Hnd & Hnew & Hblk & Hoth).
    destruct (malloc_spec _ _ _ _ E) as [[? _] | (_ & Hfresh & Hl1)];
      [done |].
    assert (p ∉ ps1) as Hnotin.
    { intros Hin. destruct (Hnew p Hin) as [_ Hnone].
      rewrite Hl1, lookup_insert_eq in Hnone. done. }
    split_and!.
    + simpl. by rewrite Hlen.
    + by constructor.
    + intros q Hq. apply elem_of_cons in Hq as [-> | Hq]; [done |].
      destruct (Hnew q Hq) as [Hqn Hqf]. split; [done |].
      rewrite Hl1 in Hqf. destruct (decide (q = p)) as [-> | Hne].
      * by rewrite lookup_insert_eq in Hqf.
      * by rewrite lookup_insert_ne in Hqf.
    + intros [|i] q sz' Hq Hsz; simpl in *; simplify_eq.
      * rewrite Hoth by done. by rewrite Hl1, lookup_insert_eq.
      * by eapply Hblk.
    + intros q Hq. apply not_elem_of_cons in Hq as [Hqp Hq].
      rewrite Hoth by done. by rewrite Hl1, lookup_insert_ne.
Qed.

Lemma r_buf_run {K} (m : M K (ptr * OutInt)) (w : World K) :
  r_buf m w = (RBuf (m w).1.1 (m w).1.2, (m w).2).
Proof.
  unfold r_buf. unfold_M. by destruct (m w) as [[p n] w1].
Qed.

Lemma bulk_get_leaves h0 sizes kres count out0 p out h :
  bulk_get_outcome h0 sizes kres count out0 p out h → leaves_only h0 p h.
Proof.
  intros (_ & _ & Hn & Hp). split.
  - intros Hz. by destruct (Hn Hz).
  - intros Hnz. destruct (Hp Hnz) as (? & ? & ? & _). done.
Qed.

Lemma leaves_only_null h0 h : live h = live h0 → leaves_only h0 NULL h.
Proof. intros E. split; [done |]. by intros []. Qed.

(** Releasing what a getter returned restores the live blocks. *)
Lemma leaves_only_free h0 p h :
  leaves_only h0 p h → live (free p h) = live h0.
Proof.
  intros [Hn Hp]. rewrite live_free.
  destruct (Z.eqb_spec p NULL) as [-> | Hne]; [by apply Hn |].
  by destruct (Hp Hne) as (_ & _ & ->).
Qed.

Lemma NoDup_head_ne {A} (p : A) (ps : list A) (q : A) :
  NoDup (p :: ps) → q ∈ ps → p ≠ q.
Proof. intros Hnd Hq ->. by apply NoDup_cons in Hnd as [? _]. Qed.

(** One allocation of a run that succeeds. *)
Ltac wp_alloc_known E Hp :=
  apply wp_bind; unfold wp at 1, c_malloc; wp_simpl; rewrite E;
  cbn [fst snd]; rewrite (proj2 (Z.eqb_neq _ NULL) Hp); cbn [orb].

(** The allocations of a run that succeeds, one by one. *)
Ltac split_malloc_seq Hseq :=
  cbn [malloc_seq] in Hseq;
  repeat
    (let p := fresh "p" in
     let h := fresh "h" in
     let E := fresh "E" in
     let Hp := fresh "Hp" in
     lazymatch type of Hseq with
     | context [malloc ?sz ?h0] =>
         destruct (malloc sz h0) as [p h] eqn:E;
         destruct (Z.eqb_spec p NULL) as [|Hp]; [discriminate Hseq |];
         cbn [malloc_seq mbind option_bind] in Hseq
     end);
  simpl in Hseq; simplify_eq.

(** The end of the path of a getter that succeeds: the block returned
    has the size asked for and holds the array of the kernel. *)
Ltac delivers_leaf Hblk :=
  split_and!;
  [ done
  | rewrite ?live_free_ne by done; rewrite ?bytes_fill; by rewrite Hblk
  | let i := fresh "i" in
    let x := fresh "x" in
    let Hx := fresh "Hx" in
    intros i x Hx; rewrite ?load_free_ne, ?load_fill_ne by done;
    apply load_fill_eq;
    [eexists; exact Hblk | by rewrite list_lookup_fmap, Hx] ].

(** An allocation of a run that succeeds, tested later on. *)
Ltac wp_alloc_asked E :=
  apply wp_bind; unfold wp at 1, c_malloc; wp_simpl; rewrite E;
  cbn [fst snd].

(** ** One block asked for, written, and kept or given back *)

(** A block that was just allocated, after the kernel has written the
    array [cs] into it: it has the size asked for, it is the only new
    live block, and giving it back restores the live blocks of
    before. *)
Lemma one_block_kept sz h0 p h1 cs :
  malloc sz h0 = (p, h1) → p ≠ NULL →
  live h0 !! p = None ∧
  bytes <$> live (fill p cs h1) !! p = Some sz ∧
  delete p (live (fill p cs h1)) = live h0 ∧
  live (free p (fill p cs h1)) = live h0.
Proof.
  intros E Hp.
  destruct (malloc_spec _ _ _ _ E) as [[? _] | (_ & Hfresh & Hl1)];
    [done |].
  assert (delete p (live (fill p cs h1)) = live h0) as Hdel.
  { rewrite live_fill, Hl1. apply map_eq. intros q.
    destruct (decide (q = p)) as [-> | Hne].
    - by rewrite lookup_delete_eq.
    - by rewrite lookup_delete_ne, lookup_alter_ne, lookup_insert_ne. }
  split_and!; [done | | done |].
  - rewrite bytes_fill, Hl1. by rewrite lookup_insert_eq.
  - rewrite live_free. by rewrite (proj2 (Z.eqb_neq p NULL) Hp).
Qed.

(** An allocation that fails leaves the live blocks as they were. *)
Lemma malloc_NULL_live sz h0 h1 :
  malloc sz h0 = (NULL, h1) → live h1 = live h0.
Proof.
  intros E. by destruct (malloc_spec _ _ _ _ E) as [[_ ?] | (? & _)].
Qed.

(** Writing and releasing ask the allocator for nothing. *)
Lemma supply_fill_from p cs : ∀ i h, supply (fill_from p i cs h) = supply h.
Proof.
  induction cs as [|c cs IH]; intros i h; [done |].
  simpl. by rewrite IH.
Qed.

Lemma supply_fill p cs h : supply (fill p cs h) = supply h.
Proof. apply supply_fill_from. Qed.

Lemma supply_free p h : supply (free p h) = supply h.
Proof. unfold free. by destruct (p =? NULL). Qed.

(** A getter that asks for one block of [sz] bytes, has the kernel write
    the array [cs] into it, and gives the block back when the kernel
    reports failure: what its run [r] returns and leaves, by the outcome
    [(p, h1)] of the allocation and the result [kres] of the kernel. *)
Lemma one_block_getter_paths {K} (w : World K) (sz : Z) (p : ptr)
    (h1 : Heap) (kres : Z) (cs : list Cell) (out_count : OutInt) (n : Z)
    (r : (ptr * OutInt) * World K) :
  malloc sz (heap w) = (p, h1) →
  r = (if p =? NULL then ((NULL, store_out out_count 0), set_heap h1 w)
       else if kres =? 1
       then ((p, store_out out_count n), set_heap (fill p cs h1) w)
       else ((NULL, store_out out_count 0),
             set_heap (free p (fill p cs h1)) w)) →
  (p = NULL ∨ kres ≠ 1 →
   r.1 = (NULL, store_out out_count 0) ∧
   live (heap r.2) = live (heap w)) ∧
  (p ≠ NULL ∧ kres = 1 →
   r.1 = (p, store_out out_count n) ∧
   live (heap w) !! p = None ∧
   bytes <$> live (heap r.2) !! p = Some sz ∧
   delete p (live (heap r.2)) = live (heap w)) ∧
  supply (heap r.2) = supply h1 ∧
  r.2 = set_heap (heap r.2) w.
Proof.
  intros Em ->.
  destruct (Z.eqb_spec p NULL) as [-> | Hp].
  - cbn [fst snd]. split_and!.
    + intros _. split; [done |]. by eapply malloc_NULL_live.
    + by intros [? _].
    + done.
    + by destruct w.
  - destruct (one_block_kept _ _ _ _ cs Em Hp)
      as (Hfresh & Hbytes & Hdel & Hfree).
    destruct (Z.eqb_spec kres 1) as [-> | Hk]; cbn [fst snd].
    + split_and!.
      * by intros [? | ?].
      * by intros _.
      * cbn [heap set_heap]. apply supply_fill.
      * by destruct w.
    + split_and!.
      * by intros _.
      * by intros [_ ?].
      * cbn [heap set_heap]. by rewrite supply_free, supply_fill.
      * by destruct w.
Qed.

(** ** [mmg2d.c]: more on the slots *)

Section More_slots_2d.
Context {K : Type} `{!libmmg2d K}.
Import Mmg2d.

Local Abbreviation wf_2d w :=
  (wf_table (g_handles_2d w) (g_initialized_2d w)).

(** [free] returns 0 or 1 and changes the slot of its handle only. *)
Lemma free_2d_slots (h : Z) (w : World K) :
  wf_2d w →
  let t := g_handles_2d w in
  let r := mmg2d_free h w in
  (r.1 = 0 ∧ slot_valid t h = 0 ∧ g_handles_2d r.2 = t) ∨
  (r.1 = 1 ∧ slot_valid t h ≠ 0 ∧
   g_handles_2d r.2 = set_entry t h NULL NULL 0 ∧
   entry_at (g_handles_2d r.2) h = zero_entry ∧
   ∀ j, 0 ≤ j → j ≠ h → entry_at (g_handles_2d r.2) j = entry_at t j).
Proof.
  intros Hwf. cbv zeta. destruct (free_2d_outcome h w Hwf) as [_ Ho].
  cbv zeta in Ho.
  destruct (Z.eqb_spec (slot_valid (g_handles_2d w) h) 0) as [Hz | Hnz].
  - left. by destruct Ho as (-> & -> & _).
  - right. destruct Ho as (-> & -> & _).
    pose proof (slot_valid_range _ _ Hnz) as Hr.
    split_and!; [done | done | done | |].
    + apply entry_at_set_entry_eq. destruct Hwf as [Hl _].
      unfold MAX_HANDLES in *. lia.
    + intros j Hj Hne. apply entry_at_set_entry_ne; [lia | done | done].
Qed.

(** [init] never hands out a handle that is in use, and leaves the slot
    of such a handle as it is. *)
Lemma init_2d_fresh (h : Z) (w : World K) :
  wf_2d w → slot_valid (g_handles_2d w) h ≠ 0 →
  (mmg2d_init w).1 ≠ h ∧
  entry_at (g_handles_2d (mmg2d_init w).2) h = entry_at (g_handles_2d w) h.
Proof.
  intros Hwf Hv. pose proof (slot_valid_range _ _ Hv) as Hr.
  destruct (init_2d_result w Hwf) as [Hi | Hi]; cbv zeta in Hi.
  - rewrite init_2d_failed by done. split; [lia | done].
  - destruct Hi as (Hi & _ & Hz & _ & m & s & ->).
    assert ((mmg2d_init w).1 ≠ h) as Hne.
    { intros <-. apply Hv. by rewrite <- slot_valid_active. }
    split; [done |]. apply entry_at_set_entry_ne; [lia | lia | done].
Qed.

(** What [get_available_handles] reads goes down by one with an [init]
    that hands out a handle, up by one with a [free] that returns 1, and
    stays as it is with one that fails. *)
Lemma available_2d_steps (w : World K) :
  wf_2d w →
  (mmg2d_get_available_handles (mmg2d_init w).2).1
  = (mmg2d_get_available_handles w).1
    - (if (mmg2d_init w).1 =? -1 then 0 else 1) ∧
  ∀ h, (mmg2d_get_available_handles (mmg2d_free h w).2).1
       = (mmg2d_get_available_handles w).1 + (mmg2d_free h w).1.
Proof.
  intros Hwf. split.
  - rewrite !available_2d_wf; [| done | by apply init_2d_wf].
    by apply init_2d_count.
  - intros h. rewrite !available_2d_wf; [| done | by apply free_2d_wf].
    destruct (free_2d_slots h w Hwf) as [(-> & _ & ->) | (-> & Hv & -> & _)];
      [lia |].
    pose proof (slot_valid_range _ _ Hv) as Hr.
    rewrite free_count_set_entry;
      [| lia | destruct Hwf; unfold MAX_HANDLES in *; lia].
    rewrite slot_valid_active by done.
    rewrite (proj2 (Z.eqb_neq _ _) Hv). simpl. lia.
Qed.

(** After [free(h)] the slot [h] is the first candidate of the next
    [init] from above: the handle it hands out is at most [h], and is
    [h] when every slot below is in use. *)
Lemma free_2d_reuse (h : Z) (w : World K) :
  wf_2d w → (mmg2d_free h w).1 = 1 →
  let w1 := (mmg2d_free h w).2 in
  let r := (mmg2d_init w1).1 in
  (r = -1 ∨ 0 ≤ r ≤ h) ∧
  (∀ m s k1, MMG2D_Init_mesh (kernel w1) = ((1, m, s), k1) → m ≠ NULL →
     0 ≤ r ≤ h) ∧
  ((∀ j, 0 ≤ j < h → slot_valid (g_handles_2d w) j ≠ 0) → r ≠ -1 → r = h).
Proof.
  intros Hwf Hf. cbv zeta.
  pose proof (free_2d_wf h w Hwf) as Hwf1.
  destruct (free_2d_slots h w Hwf) as [(Hz & _) | (_ & Hv & Ht & Hh & Hoth)];
    [lia |].
  pose proof (slot_valid_range _ _ Hv) as Hr.
  assert (active (entry_at (g_handles_2d (mmg2d_free h w).2) h) = 0) as Ha
    by by rewrite Hh.
  assert ((mmg2d_init (mmg2d_free h w).2).1 = -1
          ∨ 0 ≤ (mmg2d_init (mmg2d_free h w).2).1 ≤ h) as Hle.
  { destruct (init_2d_result _ Hwf1) as [Hi | Hi]; cbv zeta in Hi;
      [by left | right].
    destruct Hi as (Hi & _ & _ & Hall & _). split; [lia |].
    destruct (Z.le_gt_cases (mmg2d_init (mmg2d_free h w).2).1 h); [done |].
    exfalso. apply (Hall h); [lia | done]. }
  split_and!; [done | |].
  - intros m s k1 E Hm. destruct Hle as [Hn | Hle]; [| done]. exfalso.
    pose proof (init_2d_outcome _ Hwf1) as Ho. cbv zeta in Ho.
    rewrite E in Ho. destruct Ho as (_ & _ & _ & Ho).
    rewrite (proj2 (Z.eqb_neq m NULL) Hm) in Ho.
    change (negb (1 =? 1)) with false in Ho. rewrite !orb_false_r in Ho.
    destruct (find_free_loop_spec (g_handles_2d (mmg2d_free h w).2)
                (Z.to_nat MAX_HANDLES) 0) as [[Hx Hall] | (Hx & _)];
      cbv zeta in *.
    + apply (Hall h); [unfold MAX_HANDLES in *; lia | done].
    + destruct (Z.ltb_spec
                  (find_free_loop (g_handles_2d (mmg2d_free h w).2) 0
                     (Z.to_nat MAX_HANDLES)) 0); [lia |].
      destruct Ho as (Ho & _). lia.
  - intros Hbelow Hne. destruct Hle as [Hn | Hle]; [done |].
    destruct (init_2d_result _ Hwf1) as [Hi | Hi]; cbv zeta in Hi;
      [done |].
    destruct Hi as (_ & _ & Hz & _).
    destruct (Z.eq_dec (mmg2d_init (mmg2d_free h w).2).1 h) as [|Hd];
      [done |].
    exfalso. apply (Hbelow (mmg2d_init (mmg2d_free h w).2).1); [lia |].
    rewrite Hoth in Hz by lia. unfold slot_valid.
    destruct (Z.ltb_spec (mmg2d_init (mmg2d_free h w).2).1 0); [lia |].
    destruct (Z.geb_spec (mmg2d_init (mmg2d_free h w).2).1 MAX_HANDLES);
      [lia | done].
Qed.

(** Every call keeps the table tidy. *)
Lemma exec_2d_tidy (c : call) (w : World K) :
  wf_2d w → tidy (g_handles_2d w) → tidy (g_handles_2d (exec c w).2).
Proof.
  intros Hwf Ht. destruct (lifecycle_2d c) eqn:Hl.
  - destruct c; try discriminate.
    + rewrite exec_init_2d. cbn [snd].
      pose proof (init_2d_outcome w Hwf) as Ho. cbv zeta in Ho.
      destruct (MMG2D_Init_mesh (kernel w)) as [[[res m] s] k1].
      destruct Ho as (_ & _ & _ & Ho).
      destruct (_ || _) eqn:Hc; [by destruct Ho as (_ & ->) |].
      destruct Ho as (_ & -> & _). apply tidy_set_entry; [done | right].
      apply orb_false_elim in Hc as [_ Hm]. split; [done |].
      by apply Z.eqb_neq.
    + rewrite exec_free_2d. cbn [snd].
      destruct (free_2d_slots handle w Hwf)
        as [(_ & _ & ->) | (_ & _ & -> & _)]; [done |].
      apply tidy_set_entry; [done | by left].
  - by rewrite exec_2d_handles_other.
Qed.

Lemma run_2d_tidy (cs : list call) : ∀ w : World K,
  wf_2d w → tidy (g_handles_2d w) → tidy (g_handles_2d (run cs w).2).
Proof.
  induction cs as [|c cs IH]; intros w Hwf Ht; [done |].
  rewrite run_2d_cons. cbn [snd].
  apply IH; [by apply exec_2d_wf | by apply exec_2d_tidy].
Qed.

(** In a tidy table, [free] of the handle that [init] has just handed
    out gives the slot back: the table is the one before the [init], and
    the kernel is asked to release exactly what it constructed. *)
Lemma init_free_2d_undo (w : World K) :
  wf_2d w → tidy (g_handles_2d w) →
  let h := (mmg2d_init w).1 in
  let r := mmg2d_free h (mmg2d_init w).2 in
  h ≠ -1 →
  r.1 = 1 ∧ g_handles_2d r.2 = g_handles_2d w ∧
  kernel r.2
  = (let '((_, m, s), k1) := MMG2D_Init_mesh (kernel w) in
     MMG2D_Free_all m s (MMG2D_Init_parameters m k1)).
Proof.
  intros Hwf Ht. cbv zeta. intros Hne.
  pose proof (init_2d_wf w Hwf) as Hwf1.
  pose proof (init_2d_outcome w Hwf) as Ho. cbv zeta in Ho.
  destruct (init_2d_result w Hwf) as [Hi | Hi]; cbv zeta in Hi; [done |].
  destruct Hi as (Hr & Hf & Hz & _).
  destruct (MMG2D_Init_mesh (kernel w)) as [[[res m] s] k1].
  destruct Ho as (_ & _ & _ & Ho).
  destruct (_ || _); [lia |]. destruct Ho as (_ & Htab & Hk).
  rewrite <- Hf in Htab.
  assert (Z.to_nat (mmg2d_init w).1 < length (g_handles_2d w))%nat as Hlt
    by (destruct Hwf; unfold MAX_HANDLES in *; lia).
  assert (entry_at (g_handles_2d (mmg2d_init w).2) (mmg2d_init w).1
          = mkEntry m s 1) as He
    by (rewrite Htab; by apply entry_at_set_entry_eq).
  assert (slot_valid (g_handles_2d (mmg2d_init w).2) (mmg2d_init w).1 = 1)
    as Hv.
  { unfold slot_valid. rewrite He.
    destruct (Z.ltb_spec (mmg2d_init w).1 0); [lia |].
    destruct (Z.geb_spec (mmg2d_init w).1 MAX_HANDLES); [lia | done]. }
  pose proof (free_2d_outcome (mmg2d_init w).1 _ Hwf1) as Hfree.
  cbv zeta in Hfree. destruct Hfree as [_ Hfree]. rewrite Hv in Hfree.
  change (1 =? 0) with false in Hfree.
  destruct Hfree as (-> & -> & ->). rewrite He, Hk, Htab. cbn [mesh sol].
  split_and!; [done | | done].
  apply set_entry_undo; [lia | | done].
  destruct (tidy_entry_at (g_handles_2d w) (mmg2d_init w).1 Ht)
    as [Hzero | [Hone _]]; [done | lia].
Qed.

(** The slot of a handle in use is left as it is by every call but its
    own [free]. *)
Lemma exec_2d_entry_step (c : call) (h : Z) (w : World K) :
  wf_2d w → c ≠ Free h → slot_valid (g_handles_2d w) h ≠ 0 →
  entry_at (g_handles_2d (exec c w).2) h = entry_at (g_handles_2d w) h.
Proof.
  intros Hwf Hc Hv. pose proof (slot_valid_range _ _ Hv) as Hr.
  destruct (lifecycle_2d c) eqn:Hl.
  - destruct c; try discriminate.
    + rewrite exec_init_2d. cbn [snd]. by apply init_2d_fresh.
    + rewrite exec_free_2d. cbn [snd].
      destruct (free_2d_slots handle w Hwf)
        as [(_ & _ & ->) | (_ & _ & _ & _ & Hoth)]; [done |].
      apply Hoth; [lia |]. intros ->. by apply Hc.
  - by rewrite exec_2d_handles_other.
Qed.

Lemma run_2d_entry (h : Z) (cs : list call) : ∀ w : World K,
  wf_2d w → Free h ∉ cs → slot_valid (g_handles_2d w) h ≠ 0 →
  entry_at (g_handles_2d (run cs w).2) h = entry_at (g_handles_2d w) h.
Proof.
  induction cs as [|c cs IH]; intros w Hwf Hcs Hv; [done |].
  rewrite run_2d_cons. cbn [snd].
  apply not_elem_of_cons in Hcs as [Hc Hcs].
  rewrite IH; [| by apply exec_2d_wf | done |].
  - apply exec_2d_entry_step; [done | by intros -> | done].
  - by rewrite exec_2d_valid_step.
Qed.
End More_slots_2d.

(** ** [mmg2d.c]: the operations on a valid handle *)

Section Valid_2d.
Context {K : Type} `{!libmmg2d K}.
Import Mmg2d.

Local Abbreviation wf_2d w :=
  (wf_table (g_handles_2d w) (g_initialized_2d w)).

(** Only the bulk getters and [free_array] use the allocator. *)
Lemma exec_2d_heap (c : call) :
  uses_heap_2d c = false → preserves (@heap K) (exec c).
Proof. destruct c; try discriminate; intros _; unfold_2d; frame. Qed.

(** The size queries write the caller's cells only when the kernel
    reports success. *)
Lemma get_mesh_size_2d_valid (h : Z) (np nt nquad na : OutInt)
    (w : World K) :
  wf_2d w → (validate_handle_2d h w).1 ≠ 0 →
  mmg2d_get_mesh_size h np nt nquad na w
  = (let '(r, (a, b, c, d)) :=
       MMG2D_Get_meshSize (mesh (entry_at (g_handles_2d w) h)) (kernel w)
     in
     if r =? 1
     then (r, (store_out np a, store_out nt b, store_out nquad c,
               store_out na d))
     else (r, (np, nt, nquad, na)), w).
Proof.
  intros Hwf Hv. apply wp_eq.
  unfold mmg2d_get_mesh_size, mesh_of. enter_2d Hwf Hv.
  destruct (MMG2D_Get_meshSize _ _) as [r [[[a b] c] d]].
  by case_match; repeat wp_step.
Qed.

Lemma get_sol_size_2d_valid (h : Z) (typEntity np typSol : OutInt)
    (w : World K) :
  wf_2d w → (validate_handle_2d h w).1 ≠ 0 →
  mmg2d_get_sol_size h typEntity np typSol w
  = (let '(r, (a, b, c)) :=
       MMG2D_Get_solSize (mesh (entry_at (g_handles_2d w) h))
         (sol (entry_at (g_handles_2d w) h)) (kernel w)
     in
     if r =? 1
     then (r, (store_out typEntity a, store_out np b, store_out typSol c))
     else (r, (typEntity, np, typSol)), w).
Proof.
  intros Hwf Hv. apply wp_eq.
  unfold mmg2d_get_sol_size, mesh_of, sol_of. enter_2d Hwf Hv.
  destruct (MMG2D_Get_solSize _ _ _) as [r [[a b] c]].
  by case_match; repeat wp_step.
Qed.

(** On a valid handle the remesher, a setter and [free] hand the
    instance bound to the handle to the kernel. *)
Lemma remesh_2d_valid (h : Z) (w : World K) :
  wf_2d w → (validate_handle_2d h w).1 ≠ 0 →
  mmg2d_remesh h w
  = kcall (MMG2D_mmg2dlib (mesh (entry_at (g_handles_2d w) h))
             (sol (entry_at (g_handles_2d w) h))) w.
Proof.
  intros Hwf Hv. destruct (valid_2d_ready h w Hwf Hv) as (_ & E & _).
  unfold mmg2d_remesh, mesh_of, sol_of. unfold mbind, M_bind at 1.
  rewrite E in *. cbn [fst] in Hv.
  by rewrite (proj2 (Z.eqb_neq _ _) Hv).
Qed.

Lemma set_mesh_size_2d_valid (h np nt nquad na : Z) (w : World K) :
  wf_2d w → (validate_handle_2d h w).1 ≠ 0 →
  mmg2d_set_mesh_size h np nt nquad na w
  = kcall (MMG2D_Set_meshSize (mesh (entry_at (g_handles_2d w) h))
             np nt nquad na) w.
Proof.
  intros Hwf Hv. destruct (valid_2d_ready h w Hwf Hv) as (_ & E & _).
  unfold mmg2d_set_mesh_size, mesh_of. unfold mbind, M_bind at 1.
  rewrite E in *. cbn [fst] in Hv.
  by rewrite (proj2 (Z.eqb_neq _ _) Hv).
Qed.
End Valid_2d.

(** ** [mmg2d.c]: the bulk getters, path by path *)

Section More_getters_2d.
Context {K : Type} `{!libmmg2d K}.
Import Mmg2d.

Local Abbreviation wf_2d w :=
  (wf_table (g_handles_2d w) (g_initialized_2d w)).

(** A mesh whose size the kernel does not report, or with no entity of
    the kind: no data, and nothing done. *)
Lemma get_vertices_2d_nodata (h : Z) (out_count : OutInt) (w : World K)
    (r np nt nquad na : Z) :
  wf_2d w → (validate_handle_2d h w).1 ≠ 0 →
  MMG2D_Get_meshSize (mesh (entry_at (g_handles_2d w) h)) (kernel w)
  = (r, (np, nt, nquad, na)) →
  r ≠ 1 ∨ np = 0 →
  mmg2d_get_vertices h out_count w = ((NULL, store_out out_count 0), w).
Proof.
  intros Hwf Hv Hsz Hg. apply wp_eq.
  unfold mmg2d_get_vertices, mesh_of. enter_2d Hwf Hv.
  rewrite Hsz. destruct (Z.eqb_spec r 1); cbn [negb]; repeat wp_step;
    [| done].
  destruct Hg as [| ->]; [done | by repeat wp_step].
Qed.

Lemma get_triangles_2d_nodata (h : Z) (out_count : OutInt) (w : World K)
    (r np nt nquad na : Z) :
  wf_2d w → (validate_handle_2d h w).1 ≠ 0 →
  MMG2D_Get_meshSize (mesh (entry_at (g_handles_2d w) h)) (kernel w)
  = (r, (np, nt, nquad, na)) →
  r ≠ 1 ∨ nt = 0 →
  mmg2d_get_triangles h out_count w = ((NULL, store_out out_count 0), w).
Proof.
  intros Hwf Hv Hsz Hg. apply wp_eq.
  unfold mmg2d_get_triangles, mesh_of. enter_2d Hwf Hv.
  rewrite Hsz. destruct (Z.eqb_spec r 1); cbn [negb]; repeat wp_step;
    [| done].
  destruct Hg as [| ->]; [done | by repeat wp_step].
Qed.

Lemma get_edges_2d_nodata (h : Z) (out_count : OutInt) (w : World K)
    (r np nt nquad na : Z) :
  wf_2d w → (validate_handle_2d h w).1 ≠ 0 →
  MMG2D_Get_meshSize (mesh (entry_at (g_handles_2d w) h)) (kernel w)
  = (r, (np, nt, nquad, na)) →
  r ≠ 1 ∨ na = 0 →
  mmg2d_get_edges h out_count w = ((NULL, store_out out_count 0), w).
Proof.
  intros Hwf Hv Hsz Hg. apply wp_eq.
  unfold mmg2d_get_edges, mesh_of. enter_2d Hwf Hv.
  rewrite Hsz. destruct (Z.eqb_spec r 1); cbn [negb]; repeat wp_step;
    [| done].
  destruct Hg as [| ->]; [done | by repeat wp_step].
Qed.

Lemma get_qualities_2d_nodata (h : Z) (out_count : OutInt) (w : World K)
    (r np nt nquad na : Z) :
  wf_2d w → (validate_handle_2d h w).1 ≠ 0 →
  MMG2D_Get_meshSize (mesh (entry_at (g_handles_2d w) h)) (kernel w)
  = (r, (np, nt, nquad, na)) →
  r ≠ 1 ∨ nt = 0 →
  mmg2d_get_triangles_qualities h out_count w
  = ((NULL, store_out out_count 0), w).
Proof.
  intros Hwf Hv Hsz Hg. apply wp_eq.
  unfold mmg2d_get_triangles_qualities, mesh_of, sol_of. enter_2d Hwf Hv.
  rewrite Hsz. destruct (Z.eqb_spec r 1); cbn [negb]; repeat wp_step;
    [| done].
  destruct Hg as [| ->]; [done | by repeat wp_step].
Qed.

Lemma get_scalar_sols_2d_nodata (h : Z) (out_count : OutInt) (w : World K)
    (r typEntity np typSol : Z) :
  wf_2d w → (validate_handle_2d h w).1 ≠ 0 →
  MMG2D_Get_solSize (mesh (entry_at (g_handles_2d w) h))
    (sol (entry_at (g_handles_2d w) h)) (kernel w)
  = (r, (typEntity, np, typSol)) →
  r ≠ 1 ∨ np = 0 ∨ typSol ≠ 1 →
  mmg2d_get_scalar_sols h out_count w = ((NULL, store_out out_count 0), w).
Proof.
  intros Hwf Hv Hsz [Hr | Hg]; [| by eapply get_scalar_sols_2d_guard].
  apply wp_eq.
  unfold mmg2d_get_scalar_sols, mesh_of, sol_of. enter_2d Hwf Hv.
  rewrite Hsz. rewrite (proj2 (Z.eqb_neq _ _) Hr). by repeat wp_step.
Qed.

Lemma get_tensor_sols_2d_nodata (h : Z) (out_count : OutInt) (w : World K)
    (r typEntity np typSol : Z) :
  wf_2d w → (validate_handle_2d h w).1 ≠ 0 →
  MMG2D_Get_solSize (mesh (entry_at (g_handles_2d w) h))
    (sol (entry_at (g_handles_2d w) h)) (kernel w)
  = (r, (typEntity, np, typSol)) →
  r ≠ 1 ∨ np = 0 ∨ typSol ≠ 3 →
  mmg2d_get_tensor_sols h out_count w = ((NULL, store_out out_count 0), w).
Proof.
  intros Hwf Hv Hsz [Hr | Hg]; [| by eapply get_tensor_sols_2d_guard].
  apply wp_eq.
  unfold mmg2d_get_tensor_sols, mesh_of, sol_of. enter_2d Hwf Hv.
  rewrite Hsz. rewrite (proj2 (Z.eqb_neq _ _) Hr). by repeat wp_step.
Qed.

(** The getters of the solution, on a solution of their type that is not
    empty: one allocation, given back when the kernel fails. *)
Lemma get_scalar_sols_2d_outcome (h : Z) (out_count : OutInt) (w : World K)
    (typEntity np : Z) :
  wf_2d w → (validate_handle_2d h w).1 ≠ 0 →
  MMG2D_Get_solSize (mesh (entry_at (g_handles_2d w) h))
    (sol (entry_at (g_handles_2d w) h)) (kernel w)
  = (1, (typEntity, np, 1)) →
  np ≠ 0 →
  let r := mmg2d_get_scalar_sols h out_count w in
  bulk_get_outcome (heap w) [size_t (np * sizeof_double)]
    (MMG2D_Get_scalarSols (sol (entry_at (g_handles_2d w) h)) (kernel w)).1
    np out_count r.1.1 r.1.2 (heap r.2).
Proof.
  intros Hwf Hv Hsz Hn. cbv zeta.
  destruct (MMG2D_Get_scalarSols _ _) as [kres d] eqn:Eget.
  cbn [fst]. bulk_wp (mmg2d_get_scalar_sols h out_count) w.
  pose proof (grown_refl (heap w)) as G.
  unfold mmg2d_get_scalar_sols, mesh_of, sol_of. enter_2d Hwf Hv.
  rewrite Hsz. cbn [negb Z.eqb Pos.eqb orb].
  rewrite (proj2 (Z.eqb_neq _ _) Hn). cbn [negb orb].
  wp_alloc G; [repeat wp_step; bulk_leaf G |].
  repeat wp_step. rewrite Eget. repeat wp_step.
  destruct (Z.eqb_spec kres 1); cbn [negb]; repeat wp_step; bulk_leaf G.
Qed.

Lemma get_tensor_sols_2d_outcome (h : Z) (out_count : OutInt) (w : World K)
    (typEntity np : Z) :
  wf_2d w → (validate_handle_2d h w).1 ≠ 0 →
  MMG2D_Get_solSize (mesh (entry_at (g_handles_2d w) h))
    (sol (entry_at (g_handles_2d w) h)) (kernel w)
  = (1, (typEntity, np, 3)) →
  np ≠ 0 →
  let r := mmg2d_get_tensor_sols h out_count w in
  bulk_get_outcome (heap w) [size_t (np * 3 * sizeof_double)]
    (MMG2D_Get_tensorSols (sol (entry_at (g_handles_2d w) h)) (kernel w)).1
    np out_count r.1.1 r.1.2 (heap r.2).
Proof.
  intros Hwf Hv Hsz Hn. cbv zeta.
  destruct (MMG2D_Get_tensorSols _ _) as [kres d] eqn:Eget.
  cbn [fst]. bulk_wp (mmg2d_get_tensor_sols h out_count) w.
  pose proof (grown_refl (heap w)) as G.
  unfold mmg2d_get_tensor_sols, mesh_of, sol_of. enter_2d Hwf Hv.
  rewrite Hsz. cbn [negb Z.eqb Pos.eqb orb].
  rewrite (proj2 (Z.eqb_neq _ _) Hn). cbn [negb orb].
  wp_alloc G; [repeat wp_step; bulk_leaf G |].
  repeat wp_step. rewrite Eget. repeat wp_step.
  destruct (Z.eqb_spec kres 1); cbn [negb]; repeat wp_step; bulk_leaf G.
Qed.
End More_getters_2d.

(** ** [mmg2d.c]: what a bulk getter that succeeds delivers *)

Section Delivers_2d.
Context {K : Type} `{!libmmg2d K}.
Import Mmg2d.

Local Abbreviation wf_2d w :=
  (wf_table (g_handles_2d w) (g_initialized_2d w)).

Lemma get_vertices_2d_delivers (h : Z) (out_count : OutInt) (w : World K)
    (np nt nquad na : Z) (ps : list ptr) (h' : Heap)
    (dv : list double) (dr dc dq : list Z) :
  wf_2d w → (validate_handle_2d h w).1 ≠ 0 →
  MMG2D_Get_meshSize (mesh (entry_at (g_handles_2d w) h)) (kernel w)
  = (1, (np, nt, nquad, na)) →
  np ≠ 0 →
  malloc_seq
    [size_t (2 * np * sizeof_double); size_t (np * sizeof_MMG5_int);
     size_t (np * sizeof_int); size_t (np * sizeof_int)] (heap w)
  = Some (ps, h') →
  MMG2D_Get_vertices (mesh (entry_at (g_handles_2d w) h)) (kernel w)
  = (1, (dv, dr, dc, dq)) →
  let r := mmg2d_get_vertices h out_count w in
  ∃ p, ps !! 0%nat = Some p ∧
    r.1 = (p, store_out out_count np) ∧
    bytes <$> live (heap r.2) !! p = Some (size_t (2 * np * sizeof_double)) ∧
    ∀ i x, dv !! i = Some x →
      load p (Z.of_nat i) (heap r.2) = Some (CDouble x).
Proof.
  intros Hwf Hv Hsz Hn Hseq Eget. cbv zeta.
  destruct (malloc_seq_Some _ _ _ _ Hseq) as (_ & Hnd & _ & Hblk & _).
  split_malloc_seq Hseq.
  exists p. split; [done |].
  specialize (Hblk 0%nat p _ eq_refl eq_refl). unfold ptr in Hblk.
  assert (p ≠ p0 ∧ p ≠ p1 ∧ p ≠ p2) as (N0 & N1 & N2)
    by (split_and!; apply (NoDup_head_ne _ _ _ Hnd); set_solver).
  change (wp (mmg2d_get_vertices h out_count)
            (λ r w', r = (p, store_out out_count np) ∧
               bytes <$> live (heap w') !! p
               = Some (size_t (2 * np * sizeof_double)) ∧
               ∀ i x, dv !! i = Some x →
                 load p (Z.of_nat i) (heap w') = Some (CDouble x)) w).
  unfold mmg2d_get_vertices, mesh_of. enter_2d Hwf Hv.
  rewrite Hsz. cbn [negb Z.eqb Pos.eqb].
  rewrite (proj2 (Z.eqb_neq _ _) Hn). cbv zeta.
  wp_alloc_known E Hp. wp_alloc_known E0 Hp0.
  wp_alloc_known E1 Hp1. wp_alloc_known E2 Hp2.
  repeat wp_step. rewrite Eget. repeat wp_step. cbn [negb Z.eqb Pos.eqb].
  repeat wp_step. delivers_leaf Hblk.
Qed.

Lemma get_triangles_2d_delivers (h : Z) (out_count : OutInt) (w : World K)
    (np nt nquad na : Z) (ps : list ptr) (h' : Heap) (dt dr dq : list Z) :
  wf_2d w → (validate_handle_2d h w).1 ≠ 0 →
  MMG2D_Get_meshSize (mesh (entry_at (g_handles_2d w) h)) (kernel w)
  = (1, (np, nt, nquad, na)) →
  nt ≠ 0 →
  malloc_seq
    [size_t (3 * nt * sizeof_MMG5_int); size_t (nt * sizeof_MMG5_int);
     size_t (nt * sizeof_int)] (heap w)
  = Some (ps, h') →
  MMG2D_Get_triangles (mesh (entry_at (g_handles_2d w) h)) (kernel w)
  = (1, (dt, dr, dq)) →
  let r := mmg2d_get_triangles h out_count w in
  ∃ p, ps !! 0%nat = Some p ∧
    r.1 = (p, store_out out_count nt) ∧
    bytes <$> live (heap r.2) !! p
    = Some (size_t (3 * nt * sizeof_MMG5_int)) ∧
    ∀ i x, dt !! i = Some x →
      load p (Z.of_nat i) (heap r.2) = Some (CInt x).
Proof.
  intros Hwf Hv Hsz Hn Hseq Eget. cbv zeta.
  destruct (malloc_seq_Some _ _ _ _ Hseq) as (_ & Hnd & _ & Hblk & _).
  split_malloc_seq Hseq.
  exists p. split; [done |].
  specialize (Hblk 0%nat p _ eq_refl eq_refl). unfold ptr in Hblk.
  assert (p ≠ p0 ∧ p ≠ p1) as (N0 & N1)
    by (split_and!; apply (NoDup_head_ne _ _ _ Hnd); set_solver).
  change (wp (mmg2d_get_triangles h out_count)
            (λ r w', r = (p, store_out out_count nt) ∧
               bytes <$> live (heap w') !! p
               = Some (size_t (3 * nt * sizeof_MMG5_int)) ∧
               ∀ i x, dt !! i = Some x →
                 load p (Z.of_nat i) (heap w') = Some (CInt x)) w).
  unfold mmg2d_get_triangles, mesh_of. enter_2d Hwf Hv.
  rewrite Hsz. cbn [negb Z.eqb Pos.eqb].
  rewrite (proj2 (Z.eqb_neq _ _) Hn). cbv zeta.
  wp_alloc_known E Hp. wp_alloc_known E0 Hp0. wp_alloc_known E1 Hp1.
  repeat wp_step. rewrite Eget. repeat wp_step. cbn [negb Z.eqb Pos.eqb].
  repeat wp_step. delivers_leaf Hblk.
Qed.

Lemma get_edges_2d_delivers (h : Z) (out_count : OutInt) (w : World K)
    (np nt nquad na : Z) (ps : list ptr) (h' : Heap)
    (de dr dg dq : list Z) :
  wf_2d w → (validate_handle_2d h w).1 ≠ 0 →
  MMG2D_Get_meshSize (mesh (entry_at (g_handles_2d w) h)) (kernel w)
  = (1, (np, nt, nquad, na)) →
  na ≠ 0 →
  malloc_seq
    [size_t (2 * na * sizeof_MMG5_int); size_t (na * sizeof_MMG5_int);
     size_t (na * sizeof_int); size_t (na * sizeof_int)] (heap w)
  = Some (ps, h') →
  MMG2D_Get_edges (mesh (entry_at (g_handles_2d w) h)) (kernel w)
  = (1, (de, dr, dg, dq)) →
  let r := mmg2d_get_edges h out_count w in
  ∃ p, ps !! 0%nat = Some p ∧
    r.1 = (p, store_out out_count na) ∧
    bytes <$> live (heap r.2) !! p
    = Some (size_t (2 * na * sizeof_MMG5_int)) ∧
    ∀ i x, de !! i = Some x →
      load p (Z.of_nat i) (heap r.2) = Some (CInt x).
Proof.
  intros Hwf Hv Hsz Hn Hseq Eget. cbv zeta.
  destruct (malloc_seq_Some _ _ _ _ Hseq) as (_ & Hnd & _ & Hblk & _).
  split_malloc_seq Hseq.
  exists p. split; [done |].
  specialize (Hblk 0%nat p _ eq_refl eq_refl). unfold ptr in Hblk.
  assert (p ≠ p0 ∧ p ≠ p1 ∧ p ≠ p2) as (N0 & N1 & N2)
    by (split_and!; apply (NoDup_head_ne _ _ _ Hnd); set_solver).
  change (wp (mmg2d_get_edges h out_count)
            (λ r w', r = (p, store_out out_count na) ∧
               bytes <$> live (heap w') !! p
               = Some (size_t (2 * na * sizeof_MMG5_int)) ∧
               ∀ i x, de !! i = Some x →
                 load p (Z.of_nat i) (heap w') = Some (CInt x)) w).
  unfold mmg2d_get_edges, mesh_of. enter_2d Hwf Hv.
  rewrite Hsz. cbn [negb Z.eqb Pos.eqb].
  rewrite (proj2 (Z.eqb_neq _ _) Hn). cbv zeta.
  wp_alloc_known E Hp. wp_alloc_known E0 Hp0.
  wp_alloc_known E1 Hp1. wp_alloc_known E2 Hp2.
  repeat wp_step. rewrite Eget. repeat wp_step. cbn [negb Z.eqb Pos.eqb].
  repeat wp_step. delivers_leaf Hblk.
Qed.

Lemma get_scalar_sols_2d_delivers (h : Z) (out_count : OutInt)
    (w : World K) (typEntity np : Z) (ps : list ptr) (h' : Heap)
    (dv : list double) :
  wf_2d w → (validate_handle_2d h w).1 ≠ 0 →
  MMG2D_Get_solSize (mesh (entry_at (g_handles_2d w) h))
    (sol (entry_at (g_handles_2d w) h)) (kernel w)
  = (1, (typEntity, np, 1)) →
  np ≠ 0 →
  malloc_seq [size_t (np * sizeof_double)] (heap w) = Some (ps, h') →
  MMG2D_Get_scalarSols (sol (entry_at (g_handles_2d w) h)) (kernel w)
  = (1, dv) →
  let r := mmg2d_get_scalar_sols h out_count w in
  ∃ p, ps !! 0%nat = Some p ∧
    r.1 = (p, store_out out_count np) ∧
    bytes <$> live (heap r.2) !! p = Some (size_t (np * sizeof_double)) ∧
    ∀ i x, dv !! i = Some x →
      load p (Z.of_nat i) (heap r.2) = Some (CDouble x).
Proof.
  intros Hwf Hv Hsz Hn Hseq Eget. cbv zeta.
  destruct (malloc_seq_Some _ _ _ _ Hseq) as (_ & Hnd & _ & Hblk & _).
  split_malloc_seq Hseq.
  exists p. split; [done |].
  specialize (Hblk 0%nat p _ eq_refl eq_refl). unfold ptr in Hblk.
  change (wp (mmg2d_get_scalar_sols h out_count)
            (λ r w', r = (p, store_out out_count np) ∧
               bytes <$> live (heap w') !! p
               = Some (size_t (np * sizeof_double)) ∧
               ∀ i x, dv !! i = Some x →
                 load p (Z.of_nat i) (heap w') = Some (CDouble x)) w).
  unfold mmg2d_get_scalar_sols, mesh_of, sol_of. enter_2d Hwf Hv.
  rewrite Hsz. cbn [negb Z.eqb Pos.eqb orb].
  rewrite (proj2 (Z.eqb_neq _ _) Hn). cbn [negb orb].
  wp_alloc_known E Hp.
  repeat wp_step. rewrite Eget. repeat wp_step. cbn [negb Z.eqb Pos.eqb].
  repeat wp_step. delivers_leaf Hblk.
Qed.

Lemma get_tensor_sols_2d_delivers (h : Z) (out_count : OutInt)
    (w : World K) (typEntity np : Z) (ps : list ptr) (h' : Heap)
    (dv : list double) :
  wf_2d w → (validate_handle_2d h w).1 ≠ 0 →
  MMG2D_Get_solSize (mesh (entry_at (g_handles_2d w) h))
    (sol (entry_at (g_handles_2d w) h)) (kernel w)
  = (1, (typEntity, np, 3)) →
  np ≠ 0 →
  malloc_seq [size_t (np * 3 * sizeof_double)] (heap w) = Some (ps, h') →
  MMG2D_Get_tensorSols (sol (entry_at (g_handles_2d w) h)) (kernel w)
  = (1, dv) →
  let r := mmg2d_get_tensor_sols h out_count w in
  ∃ p, ps !! 0%nat = Some p ∧
    r.1 = (p, store_out out_count np) ∧
    bytes <$> live (heap r.2) !! p
    = Some (size_t (np * 3 * sizeof_double)) ∧
    ∀ i x, dv !! i = Some x →
      load p (Z.of_nat i) (heap r.2) = Some (CDouble x).
Proof.
  intros Hwf Hv Hsz Hn Hseq Eget. cbv zeta.
  destruct (malloc_seq_Some _ _ _ _ Hseq) as (_ & Hnd & _ & Hblk & _).
  split_malloc_seq Hseq.
  exists p. split; [done |].
  specialize (Hblk 0%nat p _ eq_refl eq_refl). unfold ptr in Hblk.
  change (wp (mmg2d_get_tensor_sols h out_count)
            (λ r w', r = (p, store_out out_count np) ∧
               bytes <$> live (heap w') !! p
               = Some (size_t (np * 3 * sizeof_double)) ∧
               ∀ i x, dv !! i = Some x →
                 load p (Z.of_nat i) (heap w') = Some (CDouble x)) w).
  unfold mmg2d_get_tensor_sols, mesh_of, sol_of. enter_2d Hwf Hv.
  rewrite Hsz. cbn [negb Z.eqb Pos.eqb orb].
  rewrite (proj2 (Z.eqb_neq _ _) Hn). cbn [negb orb].
  wp_alloc_known E Hp.
  repeat wp_step. rewrite Eget. repeat wp_step. cbn [negb Z.eqb Pos.eqb].
  repeat wp_step. delivers_leaf Hblk.
Qed.
End Delivers_2d.

(** ** [mmg2d.c]: the paths of the getters of the solution *)

Section Sol_paths_2d.
Context {K : Type} `{!libmmg2d K}.
Import Mmg2d.

Local Abbreviation wf_2d w :=
  (wf_table (g_handles_2d w) (g_initialized_2d w)).

(** The run of the getter of the scalar solution, on a solution of its
    type that is not empty, by the outcome [(p, h1)] of its allocation
    and the answer [(kres, dv)] of the kernel's getter. *)
Lemma get_scalar_sols_2d_run (h : Z) (out_count : OutInt) (w : World K)
    (typEntity np : Z) (p : ptr) (h1 : Heap) (kres : Z) (dv : list double) :
  wf_2d w → (validate_handle_2d h w).1 ≠ 0 →
  MMG2D_Get_solSize (mesh (entry_at (g_handles_2d w) h))
    (sol (entry_at (g_handles_2d w) h)) (kernel w)
  = (1, (typEntity, np, 1)) →
  np ≠ 0 →
  malloc (size_t (np * sizeof_double)) (heap w) = (p, h1) →
  MMG2D_Get_scalarSols (sol (entry_at (g_handles_2d w) h)) (kernel w)
  = (kres, dv) →
  mmg2d_get_scalar_sols h out_count w
  = if p =? NULL then ((NULL, store_out out_count 0), set_heap h1 w)
    else if kres =? 1
    then ((p, store_out out_count np),
          set_heap (fill p (CDouble <$> dv) h1) w)
    else ((NULL, store_out out_count 0),
          set_heap (free p (fill p (CDouble <$> dv) h1)) w).
Proof.
  intros Hwf Hv Hsz Hn Em Eget.
  destruct (Z.eqb_spec p NULL) as [Hp | Hp];
    [| destruct (Z.eqb_spec kres 1) as [Hk | Hk]];
    apply wp_eq;
    unfold mmg2d_get_scalar_sols, mesh_of, sol_of; enter_2d Hwf Hv;
    rewrite Hsz; cbn [negb Z.eqb Pos.eqb orb];
    rewrite (proj2 (Z.eqb_neq _ _) Hn); cbn [negb orb];
    wp_alloc_asked Em.
  - rewrite (proj2 (Z.eqb_eq _ _) Hp). by repeat wp_step.
  - rewrite (proj2 (Z.eqb_neq _ _) Hp). repeat wp_step.
    rewrite Eget. repeat wp_step.
    rewrite (proj2 (Z.eqb_eq _ _) Hk). cbn [negb]. by repeat wp_step.
  - rewrite (proj2 (Z.eqb_neq _ _) Hp). repeat wp_step.
    rewrite Eget. repeat wp_step.
    rewrite (proj2 (Z.eqb_neq _ _) Hk). cbn [negb]. by repeat wp_step.
Qed.

Lemma get_tensor_sols_2d_run (h : Z) (out_count : OutInt) (w : World K)
    (typEntity np : Z) (p : ptr) (h1 : Heap) (kres : Z) (dv : list double) :
  wf_2d w → (validate_handle_2d h w).1 ≠ 0 →
  MMG2D_Get_solSize (mesh (entry_at (g_handles_2d w) h))
    (sol (entry_at (g_handles_2d w) h)) (kernel w)
  = (1, (typEntity, np, 3)) →
  np ≠ 0 →
  malloc (size_t (np * 3 * sizeof_double)) (heap w) = (p, h1) →
  MMG2D_Get_tensorSols (sol (entry_at (g_handles_2d w) h)) (kernel w)
  = (kres, dv) →
  mmg2d_get_tensor_sols h out_count w
  = if p =? NULL then ((NULL, store_out out_count 0), set_heap h1 w)
    else if kres =? 1
    then ((p, store_out out_count np),
          set_heap (fill p (CDouble <$> dv) h1) w)
    else ((NULL, store_out out_count 0),
          set_heap (free p (fill p (CDouble <$> dv) h1)) w).
Proof.
  intros Hwf Hv Hsz Hn Em Eget.
  destruct (Z.eqb_spec p NULL) as [Hp | Hp];
    [| destruct (Z.eqb_spec kres 1) as [Hk | Hk]];
    apply wp_eq;
    unfold mmg2d_get_tensor_sols, mesh_of, sol_of; enter_2d Hwf Hv;
    rewrite Hsz; cbn [negb Z.eqb Pos.eqb orb];
    rewrite (proj2 (Z.eqb_neq _ _) Hn); cbn [negb orb];
    wp_alloc_asked Em.
  - rewrite (proj2 (Z.eqb_eq _ _) Hp). by repeat wp_step.
  - rewrite (proj2 (Z.eqb_neq _ _) Hp). repeat wp_step.
    rewrite Eget. repeat wp_step.
    rewrite (proj2 (Z.eqb_eq _ _) Hk). cbn [negb]. by repeat wp_step.
  - rewrite (proj2 (Z.eqb_neq _ _) Hp). repeat wp_step.
    rewrite Eget. repeat wp_step.
    rewrite (proj2 (Z.eqb_neq _ _) Hk). cbn [negb]. by repeat wp_step.
Qed.
End Sol_paths_2d.

(** ** [mmg2d.c]: no getter leaks *)

Section Leaves_2d.
Context {K : Type} `{!libmmg2d K}.
Import Mmg2d.

Local Abbreviation wf_2d w :=
  (wf_table (g_handles_2d w) (g_initialized_2d w)).

(** The bulk quality on a mesh with triangles: its one block. *)
Lemma get_qualities_2d_block (h : Z) (out_count : OutInt) (w : World K)
    (np nt nquad na : Z) :
  wf_2d w → (validate_handle_2d h w).1 ≠ 0 →
  MMG2D_Get_meshSize (mesh (entry_at (g_handles_2d w) h)) (kernel w)
  = (1, (np, nt, nquad, na)) →
  nt ≠ 0 →
  let r := mmg2d_get_triangles_qualities h out_count w in
  leaves_only (heap w) r.1.1 (heap r.2).
Proof.
  intros Hwf Hv Hsz Hn. cbv zeta.
  destruct (malloc (size_t (nt * sizeof_double)) (heap w)) as [p h1] eqn:Em.
  destruct (grown_malloc _ _ _ _ _ _ (grown_refl (heap w)) Em)
    as [[-> G] | (Hp & _ & G)].
  - assert (mmg2d_get_triangles_qualities h out_count w
            = ((NULL, store_out out_count 0), set_heap h1 w)) as ->.
    { apply wp_eq. unfold mmg2d_get_triangles_qualities, mesh_of, sol_of.
      enter_2d Hwf Hv. rewrite Hsz. cbn [negb Z.eqb Pos.eqb].
      rewrite (proj2 (Z.eqb_neq nt 0)) by done.
      apply wp_bind. unfold wp, c_malloc. rewrite Em. done. }
    apply leaves_only_null. by apply grown_none.
  - set (m := mesh (entry_at (g_handles_2d w) h)) in *.
    set (s := sol (entry_at (g_handles_2d w) h)).
    assert (is_Some (live (heap (set_heap h1 w)) !! p)) as Hlive.
    { destruct G as [_ Hin]. apply (Hin p). set_solver. }
    destruct (qualities_loop_2d_spec nt m s p (Z.to_nat nt) 1
                (set_heap h1 w) Hlive) as (_ & _ & Hg & _).
    assert (mmg2d_get_triangles_qualities h out_count w
            = ((p, store_out out_count nt),
               (qualities_loop (Z.to_nat nt) 1 nt m s p (set_heap h1 w)).2))
      as ->.
    { apply wp_eq. unfold mmg2d_get_triangles_qualities, mesh_of, sol_of.
      enter_2d Hwf Hv. fold m s. rewrite Hsz. cbn [negb Z.eqb Pos.eqb].
      rewrite (proj2 (Z.eqb_neq nt 0)) by done.
      apply wp_bind. unfold wp at 1, c_malloc. rewrite Em. cbn [fst snd].
      rewrite (proj2 (Z.eqb_neq p NULL) Hp).
      apply wp_bind. unfold wp.
      by destruct (qualities_loop _ _ _ _ _ _ _). }
    cbn [fst snd].
    assert (grown (heap w)
              (heap (qualities_loop (Z.to_nat nt) 1 nt m s p
                       (set_heap h1 w)).2) {[p]}) as G1.
    { eapply grown_set; [| apply Hg; [exact G | set_solver]]. set_solver. }
    split; [done | intros _]. by apply grown_one.
Qed.

(** Whatever a bulk getter is called with, it leaves behind at most the
    block it returns. *)
Lemma exec_2d_leaves (c : call) (w : World K) :
  wf_2d w → bulk_getter_2d c = true →
  ∃ p n, (exec c w).1 = RBuf p n ∧
         leaves_only (heap w) p (heap (exec c w).2).
Proof.
  intros Hwf Hc.
  assert (∃ h, handle_of c = Some h) as [h Hh]
    by (destruct c; try discriminate Hc; eauto).
  destruct (Z.eq_dec (validate_handle_2d h w).1 0) as [Hv | Hv].
  { rewrite (exec_2d_invalid c h w Hh Hv). cbn [fst snd].
    pose proof (ensure_2d_outside w) as Ho. unfold outside_2d in Ho.
    injection Ho as _ _ _ _ Hheap _.
    destruct c; try discriminate Hc; simpl; eexists _, _;
      (split; [reflexivity |]); apply leaves_only_null; by rewrite Hheap. }
  destruct c; try discriminate Hc; simpl in Hh; injection Hh as ->;
    cbn [exec]; rewrite r_buf_run; cbn [fst snd]; eexists _, _;
    (split; [reflexivity |]).
  - destruct (MMG2D_Get_meshSize (mesh (entry_at (g_handles_2d w) h))
                (kernel w)) as [r [[[np nt] nquad] na]] eqn:Hsz.
    destruct (decide (r ≠ 1 ∨ np = 0)) as [Hg | Hg].
    + erewrite get_vertices_2d_nodata by done. by apply leaves_only_null.
    + eapply bulk_get_leaves, get_vertices_2d_outcome; [done | done | | ].
      * rewrite Hsz. f_equal. apply dec_stable. naive_solver.
      * naive_solver.
  - destruct (MMG2D_Get_meshSize (mesh (entry_at (g_handles_2d w) h))
                (kernel w)) as [r [[[np nt] nquad] na]] eqn:Hsz.
    destruct (decide (r ≠ 1 ∨ nt = 0)) as [Hg | Hg].
    + erewrite get_triangles_2d_nodata by done. by apply leaves_only_null.
    + eapply bulk_get_leaves, get_triangles_2d_outcome; [done | done | | ].
      * rewrite Hsz. f_equal. apply dec_stable. naive_solver.
      * naive_solver.
  - destruct (MMG2D_Get_meshSize (mesh (entry_at (g_handles_2d w) h))
                (kernel w)) as [r [[[np nt] nquad] na]] eqn:Hsz.
    destruct (decide (r ≠ 1 ∨ na = 0)) as [Hg | Hg].
    + erewrite get_edges_2d_nodata by done. by apply leaves_only_null.
    + eapply bulk_get_leaves, get_edges_2d_outcome; [done | done | | ].
      * rewrite Hsz. f_equal. apply dec_stable. naive_solver.
      * naive_solver.
  - destruct (MMG2D_Get_solSize (mesh (entry_at (g_handles_2d w) h))
                (sol (entry_at (g_handles_2d w) h)) (kernel w))
      as [r [[te np] ts]] eqn:Hsz.
    destruct (decide (r ≠ 1 ∨ np = 0 ∨ ts ≠ 1)) as [Hg | Hg].
    + erewrite get_scalar_sols_2d_nodata by done. by apply leaves_only_null.
    + assert (r = 1 ∧ np ≠ 0 ∧ ts = 1) as (-> & Hn & ->)
        by (split_and!; [apply dec_stable | | apply dec_stable];
            naive_solver).
      by eapply bulk_get_leaves, get_scalar_sols_2d_outcome.
  - destruct (MMG2D_Get_solSize (mesh (entry_at (g_handles_2d w) h))
                (sol (entry_at (g_handles_2d w) h)) (kernel w))
      as [r [[te np] ts]] eqn:Hsz.
    destruct (decide (r ≠ 1 ∨ np = 0 ∨ ts ≠ 3)) as [Hg | Hg].
    + erewrite get_tensor_sols_2d_nodata by done. by apply leaves_only_null.
    + assert (r = 1 ∧ np ≠ 0 ∧ ts = 3) as (-> & Hn & ->)
        by (split_and!; [apply dec_stable | | apply dec_stable];
            naive_solver).
      by eapply bulk_get_leaves, get_tensor_sols_2d_outcome.
  - destruct (MMG2D_Get_meshSize (mesh (entry_at (g_handles_2d w) h))
                (kernel w)) as [r [[[np nt] nquad] na]] eqn:Hsz.
    destruct (decide (r ≠ 1 ∨ nt = 0)) as [Hg | Hg].
    + erewrite get_qualities_2d_nodata by done. by apply leaves_only_null.
    + assert (r = 1 ∧ nt ≠ 0) as (-> & Hn)
        by (split; [apply dec_stable |]; naive_solver).
      by eapply get_qualities_2d_block.
Qed.

(** [free_array] releases the block it is given and nothing else;
    [free_array(NULL)] does nothing. *)
Lemma free_array_2d_eq (p : ptr) (w : World K) :
  mmg2d_free_array p w = (tt, set_heap (free p (heap w)) w).
Proof.
  unfold mmg2d_free_array. destruct (Z.eqb_spec p NULL) as [-> | Hp].
  - rewrite free_NULL. unfold_M. by destruct w.
  - done.
Qed.
End Leaves_2d.

(** ** [mmg2d.c]: handles in the order of creation *)

Section Order_2d.
Context {K : Type} `{!libmmg2d K}.
Import Mmg2d.

Local Abbreviation wf_2d w :=
  (wf_table (g_handles_2d w) (g_initialized_2d w)).

Lemma init_2d_next (i : Z) (w : World K) :
  wf_2d w → 0 ≤ i → prefix_full (g_handles_2d w) i →
  (mmg2d_init w).1 ≠ -1 →
  (mmg2d_init w).1 = i ∧ prefix_full (g_handles_2d (mmg2d_init w).2) (i + 1).
Proof.
  intros Hwf Hi Hpre Hne.
  destruct (init_2d_result w Hwf) as [Hr | Hr]; cbv zeta in Hr; [done |].
  destruct Hr as (Hr & _ & Hz & Hbelow & m & s & Ht).
  assert ((mmg2d_init w).1 = i) as Heq.
  { apply Hpre in Hz; [| done].
    destruct (Z.eq_dec (mmg2d_init w).1 i) as [| Hd]; [done |].
    exfalso. apply (Hbelow i); [lia |]. apply Hpre; lia. }
  split; [done |]. rewrite Ht, Heq. intros j Hj.
  destruct (Z.eq_dec j i) as [-> | Hd].
  - rewrite entry_at_set_entry_eq
      by (destruct Hwf; unfold MAX_HANDLES in *; lia).
    simpl. lia.
  - rewrite entry_at_set_entry_ne by lia. rewrite (Hpre j Hj). lia.
Qed.

Lemma run_inits_2d_order (n : nat) : ∀ (i : Z) (w : World K),
  wf_2d w → 0 ≤ i → prefix_full (g_handles_2d w) i →
  (∀ r, r ∈ (run (replicate n Init) w).1 → r ≠ RInt (-1)) →
  (run (replicate n Init) w).1 = RInt <$> seqZ i (Z.of_nat n).
Proof.
  induction n as [|n IH]; intros i w Hwf Hi Hpre Hok; [done |].
  cbn [replicate] in *. rewrite run_2d_cons in *. cbn [fst snd] in *.
  rewrite exec_init_2d in *. cbn [fst snd] in *.
  destruct (init_2d_next i w Hwf Hi Hpre) as [Hr Hpre1].
  { intros Hr. apply (Hok (RInt (mmg2d_init w).1)); [left | by rewrite Hr]. }
  rewrite Nat2Z.inj_succ, seqZ_cons by lia. cbn [fmap list_fmap].
  rewrite Hr. f_equal.
  rewrite (IH (i + 1)); [| by apply init_2d_wf | lia | done |].
  - do 2 f_equal; lia.
  - intros r Hin. apply Hok. by right.
Qed.
End Order_2d.

(** ** [mmg2d.c]: a handle and the instance bound to it *)

Section Binding_2d.
Context {K : Type} `{!libmmg2d K}.
Import Mmg2d.

Local Abbreviation wf_2d w :=
  (wf_table (g_handles_2d w) (g_initialized_2d w)).

(** An [init] that hands out a handle binds what the kernel
    constructed. *)
Lemma init_2d_binds (w : World K) (m s : ptr) (k1 : K) :
  wf_2d w → MMG2D_Init_mesh (kernel w) = ((1, m, s), k1) → m ≠ NULL →
  (mmg2d_init w).1 ≠ -1 →
  0 ≤ (mmg2d_init w).1 < MAX_HANDLES ∧
  entry_at (g_handles_2d (mmg2d_init w).2) (mmg2d_init w).1 = mkEntry m s 1 ∧
  slot_valid (g_handles_2d (mmg2d_init w).2) (mmg2d_init w).1 = 1.
Proof.
  intros Hwf E Hm Hne.
  pose proof (init_2d_outcome w Hwf) as Ho. cbv zeta in Ho. rewrite E in Ho.
  destruct Ho as (_ & _ & _ & Ho).
  destruct (init_2d_result w Hwf) as [Hr | Hr]; cbv zeta in Hr; [done |].
  destruct Hr as (Hr & Hf & _).
  rewrite (proj2 (Z.eqb_neq m NULL) Hm) in Ho.
  change (negb (1 =? 1)) with false in Ho. rewrite !orb_false_r in Ho.
  destruct (_ <? 0); [lia |]. destruct Ho as (_ & Ht & _).
  rewrite <- Hf in Ht.
  assert (entry_at (g_handles_2d (mmg2d_init w).2) (mmg2d_init w).1
          = mkEntry m s 1) as He.
  { rewrite Ht. apply entry_at_set_entry_eq.
    destruct Hwf; unfold MAX_HANDLES in *; lia. }
  split_and!; [lia | lia | done |].
  unfold slot_valid. rewrite He.
  destruct (Z.ltb_spec (mmg2d_init w).1 0); [lia |].
  destruct (Z.geb_spec (mmg2d_init w).1 MAX_HANDLES); [lia | done].
Qed.

(** The binding lasts as long as the handle: through every sequence of
    calls without its [free], the operations on the handle reach the
    instance that [init] bound. *)
Lemma binding_2d_lasts (w : World K) (m s : ptr) (k1 : K) (cs : list call) :
  wf_2d w → MMG2D_Init_mesh (kernel w) = ((1, m, s), k1) → m ≠ NULL →
  let h := (mmg2d_init w).1 in
  h ≠ -1 → Free h ∉ cs →
  let w' := (run cs (mmg2d_init w).2).2 in
  wf_2d w' ∧
  (validate_handle_2d h w').1 = 1 ∧
  entry_at (g_handles_2d w') h = mkEntry m s 1.
Proof.
  intros Hwf E Hm. cbv zeta. intros Hne Hcs.
  destruct (init_2d_binds w m s k1 Hwf E Hm Hne) as (_ & He & Hv).
  pose proof (init_2d_wf w Hwf) as Hwf1.
  pose proof (run_2d_wf cs _ Hwf1) as Hwf2.
  split_and!; [done | |].
  - rewrite validate_2d_wf by done. rewrite run_2d_valid; [done.. |].
    by rewrite Hv.
  - rewrite run_2d_entry; [done.. |]. by rewrite Hv.
Qed.
End Binding_2d.

(** ** [mmg3d.c]: more on the slots *)

Section More_slots_3d.
Context {K : Type} `{!libmmg3d K}.
Import Mmg3d.

Local Abbreviation wf_3d w :=
  (wf_table (g_handles w) (g_initialized w)).

(** [free] returns 0 or 1 and changes the slot of its handle only. *)
Lemma free_3d_slots (h : Z) (w : World K) :
  wf_3d w →
  let t := g_handles w in
  let r := mmg3d_free h w in
  (r.1 = 0 ∧ slot_valid t h = 0 ∧ g_handles r.2 = t) ∨
  (r.1 = 1 ∧ slot_valid t h ≠ 0 ∧
   g_handles r.2 = set_entry t h NULL NULL 0 ∧
   entry_at (g_handles r.2) h = zero_entry ∧
   ∀ j, 0 ≤ j → j ≠ h → entry_at (g_handles r.2) j = entry_at t j).
Proof.
  intros Hwf. cbv zeta. destruct (free_3d_outcome h w Hwf) as [_ Ho].
  cbv zeta in Ho.
  destruct (Z.eqb_spec (slot_valid (g_handles w) h) 0) as [Hz | Hnz].
  - left. by destruct Ho as (-> & -> & _).
  - right. destruct Ho as (-> & -> & _).
    pose proof (slot_valid_range _ _ Hnz) as Hr.
    split_and!; [done | done | done | |].
    + apply entry_at_set_entry_eq. destruct Hwf as [Hl _].
      unfold MAX_HANDLES in *. lia.
    + intros j Hj Hne. apply entry_at_set_entry_ne; [lia | done | done].
Qed.

(** [init] never hands out a handle that is in use, and leaves the slot
    of such a handle as it is. *)
Lemma init_3d_fresh (h : Z) (w : World K) :
  wf_3d w → slot_valid (g_handles w) h ≠ 0 →
  (mmg3d_init w).1 ≠ h ∧
  entry_at (g_handles (mmg3d_init w).2) h = entry_at (g_handles w) h.
Proof.
  intros Hwf Hv. pose proof (slot_valid_range _ _ Hv) as Hr.
  destruct (init_3d_result w Hwf) as [Hi | Hi]; cbv zeta in Hi.
  - rewrite init_3d_failed by done. split; [lia | done].
  - destruct Hi as (Hi & _ & Hz & _ & m & s & ->).
    assert ((mmg3d_init w).1 ≠ h) as Hne.
    { intros <-. apply Hv. by rewrite <- slot_valid_active. }
    split; [done |]. apply entry_at_set_entry_ne; [lia | lia | done].
Qed.

(** What [get_available_handles] reads goes down by one with an [init]
    that hands out a handle, up by one with a [free] that returns 1, and
    stays as it is with one that fails. *)
Lemma available_3d_steps (w : World K) :
  wf_3d w →
  (mmg3d_get_available_handles (mmg3d_init w).2).1
  = (mmg3d_get_available_handles w).1
    - (if (mmg3d_init w).1 =? -1 then 0 else 1) ∧
  ∀ h, (mmg3d_get_available_handles (mmg3d_free h w).2).1
       = (mmg3d_get_available_handles w).1 + (mmg3d_free h w).1.
Proof.
  intros Hwf. split.
  - rewrite !available_3d_wf; [| done | by apply init_3d_wf].
    by apply init_3d_count.
  - intros h. rewrite !available_3d_wf; [| done | by apply free_3d_wf].
    destruct (free_3d_slots h w Hwf) as [(-> & _ & ->) | (-> & Hv & -> & _)];
      [lia |].
    pose proof (slot_valid_range _ _ Hv) as Hr.
    rewrite free_count_set_entry;
      [| lia | destruct Hwf; unfold MAX_HANDLES in *; lia].
    rewrite slot_valid_active by done.
    rewrite (proj2 (Z.eqb_neq _ _) Hv). simpl. lia.
Qed.

(** After [free(h)] the slot [h] is the first candidate of the next
    [init] from above: the handle it hands out is at most [h], and is
    [h] when every slot below is in use. *)
Lemma free_3d_reuse (h : Z) (w : World K) :
  wf_3d w → (mmg3d_free h w).1 = 1 →
  let w1 := (mmg3d_free h w).2 in
  let r := (mmg3d_init w1).1 in
  (r = -1 ∨ 0 ≤ r ≤ h) ∧
  (∀ m s k1, MMG3D_Init_mesh (kernel w1) = ((1, m, s), k1) → m ≠ NULL →
     0 ≤ r ≤ h) ∧
  ((∀ j, 0 ≤ j < h → slot_valid (g_handles w) j ≠ 0) → r ≠ -1 → r = h).
Proof.
  intros Hwf Hf. cbv zeta.
  pose proof (free_3d_wf h w Hwf) as Hwf1.
  destruct (free_3d_slots h w Hwf) as [(Hz & _) | (_ & Hv & Ht & Hh & Hoth)];
    [lia |].
  pose proof (slot_valid_range _ _ Hv) as Hr.
  assert (active (entry_at (g_handles (mmg3d_free h w).2) h) = 0) as Ha
    by by rewrite Hh.
  assert ((mmg3d_init (mmg3d_free h w).2).1 = -1
          ∨ 0 ≤ (mmg3d_init (mmg3d_free h w).2).1 ≤ h) as Hle.
  { destruct (init_3d_result _ Hwf1) as [Hi | Hi]; cbv zeta in Hi;
      [by left | right].
    destruct Hi as (Hi & _ & _ & Hall & _). split; [lia |].
    destruct (Z.le_gt_cases (mmg3d_init (mmg3d_free h w).2).1 h); [done |].
    exfalso. apply (Hall h); [lia | done]. }
  split_and!; [done | |].
  - intros m s k1 E Hm. destruct Hle as [Hn | Hle]; [| done]. exfalso.
    pose proof (init_3d_outcome _ Hwf1) as Ho. cbv zeta in Ho.
    rewrite E in Ho. destruct Ho as (_ & _ & _ & Ho).
    rewrite (proj2 (Z.eqb_neq m NULL) Hm) in Ho.
    change (negb (1 =? 1)) with false in Ho. rewrite !orb_false_r in Ho.
    destruct (find_free_loop_spec (g_handles (mmg3d_free h w).2)
                (Z.to_nat MAX_HANDLES) 0) as [[Hx Hall] | (Hx & _)];
      cbv zeta in *.
    + apply (Hall h); [unfold MAX_HANDLES in *; lia | done].
    + destruct (Z.ltb_spec
                  (find_free_loop (g_handles (mmg3d_free h w).2) 0
                     (Z.to_nat MAX_HANDLES)) 0); [lia |].
      destruct Ho as (Ho & _). lia.
  - intros Hbelow Hne. destruct Hle as [Hn | Hle]; [done |].
    destruct (init_3d_result _ Hwf1) as [Hi | Hi]; cbv zeta in Hi;
      [done |].
    destruct Hi as (_ & _ & Hz & _).
    destruct (Z.eq_dec (mmg3d_init (mmg3d_free h w).2).1 h) as [|Hd];
      [done |].
    exfalso. apply (Hbelow (mmg3d_init (mmg3d_free h w).2).1); [lia |].
    rewrite Hoth in Hz by lia. unfold slot_valid.
    destruct (Z.ltb_spec (mmg3d_init (mmg3d_free h w).2).1 0); [lia |].
    destruct (Z.geb_spec (mmg3d_init (mmg3d_free h w).2).1 MAX_HANDLES);
      [lia | done].
Qed.

(** Every call keeps the table tidy. *)
Lemma exec_3d_tidy (c : call) (w : World K) :
  wf_3d w → tidy (g_handles w) → tidy (g_handles (exec c w).2).
Proof.
  intros Hwf Ht. destruct (lifecycle_3d c) eqn:Hl.
  - destruct c; try discriminate.
    + rewrite exec_init_3d. cbn [snd].
      pose proof (init_3d_outcome w Hwf) as Ho. cbv zeta in Ho.
      destruct (MMG3D_Init_mesh (kernel w)) as [[[res m] s] k1].
      destruct Ho as (_ & _ & _ & Ho).
      destruct (_ || _) eqn:Hc; [by destruct Ho as (_ & ->) |].
      destruct Ho as (_ & -> & _). apply tidy_set_entry; [done | right].
      apply orb_false_elim in Hc as [_ Hm]. split; [done |].
      by apply Z.eqb_neq.
    + rewrite exec_free_3d. cbn [snd].
      destruct (free_3d_slots handle w Hwf)
        as [(_ & _ & ->) | (_ & _ & -> & _)]; [done |].
      apply tidy_set_entry; [done | by left].
  - by rewrite exec_3d_handles_other.
Qed.

Lemma run_3d_tidy (cs : list call) : ∀ w : World K,
  wf_3d w → tidy (g_handles w) → tidy (g_handles (run cs w).2).
Proof.
  induction cs as [|c cs IH]; intros w Hwf Ht; [done |].
  rewrite run_3d_cons. cbn [snd].
  apply IH; [by apply exec_3d_wf | by apply exec_3d_tidy].
Qed.

(** In a tidy table, [free] of the handle that [init] has just handed
    out gives the slot back: the table is the one before the [init], and
    the kernel is asked to release exactly what it constructed. *)
Lemma init_free_3d_undo (w : World K) :
  wf_3d w → tidy (g_handles w) →
  let h := (mmg3d_init w).1 in
  let r := mmg3d_free h (mmg3d_init w).2 in
  h ≠ -1 →
  r.1 = 1 ∧ g_handles r.2 = g_handles w ∧
  kernel r.2
  = (let '((_, m, s), k1) := MMG3D_Init_mesh (kernel w) in
     MMG3D_Free_all m s (MMG3D_Init_parameters m k1)).
Proof.
  intros Hwf Ht. cbv zeta. intros Hne.
  pose proof (init_3d_wf w Hwf) as Hwf1.
  pose proof (init_3d_outcome w Hwf) as Ho. cbv zeta in Ho.
  destruct (init_3d_result w Hwf) as [Hi | Hi]; cbv zeta in Hi; [done |].
  destruct Hi as (Hr & Hf & Hz & _).
  destruct (MMG3D_Init_mesh (kernel w)) as [[[res m] s] k1].
  destruct Ho as (_ & _ & _ & Ho).
  destruct (_ || _); [lia |]. destruct Ho as (_ & Htab & Hk).
  rewrite <- Hf in Htab.
  assert (Z.to_nat (mmg3d_init w).1 < length (g_handles w))%nat as Hlt
    by (destruct Hwf; unfold MAX_HANDLES in *; lia).
  assert (entry_at (g_handles (mmg3d_init w).2) (mmg3d_init w).1
          = mkEntry m s 1) as He
    by (rewrite Htab; by apply entry_at_set_entry_eq).
  assert (slot_valid (g_handles (mmg3d_init w).2) (mmg3d_init w).1 = 1)
    as Hv.
  { unfold slot_valid. rewrite He.
    destruct (Z.ltb_spec (mmg3d_init w).1 0); [lia |].
    destruct (Z.geb_spec (mmg3d_init w).1 MAX_HANDLES); [lia | done]. }
  pose proof (free_3d_outcome (mmg3d_init w).1 _ Hwf1) as Hfree.
  cbv zeta in Hfree. destruct Hfree as [_ Hfree]. rewrite Hv in Hfree.
  change (1 =? 0) with false in Hfree.
  destruct Hfree as (-> & -> & ->). rewrite He, Hk, Htab. cbn [mesh sol].
  split_and!; [done | | done].
  apply set_entry_undo; [lia | | done].
  destruct (tidy_entry_at (g_handles w) (mmg3d_init w).1 Ht)
    as [Hzero | [Hone _]]; [done | lia].
Qed.

(** The slot of a handle in use is left as it is by every call but its
    own [free]. *)
Lemma exec_3d_entry_step (c : call) (h : Z) (w : World K) :
  wf_3d w → c ≠ Free h → slot_valid (g_handles w) h ≠ 0 →
  entry_at (g_handles (exec c w).2) h = entry_at (g_handles w) h.
Proof.
  intros Hwf Hc Hv. pose proof (slot_valid_range _ _ Hv) as Hr.
  destruct (lifecycle_3d c) eqn:Hl.
  - destruct c; try discriminate.
    + rewrite exec_init_3d. cbn [snd]. by apply init_3d_fresh.
    + rewrite exec_free_3d. cbn [snd].
      destruct (free_3d_slots handle w Hwf)
        as [(_ & _ & ->) | (_ & _ & _ & _ & Hoth)]; [done |].
      apply Hoth; [lia |]. intros ->. by apply Hc.
  - by rewrite exec_3d_handles_other.
Qed.

Lemma run_3d_entry (h : Z) (cs : list call) : ∀ w : World K,
  wf_3d w → Free h ∉ cs → slot_valid (g_handles w) h ≠ 0 →
  entry_at (g_handles (run cs w).2) h = entry_at (g_handles w) h.
Proof.
  induction cs as [|c cs IH]; intros w Hwf Hcs Hv; [done |].
  rewrite run_3d_cons. cbn [snd].
  apply not_elem_of_cons in Hcs as [Hc Hcs].
  rewrite IH; [| by apply exec_3d_wf | done |].
  - apply exec_3d_entry_step; [done | by intros -> | done].
  - by rewrite exec_3d_valid_step.
Qed.
End More_slots_3d.

(** ** [mmg3d.c]: the operations on a valid handle *)

Section Valid_3d.
Context {K : Type} `{!libmmg3d K}.
Import Mmg3d.

Local Abbreviation wf_3d w :=
  (wf_table (g_handles w) (g_initialized w)).

(** Only the bulk getters and [free_array] use the allocator. *)
Lemma exec_3d_heap (c : call) :
  uses_heap_3d c = false → preserves (@heap K) (exec c).
Proof. destruct c; try discriminate; intros _; unfold_3d; frame. Qed.

(** The size queries write the caller's cells only when the kernel
    reports success. *)
Lemma get_mesh_size_3d_valid (h : Z)
    (np ne nprism nt nquad na : OutInt) (w : World K) :
  wf_3d w → (validate_handle h w).1 ≠ 0 →
  mmg3d_get_mesh_size h np ne nprism nt nquad na w
  = (let '(r, (a, b, c, d, e, f)) :=
       MMG3D_Get_meshSize (mesh (entry_at (g_handles w) h)) (kernel w)
     in
     if r =? 1
     then (r, (store_out np a, store_out ne b, store_out nprism c,
               store_out nt d, store_out nquad e, store_out na f))
     else (r, (np, ne, nprism, nt, nquad, na)), w).
Proof.
  intros Hwf Hv. apply wp_eq.
  unfold mmg3d_get_mesh_size, mesh_of. enter_3d Hwf Hv.
  destruct (MMG3D_Get_meshSize _ _) as [r [[[[[a b] c] d] e] f]].
  by case_match; repeat wp_step.
Qed.

Lemma get_sol_size_3d_valid (h : Z) (typEntity np typSol : OutInt)
    (w : World K) :
  wf_3d w → (validate_handle h w).1 ≠ 0 →
  mmg3d_get_sol_size h typEntity np typSol w
  = (let '(r, (a, b, c)) :=
       MMG3D_Get_solSize (mesh (entry_at (g_handles w) h))
         (sol (entry_at (g_handles w) h)) (kernel w)
     in
     if r =? 1
     then (r, (store_out typEntity a, store_out np b, store_out typSol c))
     else (r, (typEntity, np, typSol)), w).
Proof.
  intros Hwf Hv. apply wp_eq.
  unfold mmg3d_get_sol_size, mesh_of, sol_of. enter_3d Hwf Hv.
  destruct (MMG3D_Get_solSize _ _ _) as [r [[a b] c]].
  by case_match; repeat wp_step.
Qed.

(** On a valid handle the remesher, a setter and [free] hand the
    instance bound to the handle to the kernel. *)
Lemma remesh_3d_valid (h : Z) (w : World K) :
  wf_3d w → (validate_handle h w).1 ≠ 0 →
  mmg3d_remesh h w
  = kcall (MMG3D_mmg3dlib (mesh (entry_at (g_handles w) h))
             (sol (entry_at (g_handles w) h))) w.
Proof.
  intros Hwf Hv. destruct (valid_3d_ready h w Hwf Hv) as (_ & E & _).
  unfold mmg3d_remesh, mesh_of, sol_of. unfold mbind, M_bind at 1.
  rewrite E in *. cbn [fst] in Hv.
  by rewrite (proj2 (Z.eqb_neq _ _) Hv).
Qed.

Lemma set_mesh_size_3d_valid (h np ne nprism nt nquad na : Z)
    (w : World K) :
  wf_3d w → (validate_handle h w).1 ≠ 0 →
  mmg3d_set_mesh_size h np ne nprism nt nquad na w
  = kcall (MMG3D_Set_meshSize (mesh (entry_at (g_handles w) h))
             np ne nprism nt nquad na) w.
Proof.
  intros Hwf Hv. destruct (valid_3d_ready h w Hwf Hv) as (_ & E & _).
  unfold mmg3d_set_mesh_size, mesh_of. unfold mbind, M_bind at 1.
  rewrite E in *. cbn [fst] in Hv.
  by rewrite (proj2 (Z.eqb_neq _ _) Hv).
Qed.
End Valid_3d.

(** ** [mmg3d.c]: the bulk getters, path by path *)

Section More_getters_3d.
Context {K : Type} `{!libmmg3d K}.
Import Mmg3d.

Local Abbreviation wf_3d w :=
  (wf_table (g_handles w) (g_initialized w)).

(** A mesh whose size the kernel does not report, or with no entity of
    the kind: no data, and nothing done. *)
Lemma get_vertices_3d_nodata (h : Z) (out_count : OutInt) (w : World K)
    (r np ne nprism nt nquad na : Z) :
  wf_3d w → (validate_handle h w).1 ≠ 0 →
  MMG3D_Get_meshSize (mesh (entry_at (g_handles w) h)) (kernel w)
  = (r, (np, ne, nprism, nt, nquad, na)) →
  r ≠ 1 ∨ np = 0 →
  mmg3d_get_vertices h out_count w = ((NULL, store_out out_count 0), w).
Proof.
  intros Hwf Hv Hsz Hg. apply wp_eq.
  unfold mmg3d_get_vertices, mesh_of. enter_3d Hwf Hv.
  rewrite Hsz. destruct (Z.eqb_spec r 1); cbn [negb]; repeat wp_step;
    [| done].
  destruct Hg as [| ->]; [done | by repeat wp_step].
Qed.

Lemma get_triangles_3d_nodata (h : Z) (out_count : OutInt) (w : World K)
    (r np ne nprism nt nquad na : Z) :
  wf_3d w → (validate_handle h w).1 ≠ 0 →
  MMG3D_Get_meshSize (mesh (entry_at (g_handles w) h)) (kernel w)
  = (r, (np, ne, nprism, nt, nquad, na)) →
  r ≠ 1 ∨ nt = 0 →
  mmg3d_get_triangles h out_count w = ((NULL, store_out out_count 0), w).
Proof.
  intros Hwf Hv Hsz Hg. apply wp_eq.
  unfold mmg3d_get_triangles, mesh_of. enter_3d Hwf Hv.
  rewrite Hsz. destruct (Z.eqb_spec r 1); cbn [negb]; repeat wp_step;
    [| done].
  destruct Hg as [| ->]; [done | by repeat wp_step].
Qed.

Lemma get_tetrahedra_3d_nodata (h : Z) (out_count : OutInt) (w : World K)
    (r np ne nprism nt nquad na : Z) :
  wf_3d w → (validate_handle h w).1 ≠ 0 →
  MMG3D_Get_meshSize (mesh (entry_at (g_handles w) h)) (kernel w)
  = (r, (np, ne, nprism, nt, nquad, na)) →
  r ≠ 1 ∨ ne = 0 →
  mmg3d_get_tetrahedra h out_count w = ((NULL, store_out out_count 0), w).
Proof.
  intros Hwf Hv Hsz Hg. apply wp_eq.
  unfold mmg3d_get_tetrahedra, mesh_of. enter_3d Hwf Hv.
  rewrite Hsz. destruct (Z.eqb_spec r 1); cbn [negb]; repeat wp_step;
    [| done].
  destruct Hg as [| ->]; [done | by repeat wp_step].
Qed.

Lemma get_qualities_3d_nodata (h : Z) (out_count : OutInt) (w : World K)
    (r np ne nprism nt nquad na : Z) :
  wf_3d w → (validate_handle h w).1 ≠ 0 →
  MMG3D_Get_meshSize (mesh (entry_at (g_handles w) h)) (kernel w)
  = (r, (np, ne, nprism, nt, nquad, na)) →
  r ≠ 1 ∨ ne = 0 →
  mmg3d_get_tetrahedra_qualities h out_count w
  = ((NULL, store_out out_count 0), w).
Proof.
  intros Hwf Hv Hsz Hg. apply wp_eq.
  unfold mmg3d_get_tetrahedra_qualities, mesh_of, sol_of. enter_3d Hwf Hv.
  rewrite Hsz. destruct (Z.eqb_spec r 1); cbn [negb]; repeat wp_step;
    [| done].
  destruct Hg as [| ->]; [done | by repeat wp_step].
Qed.

Lemma get_scalar_sols_3d_nodata (h : Z) (out_count : OutInt) (w : World K)
    (r typEntity np typSol : Z) :
  wf_3d w → (validate_handle h w).1 ≠ 0 →
  MMG3D_Get_solSize (mesh (entry_at (g_handles w) h))
    (sol (entry_at (g_handles w) h)) (kernel w)
  = (r, (typEntity, np, typSol)) →
  r ≠ 1 ∨ np = 0 ∨ typSol ≠ 1 →
  mmg3d_get_scalar_sols h out_count w = ((NULL, store_out out_count 0), w).
Proof.
  intros Hwf Hv Hsz [Hr | Hg]; [| by eapply get_scalar_sols_3d_guard].
  apply wp_eq.
  unfold mmg3d_get_scalar_sols, mesh_of, sol_of. enter_3d Hwf Hv.
  rewrite Hsz. rewrite (proj2 (Z.eqb_neq _ _) Hr). by repeat wp_step.
Qed.

Lemma get_tensor_sols_3d_nodata (h : Z) (out_count : OutInt) (w : World K)
    (r typEntity np typSol : Z) :
  wf_3d w → (validate_handle h w).1 ≠ 0 →
  MMG3D_Get_solSize (mesh (entry_at (g_handles w) h))
    (sol (entry_at (g_handles w) h)) (kernel w)
  = (r, (typEntity, np, typSol)) →
  r ≠ 1 ∨ np = 0 ∨ typSol ≠ 3 →
  mmg3d_get_tensor_sols h out_count w = ((NULL, store_out out_count 0), w).
Proof.
  intros Hwf Hv Hsz [Hr | Hg]; [| by eapply get_tensor_sols_3d_guard].
  apply wp_eq.
  unfold mmg3d_get_tensor_sols, mesh_of, sol_of. enter_3d Hwf Hv.
  rewrite Hsz. rewrite (proj2 (Z.eqb_neq _ _) Hr). by repeat wp_step.
Qed.

(** The getters of the solution, on a solution of their type that is not
    empty: one allocation, given back when the kernel fails. *)
Lemma get_scalar_sols_3d_outcome (h : Z) (out_count : OutInt) (w : World K)
    (typEntity np : Z) :
  wf_3d w → (validate_handle h w).1 ≠ 0 →
  MMG3D_Get_solSize (mesh (entry_at (g_handles w) h))
    (sol (entry_at (g_handles w) h)) (kernel w)
  = (1, (typEntity, np, 1)) →
  np ≠ 0 →
  let r := mmg3d_get_scalar_sols h out_count w in
  bulk_get_outcome (heap w) [size_t (np * sizeof_double)]
    (MMG3D_Get_scalarSols (sol (entry_at (g_handles w) h)) (kernel w)).1
    np out_count r.1.1 r.1.2 (heap r.2).
Proof.
  intros Hwf Hv Hsz Hn. cbv zeta.
  destruct (MMG3D_Get_scalarSols _ _) as [kres d] eqn:Eget.
  cbn [fst]. bulk_wp (mmg3d_get_scalar_sols h out_count) w.
  pose proof (grown_refl (heap w)) as G.
  unfold mmg3d_get_scalar_sols, mesh_of, sol_of. enter_3d Hwf Hv.
  rewrite Hsz. cbn [negb Z.eqb Pos.eqb orb].
  rewrite (proj2 (Z.eqb_neq _ _) Hn). cbn [negb orb].
  wp_alloc G; [repeat wp_step; bulk_leaf G |].
  repeat wp_step. rewrite Eget. repeat wp_step.
  destruct (Z.eqb_spec kres 1); cbn [negb]; repeat wp_step; bulk_leaf G.
Qed.

Lemma get_tensor_sols_3d_outcome (h : Z) (out_count : OutInt) (w : World K)
    (typEntity np : Z) :
  wf_3d w → (validate_handle h w).1 ≠ 0 →
  MMG3D_Get_solSize (mesh (entry_at (g_handles w) h))
    (sol (entry_at (g_handles w) h)) (kernel w)
  = (1, (typEntity, np, 3)) →
  np ≠ 0 →
  let r := mmg3d_get_tensor_sols h out_count w in
  bulk_get_outcome (heap w) [size_t (np * 6 * sizeof_double)]
    (MMG3D_Get_tensorSols (sol (entry_at (g_handles w) h)) (kernel w)).1
    np out_count r.1.1 r.1.2 (heap r.2).
Proof.
  intros Hwf Hv Hsz Hn. cbv zeta.
  destruct (MMG3D_Get_tensorSols _ _) as [kres d] eqn:Eget.
  cbn [fst]. bulk_wp (mmg3d_get_tensor_sols h out_count) w.
  pose proof (grown_refl (heap w)) as G.
  unfold mmg3d_get_tensor_sols, mesh_of, sol_of. enter_3d Hwf Hv.
  rewrite Hsz. cbn [negb Z.eqb Pos.eqb orb].
  rewrite (proj2 (Z.eqb_neq _ _) Hn). cbn [negb orb].
  wp_alloc G; [repeat wp_step; bulk_leaf G |].
  repeat wp_step. rewrite Eget. repeat wp_step.
  destruct (Z.eqb_spec kres 1); cbn [negb]; repeat wp_step; bulk_leaf G.
Qed.
End More_getters_3d.

(** ** [mmg3d.c]: what a bulk getter that succeeds delivers *)

Section Delivers_3d.
Context {K : Type} `{!libmmg3d K}.
Import Mmg3d.

Local Abbreviation wf_3d w :=
  (wf_table (g_handles w) (g_initialized w)).

Lemma get_vertices_3d_delivers (h : Z) (out_count : OutInt) (w : World K)
    (np ne nprism nt nquad na : Z) (ps : list ptr) (h' : Heap)
    (dv : list double) (dr dc dq : list Z) :
  wf_3d w → (validate_handle h w).1 ≠ 0 →
  MMG3D_Get_meshSize (mesh (entry_at (g_handles w) h)) (kernel w)
  = (1, (np, ne, nprism, nt, nquad, na)) →
  np ≠ 0 →
  malloc_seq
    [size_t (3 * np * sizeof_double); size_t (np * sizeof_MMG5_int);
     size_t (np * sizeof_int); size_t (np * sizeof_int)] (heap w)
  = Some (ps, h') →
  MMG3D_Get_vertices (mesh (entry_at (g_handles w) h)) (kernel w)
  = (1, (dv, dr, dc, dq)) →
  let r := mmg3d_get_vertices h out_count w in
  ∃ p, ps !! 0%nat = Some p ∧
    r.1 = (p, store_out out_count np) ∧
    bytes <$> live (heap r.2) !! p = Some (size_t (3 * np * sizeof_double)) ∧
    ∀ i x, dv !! i = Some x →
      load p (Z.of_nat i) (heap r.2) = Some (CDouble x).
Proof.
  intros Hwf Hv Hsz Hn Hseq Eget. cbv zeta.
  destruct (malloc_seq_Some _ _ _ _ Hseq) as (_ & Hnd & _ & Hblk & _).
  split_malloc_seq Hseq.
  exists p. split; [done |].
  specialize (Hblk 0%nat p _ eq_refl eq_refl). unfold ptr in Hblk.
  assert (p ≠ p0 ∧ p ≠ p1 ∧ p ≠ p2) as (N0 & N1 & N2)
    by (split_and!; apply (NoDup_head_ne _ _ _ Hnd); set_solver).
  change (wp (mmg3d_get_vertices h out_count)
            (λ r w', r = (p, store_out out_count np) ∧
               bytes <$> live (heap w') !! p
               = Some (size_t (3 * np * sizeof_double)) ∧
               ∀ i x, dv !! i = Some x →
                 load p (Z.of_nat i) (heap w') = Some (CDouble x)) w).
  unfold mmg3d_get_vertices, mesh_of. enter_3d Hwf Hv.
  rewrite Hsz. cbn [negb Z.eqb Pos.eqb].
  rewrite (proj2 (Z.eqb_neq _ _) Hn). cbv zeta.
  wp_alloc_known E Hp. wp_alloc_asked E0. wp_alloc_asked E1.
  wp_alloc_asked E2.
  rewrite (proj2 (Z.eqb_neq _ NULL) Hp0), (proj2 (Z.eqb_neq _ NULL) Hp1),
    (proj2 (Z.eqb_neq _ NULL) Hp2). cbn [orb].
  repeat wp_step. rewrite Eget. repeat wp_step. cbn [negb Z.eqb Pos.eqb].
  repeat wp_step. delivers_leaf Hblk.
Qed.

Lemma get_tetrahedra_3d_delivers (h : Z) (out_count : OutInt) (w : World K)
    (np ne nprism nt nquad na : Z) (ps : list ptr) (h' : Heap) (dt dr dq : list Z) :
  wf_3d w → (validate_handle h w).1 ≠ 0 →
  MMG3D_Get_meshSize (mesh (entry_at (g_handles w) h)) (kernel w)
  = (1, (np, ne, nprism, nt, nquad, na)) →
  ne ≠ 0 →
  malloc_seq
    [size_t (4 * ne * sizeof_MMG5_int); size_t (ne * sizeof_MMG5_int);
     size_t (ne * sizeof_int)] (heap w)
  = Some (ps, h') →
  MMG3D_Get_tetrahedra (mesh (entry_at (g_handles w) h)) (kernel w)
  = (1, (dt, dr, dq)) →
  let r := mmg3d_get_tetrahedra h out_count w in
  ∃ p, ps !! 0%nat = Some p ∧
    r.1 = (p, store_out out_count ne) ∧
    bytes <$> live (heap r.2) !! p
    = Some (size_t (4 * ne * sizeof_MMG5_int)) ∧
    ∀ i x, dt !! i = Some x →
      load p (Z.of_nat i) (heap r.2) = Some (CInt x).
Proof.
  intros Hwf Hv Hsz Hn Hseq Eget. cbv zeta.
  destruct (malloc_seq_Some _ _ _ _ Hseq) as (_ & Hnd & _ & Hblk & _).
  split_malloc_seq Hseq.
  exists p. split; [done |].
  specialize (Hblk 0%nat p _ eq_refl eq_refl). unfold ptr in Hblk.
  assert (p ≠ p0 ∧ p ≠ p1) as (N0 & N1)
    by (split_and!; apply (NoDup_head_ne _ _ _ Hnd); set_solver).
  change (wp (mmg3d_get_tetrahedra h out_count)
            (λ r w', r = (p, store_out out_count ne) ∧
               bytes <$> live (heap w') !! p
               = Some (size_t (4 * ne * sizeof_MMG5_int)) ∧
               ∀ i x, dt !! i = Some x →
                 load p (Z.of_nat i) (heap w') = Some (CInt x)) w).
  unfold mmg3d_get_tetrahedra, mesh_of. enter_3d Hwf Hv.
  rewrite Hsz. cbn [negb Z.eqb Pos.eqb].
  rewrite (proj2 (Z.eqb_neq _ _) Hn). cbv zeta.
  wp_alloc_known E Hp. wp_alloc_asked E0. wp_alloc_asked E1.
  rewrite (proj2 (Z.eqb_neq _ NULL) Hp0), (proj2 (Z.eqb_neq _ NULL) Hp1).
  cbn [orb].
  repeat wp_step. rewrite Eget. repeat wp_step. cbn [negb Z.eqb Pos.eqb].
  repeat wp_step. delivers_leaf Hblk.
Qed.

Lemma get_triangles_3d_delivers (h : Z) (out_count : OutInt) (w : World K)
    (np ne nprism nt nquad na : Z) (ps : list ptr) (h' : Heap) (dt dr dq : list Z) :
  wf_3d w → (validate_handle h w).1 ≠ 0 →
  MMG3D_Get_meshSize (mesh (entry_at (g_handles w) h)) (kernel w)
  = (1, (np, ne, nprism, nt, nquad, na)) →
  nt ≠ 0 →
  malloc_seq
    [size_t (3 * nt * sizeof_MMG5_int); size_t (nt * sizeof_MMG5_int);
     size_t (nt * sizeof_int)] (heap w)
  = Some (ps, h') →
  MMG3D_Get_triangles (mesh (entry_at (g_handles w) h)) (kernel w)
  = (1, (dt, dr, dq)) →
  let r := mmg3d_get_triangles h out_count w in
  ∃ p, ps !! 0%nat = Some p ∧
    r.1 = (p, store_out out_count nt) ∧
    bytes <$> live (heap r.2) !! p
    = Some (size_t (3 * nt * sizeof_MMG5_int)) ∧
    ∀ i x, dt !! i = Some x →
      load p (Z.of_nat i) (heap r.2) = Some (CInt x).
Proof.
  intros Hwf Hv Hsz Hn Hseq Eget. cbv zeta.
  destruct (malloc_seq_Some _ _ _ _ Hseq) as (_ & Hnd & _ & Hblk & _).
  split_malloc_seq Hseq.
  exists p. split; [done |].
  specialize (Hblk 0%nat p _ eq_refl eq_refl). unfold ptr in Hblk.
  assert (p ≠ p0 ∧ p ≠ p1) as (N0 & N1)
    by (split_and!; apply (NoDup_head_ne _ _ _ Hnd); set_solver).
  change (wp (mmg3d_get_triangles h out_count)
            (λ r w', r = (p, store_out out_count nt) ∧
               bytes <$> live (heap w') !! p
               = Some (size_t (3 * nt * sizeof_MMG5_int)) ∧
               ∀ i x, dt !! i = Some x →
                 load p (Z.of_nat i) (heap w') = Some (CInt x)) w).
  unfold mmg3d_get_triangles, mesh_of. enter_3d Hwf Hv.
  rewrite Hsz. cbn [negb Z.eqb Pos.eqb].
  rewrite (proj2 (Z.eqb_neq _ _) Hn). cbv zeta.
  wp_alloc_known E Hp. wp_alloc_asked E0. wp_alloc_asked E1.
  rewrite (proj2 (Z.eqb_neq _ NULL) Hp0), (proj2 (Z.eqb_neq _ NULL) Hp1).
  cbn [orb].
  repeat wp_step. rewrite Eget. repeat wp_step. cbn [negb Z.eqb Pos.eqb].
  repeat wp_step. delivers_leaf Hblk.
Qed.

Lemma get_scalar_sols_3d_delivers (h : Z) (out_count : OutInt)
    (w : World K) (typEntity np : Z) (ps : list ptr) (h' : Heap)
    (dv : list double) :
  wf_3d w → (validate_handle h w).1 ≠ 0 →
  MMG3D_Get_solSize (mesh (entry_at (g_handles w) h))
    (sol (entry_at (g_handles w) h)) (kernel w)
  = (1, (typEntity, np, 1)) →
  np ≠ 0 →
  malloc_seq [size_t (np * sizeof_double)] (heap w) = Some (ps, h') →
  MMG3D_Get_scalarSols (sol (entry_at (g_handles w) h)) (kernel w)
  = (1, dv) →
  let r := mmg3d_get_scalar_sols h out_count w in
  ∃ p, ps !! 0%nat = Some p ∧
    r.1 = (p, store_out out_count np) ∧
    bytes <$> live (heap r.2) !! p = Some (size_t (np * sizeof_double)) ∧
    ∀ i x, dv !! i = Some x →
      load p (Z.of_nat i) (heap r.2) = Some (CDouble x).
Proof.
  intros Hwf Hv Hsz Hn Hseq Eget. cbv zeta.
  destruct (malloc_seq_Some _ _ _ _ Hseq) as (_ & Hnd & _ & Hblk & _).
  split_malloc_seq Hseq.
  exists p. split; [done |].
  specialize (Hblk 0%nat p _ eq_refl eq_refl). unfold ptr in Hblk.
  change (wp (mmg3d_get_scalar_sols h out_count)
            (λ r w', r = (p, store_out out_count np) ∧
               bytes <$> live (heap w') !! p
               = Some (size_t (np * sizeof_double)) ∧
               ∀ i x, dv !! i = Some x →
                 load p (Z.of_nat i) (heap w') = Some (CDouble x)) w).
  unfold mmg3d_get_scalar_sols, mesh_of, sol_of. enter_3d Hwf Hv.
  rewrite Hsz. cbn [negb Z.eqb Pos.eqb orb].
  rewrite (proj2 (Z.eqb_neq _ _) Hn). cbn [negb orb].
  wp_alloc_known E Hp.
  repeat wp_step. rewrite Eget. repeat wp_step. cbn [negb Z.eqb Pos.eqb].
  repeat wp_step. delivers_leaf Hblk.
Qed.

Lemma get_tensor_sols_3d_delivers (h : Z) (out_count : OutInt)
    (w : World K) (typEntity np : Z) (ps : list ptr) (h' : Heap)
    (dv : list double) :
  wf_3d w → (validate_handle h w).1 ≠ 0 →
  MMG3D_Get_solSize (mesh (entry_at (g_handles w) h))
    (sol (entry_at (g_handles w) h)) (kernel w)
  = (1, (typEntity, np, 3)) →
  np ≠ 0 →
  malloc_seq [size_t (np * 6 * sizeof_double)] (heap w) = Some (ps, h') →
  MMG3D_Get_tensorSols (sol (entry_at (g_handles w) h)) (kernel w)
  = (1, dv) →
  let r := mmg3d_get_tensor_sols h out_count w in
  ∃ p, ps !! 0%nat = Some p ∧
    r.1 = (p, store_out out_count np) ∧
    bytes <$> live (heap r.2) !! p
    = Some (size_t (np * 6 * sizeof_double)) ∧
    ∀ i x, dv !! i = Some x →
      load p (Z.of_nat i) (heap r.2) = Some (CDouble x).
Proof.
  intros Hwf Hv Hsz Hn Hseq Eget. cbv zeta.
  destruct (malloc_seq_Some _ _ _ _ Hseq) as (_ & Hnd & _ & Hblk & _).
  split_malloc_seq Hseq.
  exists p. split; [done |].
  specialize (Hblk 0%nat p _ eq_refl eq_refl). unfold ptr in Hblk.
  change (wp (mmg3d_get_tensor_sols h out_count)
            (λ r w', r = (p, store_out out_count np) ∧
               bytes <$> live (heap w') !! p
               = Some (size_t (np * 6 * sizeof_double)) ∧
               ∀ i x, dv !! i = Some x →
                 load p (Z.of_nat i) (heap w') = Some (CDouble x)) w).
  unfold mmg3d_get_tensor_sols, mesh_of, sol_of. enter_3d Hwf Hv.
  rewrite Hsz. cbn [negb Z.eqb Pos.eqb orb].
  rewrite (proj2 (Z.eqb_neq _ _) Hn). cbn [negb orb].
  wp_alloc_known E Hp.
  repeat wp_step. rewrite Eget. repeat wp_step. cbn [negb Z.eqb Pos.eqb].
  repeat wp_step. delivers_leaf Hblk.
Qed.
End Delivers_3d.

(** ** [mmg3d.c]: the paths of the getters of the solution *)

Section Sol_paths_3d.
Context {K : Type} `{!libmmg3d K}.
Import Mmg3d.

Local Abbreviation wf_3d w :=
  (wf_table (g_handles w) (g_initialized w)).

(** The run of the getter of the scalar solution, on a solution of its
    type that is not empty, by the outcome [(p, h1)] of its allocation
    and the answer [(kres, dv)] of the kernel's getter. *)
Lemma get_scalar_sols_3d_run (h : Z) (out_count : OutInt) (w : World K)
    (typEntity np : Z) (p : ptr) (h1 : Heap) (kres : Z) (dv : list double) :
  wf_3d w → (validate_handle h w).1 ≠ 0 →
  MMG3D_Get_solSize (mesh (entry_at (g_handles w) h))
    (sol (entry_at (g_handles w) h)) (kernel w)
  = (1, (typEntity, np, 1)) →
  np ≠ 0 →
  malloc (size_t (np * sizeof_double)) (heap w) = (p, h1) →
  MMG3D_Get_scalarSols (sol (entry_at (g_handles w) h)) (kernel w)
  = (kres, dv) →
  mmg3d_get_scalar_sols h out_count w
  = if p =? NULL then ((NULL, store_out out_count 0), set_heap h1 w)
    else if kres =? 1
    then ((p, store_out out_count np),
          set_heap (fill p (CDouble <$> dv) h1) w)
    else ((NULL, store_out out_count 0),
          set_heap (free p (fill p (CDouble <$> dv) h1)) w).
Proof.
  intros Hwf Hv Hsz Hn Em Eget.
  destruct (Z.eqb_spec p NULL) as [Hp | Hp];
    [| destruct (Z.eqb_spec kres 1) as [Hk | Hk]];
    apply wp_eq;
    unfold mmg3d_get_scalar_sols, mesh_of, sol_of; enter_3d Hwf Hv;
    rewrite Hsz; cbn [negb Z.eqb Pos.eqb orb];
    rewrite (proj2 (Z.eqb_neq _ _) Hn); cbn [negb orb];
    wp_alloc_asked Em.
  - rewrite (proj2 (Z.eqb_eq _ _) Hp). by repeat wp_step.
  - rewrite (proj2 (Z.eqb_neq _ _) Hp). repeat wp_step.
    rewrite Eget. repeat wp_step.
    rewrite (proj2 (Z.eqb_eq _ _) Hk). cbn [negb]. by repeat wp_step.
  - rewrite (proj2 (Z.eqb_neq _ _) Hp). repeat wp_step.
    rewrite Eget. repeat wp_step.
    rewrite (proj2 (Z.eqb_neq _ _) Hk). cbn [negb]. by repeat wp_step.
Qed.

Lemma get_tensor_sols_3d_run (h : Z) (out_count : OutInt) (w : World K)
    (typEntity np : Z) (p : ptr) (h1 : Heap) (kres : Z) (dv : list double) :
  wf_3d w → (validate_handle h w).1 ≠ 0 →
  MMG3D_Get_solSize (mesh (entry_at (g_handles w) h))
    (sol (entry_at (g_handles w) h)) (kernel w)
  = (1, (typEntity, np, 3)) →
  np ≠ 0 →
  malloc (size_t (np * 6 * sizeof_double)) (heap w) = (p, h1) →
  MMG3D_Get_tensorSols (sol (entry_at (g_handles w) h)) (kernel w)
  = (kres, dv) →
  mmg3d_get_tensor_sols h out_count w
  = if p =? NULL then ((NULL, store_out out_count 0), set_heap h1 w)
    else if kres =? 1
    then ((p, store_out out_count np),
          set_heap (fill p (CDouble <$> dv) h1) w)
    else ((NULL, store_out out_count 0),
          set_heap (free p (fill p (CDouble <$> dv) h1)) w).
Proof.
  intros Hwf Hv Hsz Hn Em Eget.
  destruct (Z.eqb_spec p NULL) as [Hp | Hp];
    [| destruct (Z.eqb_spec kres 1) as [Hk | Hk]];
    apply wp_eq;
    unfold mmg3d_get_tensor_sols, mesh_of, sol_of; enter_3d Hwf Hv;
    rewrite Hsz; cbn [negb Z.eqb Pos.eqb orb];
    rewrite (proj2 (Z.eqb_neq _ _) Hn); cbn [negb orb];
    wp_alloc_asked Em.
  - rewrite (proj2 (Z.eqb_eq _ _) Hp). by repeat wp_step.
  - rewrite (proj2 (Z.eqb_neq _ _) Hp). repeat wp_step.
    rewrite Eget. repeat wp_step.
    rewrite (proj2 (Z.eqb_eq _ _) Hk). cbn [negb]. by repeat wp_step.
  - rewrite (proj2 (Z.eqb_neq _ _) Hp). repeat wp_step.
    rewrite Eget. repeat wp_step.
    rewrite (proj2 (Z.eqb_neq _ _) Hk). cbn [negb]. by repeat wp_step.
Qed.
End Sol_paths_3d.

(** ** [mmg3d.c]: no getter leaks *)

Section Leaves_3d.
Context {K : Type} `{!libmmg3d K}.
Import Mmg3d.

Local Abbreviation wf_3d w :=
  (wf_table (g_handles w) (g_initialized w)).

(** The bulk quality on a mesh with tetrahedra: its one block. *)
Lemma get_qualities_3d_block (h : Z) (out_count : OutInt) (w : World K)
    (np ne nprism nt nquad na : Z) :
  wf_3d w → (validate_handle h w).1 ≠ 0 →
  MMG3D_Get_meshSize (mesh (entry_at (g_handles w) h)) (kernel w)
  = (1, (np, ne, nprism, nt, nquad, na)) →
  ne ≠ 0 →
  let r := mmg3d_get_tetrahedra_qualities h out_count w in
  leaves_only (heap w) r.1.1 (heap r.2).
Proof.
  intros Hwf Hv Hsz Hn. cbv zeta.
  destruct (malloc (size_t (ne * sizeof_double)) (heap w)) as [p h1] eqn:Em.
  destruct (grown_malloc _ _ _ _ _ _ (grown_refl (heap w)) Em)
    as [[-> G] | (Hp & _ & G)].
  - assert (mmg3d_get_tetrahedra_qualities h out_count w
            = ((NULL, store_out out_count 0), set_heap h1 w)) as ->.
    { apply wp_eq. unfold mmg3d_get_tetrahedra_qualities, mesh_of, sol_of.
      enter_3d Hwf Hv. rewrite Hsz. cbn [negb Z.eqb Pos.eqb].
      rewrite (proj2 (Z.eqb_neq ne 0)) by done.
      apply wp_bind. unfold wp, c_malloc. rewrite Em. done. }
    apply leaves_only_null. by apply grown_none.
  - set (m := mesh (entry_at (g_handles w) h)) in *.
    set (s := sol (entry_at (g_handles w) h)).
    assert (is_Some (live (heap (set_heap h1 w)) !! p)) as Hlive.
    { destruct G as [_ Hin]. apply (Hin p). set_solver. }
    destruct (qualities_loop_3d_spec ne m s p (Z.to_nat ne) 1
                (set_heap h1 w) Hlive) as (_ & _ & Hg & _).
    assert (mmg3d_get_tetrahedra_qualities h out_count w
            = ((p, store_out out_count ne),
               (qualities_loop (Z.to_nat ne) 1 ne m s p (set_heap h1 w)).2))
      as ->.
    { apply wp_eq. unfold mmg3d_get_tetrahedra_qualities, mesh_of, sol_of.
      enter_3d Hwf Hv. fold m s. rewrite Hsz. cbn [negb Z.eqb Pos.eqb].
      rewrite (proj2 (Z.eqb_neq ne 0)) by done.
      apply wp_bind. unfold wp at 1, c_malloc. rewrite Em. cbn [fst snd].
      rewrite (proj2 (Z.eqb_neq p NULL) Hp).
      apply wp_bind. unfold wp.
      by destruct (qualities_loop _ _ _ _ _ _ _). }
    cbn [fst snd].
    assert (grown (heap w)
              (heap (qualities_loop (Z.to_nat ne) 1 ne m s p
                       (set_heap h1 w)).2) {[p]}) as G1.
    { eapply grown_set; [| apply Hg; [exact G | set_solver]]. set_solver. }
    split; [done | intros _]. by apply grown_one.
Qed.

(** Whatever a bulk getter is called with, it leaves behind at most the
    block it returns. *)
Lemma exec_3d_leaves (c : call) (w : World K) :
  wf_3d w → bulk_getter_3d c = true →
  ∃ p n, (exec c w).1 = RBuf p n ∧
         leaves_only (heap w) p (heap (exec c w).2).
Proof.
  intros Hwf Hc.
  assert (∃ h, handle_of c = Some h) as [h Hh]
    by (destruct c; try discriminate Hc; eauto).
  destruct (Z.eq_dec (validate_handle h w).1 0) as [Hv | Hv].
  { rewrite (exec_3d_invalid c h w Hh Hv). cbn [fst snd].
    pose proof (ensure_3d_outside w) as Ho. unfold outside_3d in Ho.
    injection Ho as _ _ _ _ Hheap _.
    destruct c; try discriminate Hc; simpl; eexists _, _;
      (split; [reflexivity |]); apply leaves_only_null; by rewrite Hheap. }
  destruct c; try discriminate Hc; simpl in Hh; injection Hh as ->;
    cbn [exec]; rewrite r_buf_run; cbn [fst snd]; eexists _, _;
    (split; [reflexivity |]).
  - destruct (MMG3D_Get_meshSize (mesh (entry_at (g_handles w) h))
                (kernel w)) as [r [[[[[np ne] nprism] nt] nquad] na]] eqn:Hsz.
    destruct (decide (r ≠ 1 ∨ np = 0)) as [Hg | Hg].
    + erewrite get_vertices_3d_nodata by done. by apply leaves_only_null.
    + eapply bulk_get_leaves, get_vertices_3d_outcome; [done | done | | ].
      * rewrite Hsz. f_equal. apply dec_stable. naive_solver.
      * naive_solver.
  - destruct (MMG3D_Get_meshSize (mesh (entry_at (g_handles w) h))
                (kernel w)) as [r [[[[[np ne] nprism] nt] nquad] na]] eqn:Hsz.
    destruct (decide (r ≠ 1 ∨ ne = 0)) as [Hg | Hg].
    + erewrite get_tetrahedra_3d_nodata by done. by apply leaves_only_null.
    + eapply bulk_get_leaves, get_tetrahedra_3d_outcome; [done | done | | ].
      * rewrite Hsz. f_equal. apply dec_stable. naive_solver.
      * naive_solver.
  - destruct (MMG3D_Get_meshSize (mesh (entry_at (g_handles w) h))
                (kernel w)) as [r [[[[[np ne] nprism] nt] nquad] na]] eqn:Hsz.
    destruct (decide (r ≠ 1 ∨ nt = 0)) as [Hg | Hg].
    + erewrite get_triangles_3d_nodata by done. by apply leaves_only_null.
    + eapply bulk_get_leaves, get_triangles_3d_outcome; [done | done | | ].
      * rewrite Hsz. f_equal. apply dec_stable. naive_solver.
      * naive_solver.
  - destruct (MMG3D_Get_solSize (mesh (entry_at (g_handles w) h))
                (sol (entry_at (g_handles w) h)) (kernel w))
      as [r [[te np] ts]] eqn:Hsz.
    destruct (decide (r ≠ 1 ∨ np = 0 ∨ ts ≠ 1)) as [Hg | Hg].
    + erewrite get_scalar_sols_3d_nodata by done. by apply leaves_only_null.
    + assert (r = 1 ∧ np ≠ 0 ∧ ts = 1) as (-> & Hn & ->)
        by (split_and!; [apply dec_stable | | apply dec_stable];
            naive_solver).
      by eapply bulk_get_leaves, get_scalar_sols_3d_outcome.
  - destruct (MMG3D_Get_solSize (mesh (entry_at (g_handles w) h))
                (sol (entry_at (g_handles w) h)) (kernel w))
      as [r [[te np] ts]] eqn:Hsz.
    destruct (decide (r ≠ 1 ∨ np = 0 ∨ ts ≠ 3)) as [Hg | Hg].
    + erewrite get_tensor_sols_3d_nodata by done. by apply leaves_only_null.
    + assert (r = 1 ∧ np ≠ 0 ∧ ts = 3) as (-> & Hn & ->)
        by (split_and!; [apply dec_stable | | apply dec_stable];
            naive_solver).
      by eapply bulk_get_leaves, get_tensor_sols_3d_outcome.
  - destruct (MMG3D_Get_meshSize (mesh (entry_at (g_handles w) h))
                (kernel w)) as [r [[[[[np ne] nprism] nt] nquad] na]] eqn:Hsz.
    destruct (decide (r ≠ 1 ∨ ne = 0)) as [Hg | Hg].
    + erewrite get_qualities_3d_nodata by done. by apply leaves_only_null.
    + assert (r = 1 ∧ ne ≠ 0) as (-> & Hn)
        by (split; [apply dec_stable |]; naive_solver).
      by eapply get_qualities_3d_block.
Qed.

(** [free_array] releases the block it is given and nothing else;
    [free_array(NULL)] does nothing. *)
Lemma free_array_3d_eq (p : ptr) (w : World K) :
  mmg3d_free_array p w = (tt, set_heap (free p (heap w)) w).
Proof.
  unfold mmg3d_free_array. destruct (Z.eqb_spec p NULL) as [-> | Hp].
  - rewrite free_NULL. unfold_M. by destruct w.
  - done.
Qed.
End Leaves_3d.

(** ** [mmg3d.c]: handles in the order of creation *)

Section Order_3d.
Context {K : Type} `{!libmmg3d K}.
Import Mmg3d.

Local Abbreviation wf_3d w :=
  (wf_table (g_handles w) (g_initialized w)).

Lemma init_3d_next (i : Z) (w : World K) :
  wf_3d w → 0 ≤ i → prefix_full (g_handles w) i →
  (mmg3d_init w).1 ≠ -1 →
  (mmg3d_init w).1 = i ∧ prefix_full (g_handles (mmg3d_init w).2) (i + 1).
Proof.
  intros Hwf Hi Hpre Hne.
  destruct (init_3d_result w Hwf) as [Hr | Hr]; cbv zeta in Hr; [done |].
  destruct Hr as (Hr & _ & Hz & Hbelow & m & s & Ht).
  assert ((mmg3d_init w).1 = i) as Heq.
  { apply Hpre in Hz; [| done].
    destruct (Z.eq_dec (mmg3d_init w).1 i) as [| Hd]; [done |].
    exfalso. apply (Hbelow i); [lia |]. apply Hpre; lia. }
  split; [done |]. rewrite Ht, Heq. intros j Hj.
  destruct (Z.eq_dec j i) as [-> | Hd].
  - rewrite entry_at_set_entry_eq
      by (destruct Hwf; unfold MAX_HANDLES in *; lia).
    simpl. lia.
  - rewrite entry_at_set_entry_ne by lia. rewrite (Hpre j Hj). lia.
Qed.

Lemma run_inits_3d_order (n : nat) : ∀ (i : Z) (w : World K),
  wf_3d w → 0 ≤ i → prefix_full (g_handles w) i →
  (∀ r, r ∈ (run (replicate n Init) w).1 → r ≠ RInt (-1)) →
  (run (replicate n Init) w).1 = RInt <$> seqZ i (Z.of_nat n).
Proof.
  induction n as [|n IH]; intros i w Hwf Hi Hpre Hok; [done |].
  cbn [replicate] in *. rewrite run_3d_cons in *. cbn [fst snd] in *.
  rewrite exec_init_3d in *. cbn [fst snd] in *.
  destruct (init_3d_next i w Hwf Hi Hpre) as [Hr Hpre1].
  { intros Hr. apply (Hok (RInt (mmg3d_init w).1)); [left | by rewrite Hr]. }
  rewrite Nat2Z.inj_succ, seqZ_cons by lia. cbn [fmap list_fmap].
  rewrite Hr. f_equal.
  rewrite (IH (i + 1)); [| by apply init_3d_wf | lia | done |].
  - do 2 f_equal; lia.
  - intros r Hin. apply Hok. by right.
Qed.
End Order_3d.

(** ** [mmg3d.c]: a handle and the instance bound to it *)

Section Binding_3d.
Context {K : Type} `{!libmmg3d K}.
Import Mmg3d.

Local Abbreviation wf_3d w :=
  (wf_table (g_handles w) (g_initialized w)).

(** An [init] that hands out a handle binds what the kernel
    constructed. *)
Lemma init_3d_binds (w : World K) (m s : ptr) (k1 : K) :
  wf_3d w → MMG3D_Init_mesh (kernel w) = ((1, m, s), k1) → m ≠ NULL →
  (mmg3d_init w).1 ≠ -1 →
  0 ≤ (mmg3d_init w).1 < MAX_HANDLES ∧
  entry_at (g_handles (mmg3d_init w).2) (mmg3d_init w).1 = mkEntry m s 1 ∧
  slot_valid (g_handles (mmg3d_init w).2) (mmg3d_init w).1 = 1.
Proof.
  intros Hwf E Hm Hne.
  pose proof (init_3d_outcome w Hwf) as Ho. cbv zeta in Ho. rewrite E in Ho.
  destruct Ho as (_ & _ & _ & Ho).
  destruct (init_3d_result w Hwf) as [Hr | Hr]; cbv zeta in Hr; [done |].
  destruct Hr as (Hr & Hf & _).
  rewrite (proj2 (Z.eqb_neq m NULL) Hm) in Ho.
  change (negb (1 =? 1)) with false in Ho. rewrite !orb_false_r in Ho.
  destruct (_ <? 0); [lia |]. destruct Ho as (_ & Ht & _).
  rewrite <- Hf in Ht.
  assert (entry_at (g_handles (mmg3d_init w).2) (mmg3d_init w).1
          = mkEntry m s 1) as He.
  { rewrite Ht. apply entry_at_set_entry_eq.
    destruct Hwf; unfold MAX_HANDLES in *; lia. }
  split_and!; [lia | lia | done |].
  unfold slot_valid. rewrite He.
  destruct (Z.ltb_spec (mmg3d_init w).1 0); [lia |].
  destruct (Z.geb_spec (mmg3d_init w).1 MAX_HANDLES); [lia | done].
Qed.

(** The binding lasts as long as the handle: through every sequence of
    calls without its [free], the operations on the handle reach the
    instance that [init] bound. *)
Lemma binding_3d_lasts (w : World K) (m s : ptr) (k1 : K) (cs : list call) :
  wf_3d w → MMG3D_Init_mesh (kernel w) = ((1, m, s), k1) → m ≠ NULL →
  let h := (mmg3d_init w).1 in
  h ≠ -1 → Free h ∉ cs →
  let w' := (run cs (mmg3d_init w).2).2 in
  wf_3d w' ∧
  (validate_handle h w').1 = 1 ∧
  entry_at (g_handles w') h = mkEntry m s 1.
Proof.
  intros Hwf E Hm. cbv zeta. intros Hne Hcs.
  destruct (init_3d_binds w m s k1 Hwf E Hm Hne) as (_ & He & Hv).
  pose proof (init_3d_wf w Hwf) as Hwf1.
  pose proof (run_3d_wf cs _ Hwf1) as Hwf2.
  split_and!; [done | |].
  - rewrite validate_3d_wf by done. rewrite run_3d_valid; [done.. |].
    by rewrite Hv.
  - rewrite run_3d_entry; [done.. |]. by rewrite Hv.
Qed.
End Binding_3d.

(** ** [mmgs.c]: more on the slots *)

Section More_slots_s.
Context {K : Type} `{!libmmgs K}.
Import Mmgs.

Local Abbreviation wf_s w :=
  (wf_table (g_handles_s w) (g_initialized_s w)).

(** [free] returns 0 or 1 and changes the slot of its handle only. *)
Lemma free_s_slots (h : Z) (w : World K) :
  wf_s w →
  let t := g_handles_s w in
  let r := mmgs_free h w in
  (r.1 = 0 ∧ slot_valid t h = 0 ∧ g_handles_s r.2 = t) ∨
  (r.1 = 1 ∧ slot_valid t h ≠ 0 ∧
   g_handles_s r.2 = set_entry t h NULL NULL 0 ∧
   entry_at (g_handles_s r.2) h = zero_entry ∧
   ∀ j, 0 ≤ j → j ≠ h → entry_at (g_handles_s r.2) j = entry_at t j).
Proof.
  intros Hwf. cbv zeta. destruct (free_s_outcome h w Hwf) as [_ Ho].
  cbv zeta in Ho.
  destruct (Z.eqb_spec (slot_valid (g_handles_s w) h) 0) as [Hz | Hnz].
  - left. by destruct Ho as (-> & -> & _).
  - right. destruct Ho as (-> & -> & _).
    pose proof (slot_valid_range _ _ Hnz) as Hr.
    split_and!; [done | done | done | |].
    + apply entry_at_set_entry_eq. destruct Hwf as [Hl _].
      unfold MAX_HANDLES in *. lia.
    + intros j Hj Hne. apply entry_at_set_entry_ne; [lia | done | done].
Qed.

(** [init] never hands out a handle that is in use, and leaves the slot
    of such a handle as it is. *)
Lemma init_s_fresh (h : Z) (w : World K) :
  wf_s w → slot_valid (g_handles_s w) h ≠ 0 →
  (mmgs_init w).1 ≠ h ∧
  entry_at (g_handles_s (mmgs_init w).2) h = entry_at (g_handles_s w) h.
Proof.
  intros Hwf Hv. pose proof (slot_valid_range _ _ Hv) as Hr.
  destruct (init_s_result w Hwf) as [Hi | Hi]; cbv zeta in Hi.
  - rewrite init_s_failed by done. split; [lia | done].
  - destruct Hi as (Hi & _ & Hz & _ & m & s & ->).
    assert ((mmgs_init w).1 ≠ h) as Hne.
    { intros <-. apply Hv. by rewrite <- slot_valid_active. }
    split; [done |]. apply entry_at_set_entry_ne; [lia | lia | done].
Qed.

(** What [get_available_handles] reads goes down by one with an [init]
    that hands out a handle, up by one with a [free] that returns 1, and
    stays as it is with one that fails. *)
Lemma available_s_steps (w : World K) :
  wf_s w →
  (mmgs_get_available_handles (mmgs_init w).2).1
  = (mmgs_get_available_handles w).1
    - (if (mmgs_init w).1 =? -1 then 0 else 1) ∧
  ∀ h, (mmgs_get_available_handles (mmgs_free h w).2).1
       = (mmgs_get_available_handles w).1 + (mmgs_free h w).1.
Proof.
  intros Hwf. split.
  - rewrite !available_s_wf; [| done | by apply init_s_wf].
    by apply init_s_count.
  - intros h. rewrite !available_s_wf; [| done | by apply free_s_wf].
    destruct (free_s_slots h w Hwf) as [(-> & _ & ->) | (-> & Hv & -> & _)];
      [lia |].
    pose proof (slot_valid_range _ _ Hv) as Hr.
    rewrite free_count_set_entry;
      [| lia | destruct Hwf; unfold MAX_HANDLES in *; lia].
    rewrite slot_valid_active by done.
    rewrite (proj2 (Z.eqb_neq _ _) Hv). simpl. lia.
Qed.

(** After [free(h)] the slot [h] is the first candidate of the next
    [init] from above: the handle it hands out is at most [h], and is
    [h] when every slot below is in use. *)
Lemma free_s_reuse (h : Z) (w : World K) :
  wf_s w → (mmgs_free h w).1 = 1 →
  let w1 := (mmgs_free h w).2 in
  let r := (mmgs_init w1).1 in
  (r = -1 ∨ 0 ≤ r ≤ h) ∧
  (∀ m s k1, MMGS_Init_mesh (kernel w1) = ((1, m, s), k1) → m ≠ NULL →
     0 ≤ r ≤ h) ∧
  ((∀ j, 0 ≤ j < h → slot_valid (g_handles_s w) j ≠ 0) → r ≠ -1 → r = h).
Proof.
  intros Hwf Hf. cbv zeta.
  pose proof (free_s_wf h w Hwf) as Hwf1.
  destruct (free_s_slots h w Hwf) as [(Hz & _) | (_ & Hv & Ht & Hh & Hoth)];
    [lia |].
  pose proof (slot_valid_range _ _ Hv) as Hr.
  assert (active (entry_at (g_handles_s (mmgs_free h w).2) h) = 0) as Ha
    by by rewrite Hh.
  assert ((mmgs_init (mmgs_free h w).2).1 = -1
          ∨ 0 ≤ (mmgs_init (mmgs_free h w).2).1 ≤ h) as Hle.
  { destruct (init_s_result _ Hwf1) as [Hi | Hi]; cbv zeta in Hi;
      [by left | right].
    destruct Hi as (Hi & _ & _ & Hall & _). split; [lia |].
    destruct (Z.le_gt_cases (mmgs_init (mmgs_free h w).2).1 h); [done |].
    exfalso. apply (Hall h); [lia | done]. }
  split_and!; [done | |].
  - intros m s k1 E Hm. destruct Hle as [Hn | Hle]; [| done]. exfalso.
    pose proof (init_s_outcome _ Hwf1) as Ho. cbv zeta in Ho.
    rewrite E in Ho. destruct Ho as (_ & _ & _ & Ho).
    rewrite (proj2 (Z.eqb_neq m NULL) Hm) in Ho.
    change (negb (1 =? 1)) with false in Ho. rewrite !orb_false_r in Ho.
    destruct (find_free_loop_spec (g_handles_s (mmgs_free h w).2)
                (Z.to_nat MAX_HANDLES) 0) as [[Hx Hall] | (Hx & _)];
      cbv zeta in *.
    + apply (Hall h); [unfold MAX_HANDLES in *; lia | done].
    + destruct (Z.ltb_spec
                  (find_free_loop (g_handles_s (mmgs_free h w).2) 0
                     (Z.to_nat MAX_HANDLES)) 0); [lia |].
      destruct Ho as (Ho & _). lia.
  - intros Hbelow Hne. destruct Hle as [Hn | Hle]; [done |].
    destruct (init_s_result _ Hwf1) as [Hi | Hi]; cbv zeta in Hi;
      [done |].
    destruct Hi as (_ & _ & Hz & _).
    destruct (Z.eq_dec (mmgs_init (mmgs_free h w).2).1 h) as [|Hd];
      [done |].
    exfalso. apply (Hbelow (mmgs_init (mmgs_free h w).2).1); [lia |].
    rewrite Hoth in Hz by lia. unfold slot_valid.
    destruct (Z.ltb_spec (mmgs_init (mmgs_free h w).2).1 0); [lia |].
    destruct (Z.geb_spec (mmgs_init (mmgs_free h w).2).1 MAX_HANDLES);
      [lia | done].
Qed.

(** Every call keeps the table tidy. *)
Lemma exec_s_tidy (c : call) (w : World K) :
  wf_s w → tidy (g_handles_s w) → tidy (g_handles_s (exec c w).2).
Proof.
  intros Hwf Ht. destruct (lifecycle_s c) eqn:Hl.
  - destruct c; try discriminate.
    + rewrite exec_init_s. cbn [snd].
      pose proof (init_s_outcome w Hwf) as Ho. cbv zeta in Ho.
      destruct (MMGS_Init_mesh (kernel w)) as [[[res m] s] k1].
      destruct Ho as (_ & _ & _ & Ho).
      destruct (_ || _) eqn:Hc; [by destruct Ho as (_ & ->) |].
      destruct Ho as (_ & -> & _). apply tidy_set_entry; [done | right].
      apply orb_false_elim in Hc as [_ Hm]. split; [done |].
      by apply Z.eqb_neq.
    + rewrite exec_free_s. cbn [snd].
      destruct (free_s_slots handle w Hwf)
        as [(_ & _ & ->) | (_ & _ & -> & _)]; [done |].
      apply tidy_set_entry; [done | by left].
  - by rewrite exec_s_handles_other.
Qed.

Lemma run_s_tidy (cs : list call) : ∀ w : World K,
  wf_s w → tidy (g_handles_s w) → tidy (g_handles_s (run cs w).2).
Proof.
  induction cs as [|c cs IH]; intros w Hwf Ht; [done |].
  rewrite run_s_cons. cbn [snd].
  apply IH; [by apply exec_s_wf | by apply exec_s_tidy].
Qed.

(** In a tidy table, [free] of the handle that [init] has just handed
    out gives the slot back: the table is the one before the [init], and
    the kernel is asked to release exactly what it constructed. *)
Lemma init_free_s_undo (w : World K) :
  wf_s w → tidy (g_handles_s w) →
  let h := (mmgs_init w).1 in
  let r := mmgs_free h (mmgs_init w).2 in
  h ≠ -1 →
  r.1 = 1 ∧ g_handles_s r.2 = g_handles_s w ∧
  kernel r.2
  = (let '((_, m, s), k1) := MMGS_Init_mesh (kernel w) in
     MMGS_Free_all m s (MMGS_Init_parameters m k1)).
Proof.
  intros Hwf Ht. cbv zeta. intros Hne.
  pose proof (init_s_wf w Hwf) as Hwf1.
  pose proof (init_s_outcome w Hwf) as Ho. cbv zeta in Ho.
  destruct (init_s_result w Hwf) as [Hi | Hi]; cbv zeta in Hi; [done |].
  destruct Hi as (Hr & Hf & Hz & _).
  destruct (MMGS_Init_mesh (kernel w)) as [[[res m] s] k1].
  destruct Ho as (_ & _ & _ & Ho).
  destruct (_ || _); [lia |]. destruct Ho as (_ & Htab & Hk).
  rewrite <- Hf in Htab.
  assert (Z.to_nat (mmgs_init w).1 < length (g_handles_s w))%nat as Hlt
    by (destruct Hwf; unfold MAX_HANDLES in *; lia).
  assert (entry_at (g_handles_s (mmgs_init w).2) (mmgs_init w).1
          = mkEntry m s 1) as He
    by (rewrite Htab; by apply entry_at_set_entry_eq).
  assert (slot_valid (g_handles_s (mmgs_init w).2) (mmgs_init w).1 = 1)
    as Hv.
  { unfold slot_valid. rewrite He.
    destruct (Z.ltb_spec (mmgs_init w).1 0); [lia |].
    destruct (Z.geb_spec (mmgs_init w).1 MAX_HANDLES); [lia | done]. }
  pose proof (free_s_outcome (mmgs_init w).1 _ Hwf1) as Hfree.
  cbv zeta in Hfree. destruct Hfree as [_ Hfree]. rewrite Hv in Hfree.
  change (1 =? 0) with false in Hfree.
  destruct Hfree as (-> & -> & ->). rewrite He, Hk, Htab. cbn [mesh sol].
  split_and!; [done | | done].
  apply set_entry_undo; [lia | | done].
  destruct (tidy_entry_at (g_handles_s w) (mmgs_init w).1 Ht)
    as [Hzero | [Hone _]]; [done | lia].
Qed.

(** The slot of a handle in use is left as it is by every call but its
    own [free]. *)
Lemma exec_s_entry_step (c : call) (h : Z) (w : World K) :
  wf_s w → c ≠ Free h → slot_valid (g_handles_s w) h ≠ 0 →
  entry_at (g_handles_s (exec c w).2) h = entry_at (g_handles_s w) h.
Proof.
  intros Hwf Hc Hv. pose proof (slot_valid_range _ _ Hv) as Hr.
  destruct (lifecycle_s c) eqn:Hl.
  - destruct c; try discriminate.
    + rewrite exec_init_s. cbn [snd]. by apply init_s_fresh.
    + rewrite exec_free_s. cbn [snd].
      destruct (free_s_slots handle w Hwf)
        as [(_ & _ & ->) | (_ & _ & _ & _ & Hoth)]; [done |].
      apply Hoth; [lia |]. intros ->. by apply Hc.
  - by rewrite exec_s_handles_other.
Qed.

Lemma run_s_entry (h : Z) (cs : list call) : ∀ w : World K,
  wf_s w → Free h ∉ cs → slot_valid (g_handles_s w) h ≠ 0 →
  entry_at (g_handles_s (run cs w).2) h = entry_at (g_handles_s w) h.
Proof.
  induction cs as [|c cs IH]; intros w Hwf Hcs Hv; [done |].
  rewrite run_s_cons. cbn [snd].
  apply not_elem_of_cons in Hcs as [Hc Hcs].
  rewrite IH; [| by apply exec_s_wf | done |].
  - apply exec_s_entry_step; [done | by intros -> | done].
  - by rewrite exec_s_valid_step.
Qed.
End More_slots_s.

(** ** [mmgs.c]: the operations on a valid handle *)

Section Valid_s.
Context {K : Type} `{!libmmgs K}.
Import Mmgs.

Local Abbreviation wf_s w :=
  (wf_table (g_handles_s w) (g_initialized_s w)).

(** Only the bulk getters and [free_array] use the allocator. *)
Lemma exec_s_heap (c : call) :
  uses_heap_s c = false → preserves (@heap K) (exec c).
Proof. destruct c; try discriminate; intros _; unfold_s; frame. Qed.

(** The size queries write the caller's cells only when the kernel
    reports success. *)
Lemma get_mesh_size_s_valid (h : Z) (np nt na : OutInt)
    (w : World K) :
  wf_s w → (validate_handle_s h w).1 ≠ 0 →
  mmgs_get_mesh_size h np nt na w
  = (let '(r, (a, b, d)) :=
       MMGS_Get_meshSize (mesh (entry_at (g_handles_s w) h)) (kernel w)
     in
     if r =? 1
     then (r, (store_out np a, store_out nt b, store_out na d))
     else (r, (np, nt, na)), w).
Proof.
  intros Hwf Hv. apply wp_eq.
  unfold mmgs_get_mesh_size, mesh_of. enter_s Hwf Hv.
  destruct (MMGS_Get_meshSize _ _) as [r [[a b] d]].
  by case_match; repeat wp_step.
Qed.

Lemma get_sol_size_s_valid (h : Z) (typEntity np typSol : OutInt)
    (w : World K) :
  wf_s w → (validate_handle_s h w).1 ≠ 0 →
  mmgs_get_sol_size h typEntity np typSol w
  = (let '(r, (a, b, c)) :=
       MMGS_Get_solSize (mesh (entry_at (g_handles_s w) h))
         (sol (entry_at (g_handles_s w) h)) (kernel w)
     in
     if r =? 1
     then (r, (store_out typEntity a, store_out np b, store_out typSol c))
     else (r, (typEntity, np, typSol)), w).
Proof.
  intros Hwf Hv. apply wp_eq.
  unfold mmgs_get_sol_size, mesh_of, sol_of. enter_s Hwf Hv.
  destruct (MMGS_Get_solSize _ _ _) as [r [[a b] c]].
  by case_match; repeat wp_step.
Qed.

(** On a valid handle the remesher, a setter and [free] hand the
    instance bound to the handle to the kernel. *)
Lemma remesh_s_valid (h : Z) (w : World K) :
  wf_s w → (validate_handle_s h w).1 ≠ 0 →
  mmgs_remesh h w
  = kcall (MMGS_mmgslib (mesh (entry_at (g_handles_s w) h))
             (sol (entry_at (g_handles_s w) h))) w.
Proof.
  intros Hwf Hv. destruct (valid_s_ready h w Hwf Hv) as (_ & E & _).
  unfold mmgs_remesh, mesh_of, sol_of. unfold mbind, M_bind at 1.
  rewrite E in *. cbn [fst] in Hv.
  by rewrite (proj2 (Z.eqb_neq _ _) Hv).
Qed.

Lemma set_mesh_size_s_valid (h np nt na : Z) (w : World K) :
  wf_s w → (validate_handle_s h w).1 ≠ 0 →
  mmgs_set_mesh_size h np nt na w
  = kcall (MMGS_Set_meshSize (mesh (entry_at (g_handles_s w) h))
             np nt na) w.
Proof.
  intros Hwf Hv. destruct (valid_s_ready h w Hwf Hv) as (_ & E & _).
  unfold mmgs_set_mesh_size, mesh_of. unfold mbind, M_bind at 1.
  rewrite E in *. cbn [fst] in Hv.
  by rewrite (proj2 (Z.eqb_neq _ _) Hv).
Qed.
End Valid_s.

(** ** [mmgs.c]: the bulk getters, path by path *)

Section More_getters_s.
Context {K : Type} `{!libmmgs K}.
Import Mmgs.

Local Abbreviation wf_s w :=
  (wf_table (g_handles_s w) (g_initialized_s w)).

(** A mesh whose size the kernel does not report, or with no entity of
    the kind: no data, and nothing done. *)
Lemma get_vertices_s_nodata (h : Z) (out_count : OutInt) (w : World K)
    (r np nt na : Z) :
  wf_s w → (validate_handle_s h w).1 ≠ 0 →
  MMGS_Get_meshSize (mesh (entry_at (g_handles_s w) h)) (kernel w)
  = (r, (np, nt, na)) →
  r ≠ 1 ∨ np = 0 →
  mmgs_get_vertices h out_count w = ((NULL, store_out out_count 0), w).
Proof.
  intros Hwf Hv Hsz Hg. apply wp_eq.
  unfold mmgs_get_vertices, mesh_of. enter_s Hwf Hv.
  rewrite Hsz. destruct (Z.eqb_spec r 1); cbn [negb]; repeat wp_step;
    [| done].
  destruct Hg as [| ->]; [done | by repeat wp_step].
Qed.

Lemma get_triangles_s_nodata (h : Z) (out_count : OutInt) (w : World K)
    (r np nt na : Z) :
  wf_s w → (validate_handle_s h w).1 ≠ 0 →
  MMGS_Get_meshSize (mesh (entry_at (g_handles_s w) h)) (kernel w)
  = (r, (np, nt, na)) →
  r ≠ 1 ∨ nt = 0 →
  mmgs_get_triangles h out_count w = ((NULL, store_out out_count 0), w).
Proof.
  intros Hwf Hv Hsz Hg. apply wp_eq.
  unfold mmgs_get_triangles, mesh_of. enter_s Hwf Hv.
  rewrite Hsz. destruct (Z.eqb_spec r 1); cbn [negb]; repeat wp_step;
    [| done].
  destruct Hg as [| ->]; [done | by repeat wp_step].
Qed.

Lemma get_edges_s_nodata (h : Z) (out_count : OutInt) (w : World K)
    (r np nt na : Z) :
  wf_s w → (validate_handle_s h w).1 ≠ 0 →
  MMGS_Get_meshSize (mesh (entry_at (g_handles_s w) h)) (kernel w)
  = (r, (np, nt, na)) →
  r ≠ 1 ∨ na = 0 →
  mmgs_get_edges h out_count w = ((NULL, store_out out_count 0), w).
Proof.
  intros Hwf Hv Hsz Hg. apply wp_eq.
  unfold mmgs_get_edges, mesh_of. enter_s Hwf Hv.
  rewrite Hsz. destruct (Z.eqb_spec r 1); cbn [negb]; repeat wp_step;
    [| done].
  destruct Hg as [| ->]; [done | by repeat wp_step].
Qed.

Lemma get_qualities_s_nodata (h : Z) (out_count : OutInt) (w : World K)
    (r np nt na : Z) :
  wf_s w → (validate_handle_s h w).1 ≠ 0 →
  MMGS_Get_meshSize (mesh (entry_at (g_handles_s w) h)) (kernel w)
  = (r, (np, nt, na)) →
  r ≠ 1 ∨ nt = 0 →
  mmgs_get_triangles_qualities h out_count w
  = ((NULL, store_out out_count 0), w).
Proof.
  intros Hwf Hv Hsz Hg. apply wp_eq.
  unfold mmgs_get_triangles_qualities, mesh_of, sol_of. enter_s Hwf Hv.
  rewrite Hsz. destruct (Z.eqb_spec r 1); cbn [negb]; repeat wp_step;
    [| done].
  destruct Hg as [| ->]; [done | by repeat wp_step].
Qed.

Lemma get_scalar_sols_s_nodata (h : Z) (out_count : OutInt) (w : World K)
    (r typEntity np typSol : Z) :
  wf_s w → (validate_handle_s h w).1 ≠ 0 →
  MMGS_Get_solSize (mesh (entry_at (g_handles_s w) h))
    (sol (entry_at (g_handles_s w) h)) (kernel w)
  = (r, (typEntity, np, typSol)) →
  r ≠ 1 ∨ np = 0 ∨ typSol ≠ 1 →
  mmgs_get_scalar_sols h out_count w = ((NULL, store_out out_count 0), w).
Proof.
  intros Hwf Hv Hsz [Hr | Hg]; [| by eapply get_scalar_sols_s_guard].
  apply wp_eq.
  unfold mmgs_get_scalar_sols, mesh_of, sol_of. enter_s Hwf Hv.
  rewrite Hsz. rewrite (proj2 (Z.eqb_neq _ _) Hr). by repeat wp_step.
Qed.

Lemma get_tensor_sols_s_nodata (h : Z) (out_count : OutInt) (w : World K)
    (r typEntity np typSol : Z) :
  wf_s w → (validate_handle_s h w).1 ≠ 0 →
  MMGS_Get_solSize (mesh (entry_at (g_handles_s w) h))
    (sol (entry_at (g_handles_s w) h)) (kernel w)
  = (r, (typEntity, np, typSol)) →
  r ≠ 1 ∨ np = 0 ∨ typSol ≠ 3 →
  mmgs_get_tensor_sols h out_count w = ((NULL, store_out out_count 0), w).
Proof.
  intros Hwf Hv Hsz [Hr | Hg]; [| by eapply get_tensor_sols_s_guard].
  apply wp_eq.
  unfold mmgs_get_tensor_sols, mesh_of, sol_of. enter_s Hwf Hv.
  rewrite Hsz. rewrite (proj2 (Z.eqb_neq _ _) Hr). by repeat wp_step.
Qed.

(** The getters of the solution, on a solution of their type that is not
    empty: one allocation, given back when the kernel fails. *)
Lemma get_scalar_sols_s_outcome (h : Z) (out_count : OutInt) (w : World K)
    (typEntity np : Z) :
  wf_s w → (validate_handle_s h w).1 ≠ 0 →
  MMGS_Get_solSize (mesh (entry_at (g_handles_s w) h))
    (sol (entry_at (g_handles_s w) h)) (kernel w)
  = (1, (typEntity, np, 1)) →
  np ≠ 0 →
  let r := mmgs_get_scalar_sols h out_count w in
  bulk_get_outcome (heap w) [size_t (np * sizeof_double)]
    (MMGS_Get_scalarSols (sol (entry_at (g_handles_s w) h)) (kernel w)).1
    np out_count r.1.1 r.1.2 (heap r.2).
Proof.
  intros Hwf Hv Hsz Hn. cbv zeta.
  destruct (MMGS_Get_scalarSols _ _) as [kres d] eqn:Eget.
  cbn [fst]. bulk_wp (mmgs_get_scalar_sols h out_count) w.
  pose proof (grown_refl (heap w)) as G.
  unfold mmgs_get_scalar_sols, mesh_of, sol_of. enter_s Hwf Hv.
  rewrite Hsz. cbn [negb Z.eqb Pos.eqb orb].
  rewrite (proj2 (Z.eqb_neq _ _) Hn). cbn [negb orb].
  wp_alloc G; [repeat wp_step; bulk_leaf G |].
  repeat wp_step. rewrite Eget. repeat wp_step.
  destruct (Z.eqb_spec kres 1); cbn [negb]; repeat wp_step; bulk_leaf G.
Qed.

Lemma get_tensor_sols_s_outcome (h : Z) (out_count : OutInt) (w : World K)
    (typEntity np : Z) :
  wf_s w → (validate_handle_s h w).1 ≠ 0 →
  MMGS_Get_solSize (mesh (entry_at (g_handles_s w) h))
    (sol (entry_at (g_handles_s w) h)) (kernel w)
  = (1, (typEntity, np, 3)) →
  np ≠ 0 →
  let r := mmgs_get_tensor_sols h out_count w in
  bulk_get_outcome (heap w) [size_t (np * 6 * sizeof_double)]
    (MMGS_Get_tensorSols (sol (entry_at (g_handles_s w) h)) (kernel w)).1
    np out_count r.1.1 r.1.2 (heap r.2).
Proof.
  intros Hwf Hv Hsz Hn. cbv zeta.
  destruct (MMGS_Get_tensorSols _ _) as [kres d] eqn:Eget.
  cbn [fst]. bulk_wp (mmgs_get_tensor_sols h out_count) w.
  pose proof (grown_refl (heap w)) as G.
  unfold mmgs_get_tensor_sols, mesh_of, sol_of. enter_s Hwf Hv.
  rewrite Hsz. cbn [negb Z.eqb Pos.eqb orb].
  rewrite (proj2 (Z.eqb_neq _ _) Hn). cbn [negb orb].
  wp_alloc G; [repeat wp_step; bulk_leaf G |].
  repeat wp_step. rewrite Eget. repeat wp_step.
  destruct (Z.eqb_spec kres 1); cbn [negb]; repeat wp_step; bulk_leaf G.
Qed.
End More_getters_s.

(** ** [mmgs.c]: what a bulk getter that succeeds delivers *)

Section Delivers_s.
Context {K : Type} `{!libmmgs K}.
Import Mmgs.

Local Abbreviation wf_s w :=
  (wf_table (g_handles_s w) (g_initialized_s w)).

Lemma get_vertices_s_delivers (h : Z) (out_count : OutInt) (w : World K)
    (np nt na : Z) (ps : list ptr) (h' : Heap)
    (dv : list double) (dr dc dq : list Z) :
  wf_s w → (validate_handle_s h w).1 ≠ 0 →
  MMGS_Get_meshSize (mesh (entry_at (g_handles_s w) h)) (kernel w)
  = (1, (np, nt, na)) →
  np ≠ 0 →
  malloc_seq
    [size_t (3 * np * sizeof_double); size_t (np * sizeof_MMG5_int);
     size_t (np * sizeof_int); size_t (np * sizeof_int)] (heap w)
  = Some (ps, h') →
  MMGS_Get_vertices (mesh (entry_at (g_handles_s w) h)) (kernel w)
  = (1, (dv, dr, dc, dq)) →
  let r := mmgs_get_vertices h out_count w in
  ∃ p, ps !! 0%nat = Some p ∧
    r.1 = (p, store_out out_count np) ∧
    bytes <$> live (heap r.2) !! p = Some (size_t (3 * np * sizeof_double)) ∧
    ∀ i x, dv !! i = Some x →
      load p (Z.of_nat i) (heap r.2) = Some (CDouble x).
Proof.
  intros Hwf Hv Hsz Hn Hseq Eget. cbv zeta.
  destruct (malloc_seq_Some _ _ _ _ Hseq) as (_ & Hnd & _ & Hblk & _).
  split_malloc_seq Hseq.
  exists p. split; [done |].
  specialize (Hblk 0%nat p _ eq_refl eq_refl). unfold ptr in Hblk.
  assert (p ≠ p0 ∧ p ≠ p1 ∧ p ≠ p2) as (N0 & N1 & N2)
    by (split_and!; apply (NoDup_head_ne _ _ _ Hnd); set_solver).
  change (wp (mmgs_get_vertices h out_count)
            (λ r w', r = (p, store_out out_count np) ∧
               bytes <$> live (heap w') !! p
               = Some (size_t (3 * np * sizeof_double)) ∧
               ∀ i x, dv !! i = Some x →
                 load p (Z.of_nat i) (heap w') = Some (CDouble x)) w).
  unfold mmgs_get_vertices, mesh_of. enter_s Hwf Hv.
  rewrite Hsz. cbn [negb Z.eqb Pos.eqb].
  rewrite (proj2 (Z.eqb_neq _ _) Hn). cbv zeta.
  wp_alloc_known E Hp. wp_alloc_known E0 Hp0.
  wp_alloc_known E1 Hp1. wp_alloc_known E2 Hp2.
  repeat wp_step. rewrite Eget. repeat wp_step. cbn [negb Z.eqb Pos.eqb].
  repeat wp_step. delivers_leaf Hblk.
Qed.

Lemma get_triangles_s_delivers (h : Z) (out_count : OutInt) (w : World K)
    (np nt na : Z) (ps : list ptr) (h' : Heap) (dt dr dq : list Z) :
  wf_s w → (validate_handle_s h w).1 ≠ 0 →
  MMGS_Get_meshSize (mesh (entry_at (g_handles_s w) h)) (kernel w)
  = (1, (np, nt, na)) →
  nt ≠ 0 →
  malloc_seq
    [size_t (3 * nt * sizeof_MMG5_int); size_t (nt * sizeof_MMG5_int);
     size_t (nt * sizeof_int)] (heap w)
  = Some (ps, h') →
  MMGS_Get_triangles (mesh (entry_at (g_handles_s w) h)) (kernel w)
  = (1, (dt, dr, dq)) →
  let r := mmgs_get_triangles h out_count w in
  ∃ p, ps !! 0%nat = Some p ∧
    r.1 = (p, store_out out_count nt) ∧
    bytes <$> live (heap r.2) !! p
    = Some (size_t (3 * nt * sizeof_MMG5_int)) ∧
    ∀ i x, dt !! i = Some x →
      load p (Z.of_nat i) (heap r.2) = Some (CInt x).
Proof.
  intros Hwf Hv Hsz Hn Hseq Eget. cbv zeta.
  destruct (malloc_seq_Some _ _ _ _ Hseq) as (_ & Hnd & _ & Hblk & _).
  split_malloc_seq Hseq.
  exists p. split; [done |].
  specialize (Hblk 0%nat p _ eq_refl eq_refl). unfold ptr in Hblk.
  assert (p ≠ p0 ∧ p ≠ p1) as (N0 & N1)
    by (split_and!; apply (NoDup_head_ne _ _ _ Hnd); set_solver).
  change (wp (mmgs_get_triangles h out_count)
            (λ r w', r = (p, store_out out_count nt) ∧
               bytes <$> live (heap w') !! p
               = Some (size_t (3 * nt * sizeof_MMG5_int)) ∧
               ∀ i x, dt !! i = Some x →
                 load p (Z.of_nat i) (heap w') = Some (CInt x)) w).
  unfold mmgs_get_triangles, mesh_of. enter_s Hwf Hv.
  rewrite Hsz. cbn [negb Z.eqb Pos.eqb].
  rewrite (proj2 (Z.eqb_neq _ _) Hn). cbv zeta.
  wp_alloc_known E Hp. wp_alloc_known E0 Hp0. wp_alloc_known E1 Hp1.
  repeat wp_step. rewrite Eget. repeat wp_step. cbn [negb Z.eqb Pos.eqb].
  repeat wp_step. delivers_leaf Hblk.
Qed.

Lemma get_edges_s_delivers (h : Z) (out_count : OutInt) (w : World K)
    (np nt na : Z) (ps : list ptr) (h' : Heap)
    (de dr dg dq : list Z) :
  wf_s w → (validate_handle_s h w).1 ≠ 0 →
  MMGS_Get_meshSize (mesh (entry_at (g_handles_s w) h)) (kernel w)
  = (1, (np, nt, na)) →
  na ≠ 0 →
  malloc_seq
    [size_t (2 * na * sizeof_MMG5_int); size_t (na * sizeof_MMG5_int);
     size_t (na * sizeof_int); size_t (na * sizeof_int)] (heap w)
  = Some (ps, h') →
  MMGS_Get_edges (mesh (entry_at (g_handles_s w) h)) (kernel w)
  = (1, (de, dr, dg, dq)) →
  let r := mmgs_get_edges h out_count w in
  ∃ p, ps !! 0%nat = Some p ∧
    r.1 = (p, store_out out_count na) ∧
    bytes <$> live (heap r.2) !! p
    = Some (size_t (2 * na * sizeof_MMG5_int)) ∧
    ∀ i x, de !! i = Some x →
      load p (Z.of_nat i) (heap r.2) = Some (CInt x).
Proof.
  intros Hwf Hv Hsz Hn Hseq Eget. cbv zeta.
  destruct (malloc_seq_Some _ _ _ _ Hseq) as (_ & Hnd & _ & Hblk & _).
  split_malloc_seq Hseq.
  exists p. split; [done |].
  specialize (Hblk 0%nat p _ eq_refl eq_refl). unfold ptr in Hblk.
  assert (p ≠ p0 ∧ p ≠ p1 ∧ p ≠ p2) as (N0 & N1 & N2)
    by (split_and!; apply (NoDup_head_ne _ _ _ Hnd); set_solver).
  change (wp (mmgs_get_edges h out_count)
            (λ r w', r = (p, store_out out_count na) ∧
               bytes <$> live (heap w') !! p
               = Some (size_t (2 * na * sizeof_MMG5_int)) ∧
               ∀ i x, de !! i = Some x →
                 load p (Z.of_nat i) (heap w') = Some (CInt x)) w).
  unfold mmgs_get_edges, mesh_of. enter_s Hwf Hv.
  rewrite Hsz. cbn [negb Z.eqb Pos.eqb].
  rewrite (proj2 (Z.eqb_neq _ _) Hn). cbv zeta.
  wp_alloc_known E Hp. wp_alloc_known E0 Hp0.
  wp_alloc_known E1 Hp1. wp_alloc_known E2 Hp2.
  repeat wp_step. rewrite Eget. repeat wp_step. cbn [negb Z.eqb Pos.eqb].
  repeat wp_step. delivers_leaf Hblk.
Qed.

Lemma get_scalar_sols_s_delivers (h : Z) (out_count : OutInt)
    (w : World K) (typEntity np : Z) (ps : list ptr) (h' : Heap)
    (dv : list double) :
  wf_s w → (validate_handle_s h w).1 ≠ 0 →
  MMGS_Get_solSize (mesh (entry_at (g_handles_s w) h))
    (sol (entry_at (g_handles_s w) h)) (kernel w)
  = (1, (typEntity, np, 1)) →
  np ≠ 0 →
  malloc_seq [size_t (np * sizeof_double)] (heap w) = Some (ps, h') →
  MMGS_Get_scalarSols (sol (entry_at (g_handles_s w) h)) (kernel w)
  = (1, dv) →
  let r := mmgs_get_scalar_sols h out_count w in
  ∃ p, ps !! 0%nat = Some p ∧
    r.1 = (p, store_out out_count np) ∧
    bytes <$> live (heap r.2) !! p = Some (size_t (np * sizeof_double)) ∧
    ∀ i x, dv !! i = Some x →
      load p (Z.of_nat i) (heap r.2) = Some (CDouble x).
Proof.
  intros Hwf Hv Hsz Hn Hseq Eget. cbv zeta.
  destruct (malloc_seq_Some _ _ _ _ Hseq) as (_ & Hnd & _ & Hblk & _).
  split_malloc_seq Hseq.
  exists p. split; [done |].
  specialize (Hblk 0%nat p _ eq_refl eq_refl). unfold ptr in Hblk.
  change (wp (mmgs_get_scalar_sols h out_count)
            (λ r w', r = (p, store_out out_count np) ∧
               bytes <$> live (heap w') !! p
               = Some (size_t (np * sizeof_double)) ∧
               ∀ i x, dv !! i = Some x →
                 load p (Z.of_nat i) (heap w') = Some (CDouble x)) w).
  unfold mmgs_get_scalar_sols, mesh_of, sol_of. enter_s Hwf Hv.
  rewrite Hsz. cbn [negb Z.eqb Pos.eqb orb].
  rewrite (proj2 (Z.eqb_neq _ _) Hn). cbn [negb orb].
  wp_alloc_known E Hp.
  repeat wp_step. rewrite Eget. repeat wp_step. cbn [negb Z.eqb Pos.eqb].
  repeat wp_step. delivers_leaf Hblk.
Qed.

Lemma get_tensor_sols_s_delivers (h : Z) (out_count : OutInt)
    (w : World K) (typEntity np : Z) (ps : list ptr) (h' : Heap)
    (dv : list double) :
  wf_s w → (validate_handle_s h w).1 ≠ 0 →
  MMGS_Get_solSize (mesh (entry_at (g_handles_s w) h))
    (sol (entry_at (g_handles_s w) h)) (kernel w)
  = (1, (typEntity, np, 3)) →
  np ≠ 0 →
  malloc_seq [size_t (np * 6 * sizeof_double)] (heap w) = Some (ps, h') →
  MMGS_Get_tensorSols (sol (entry_at (g_handles_s w) h)) (kernel w)
  = (1, dv) →
  let r := mmgs_get_tensor_sols h out_count w in
  ∃ p, ps !! 0%nat = Some p ∧
    r.1 = (p, store_out out_count np) ∧
    bytes <$> live (heap r.2) !! p
    = Some (size_t (np * 6 * sizeof_double)) ∧
    ∀ i x, dv !! i = Some x →
      load p (Z.of_nat i) (heap r.2) = Some (CDouble x).
Proof.
  intros Hwf Hv Hsz Hn Hseq Eget. cbv zeta.
  destruct (malloc_seq_Some _ _ _ _ Hseq) as (_ & Hnd & _ & Hblk & _).
  split_malloc_seq Hseq.
  exists p. split; [done |].
  specialize (Hblk 0%nat p _ eq_refl eq_refl). unfold ptr in Hblk.
  change (wp (mmgs_get_tensor_sols h out_count)
            (λ r w', r = (p, store_out out_count np) ∧
               bytes <$> live (heap w') !! p
               = Some (size_t (np * 6 * sizeof_double)) ∧
               ∀ i x, dv !! i = Some x →
                 load p (Z.of_nat i) (heap w') = Some (CDouble x)) w).
  unfold mmgs_get_tensor_sols, mesh_of, sol_of. enter_s Hwf Hv.
  rewrite Hsz. cbn [negb Z.eqb Pos.eqb orb].
  rewrite (proj2 (Z.eqb_neq _ _) Hn). cbn [negb orb].
  wp_alloc_known E Hp.
  repeat wp_step. rewrite Eget. repeat wp_step. cbn [negb Z.eqb Pos.eqb].
  repeat wp_step. delivers_leaf Hblk.
Qed.
End Delivers_s.

(** ** [mmgs.c]: the paths of the getters of the solution *)

Section Sol_paths_s.
Context {K : Type} `{!libmmgs K}.
Import Mmgs.

Local Abbreviation wf_s w :=
  (wf_table (g_handles_s w) (g_initialized_s w)).

(** The run of the getter of the scalar solution, on a solution of its
    type that is not empty, by the outcome [(p, h1)] of its allocation
    and the answer [(kres, dv)] of the kernel's getter. *)
Lemma get_scalar_sols_s_run (h : Z) (out_count : OutInt) (w : World K)
    (typEntity np : Z) (p : ptr) (h1 : Heap) (kres : Z) (dv : list double) :
  wf_s w → (validate_handle_s h w).1 ≠ 0 →
  MMGS_Get_solSize (mesh (entry_at (g_handles_s w) h))
    (sol (entry_at (g_handles_s w) h)) (kernel w)
  = (1, (typEntity, np, 1)) →
  np ≠ 0 →
  malloc (size_t (np * sizeof_double)) (heap w) = (p, h1) →
  MMGS_Get_scalarSols (sol (entry_at (g_handles_s w) h)) (kernel w)
  = (kres, dv) →
  mmgs_get_scalar_sols h out_count w
  = if p =? NULL then ((NULL, store_out out_count 0), set_heap h1 w)
    else if kres =? 1
    then ((p, store_out out_count np),
          set_heap (fill p (CDouble <$> dv) h1) w)
    else ((NULL, store_out out_count 0),
          set_heap (free p (fill p (CDouble <$> dv) h1)) w).
Proof.
  intros Hwf Hv Hsz Hn Em Eget.
  destruct (Z.eqb_spec p NULL) as [Hp | Hp];
    [| destruct (Z.eqb_spec kres 1) as [Hk | Hk]];
    apply wp_eq;
    unfold mmgs_get_scalar_sols, mesh_of, sol_of; enter_s Hwf Hv;
    rewrite Hsz; cbn [negb Z.eqb Pos.eqb orb];
    rewrite (proj2 (Z.eqb_neq _ _) Hn); cbn [negb orb];
    wp_alloc_asked Em.
  - rewrite (proj2 (Z.eqb_eq _ _) Hp). by repeat wp_step.
  - rewrite (proj2 (Z.eqb_neq _ _) Hp). repeat wp_step.
    rewrite Eget. repeat wp_step.
    rewrite (proj2 (Z.eqb_eq _ _) Hk). cbn [negb]. by repeat wp_step.
  - rewrite (proj2 (Z.eqb_neq _ _) Hp). repeat wp_step.
    rewrite Eget. repeat wp_step.
    rewrite (proj2 (Z.eqb_neq _ _) Hk). cbn [negb]. by repeat wp_step.
Qed.

Lemma get_tensor_sols_s_run (h : Z) (out_count : OutInt) (w : World K)
    (typEntity np : Z) (p : ptr) (h1 : Heap) (kres : Z) (dv : list double) :
  wf_s w → (validate_handle_s h w).1 ≠ 0 →
  MMGS_Get_solSize (mesh (entry_at (g_handles_s w) h))
    (sol (entry_at (g_handles_s w) h)) (kernel w)
  = (1, (typEntity, np, 3)) →
  np ≠ 0 →
  malloc (size_t (np * 6 * sizeof_double)) (heap w) = (p, h1) →
  MMGS_Get_tensorSols (sol (entry_at (g_handles_s w) h)) (kernel w)
  = (kres, dv) →
  mmgs_get_tensor_sols h out_count w
  = if p =? NULL then ((NULL, store_out out_count 0), set_heap h1 w)
    else if kres =? 1
    then ((p, store_out out_count np),
          set_heap (fill p (CDouble <$> dv) h1) w)
    else ((NULL, store_out out_count 0),
          set_heap (free p (fill p (CDouble <$> dv) h1)) w).
Proof.
  intros Hwf Hv Hsz Hn Em Eget.
  destruct (Z.eqb_spec p NULL) as [Hp | Hp];
    [| destruct (Z.eqb_spec kres 1) as [Hk | Hk]];
    apply wp_eq;
    unfold mmgs_get_tensor_sols, mesh_of, sol_of; enter_s Hwf Hv;
    rewrite Hsz; cbn [negb Z.eqb Pos.eqb orb];
    rewrite (proj2 (Z.eqb_neq _ _) Hn); cbn [negb orb];
    wp_alloc_asked Em.
  - rewrite (proj2 (Z.eqb_eq _ _) Hp). by repeat wp_step.
  - rewrite (proj2 (Z.eqb_neq _ _) Hp). repeat wp_step.
    rewrite Eget. repeat wp_step.
    rewrite (proj2 (Z.eqb_eq _ _) Hk). cbn [negb]. by repeat wp_step.
  - rewrite (proj2 (Z.eqb_neq _ _) Hp). repeat wp_step.
    rewrite Eget. repeat wp_step.
    rewrite (proj2 (Z.eqb_neq _ _) Hk). cbn [negb]. by repeat wp_step.
Qed.
End Sol_paths_s.

(** ** [mmgs.c]: no getter leaks *)

Section Leaves_s.
Context {K : Type} `{!libmmgs K}.
Import Mmgs.

Local Abbreviation wf_s w :=
  (wf_table (g_handles_s w) (g_initialized_s w)).

(** The bulk quality on a mesh with triangles: its one block. *)
Lemma get_qualities_s_block (h : Z) (out_count : OutInt) (w : World K)
    (np nt na : Z) :
  wf_s w → (validate_handle_s h w).1 ≠ 0 →
  MMGS_Get_meshSize (mesh (entry_at (g_handles_s w) h)) (kernel w)
  = (1, (np, nt, na)) →
  nt ≠ 0 →
  let r := mmgs_get_triangles_qualities h out_count w in
  leaves_only (heap w) r.1.1 (heap r.2).
Proof.
  intros Hwf Hv Hsz Hn. cbv zeta.
  destruct (malloc (size_t (nt * sizeof_double)) (heap w)) as [p h1] eqn:Em.
  destruct (grown_malloc _ _ _ _ _ _ (grown_refl (heap w)) Em)
    as [[-> G] | (Hp & _ & G)].
  - assert (mmgs_get_triangles_qualities h out_count w
            = ((NULL, store_out out_count 0), set_heap h1 w)) as ->.
    { apply wp_eq. unfold mmgs_get_triangles_qualities, mesh_of, sol_of.
      enter_s Hwf Hv. rewrite Hsz. cbn [negb Z.eqb Pos.eqb].
      rewrite (proj2 (Z.eqb_neq nt 0)) by done.
      apply wp_bind. unfold wp, c_malloc. rewrite Em. done. }
    apply leaves_only_null. by apply grown_none.
  - set (m := mesh (entry_at (g_handles_s w) h)) in *.
    set (s := sol (entry_at (g_handles_s w) h)).
    assert (is_Some (live (heap (set_heap h1 w)) !! p)) as Hlive.
    { destruct G as [_ Hin]. apply (Hin p). set_solver. }
    destruct (qualities_loop_s_spec nt m s p (Z.to_nat nt) 1
                (set_heap h1 w) Hlive) as (_ & _ & Hg & _).
    assert (mmgs_get_triangles_qualities h out_count w
            = ((p, store_out out_count nt),
               (qualities_loop (Z.to_nat nt) 1 nt m s p (set_heap h1 w)).2))
      as ->.
    { apply wp_eq. unfold mmgs_get_triangles_qualities, mesh_of, sol_of.
      enter_s Hwf Hv. fold m s. rewrite Hsz. cbn [negb Z.eqb Pos.eqb].
      rewrite (proj2 (Z.eqb_neq nt 0)) by done.
      apply wp_bind. unfold wp at 1, c_malloc. rewrite Em. cbn [fst snd].
      rewrite (proj2 (Z.eqb_neq p NULL) Hp).
      apply wp_bind. unfold wp.
      by destruct (qualities_loop _ _ _ _ _ _ _). }
    cbn [fst snd].
    assert (grown (heap w)
              (heap (qualities_loop (Z.to_nat nt) 1 nt m s p
                       (set_heap h1 w)).2) {[p]}) as G1.
    { eapply grown_set; [| apply Hg; [exact G | set_solver]]. set_solver. }
    split; [done | intros _]. by apply grown_one.
Qed.

(** Whatever a bulk getter is called with, it leaves behind at most the
    block it returns. *)
Lemma exec_s_leaves (c : call) (w : World K) :
  wf_s w → bulk_getter_s c = true →
  ∃ p n, (exec c w).1 = RBuf p n ∧
         leaves_only (heap w) p (heap (exec c w).2).
Proof.
  intros Hwf Hc.
  assert (∃ h, handle_of c = Some h) as [h Hh]
    by (destruct c; try discriminate Hc; eauto).
  destruct (Z.eq_dec (validate_handle_s h w).1 0) as [Hv | Hv].
  { rewrite (exec_s_invalid c h w Hh Hv). cbn [fst snd].
    pose proof (ensure_s_outside w) as Ho. unfold outside_s in Ho.
    injection Ho as _ _ _ _ Hheap _.
    destruct c; try discriminate Hc; simpl; eexists _, _;
      (split; [reflexivity |]); apply leaves_only_null; by rewrite Hheap. }
  destruct c; try discriminate Hc; simpl in Hh; injection Hh as ->;
    cbn [exec]; rewrite r_buf_run; cbn [fst snd]; eexists _, _;
    (split; [reflexivity |]).
  - destruct (MMGS_Get_meshSize (mesh (entry_at (g_handles_s w) h))
                (kernel w)) as [r [[np nt] na]] eqn:Hsz.
    destruct (decide (r ≠ 1 ∨ np = 0)) as [Hg | Hg].
    + erewrite get_vertices_s_nodata by done. by apply leaves_only_null.
    + eapply bulk_get_leaves, get_vertices_s_outcome; [done | done | | ].
      * rewrite Hsz. f_equal. apply dec_stable. naive_solver.
      * naive_solver.
  - destruct (MMGS_Get_meshSize (mesh (entry_at (g_handles_s w) h))
                (kernel w)) as [r [[np nt] na]] eqn:Hsz.
    destruct (decide (r ≠ 1 ∨ nt = 0)) as [Hg | Hg].
    + erewrite get_triangles_s_nodata by done. by apply leaves_only_null.
    + eapply bulk_get_leaves, get_triangles_s_outcome; [done | done | | ].
      * rewrite Hsz. f_equal. apply dec_stable. naive_solver.
      * naive_solver.
  - destruct (MMGS_Get_meshSize (mesh (entry_at (g_handles_s w) h))
                (kernel w)) as [r [[np nt] na]] eqn:Hsz.
    destruct (decide (r ≠ 1 ∨ na = 0)) as [Hg | Hg].
    + erewrite get_edges_s_nodata by done. by apply leaves_only_null.
    + eapply bulk_get_leaves, get_edges_s_outcome; [done | done | | ].
      * rewrite Hsz. f_equal. apply dec_stable. naive_solver.
      * naive_solver.
  - destruct (MMGS_Get_solSize (mesh (entry_at (g_handles_s w) h))
                (sol (entry_at (g_handles_s w) h)) (kernel w))
      as [r [[te np] ts]] eqn:Hsz.
    destruct (decide (r ≠ 1 ∨ np = 0 ∨ ts ≠ 1)) as [Hg | Hg].
    + erewrite get_scalar_sols_s_nodata by done. by apply leaves_only_null.
    + assert (r = 1 ∧ np ≠ 0 ∧ ts = 1) as (-> & Hn & ->)
        by (split_and!; [apply dec_stable | | apply dec_stable];
            naive_solver).
      by eapply bulk_get_leaves, get_scalar_sols_s_outcome.
  - destruct (MMGS_Get_solSize (mesh (entry_at (g_handles_s w) h))
                (sol (entry_at (g_handles_s w) h)) (kernel w))
      as [r [[te np] ts]] eqn:Hsz.
    destruct (decide (r ≠ 1 ∨ np = 0 ∨ ts ≠ 3)) as [Hg | Hg].
    + erewrite get_tensor_sols_s_nodata by done. by apply leaves_only_null.
    + assert (r = 1 ∧ np ≠ 0 ∧ ts = 3) as (-> & Hn & ->)
        by (split_and!; [apply dec_stable | | apply dec_stable];
            naive_solver).
      by eapply bulk_get_leaves, get_tensor_sols_s_outcome.
  - destruct (MMGS_Get_meshSize (mesh (entry_at (g_handles_s w) h))
                (kernel w)) as [r [[np nt] na]] eqn:Hsz.
    destruct (decide (r ≠ 1 ∨ nt = 0)) as [Hg | Hg].
    + erewrite get_qualities_s_nodata by done. by apply leaves_only_null.
    + assert (r = 1 ∧ nt ≠ 0) as (-> & Hn)
        by (split; [apply dec_stable |]; naive_solver).
      by eapply get_qualities_s_block.
Qed.

(** [free_array] releases the block it is given and nothing else;
    [free_array(NULL)] does nothing. *)
Lemma free_array_s_eq (p : ptr) (w : World K) :
  mmgs_free_array p w = (tt, set_heap (free p (heap w)) w).
Proof.
  unfold mmgs_free_array. destruct (Z.eqb_spec p NULL) as [-> | Hp].
  - rewrite free_NULL. unfold_M. by destruct w.
  - done.
Qed.
End Leaves_s.

(** ** [mmgs.c]: handles in the order of creation *)

Section Order_s.
Context {K : Type} `{!libmmgs K}.
Import Mmgs.

Local Abbreviation wf_s w :=
  (wf_table (g_handles_s w) (g_initialized_s w)).

Lemma init_s_next (i : Z) (w : World K) :
  wf_s w → 0 ≤ i → prefix_full (g_handles_s w) i →
  (mmgs_init w).1 ≠ -1 →
  (mmgs_init w).1 = i ∧ prefix_full (g_handles_s (mmgs_init w).2) (i + 1).
Proof.
  intros Hwf Hi Hpre Hne.
  destruct (init_s_result w Hwf) as [Hr | Hr]; cbv zeta in Hr; [done |].
  destruct Hr as (Hr & _ & Hz & Hbelow & m & s & Ht).
  assert ((mmgs_init w).1 = i) as Heq.
  { apply Hpre in Hz; [| done].
    destruct (Z.eq_dec (mmgs_init w).1 i) as [| Hd]; [done |].
    exfalso. apply (Hbelow i); [lia |]. apply Hpre; lia. }
  split; [done |]. rewrite Ht, Heq. intros j Hj.
  destruct (Z.eq_dec j i) as [-> | Hd].
  - rewrite entry_at_set_entry_eq
      by (destruct Hwf; unfold MAX_HANDLES in *; lia).
    simpl. lia.
  - rewrite entry_at_set_entry_ne by lia. rewrite (Hpre j Hj). lia.
Qed.

Lemma run_inits_s_order (n : nat) : ∀ (i : Z) (w : World K),
  wf_s w → 0 ≤ i → prefix_full (g_handles_s w) i →
  (∀ r, r ∈ (run (replicate n Init) w).1 → r ≠ RInt (-1)) →
  (run (replicate n Init) w).1 = RInt <$> seqZ i (Z.of_nat n).
Proof.
  induction n as [|n IH]; intros i w Hwf Hi Hpre Hok; [done |].
  cbn [replicate] in *. rewrite run_s_cons in *. cbn [fst snd] in *.
  rewrite exec_init_s in *. cbn [fst snd] in *.
  destruct (init_s_next i w Hwf Hi Hpre) as [Hr Hpre1].
  { intros Hr. apply (Hok (RInt (mmgs_init w).1)); [left | by rewrite Hr]. }
  rewrite Nat2Z.inj_succ, seqZ_cons by lia. cbn [fmap list_fmap].
  rewrite Hr. f_equal.
  rewrite (IH (i + 1)); [| by apply init_s_wf | lia | done |].
  - do 2 f_equal; lia.
  - intros r Hin. apply Hok. by right.
Qed.
End Order_s.

(** ** [mmgs.c]: a handle and the instance bound to it *)

Section Binding_s.
Context {K : Type} `{!libmmgs K}.
Import Mmgs.

Local Abbreviation wf_s w :=
  (wf_table (g_handles_s w) (g_initialized_s w)).

(** An [init] that hands out a handle binds what the kernel
    constructed. *)
Lemma init_s_binds (w : World K) (m s : ptr) (k1 : K) :
  wf_s w → MMGS_Init_mesh (kernel w) = ((1, m, s), k1) → m ≠ NULL →
  (mmgs_init w).1 ≠ -1 →
  0 ≤ (mmgs_init w).1 < MAX_HANDLES ∧
  entry_at (g_handles_s (mmgs_init w).2) (mmgs_init w).1 = mkEntry m s 1 ∧
  slot_valid (g_handles_s (mmgs_init w).2) (mmgs_init w).1 = 1.
Proof.
  intros Hwf E Hm Hne.
  pose proof (init_s_outcome w Hwf) as Ho. cbv zeta in Ho. rewrite E in Ho.
  destruct Ho as (_ & _ & _ & Ho).
  destruct (init_s_result w Hwf) as [Hr | Hr]; cbv zeta in Hr; [done |].
  destruct Hr as (Hr & Hf & _).
  rewrite (proj2 (Z.eqb_neq m NULL) Hm) in Ho.
  change (negb (1 =? 1)) with false in Ho. rewrite !orb_false_r in Ho.
  destruct (_ <? 0); [lia |]. destruct Ho as (_ & Ht & _).
  rewrite <- Hf in Ht.
  assert (entry_at (g_handles_s (mmgs_init w).2) (mmgs_init w).1
          = mkEntry m s 1) as He.
  { rewrite Ht. apply entry_at_set_entry_eq.
    destruct Hwf; unfold MAX_HANDLES in *; lia. }
  split_and!; [lia | lia | done |].
  unfold slot_valid. rewrite He.
  destruct (Z.ltb_spec (mmgs_init w).1 0); [lia |].
  destruct (Z.geb_spec (mmgs_init w).1 MAX_HANDLES); [lia | done].
Qed.

(** The binding lasts as long as the handle: through every sequence of
    calls without its [free], the operations on the handle reach the
    instance that [init] bound. *)
Lemma binding_s_lasts (w : World K) (m s : ptr) (k1 : K) (cs : list call) :
  wf_s w → MMGS_Init_mesh (kernel w) = ((1, m, s), k1) → m ≠ NULL →
  let h := (mmgs_init w).1 in
  h ≠ -1 → Free h ∉ cs →
  let w' := (run cs (mmgs_init w).2).2 in
  wf_s w' ∧
  (validate_handle_s h w').1 = 1 ∧
  entry_at (g_handles_s w') h = mkEntry m s 1.
Proof.
  intros Hwf E Hm. cbv zeta. intros Hne Hcs.
  destruct (init_s_binds w m s k1 Hwf E Hm Hne) as (_ & He & Hv).
  pose proof (init_s_wf w Hwf) as Hwf1.
  pose proof (run_s_wf cs _ Hwf1) as Hwf2.
  split_and!; [done | |].
  - rewrite validate_s_wf by done. rewrite run_s_valid; [done.. |].
    by rewrite Hv.
  - rewrite run_s_entry; [done.. |]. by rewrite Hv.
Qed.
End Binding_s.

(** ** [mmg2d.c]: keeping count *)

Section Account_2d.
Context {K : Type} `{!libmmg2d K}.
Import Mmg2d.

Local Abbreviation wf_2d w :=
  (wf_table (g_handles_2d w) (g_initialized_2d w)).

Lemma run_2d_account (cs : list call) : ∀ w : World K,
  wf_2d w →
  (mmg2d_get_available_handles (run cs w).2).1
  = (mmg2d_get_available_handles w).1
    - issued_2d cs (run cs w).1 + released_2d cs (run cs w).1.
Proof.
  induction cs as [|c cs IH]; intros w Hwf; [simpl; lia |].
  rewrite run_2d_cons. cbn [fst snd issued_2d released_2d].
  rewrite IH by by apply exec_2d_wf.
  destruct (available_2d_steps w Hwf) as [Hi Hf].
  destruct (lifecycle_2d c) eqn:Hl.
  - destruct c; try discriminate.
    + rewrite exec_init_2d. cbn [fst snd]. rewrite Hi. lia.
    + rewrite exec_free_2d. cbn [fst snd]. rewrite Hf. lia.
  - assert ((mmg2d_get_available_handles (exec c w).2).1
            = (mmg2d_get_available_handles w).1) as ->.
    { rewrite !available_2d_wf; [| done | by apply exec_2d_wf].
      by rewrite exec_2d_handles_other. }
    destruct c; try discriminate; lia.
Qed.
End Account_2d.

(** ** [mmg3d.c]: keeping count *)

Section Account_3d.
Context {K : Type} `{!libmmg3d K}.
Import Mmg3d.

Local Abbreviation wf_3d w :=
  (wf_table (g_handles w) (g_initialized w)).

Lemma run_3d_account (cs : list call) : ∀ w : World K,
  wf_3d w →
  (mmg3d_get_available_handles (run cs w).2).1
  = (mmg3d_get_available_handles w).1
    - issued_3d cs (run cs w).1 + released_3d cs (run cs w).1.
Proof.
  induction cs as [|c cs IH]; intros w Hwf; [simpl; lia |].
  rewrite run_3d_cons. cbn [fst snd issued_3d released_3d].
  rewrite IH by by apply exec_3d_wf.
  destruct (available_3d_steps w Hwf) as [Hi Hf].
  destruct (lifecycle_3d c) eqn:Hl.
  - destruct c; try discriminate.
    + rewrite exec_init_3d. cbn [fst snd]. rewrite Hi. lia.
    + rewrite exec_free_3d. cbn [fst snd]. rewrite Hf. lia.
  - assert ((mmg3d_get_available_handles (exec c w).2).1
            = (mmg3d_get_available_handles w).1) as ->.
    { rewrite !available_3d_wf; [| done | by apply exec_3d_wf].
      by rewrite exec_3d_handles_other. }
    destruct c; try discriminate; lia.
Qed.
End Account_3d.

(** ** [mmgs.c]: keeping count *)

Section Account_s.
Context {K : Type} `{!libmmgs K}.
Import Mmgs.

Local Abbreviation wf_s w :=
  (wf_table (g_handles_s w) (g_initialized_s w)).

Lemma run_s_account (cs : list call) : ∀ w : World K,
  wf_s w →
  (mmgs_get_available_handles (run cs w).2).1
  = (mmgs_get_available_handles w).1
    - issued_s cs (run cs w).1 + released_s cs (run cs w).1.
Proof.
  induction cs as [|c cs IH]; intros w Hwf; [simpl; lia |].
  rewrite run_s_cons. cbn [fst snd issued_s released_s].
  rewrite IH by by apply exec_s_wf.
  destruct (available_s_steps w Hwf) as [Hi Hf].
  destruct (lifecycle_s c) eqn:Hl.
  - destruct c; try discriminate.
    + rewrite exec_init_s. cbn [fst snd]. rewrite Hi. lia.
    + rewrite exec_free_s. cbn [fst snd]. rewrite Hf. lia.
  - assert ((mmgs_get_available_handles (exec c w).2).1
            = (mmgs_get_available_handles w).1) as ->.
    { rewrite !available_s_wf; [| done | by apply exec_s_wf].
      by rewrite exec_s_handles_other. }
    destruct c; try discriminate; lia.
Qed.
End Account_s.

(** ** The whole program, again *)

Section More_program_facts.
Context {K : Type} `{!libmmg2d K} `{!libmmg3d K} `{!libmmgs K}.

Lemma tidy_boot (h : Heap) (k : K) : tidy_world (boot h k).
Proof. repeat split; apply tidy_memset. Qed.

Lemma gexec_tidy (c : gcall) (w : World K) :
  wf w → tidy_world w → tidy_world (gexec c w).2.
Proof.
  intros (H2 & H3 & Hs) (T2 & T3 & Ts). unfold tidy_world.
  destruct c as [c | c | c]; cbn [gexec].
  - pose proof (exec_2d_frame_3d c w) as [= -> _].
    pose proof (exec_2d_frame_s c w) as [= -> _].
    split_and!; [by apply exec_2d_tidy | done..].
  - pose proof (exec_3d_frame_2d c w) as [= -> _].
    pose proof (exec_3d_frame_s c w) as [= -> _].
    split_and!; [| by apply exec_3d_tidy |]; done.
  - pose proof (exec_s_frame_2d c w) as [= -> _].
    pose proof (exec_s_frame_3d c w) as [= -> _].
    split_and!; [| | by apply exec_s_tidy]; done.
Qed.

Lemma grun_tidy (cs : list gcall) : ∀ w : World K,
  wf w → tidy_world w → tidy_world (grun cs w).2.
Proof.
  induction cs as [|c cs IH]; intros w Hwf Ht; [done |].
  cbn [grun]. pose proof (gexec_wf c w Hwf) as Hwf1.
  pose proof (gexec_tidy c w Hwf Ht) as Ht1.
  destruct (gexec c w) as [r w1]. specialize (IH w1 Hwf1 Ht1).
  by destruct (grun cs w1).
Qed.

(** The self-test of [stub.c] goes to the kernel directly: it leaves the
    tables and the memory alone. *)
Lemma test_init_outcome (w : World K) :
  let '((res, m, s), k1) := MMG3D_Init_mesh (kernel w) in
  let r := Stub.mmg_test_init w in
  tables_2d r.2 = tables_2d w ∧ tables_3d r.2 = tables_3d w ∧
  tables_s r.2 = tables_s w ∧ heap r.2 = heap w ∧
  if negb (res =? 1) || (m =? NULL)
  then r.1 = 0 ∧ kernel r.2 = k1
  else r.1 = 1 ∧
       kernel r.2 = MMG3D_Free_all m s (MMG3D_Init_parameters m k1).
Proof.
  unfold Stub.mmg_test_init. unfold_M.
  destruct (MMG3D_Init_mesh (kernel w)) as [[[res m] s] k1].
  by destruct (negb (res =? 1) || (m =? NULL)).
Qed.
End More_program_facts.

(** * Further properties: the statements *)

Section Extras.
Context {K : Type} `{!libmmg2d K} `{!libmmg3d K} `{!libmmgs K}.

(** X1.  Only [init] and [free] change the handle table of their file:
    every other entry point, whatever it is called with, leaves every
    slot of the table as it was. *)
Theorem X1_table_changes_with_init_and_free_only :
  (∀ (c : Mmg2d.call) (w : World K),
     wf_table (g_handles_2d w) (g_initialized_2d w) →
     lifecycle_2d c = false →
     g_handles_2d (Mmg2d.exec c w).2 = g_handles_2d w) ∧
  (∀ (c : Mmg3d.call) (w : World K),
     wf_table (g_handles w) (g_initialized w) →
     lifecycle_3d c = false →
     g_handles (Mmg3d.exec c w).2 = g_handles w) ∧
  (∀ (c : Mmgs.call) (w : World K),
     wf_table (g_handles_s w) (g_initialized_s w) →
     lifecycle_s c = false →
     g_handles_s (Mmgs.exec c w).2 = g_handles_s w).
Proof.
  refine (conj _ (conj _ _)).
  - intros c w Hwf Hc. by apply exec_2d_handles_other.
  - intros c w Hwf Hc. by apply exec_3d_handles_other.
  - intros c w Hwf Hc. by apply exec_s_handles_other.
Qed.

(** X2.  [free] returns 1 when its handle is valid and 0 when it is not,
    and uses no memory of the allocator.  When it returns 0 nothing
    changes in the table or the kernel.  When it returns 1 the kernel is
    asked to release the instance bound to the handle, the slot of the
    handle is zeroed (no pointer is left in it), and every other slot is
    as it was. *)
Theorem X2_free_releases_its_slot_only :
  (∀ (h : Z) (w : World K),
     wf_table (g_handles_2d w) (g_initialized_2d w) →
     let t := g_handles_2d w in
     let r := Mmg2d.mmg2d_free h w in
     heap r.2 = heap w ∧
     ((r.1 = 0 ∧ (Mmg2d.validate_handle_2d h w).1 = 0 ∧
       g_handles_2d r.2 = t ∧ kernel r.2 = kernel w) ∨
      (r.1 = 1 ∧ (Mmg2d.validate_handle_2d h w).1 ≠ 0 ∧
       entry_at (g_handles_2d r.2) h = zero_entry ∧
       (∀ j, 0 ≤ j → j ≠ h →
          entry_at (g_handles_2d r.2) j = entry_at t j) ∧
       kernel r.2
       = MMG2D_Free_all (mesh (entry_at t h)) (sol (entry_at t h))
           (kernel w)))) ∧
  (∀ (h : Z) (w : World K),
     wf_table (g_handles w) (g_initialized w) →
     let t := g_handles w in
     let r := Mmg3d.mmg3d_free h w in
     heap r.2 = heap w ∧
     ((r.1 = 0 ∧ (Mmg3d.validate_handle h w).1 = 0 ∧
       g_handles r.2 = t ∧ kernel r.2 = kernel w) ∨
      (r.1 = 1 ∧ (Mmg3d.validate_handle h w).1 ≠ 0 ∧
       entry_at (g_handles r.2) h = zero_entry ∧
       (∀ j, 0 ≤ j → j ≠ h →
          entry_at (g_handles r.2) j = entry_at t j) ∧
       kernel r.2
       = MMG3D_Free_all (mesh (entry_at t h)) (sol (entry_at t h))
           (kernel w)))) ∧
  (∀ (h : Z) (w : World K),
     wf_table (g_handles_s w) (g_initialized_s w) →
     let t := g_handles_s w in
     let r := Mmgs.mmgs_free h w in
     heap r.2 = heap w ∧
     ((r.1 = 0 ∧ (Mmgs.validate_handle_s h w).1 = 0 ∧
       g_handles_s r.2 = t ∧ kernel r.2 = kernel w) ∨
      (r.1 = 1 ∧ (Mmgs.validate_handle_s h w).1 ≠ 0 ∧
       entry_at (g_handles_s r.2) h = zero_entry ∧
       (∀ j, 0 ≤ j → j ≠ h →
          entry_at (g_handles_s r.2) j = entry_at t j) ∧
       kernel r.2
       = MMGS_Free_all (mesh (entry_at t h)) (sol (entry_at t h))
           (kernel w)))).
Proof.
  refine (conj _ (conj _ _)).
  - intros h w Hwf. cbv zeta. rewrite validate_2d_wf by done.
    destruct (free_2d_outcome h w Hwf) as [Hheap Ho]. cbv zeta in Ho.
    split; [done |].
    destruct (free_2d_slots h w Hwf)
      as [(Hr & Hz & Ht) | (Hr & Hnz & _ & Hh & Hoth)].
    + left. rewrite Hz in Ho. by destruct Ho as (_ & _ & ->).
    + right. rewrite (proj2 (Z.eqb_neq _ _) Hnz) in Ho.
      by destruct Ho as (_ & _ & ->).
  - intros h w Hwf. cbv zeta. rewrite validate_3d_wf by done.
    destruct (free_3d_outcome h w Hwf) as [Hheap Ho]. cbv zeta in Ho.
    split; [done |].
    destruct (free_3d_slots h w Hwf)
      as [(Hr & Hz & Ht) | (Hr & Hnz & _ & Hh & Hoth)].
    + left. rewrite Hz in Ho. by destruct Ho as (_ & _ & ->).
    + right. rewrite (proj2 (Z.eqb_neq _ _) Hnz) in Ho.
      by destruct Ho as (_ & _ & ->).
  - intros h w Hwf. cbv zeta. rewrite validate_s_wf by done.
    destruct (free_s_outcome h w Hwf) as [Hheap Ho]. cbv zeta in Ho.
    split; [done |].
    destruct (free_s_slots h w Hwf)
      as [(Hr & Hz & Ht) | (Hr & Hnz & _ & Hh & Hoth)].
    + left. rewrite Hz in Ho. by destruct Ho as (_ & _ & ->).
    + right. rewrite (proj2 (Z.eqb_neq _ _) Hnz) in Ho.
      by destruct Ho as (_ & _ & ->).
Qed.

(** X3.  [init] never hands out a handle that is in use: called while
    [h] is valid it returns another value, and [h] stays valid, bound
    to the same instance. *)
Theorem X3_init_spares_handles_in_use :
  (∀ (h : Z) (w : World K),
     wf_table (g_handles_2d w) (g_initialized_2d w) →
     (Mmg2d.validate_handle_2d h w).1 ≠ 0 →
     (Mmg2d.mmg2d_init w).1 ≠ h ∧
     entry_at (g_handles_2d (Mmg2d.mmg2d_init w).2) h
     = entry_at (g_handles_2d w) h ∧
     (Mmg2d.validate_handle_2d h (Mmg2d.mmg2d_init w).2).1
     = (Mmg2d.validate_handle_2d h w).1) ∧
  (∀ (h : Z) (w : World K),
     wf_table (g_handles w) (g_initialized w) →
     (Mmg3d.validate_handle h w).1 ≠ 0 →
     (Mmg3d.mmg3d_init w).1 ≠ h ∧
     entry_at (g_handles (Mmg3d.mmg3d_init w).2) h
     = entry_at (g_handles w) h ∧
     (Mmg3d.validate_handle h (Mmg3d.mmg3d_init w).2).1
     = (Mmg3d.validate_handle h w).1) ∧
  (∀ (h : Z) (w : World K),
     wf_table (g_handles_s w) (g_initialized_s w) →
     (Mmgs.validate_handle_s h w).1 ≠ 0 →
     (Mmgs.mmgs_init w).1 ≠ h ∧
     entry_at (g_handles_s (Mmgs.mmgs_init w).2) h
     = entry_at (g_handles_s w) h ∧
     (Mmgs.validate_handle_s h (Mmgs.mmgs_init w).2).1
     = (Mmgs.validate_handle_s h w).1).
Proof.
  refine (conj _ (conj _ _)).
  - intros h w Hwf Hv. rewrite validate_2d_wf in Hv by done.
    destruct (init_2d_fresh h w Hwf Hv) as [Hne He].
    split_and!; [done | done |].
    rewrite !validate_2d_wf; [| done | by apply init_2d_wf].
    pose proof (exec_2d_valid_step Mmg2d.Init h w Hwf ltac:(done) Hv) as Hs.
    by rewrite exec_init_2d in Hs.
  - intros h w Hwf Hv. rewrite validate_3d_wf in Hv by done.
    destruct (init_3d_fresh h w Hwf Hv) as [Hne He].
    split_and!; [done | done |].
    rewrite !validate_3d_wf; [| done | by apply init_3d_wf].
    pose proof (exec_3d_valid_step Mmg3d.Init h w Hwf ltac:(done) Hv) as Hs.
    by rewrite exec_init_3d in Hs.
  - intros h w Hwf Hv. rewrite validate_s_wf in Hv by done.
    destruct (init_s_fresh h w Hwf Hv) as [Hne He].
    split_and!; [done | done |].
    rewrite !validate_s_wf; [| done | by apply init_s_wf].
    pose proof (exec_s_valid_step Mmgs.Init h w Hwf ltac:(done) Hv) as Hs.
    by rewrite exec_init_s in Hs.
Qed.

(** X4.  What [get_available_handles] reads goes down by exactly one
    with an [init] that hands out a handle and is unchanged by one that
    returns -1; it goes up by what [free] returns: by one when the
    handle was valid, by nothing when it was not. *)
Theorem X4_available_handles_steps :
  (∀ w : World K,
     wf_table (g_handles_2d w) (g_initialized_2d w) →
     (Mmg2d.mmg2d_get_available_handles (Mmg2d.mmg2d_init w).2).1
     = (Mmg2d.mmg2d_get_available_handles w).1
       - (if (Mmg2d.mmg2d_init w).1 =? -1 then 0 else 1) ∧
     ∀ h, (Mmg2d.mmg2d_get_available_handles (Mmg2d.mmg2d_free h w).2).1
          = (Mmg2d.mmg2d_get_available_handles w).1
            + (Mmg2d.mmg2d_free h w).1) ∧
  (∀ w : World K,
     wf_table (g_handles w) (g_initialized w) →
     (Mmg3d.mmg3d_get_available_handles (Mmg3d.mmg3d_init w).2).1
     = (Mmg3d.mmg3d_get_available_handles w).1
       - (if (Mmg3d.mmg3d_init w).1 =? -1 then 0 else 1) ∧
     ∀ h, (Mmg3d.mmg3d_get_available_handles (Mmg3d.mmg3d_free h w).2).1
          = (Mmg3d.mmg3d_get_available_handles w).1
            + (Mmg3d.mmg3d_free h w).1) ∧
  (∀ w : World K,
     wf_table (g_handles_s w) (g_initialized_s w) →
     (Mmgs.mmgs_get_available_handles (Mmgs.mmgs_init w).2).1
     = (Mmgs.mmgs_get_available_handles w).1
       - (if (Mmgs.mmgs_init w).1 =? -1 then 0 else 1) ∧
     ∀ h, (Mmgs.mmgs_get_available_handles (Mmgs.mmgs_free h w).2).1
          = (Mmgs.mmgs_get_available_handles w).1
            + (Mmgs.mmgs_free h w).1).
Proof.
  refine (conj _ (conj _ _)).
  - intros w Hwf. by apply available_2d_steps.
  - intros w Hwf. by apply available_3d_steps.
  - intros w Hwf. by apply available_s_steps.
Qed.

(** X5.  A handle that was freed is handed out again: the [init] that
    follows [free(h)] returns -1 or a handle that is at most [h]; it
    does return a handle when the kernel constructs an instance, and
    that handle is [h] itself when every handle below [h] is in
    use. *)
Theorem X5_freed_handle_is_reused :
  (∀ (h : Z) (w : World K),
     wf_table (g_handles_2d w) (g_initialized_2d w) →
     (Mmg2d.mmg2d_free h w).1 = 1 →
     let w1 := (Mmg2d.mmg2d_free h w).2 in
     let r := (Mmg2d.mmg2d_init w1).1 in
     (r = -1 ∨ 0 ≤ r ≤ h) ∧
     (∀ m s k1, MMG2D_Init_mesh (kernel w1) = ((1, m, s), k1) →
        m ≠ NULL → 0 ≤ r ≤ h) ∧
     ((∀ j, 0 ≤ j < h → (Mmg2d.validate_handle_2d j w).1 ≠ 0) →
      r ≠ -1 → r = h)) ∧
  (∀ (h : Z) (w : World K),
     wf_table (g_handles w) (g_initialized w) →
     (Mmg3d.mmg3d_free h w).1 = 1 →
     let w1 := (Mmg3d.mmg3d_free h w).2 in
     let r := (Mmg3d.mmg3d_init w1).1 in
     (r = -1 ∨ 0 ≤ r ≤ h) ∧
     (∀ m s k1, MMG3D_Init_mesh (kernel w1) = ((1, m, s), k1) →
        m ≠ NULL → 0 ≤ r ≤ h) ∧
     ((∀ j, 0 ≤ j < h → (Mmg3d.validate_handle j w).1 ≠ 0) →
      r ≠ -1 → r = h)) ∧
  (∀ (h : Z) (w : World K),
     wf_table (g_handles_s w) (g_initialized_s w) →
     (Mmgs.mmgs_free h w).1 = 1 →
     let w1 := (Mmgs.mmgs_free h w).2 in
     let r := (Mmgs.mmgs_init w1).1 in
     (r = -1 ∨ 0 ≤ r ≤ h) ∧
     (∀ m s k1, MMGS_Init_mesh (kernel w1) = ((1, m, s), k1) →
        m ≠ NULL → 0 ≤ r ≤ h) ∧
     ((∀ j, 0 ≤ j < h → (Mmgs.validate_handle_s j w).1 ≠ 0) →
      r ≠ -1 → r = h)).
Proof.
  refine (conj _ (conj _ _)).
  - intros h w Hwf Hf. cbv zeta.
    destruct (free_2d_reuse h w Hwf Hf) as (H1 & H2 & H3).
    split_and!; [done | done |]. intros Hbelow. apply H3.
    intros j Hj. rewrite <- validate_2d_wf by done. by apply Hbelow.
  - intros h w Hwf Hf. cbv zeta.
    destruct (free_3d_reuse h w Hwf Hf) as (H1 & H2 & H3).
    split_and!; [done | done |]. intros Hbelow. apply H3.
    intros j Hj. rewrite <- validate_3d_wf by done. by apply Hbelow.
  - intros h w Hwf Hf. cbv zeta.
    destruct (free_s_reuse h w Hwf Hf) as (H1 & H2 & H3).
    split_and!; [done | done |]. intros Hbelow. apply H3.
    intros j Hj. rewrite <- validate_s_wf by done. by apply Hbelow.
Qed.

(** X6.  From the start of the program, after every sequence of calls to
    the entry points of the three files, the validity check of a file
    returns 0 or 1, a valid handle is within the table and has an
    instance other than [NULL] bound, and the slot of a handle of the
    table that is not valid is zeroed: no pointer to a released
    instance stays behind. *)
Theorem X6_slots_zeroed_or_bound (hp : Heap) (k : K) (cs : list gcall) :
  (let w := (grun cs (boot hp k)).2 in
     (∀ h, (Mmg2d.validate_handle_2d h w).1 = 0 ∨
           ((Mmg2d.validate_handle_2d h w).1 = 1 ∧ 0 ≤ h < MAX_HANDLES ∧
            mesh (entry_at (g_handles_2d w) h) ≠ NULL)) ∧
     (∀ j, 0 ≤ j < MAX_HANDLES → (Mmg2d.validate_handle_2d j w).1 = 0 →
           entry_at (g_handles_2d w) j = zero_entry)) ∧
  (let w := (grun cs (boot hp k)).2 in
     (∀ h, (Mmg3d.validate_handle h w).1 = 0 ∨
           ((Mmg3d.validate_handle h w).1 = 1 ∧ 0 ≤ h < MAX_HANDLES ∧
            mesh (entry_at (g_handles w) h) ≠ NULL)) ∧
     (∀ j, 0 ≤ j < MAX_HANDLES → (Mmg3d.validate_handle j w).1 = 0 →
           entry_at (g_handles w) j = zero_entry)) ∧
  (let w := (grun cs (boot hp k)).2 in
     (∀ h, (Mmgs.validate_handle_s h w).1 = 0 ∨
           ((Mmgs.validate_handle_s h w).1 = 1 ∧ 0 ≤ h < MAX_HANDLES ∧
            mesh (entry_at (g_handles_s w) h) ≠ NULL)) ∧
     (∀ j, 0 ≤ j < MAX_HANDLES → (Mmgs.validate_handle_s j w).1 = 0 →
           entry_at (g_handles_s w) j = zero_entry)).
Proof.
  cbv zeta.
  pose proof (grun_wf cs _ (wf_boot hp k)) as (W_2d & W_3d & W_s).
  pose proof (grun_tidy cs _ (wf_boot hp k) (tidy_boot hp k))
    as (T_2d & T_3d & T_s).
  refine (conj _ (conj _ _)).
  - split.
    + intros h. rewrite validate_2d_wf by done. unfold slot_valid.
      destruct (Z.ltb_spec h 0); [by left |].
      destruct (Z.geb_spec h MAX_HANDLES); [by left |]. cbn [orb].
      destruct (tidy_entry_at _ h T_2d) as [-> | [Ha Hm]];
        [by left | right].
      split_and!; [done | lia | lia | done].
    + intros j Hj. rewrite validate_2d_wf by done. unfold slot_valid.
      destruct (Z.ltb_spec j 0); [lia |].
      destruct (Z.geb_spec j MAX_HANDLES); [lia |]. cbn [orb].
      destruct (tidy_entry_at _ j T_2d) as [-> | [Ha _]]; [done |].
      rewrite Ha. done.
  - split.
    + intros h. rewrite validate_3d_wf by done. unfold slot_valid.
      destruct (Z.ltb_spec h 0); [by left |].
      destruct (Z.geb_spec h MAX_HANDLES); [by left |]. cbn [orb].
      destruct (tidy_entry_at _ h T_3d) as [-> | [Ha Hm]];
        [by left | right].
      split_and!; [done | lia | lia | done].
    + intros j Hj. rewrite validate_3d_wf by done. unfold slot_valid.
      destruct (Z.ltb_spec j 0); [lia |].
      destruct (Z.geb_spec j MAX_HANDLES); [lia |]. cbn [orb].
      destruct (tidy_entry_at _ j T_3d) as [-> | [Ha _]]; [done |].
      rewrite Ha. done.
  - split.
    + intros h. rewrite validate_s_wf by done. unfold slot_valid.
      destruct (Z.ltb_spec h 0); [by left |].
      destruct (Z.geb_spec h MAX_HANDLES); [by left |]. cbn [orb].
      destruct (tidy_entry_at _ h T_s) as [-> | [Ha Hm]];
        [by left | right].
      split_and!; [done | lia | lia | done].
    + intros j Hj. rewrite validate_s_wf by done. unfold slot_valid.
      destruct (Z.ltb_spec j 0); [lia |].
      destruct (Z.geb_spec j MAX_HANDLES); [lia |]. cbn [orb].
      destruct (tidy_entry_at _ j T_s) as [-> | [Ha _]]; [done |].
      rewrite Ha. done.
Qed.

(** X7.  From the start of the program, after every sequence of calls:
    when [init] hands out a handle, [free] of that handle right after
    returns 1, the handle table is the one before the [init], and so is
    what [get_available_handles] reads; the kernel has been asked to
    release exactly the instance it had constructed. *)
Theorem X7_free_undoes_init (hp : Heap) (k : K) (cs : list gcall) :
  (let w := (grun cs (boot hp k)).2 in
     let h := (Mmg2d.mmg2d_init w).1 in
     h ≠ -1 →
     let r := Mmg2d.mmg2d_free h (Mmg2d.mmg2d_init w).2 in
     r.1 = 1 ∧ g_handles_2d r.2 = g_handles_2d w ∧
     (Mmg2d.mmg2d_get_available_handles r.2).1
     = (Mmg2d.mmg2d_get_available_handles w).1 ∧
     kernel r.2
     = (let '((_, m, s), k1) := MMG2D_Init_mesh (kernel w) in
        MMG2D_Free_all m s (MMG2D_Init_parameters m k1))) ∧
  (let w := (grun cs (boot hp k)).2 in
     let h := (Mmg3d.mmg3d_init w).1 in
     h ≠ -1 →
     let r := Mmg3d.mmg3d_free h (Mmg3d.mmg3d_init w).2 in
     r.1 = 1 ∧ g_handles r.2 = g_handles w ∧
     (Mmg3d.mmg3d_get_available_handles r.2).1
     = (Mmg3d.mmg3d_get_available_handles w).1 ∧
     kernel r.2
     = (let '((_, m, s), k1) := MMG3D_Init_mesh (kernel w) in
        MMG3D_Free_all m s (MMG3D_Init_parameters m k1))) ∧
  (let w := (grun cs (boot hp k)).2 in
     let h := (Mmgs.mmgs_init w).1 in
     h ≠ -1 →
     let r := Mmgs.mmgs_free h (Mmgs.mmgs_init w).2 in
     r.1 = 1 ∧ g_handles_s r.2 = g_handles_s w ∧
     (Mmgs.mmgs_get_available_handles r.2).1
     = (Mmgs.mmgs_get_available_handles w).1 ∧
     kernel r.2
     = (let '((_, m, s), k1) := MMGS_Init_mesh (kernel w) in
        MMGS_Free_all m s (MMGS_Init_parameters m k1))).
Proof.
  cbv zeta.
  pose proof (grun_wf cs _ (wf_boot hp k)) as (W_2d & W_3d & W_s).
  pose proof (grun_tidy cs _ (wf_boot hp k) (tidy_boot hp k))
    as (T_2d & T_3d & T_s).
  refine (conj _ (conj _ _)).
  - intros Hne.
    destruct (init_free_2d_undo _ W_2d T_2d Hne) as (Hr & Ht & Hk).
    split_and!; [done | done | | done].
    rewrite !available_2d_wf;
      [by rewrite Ht | done | by apply free_2d_wf, init_2d_wf].
  - intros Hne.
    destruct (init_free_3d_undo _ W_3d T_3d Hne) as (Hr & Ht & Hk).
    split_and!; [done | done | | done].
    rewrite !available_3d_wf;
      [by rewrite Ht | done | by apply free_3d_wf, init_3d_wf].
  - intros Hne.
    destruct (init_free_s_undo _ W_s T_s Hne) as (Hr & Ht & Hk).
    split_and!; [done | done | | done].
    rewrite !available_s_wf;
      [by rewrite Ht | done | by apply free_s_wf, init_s_wf].
Qed.

(** X8.  The size queries [get_mesh_size] and [get_sol_size], on a valid
    handle, change nothing in the state and return what the kernel
    returns.  When that is 1, each cell the caller handed over (a
    [NULL] pointer is skipped) receives the kernel's number; when it is
    not, the caller's cells are left as they were. *)
Theorem X8_size_queries_write_on_success_only :
  (∀ (h : Z) (np nt nquad na : OutInt) (w : World K),
     wf_table (g_handles_2d w) (g_initialized_2d w) →
     (Mmg2d.validate_handle_2d h w).1 ≠ 0 →
     ∀ r a b c d,
     MMG2D_Get_meshSize (mesh (entry_at (g_handles_2d w) h)) (kernel w)
     = (r, (a, b, c, d)) →
     let o := Mmg2d.mmg2d_get_mesh_size h np nt nquad na w in
     o.2 = w ∧ o.1.1 = r ∧
     (r = 1 →
      o.1.2 = (store_out np a, store_out nt b, store_out nquad c,
               store_out na d)) ∧
     (r ≠ 1 → o.1.2 = (np, nt, nquad, na))) ∧
  (∀ (h : Z) (typEntity np typSol : OutInt) (w : World K),
     wf_table (g_handles_2d w) (g_initialized_2d w) →
     (Mmg2d.validate_handle_2d h w).1 ≠ 0 →
     ∀ r a b c,
     MMG2D_Get_solSize (mesh (entry_at (g_handles_2d w) h))
       (sol (entry_at (g_handles_2d w) h)) (kernel w)
     = (r, (a, b, c)) →
     let o := Mmg2d.mmg2d_get_sol_size h typEntity np typSol w in
     o.2 = w ∧ o.1.1 = r ∧
     (r = 1 →
      o.1.2 = (store_out typEntity a, store_out np b, store_out typSol c)) ∧
     (r ≠ 1 → o.1.2 = (typEntity, np, typSol))) ∧
  (∀ (h : Z) (np ne nprism nt nquad na : OutInt) (w : World K),
     wf_table (g_handles w) (g_initialized w) →
     (Mmg3d.validate_handle h w).1 ≠ 0 →
     ∀ r a b c d e f,
     MMG3D_Get_meshSize (mesh (entry_at (g_handles w) h)) (kernel w)
     = (r, (a, b, c, d, e, f)) →
     let o := Mmg3d.mmg3d_get_mesh_size h np ne nprism nt nquad na w in
     o.2 = w ∧ o.1.1 = r ∧
     (r = 1 →
      o.1.2 = (store_out np a, store_out ne b, store_out nprism c,
               store_out nt d, store_out nquad e, store_out na f)) ∧
     (r ≠ 1 → o.1.2 = (np, ne, nprism, nt, nquad, na))) ∧
  (∀ (h : Z) (typEntity np typSol : OutInt) (w : World K),
     wf_table (g_handles w) (g_initialized w) →
     (Mmg3d.validate_handle h w).1 ≠ 0 →
     ∀ r a b c,
     MMG3D_Get_solSize (mesh (entry_at (g_handles w) h))
       (sol (entry_at (g_handles w) h)) (kernel w)
     = (r, (a, b, c)) →
     let o := Mmg3d.mmg3d_get_sol_size h typEntity np typSol w in
     o.2 = w ∧ o.1.1 = r ∧
     (r = 1 →
      o.1.2 = (store_out typEntity a, store_out np b, store_out typSol c)) ∧
     (r ≠ 1 → o.1.2 = (typEntity, np, typSol))) ∧
  (∀ (h : Z) (np nt na : OutInt) (w : World K),
     wf_table (g_handles_s w) (g_initialized_s w) →
     (Mmgs.validate_handle_s h w).1 ≠ 0 →
     ∀ r a b c,
     MMGS_Get_meshSize (mesh (entry_at (g_handles_s w) h)) (kernel w)
     = (r, (a, b, c)) →
     let o := Mmgs.mmgs_get_mesh_size h np nt na w in
     o.2 = w ∧ o.1.1 = r ∧
     (r = 1 → o.1.2 = (store_out np a, store_out nt b, store_out na c)) ∧
     (r ≠ 1 → o.1.2 = (np, nt, na))) ∧
  (∀ (h : Z) (typEntity np typSol : OutInt) (w : World K),
     wf_table (g_handles_s w) (g_initialized_s w) →
     (Mmgs.validate_handle_s h w).1 ≠ 0 →
     ∀ r a b c,
     MMGS_Get_solSize (mesh (entry_at (g_handles_s w) h))
       (sol (entry_at (g_handles_s w) h)) (kernel w)
     = (r, (a, b, c)) →
     let o := Mmgs.mmgs_get_sol_size h typEntity np typSol w in
     o.2 = w ∧ o.1.1 = r ∧
     (r = 1 →
      o.1.2 = (store_out typEntity a, store_out np b, store_out typSol c)) ∧
     (r ≠ 1 → o.1.2 = (typEntity, np, typSol))).
Proof.
  refine (conj _ (conj _ (conj _ (conj _ (conj _ _))))).
  - intros h np nt nquad na w Hwf Hv r a b c d E. cbv zeta.
    rewrite get_mesh_size_2d_valid by done. rewrite E. cbn [fst snd].
    destruct (Z.eqb_spec r 1); by split_and!.
  - intros h typEntity np typSol w Hwf Hv r a b c E. cbv zeta.
    rewrite get_sol_size_2d_valid by done. rewrite E. cbn [fst snd].
    destruct (Z.eqb_spec r 1); by split_and!.
  - intros h np ne nprism nt nquad na w Hwf Hv r a b c d e f E.
    cbv zeta.
    rewrite get_mesh_size_3d_valid by done. rewrite E. cbn [fst snd].
    destruct (Z.eqb_spec r 1); by split_and!.
  - intros h typEntity np typSol w Hwf Hv r a b c E. cbv zeta.
    rewrite get_sol_size_3d_valid by done. rewrite E. cbn [fst snd].
    destruct (Z.eqb_spec r 1); by split_and!.
  - intros h np nt na w Hwf Hv r a b c E. cbv zeta.
    rewrite get_mesh_size_s_valid by done. rewrite E. cbn [fst snd].
    destruct (Z.eqb_spec r 1); by split_and!.
  - intros h typEntity np typSol w Hwf Hv r a b c E. cbv zeta.
    rewrite get_sol_size_s_valid by done. rewrite E. cbn [fst snd].
    destruct (Z.eqb_spec r 1); by split_and!.
Qed.

(** X9.  The bulk getters of the solution, on a valid handle whose
    solution is of their type (1 for the scalar getter, 3 for the tensor
    getter) and not empty, ask the allocator once, whatever comes of
    it, and change nothing but the memory.  With [p] the answer of the
    allocator and [kres] the result of the kernel's getter: when the
    allocation fails ([p] is [NULL]) or the kernel reports failure
    ([kres] is not 1), the result is [NULL] with a zero count and the
    live blocks are those of before the call; when the allocation
    succeeds and the kernel returns 1, the result is [p] with the count
    [np], a block that was not live before, the only new one, of [np]
    doubles for the scalar solution and, for the tensor solution, of 3
    doubles per entity in [mmg2d.c] and of 6 in [mmg3d.c] and
    [mmgs.c] (in [size_t] arithmetic). *)
Theorem X9_solution_get_rollback :
  (∀ (h : Z) (out_count : OutInt) (w : World K) (typEntity np : Z)
       (p : ptr) (h1 : Heap) (kres : Z) (dv : list double),
     wf_table (g_handles_2d w) (g_initialized_2d w) →
     (Mmg2d.validate_handle_2d h w).1 ≠ 0 →
     MMG2D_Get_solSize (mesh (entry_at (g_handles_2d w) h))
       (sol (entry_at (g_handles_2d w) h)) (kernel w)
     = (1, (typEntity, np, 1)) →
     np ≠ 0 →
     malloc (size_t (np * sizeof_double)) (heap w) = (p, h1) →
     MMG2D_Get_scalarSols (sol (entry_at (g_handles_2d w) h)) (kernel w)
     = (kres, dv) →
     let r := Mmg2d.mmg2d_get_scalar_sols h out_count w in
     (p = NULL ∨ kres ≠ 1 →
      r.1 = (NULL, store_out out_count 0) ∧
      live (heap r.2) = live (heap w)) ∧
     (p ≠ NULL ∧ kres = 1 →
      r.1 = (p, store_out out_count np) ∧
      live (heap w) !! p = None ∧
      bytes <$> live (heap r.2) !! p = Some (size_t (np * sizeof_double)) ∧
      delete p (live (heap r.2)) = live (heap w)) ∧
     supply (heap r.2) = supply h1 ∧
     r.2 = set_heap (heap r.2) w) ∧
  (∀ (h : Z) (out_count : OutInt) (w : World K) (typEntity np : Z)
       (p : ptr) (h1 : Heap) (kres : Z) (dv : list double),
     wf_table (g_handles_2d w) (g_initialized_2d w) →
     (Mmg2d.validate_handle_2d h w).1 ≠ 0 →
     MMG2D_Get_solSize (mesh (entry_at (g_handles_2d w) h))
       (sol (entry_at (g_handles_2d w) h)) (kernel w)
     = (1, (typEntity, np, 3)) →
     np ≠ 0 →
     malloc (size_t (np * 3 * sizeof_double)) (heap w) = (p, h1) →
     MMG2D_Get_tensorSols (sol (entry_at (g_handles_2d w) h)) (kernel w)
     = (kres, dv) →
     let r := Mmg2d.mmg2d_get_tensor_sols h out_count w in
     (p = NULL ∨ kres ≠ 1 →
      r.1 = (NULL, store_out out_count 0) ∧
      live (heap r.2) = live (heap w)) ∧
     (p ≠ NULL ∧ kres = 1 →
      r.1 = (p, store_out out_count np) ∧
      live (heap w) !! p = None ∧
      bytes <$> live (heap r.2) !! p
      = Some (size_t (np * 3 * sizeof_double)) ∧
      delete p (live (heap r.2)) = live (heap w)) ∧
     supply (heap r.2) = supply h1 ∧
     r.2 = set_heap (heap r.2) w) ∧
  (∀ (h : Z) (out_count : OutInt) (w : World K) (typEntity np : Z)
       (p : ptr) (h1 : Heap) (kres : Z) (dv : list double),
     wf_table (g_handles w) (g_initialized w) →
     (Mmg3d.validate_handle h w).1 ≠ 0 →
     MMG3D_Get_solSize (mesh (entry_at (g_handles w) h))
       (sol (entry_at (g_handles w) h)) (kernel w)
     = (1, (typEntity, np, 1)) →
     np ≠ 0 →
     malloc (size_t (np * sizeof_double)) (heap w) = (p, h1) →
     MMG3D_Get_scalarSols (sol (entry_at (g_handles w) h)) (kernel w)
     = (kres, dv) →
     let r := Mmg3d.mmg3d_get_scalar_sols h out_count w in
     (p = NULL ∨ kres ≠ 1 →
      r.1 = (NULL, store_out out_count 0) ∧
      live (heap r.2) = live (heap w)) ∧
     (p ≠ NULL ∧ kres = 1 →
      r.1 = (p, store_out out_count np) ∧
      live (heap w) !! p = None ∧
      bytes <$> live (heap r.2) !! p = Some (size_t (np * sizeof_double)) ∧
      delete p (live (heap r.2)) = live (heap w)) ∧
     supply (heap r.2) = supply h1 ∧
     r.2 = set_heap (heap r.2) w) ∧
  (∀ (h : Z) (out_count : OutInt) (w : World K) (typEntity np : Z)
       (p : ptr) (h1 : Heap) (kres : Z) (dv : list double),
     wf_table (g_handles w) (g_initialized w) →
     (Mmg3d.validate_handle h w).1 ≠ 0 →
     MMG3D_Get_solSize (mesh (entry_at (g_handles w) h))
       (sol (entry_at (g_handles w) h)) (kernel w)
     = (1, (typEntity, np, 3)) →
     np ≠ 0 →
     malloc (size_t (np * 6 * sizeof_double)) (heap w) = (p, h1) →
     MMG3D_Get_tensorSols (sol (entry_at (g_handles w) h)) (kernel w)
     = (kres, dv) →
     let r := Mmg3d.mmg3d_get_tensor_sols h out_count w in
     (p = NULL ∨ kres ≠ 1 →
      r.1 = (NULL, store_out out_count 0) ∧
      live (heap r.2) = live (heap w)) ∧
     (p ≠ NULL ∧ kres = 1 →
      r.1 = (p, store_out out_count np) ∧
      live (heap w) !! p = None ∧
      bytes <$> live (heap r.2) !! p
      = Some (size_t (np * 6 * sizeof_double)) ∧
      delete p (live (heap r.2)) = live (heap w)) ∧
     supply (heap r.2) = supply h1 ∧
     r.2 = set_heap (heap r.2) w) ∧
  (∀ (h : Z) (out_count : OutInt) (w : World K) (typEntity np : Z)
       (p : ptr) (h1 : Heap) (kres : Z) (dv : list double),
     wf_table (g_handles_s w) (g_initialized_s w) →
     (Mmgs.validate_handle_s h w).1 ≠ 0 →
     MMGS_Get_solSize (mesh (entry_at (g_handles_s w) h))
       (sol (entry_at (g_handles_s w) h)) (kernel w)
     = (1, (typEntity, np, 1)) →
     np ≠ 0 →
     malloc (size_t (np * sizeof_double)) (heap w) = (p, h1) →
     MMGS_Get_scalarSols (sol (entry_at (g_handles_s w) h)) (kernel w)
     = (kres, dv) →
     let r := Mmgs.mmgs_get_scalar_sols h out_count w in
     (p = NULL ∨ kres ≠ 1 →
      r.1 = (NULL, store_out out_count 0) ∧
      live (heap r.2) = live (heap w)) ∧
     (p ≠ NULL ∧ kres = 1 →
      r.1 = (p, store_out out_count np) ∧
      live (heap w) !! p = None ∧
      bytes <$> live (heap r.2) !! p = Some (size_t (np * sizeof_double)) ∧
      delete p (live (heap r.2)) = live (heap w)) ∧
     supply (heap r.2) = supply h1 ∧
     r.2 = set_heap (heap r.2) w) ∧
  (∀ (h : Z) (out_count : OutInt) (w : World K) (typEntity np : Z)
       (p : ptr) (h1 : Heap) (kres : Z) (dv : list double),
     wf_table (g_handles_s w) (g_initialized_s w) →
     (Mmgs.validate_handle_s h w).1 ≠ 0 →
     MMGS_Get_solSize (mesh (entry_at (g_handles_s w) h))
       (sol (entry_at (g_handles_s w) h)) (kernel w)
     = (1, (typEntity, np, 3)) →
     np ≠ 0 →
     malloc (size_t (np * 6 * sizeof_double)) (heap w) = (p, h1) →
     MMGS_Get_tensorSols (sol (entry_at (g_handles_s w) h)) (kernel w)
     = (kres, dv) →
     let r := Mmgs.mmgs_get_tensor_sols h out_count w in
     (p = NULL ∨ kres ≠ 1 →
      r.1 = (NULL, store_out out_count 0) ∧
      live (heap r.2) = live (heap w)) ∧
     (p ≠ NULL ∧ kres = 1 →
      r.1 = (p, store_out out_count np) ∧
      live (heap w) !! p = None ∧
      bytes <$> live (heap r.2) !! p
      = Some (size_t (np * 6 * sizeof_double)) ∧
      delete p (live (heap r.2)) = live (heap w)) ∧
     supply (heap r.2) = supply h1 ∧
     r.2 = set_heap (heap r.2) w).
Proof.
  refine (conj _ (conj _ (conj _ (conj _ (conj _ _))))).
  - intros h out_count w typEntity np p h1 kres dv Hwf Hv Hsz Hn Em Eget.
    eapply one_block_getter_paths; [exact Em |].
    by eapply get_scalar_sols_2d_run.
  - intros h out_count w typEntity np p h1 kres dv Hwf Hv Hsz Hn Em Eget.
    eapply one_block_getter_paths; [exact Em |].
    by eapply get_tensor_sols_2d_run.
  - intros h out_count w typEntity np p h1 kres dv Hwf Hv Hsz Hn Em Eget.
    eapply one_block_getter_paths; [exact Em |].
    by eapply get_scalar_sols_3d_run.
  - intros h out_count w typEntity np p h1 kres dv Hwf Hv Hsz Hn Em Eget.
    eapply one_block_getter_paths; [exact Em |].
    by eapply get_tensor_sols_3d_run.
  - intros h out_count w typEntity np p h1 kres dv Hwf Hv Hsz Hn Em Eget.
    eapply one_block_getter_paths; [exact Em |].
    by eapply get_scalar_sols_s_run.
  - intros h out_count w typEntity np p h1 kres dv Hwf Hv Hsz Hn Em Eget.
    eapply one_block_getter_paths; [exact Em |].
    by eapply get_tensor_sols_s_run.
Qed.

(** X10.  A bulk getter of vertices, triangles, edges or tetrahedra, on a
    valid handle whose mesh has entities of the kind, when each of its
    allocations succeeds and the kernel's getter returns 1: the pointer
    returned is the first block allocated, of the byte size the code
    asks for (the count times the number of components times the size
    of an element, in [size_t] arithmetic); it comes with the count, and
    cell [i] of the block holds element [i] of the array the kernel
    wrote, whatever was done to the side arrays. *)
Theorem X10_mesh_get_delivers :
  (∀ (h : Z) (out_count : OutInt) (w : World K) (np nt nquad na : Z)
       (ps : list ptr) (h' : Heap) (dv : list double) (dr dc dq : list Z),
     wf_table (g_handles_2d w) (g_initialized_2d w) →
     (Mmg2d.validate_handle_2d h w).1 ≠ 0 →
     MMG2D_Get_meshSize (mesh (entry_at (g_handles_2d w) h)) (kernel w)
     = (1, (np, nt, nquad, na)) →
     np ≠ 0 →
     malloc_seq
       [size_t (2 * np * sizeof_double); size_t (np * sizeof_MMG5_int);
        size_t (np * sizeof_int); size_t (np * sizeof_int)] (heap w)
     = Some (ps, h') →
     MMG2D_Get_vertices (mesh (entry_at (g_handles_2d w) h)) (kernel w)
     = (1, (dv, dr, dc, dq)) →
     let r := Mmg2d.mmg2d_get_vertices h out_count w in
     ∃ p, ps !! 0%nat = Some p ∧
       r.1 = (p, store_out out_count np) ∧
       bytes <$> live (heap r.2) !! p
       = Some (size_t (2 * np * sizeof_double)) ∧
       ∀ i x, dv !! i = Some x →
         load p (Z.of_nat i) (heap r.2) = Some (CDouble x)) ∧
  (∀ (h : Z) (out_count : OutInt) (w : World K) (np nt nquad na : Z)
       (ps : list ptr) (h' : Heap) (dt dr dq : list Z),
     wf_table (g_handles_2d w) (g_initialized_2d w) →
     (Mmg2d.validate_handle_2d h w).1 ≠ 0 →
     MMG2D_Get_meshSize (mesh (entry_at (g_handles_2d w) h)) (kernel w)
     = (1, (np, nt, nquad, na)) →
     nt ≠ 0 →
     malloc_seq
       [size_t (3 * nt * sizeof_MMG5_int); size_t (nt * sizeof_MMG5_int);
        size_t (nt * sizeof_int)] (heap w)
     = Some (ps, h') →
     MMG2D_Get_triangles (mesh (entry_at (g_handles_2d w) h)) (kernel w)
     = (1, (dt, dr, dq)) →
     let r := Mmg2d.mmg2d_get_triangles h out_count w in
     ∃ p, ps !! 0%nat = Some p ∧
       r.1 = (p, store_out out_count nt) ∧
       bytes <$> live (heap r.2) !! p
       = Some (size_t (3 * nt * sizeof_MMG5_int)) ∧
       ∀ i x, dt !! i = Some x →
         load p (Z.of_nat i) (heap r.2) = Some (CInt x)) ∧
  (∀ (h : Z) (out_count : OutInt) (w : World K) (np nt nquad na : Z)
       (ps : list ptr) (h' : Heap) (de dr dg dq : list Z),
     wf_table (g_handles_2d w) (g_initialized_2d w) →
     (Mmg2d.validate_handle_2d h w).1 ≠ 0 →
     MMG2D_Get_meshSize (mesh (entry_at (g_handles_2d w) h)) (kernel w)
     = (1, (np, nt, nquad, na)) →
     na ≠ 0 →
     malloc_seq
       [size_t (2 * na * sizeof_MMG5_int); size_t (na * sizeof_MMG5_int);
        size_t (na * sizeof_int); size_t (na * sizeof_int)] (heap w)
     = Some (ps, h') →
     MMG2D_Get_edges (mesh (entry_at (g_handles_2d w) h)) (kernel w)
     = (1, (de, dr, dg, dq)) →
     let r := Mmg2d.mmg2d_get_edges h out_count w in
     ∃ p, ps !! 0%nat = Some p ∧
       r.1 = (p, store_out out_count na) ∧
       bytes <$> live (heap r.2) !! p
       = Some (size_t (2 * na * sizeof_MMG5_int)) ∧
       ∀ i x, de !! i = Some x →
         load p (Z.of_nat i) (heap r.2) = Some (CInt x)) ∧
  (∀ (h : Z) (out_count : OutInt) (w : World K) (np ne nprism nt nquad na : Z)
       (ps : list ptr) (h' : Heap) (dv : list double) (dr dc dq : list Z),
     wf_table (g_handles w) (g_initialized w) →
     (Mmg3d.validate_handle h w).1 ≠ 0 →
     MMG3D_Get_meshSize (mesh (entry_at (g_handles w) h)) (kernel w)
     = (1, (np, ne, nprism, nt, nquad, na)) →
     np ≠ 0 →
     malloc_seq
       [size_t (3 * np * sizeof_double); size_t (np * sizeof_MMG5_int);
        size_t (np * sizeof_int); size_t (np * sizeof_int)] (heap w)
     = Some (ps, h') →
     MMG3D_Get_vertices (mesh (entry_at (g_handles w) h)) (kernel w)
     = (1, (dv, dr, dc, dq)) →
     let r := Mmg3d.mmg3d_get_vertices h out_count w in
     ∃ p, ps !! 0%nat = Some p ∧
       r.1 = (p, store_out out_count np) ∧
       bytes <$> live (heap r.2) !! p
       = Some (size_t (3 * np * sizeof_double)) ∧
       ∀ i x, dv !! i = Some x →
         load p (Z.of_nat i) (heap r.2) = Some (CDouble x)) ∧
  (∀ (h : Z) (out_count : OutInt) (w : World K) (np ne nprism nt nquad na : Z)
       (ps : list ptr) (h' : Heap) (dt dr dq : list Z),
     wf_table (g_handles w) (g_initialized w) →
     (Mmg3d.validate_handle h w).1 ≠ 0 →
     MMG3D_Get_meshSize (mesh (entry_at (g_handles w) h)) (kernel w)
     = (1, (np, ne, nprism, nt, nquad, na)) →
     ne ≠ 0 →
     malloc_seq
       [size_t (4 * ne * sizeof_MMG5_int); size_t (ne * sizeof_MMG5_int);
        size_t (ne * sizeof_int)] (heap w)
     = Some (ps, h') →
     MMG3D_Get_tetrahedra (mesh (entry_at (g_handles w) h)) (kernel w)
     = (1, (dt, dr, dq)) →
     let r := Mmg3d.mmg3d_get_tetrahedra h out_count w in
     ∃ p, ps !! 0%nat = Some p ∧
       r.1 = (p, store_out out_count ne) ∧
       bytes <$> live (heap r.2) !! p
       = Some (size_t (4 * ne * sizeof_MMG5_int)) ∧
       ∀ i x, dt !! i = Some x →
         load p (Z.of_nat i) (heap r.2) = Some (CInt x)) ∧
  (∀ (h : Z) (out_count : OutInt) (w : World K) (np ne nprism nt nquad na : Z)
       (ps : list ptr) (h' : Heap) (dt dr dq : list Z),
     wf_table (g_handles w) (g_initialized w) →
     (Mmg3d.validate_handle h w).1 ≠ 0 →
     MMG3D_Get_meshSize (mesh (entry_at (g_handles w) h)) (kernel w)
     = (1, (np, ne, nprism, nt, nquad, na)) →
     nt ≠ 0 →
     malloc_seq
       [size_t (3 * nt * sizeof_MMG5_int); size_t (nt * sizeof_MMG5_int);
        size_t (nt * sizeof_int)] (heap w)
     = Some (ps, h') →
     MMG3D_Get_triangles (mesh (entry_at (g_handles w) h)) (kernel w)
     = (1, (dt, dr, dq)) →
     let r := Mmg3d.mmg3d_get_triangles h out_count w in
     ∃ p, ps !! 0%nat = Some p ∧
       r.1 = (p, store_out out_count nt) ∧
       bytes <$> live (heap r.2) !! p
       = Some (size_t (3 * nt * sizeof_MMG5_int)) ∧
       ∀ i x, dt !! i = Some x →
         load p (Z.of_nat i) (heap r.2) = Some (CInt x)) ∧
  (∀ (h : Z) (out_count : OutInt) (w : World K) (np nt na : Z)
       (ps : list ptr) (h' : Heap) (dv : list double) (dr dc dq : list Z),
     wf_table (g_handles_s w) (g_initialized_s w) →
     (Mmgs.validate_handle_s h w).1 ≠ 0 →
     MMGS_Get_meshSize (mesh (entry_at (g_handles_s w) h)) (kernel w)
     = (1, (np, nt, na)) →
     np ≠ 0 →
     malloc_seq
       [size_t (3 * np * sizeof_double); size_t (np * sizeof_MMG5_int);
        size_t (np * sizeof_int); size_t (np * sizeof_int)] (heap w)
     = Some (ps, h') →
     MMGS_Get_vertices (mesh (entry_at (g_handles_s w) h)) (kernel w)
     = (1, (dv, dr, dc, dq)) →
     let r := Mmgs.mmgs_get_vertices h out_count w in
     ∃ p, ps !! 0%nat = Some p ∧
       r.1 = (p, store_out out_count np) ∧
       bytes <$> live (heap r.2) !! p
       = Some (size_t (3 * np * sizeof_double)) ∧
       ∀ i x, dv !! i = Some x →
         load p (Z.of_nat i) (heap r.2) = Some (CDouble x)) ∧
  (∀ (h : Z) (out_count : OutInt) (w : World K) (np nt na : Z)
       (ps : list ptr) (h' : Heap) (dt dr dq : list Z),
     wf_table (g_handles_s w) (g_initialized_s w) →
     (Mmgs.validate_handle_s h w).1 ≠ 0 →
     MMGS_Get_meshSize (mesh (entry_at (g_handles_s w) h)) (kernel w)
     = (1, (np, nt, na)) →
     nt ≠ 0 →
     malloc_seq
       [size_t (3 * nt * sizeof_MMG5_int); size_t (nt * sizeof_MMG5_int);
        size_t (nt * sizeof_int)] (heap w)
     = Some (ps, h') →
     MMGS_Get_triangles (mesh (entry_at (g_handles_s w) h)) (kernel w)
     = (1, (dt, dr, dq)) →
     let r := Mmgs.mmgs_get_triangles h out_count w in
     ∃ p, ps !! 0%nat = Some p ∧
       r.1 = (p, store_out out_count nt) ∧
       bytes <$> live (heap r.2) !! p
       = Some (size_t (3 * nt * sizeof_MMG5_int)) ∧
       ∀ i x, dt !! i = Some x →
         load p (Z.of_nat i) (heap r.2) = Some (CInt x)) ∧
  (∀ (h : Z) (out_count : OutInt) (w : World K) (np nt na : Z)
       (ps : list ptr) (h' : Heap) (de dr dg dq : list Z),
     wf_table (g_handles_s w) (g_initialized_s w) →
     (Mmgs.validate_handle_s h w).1 ≠ 0 →
     MMGS_Get_meshSize (mesh (entry_at (g_handles_s w) h)) (kernel w)
     = (1, (np, nt, na)) →
     na ≠ 0 →
     malloc_seq
       [size_t (2 * na * sizeof_MMG5_int); size_t (na * sizeof_MMG5_int);
        size_t (na * sizeof_int); size_t (na * sizeof_int)] (heap w)
     = Some (ps, h') →
     MMGS_Get_edges (mesh (entry_at (g_handles_s w) h)) (kernel w)
     = (1, (de, dr, dg, dq)) →
     let r := Mmgs.mmgs_get_edges h out_count w in
     ∃ p, ps !! 0%nat = Some p ∧
       r.1 = (p, store_out out_count na) ∧
       bytes <$> live (heap r.2) !! p
       = Some (size_t (2 * na * sizeof_MMG5_int)) ∧
       ∀ i x, de !! i = Some x →
         load p (Z.of_nat i) (heap r.2) = Some (CInt x)).
Proof.
  refine (conj _ (conj _ (conj _ (conj _ (conj _ (conj _ (conj _ (conj _ _)))))))).
  - intros. by eapply get_vertices_2d_delivers.
  - intros. by eapply get_triangles_2d_delivers.
  - intros. by eapply get_edges_2d_delivers.
  - intros. by eapply get_vertices_3d_delivers.
  - intros. by eapply get_tetrahedra_3d_delivers.
  - intros. by eapply get_triangles_3d_delivers.
  - intros. by eapply get_vertices_s_delivers.
  - intros. by eapply get_triangles_s_delivers.
  - intros. by eapply get_edges_s_delivers.
Qed.

(** X11.  A bulk getter of the solution, on a valid handle whose
    solution is of its type and not empty, when its allocation succeeds
    and the kernel's getter returns 1: the pointer returned is the block
    allocated, of the byte size the code asks for; it comes with the
    count [np], and cell [i] of the block holds value [i] of the array
    the kernel wrote. *)
Theorem X11_solution_get_delivers :
  (∀ (h : Z) (out_count : OutInt) (w : World K) (typEntity np : Z)
       (ps : list ptr) (h' : Heap) (dv : list double),
     wf_table (g_handles_2d w) (g_initialized_2d w) →
     (Mmg2d.validate_handle_2d h w).1 ≠ 0 →
     MMG2D_Get_solSize (mesh (entry_at (g_handles_2d w) h))
       (sol (entry_at (g_handles_2d w) h)) (kernel w)
     = (1, (typEntity, np, 1)) →
     np ≠ 0 →
     malloc_seq [size_t (np * sizeof_double)] (heap w) = Some (ps, h') →
     MMG2D_Get_scalarSols (sol (entry_at (g_handles_2d w) h)) (kernel w)
     = (1, dv) →
     let r := Mmg2d.mmg2d_get_scalar_sols h out_count w in
     ∃ p, ps !! 0%nat = Some p ∧
       r.1 = (p, store_out out_count np) ∧
       bytes <$> live (heap r.2) !! p = Some (size_t (np * sizeof_double)) ∧
       ∀ i x, dv !! i = Some x →
         load p (Z.of_nat i) (heap r.2) = Some (CDouble x)) ∧
  (∀ (h : Z) (out_count : OutInt) (w : World K) (typEntity np : Z)
       (ps : list ptr) (h' : Heap) (dv : list double),
     wf_table (g_handles_2d w) (g_initialized_2d w) →
     (Mmg2d.validate_handle_2d h w).1 ≠ 0 →
     MMG2D_Get_solSize (mesh (entry_at (g_handles_2d w) h))
       (sol (entry_at (g_handles_2d w) h)) (kernel w)
     = (1, (typEntity, np, 3)) →
     np ≠ 0 →
     malloc_seq [size_t (np * 3 * sizeof_double)] (heap w) = Some (ps, h') →
     MMG2D_Get_tensorSols (sol (entry_at (g_handles_2d w) h)) (kernel w)
     = (1, dv) →
     let r := Mmg2d.mmg2d_get_tensor_sols h out_count w in
     ∃ p, ps !! 0%nat = Some p ∧
       r.1 = (p, store_out out_count np) ∧
       bytes <$> live (heap r.2) !! p = Some (size_t (np * 3 * sizeof_double)) ∧
       ∀ i x, dv !! i = Some x →
         load p (Z.of_nat i) (heap r.2) = Some (CDouble x)) ∧
  (∀ (h : Z) (out_count : OutInt) (w : World K) (typEntity np : Z)
       (ps : list ptr) (h' : Heap) (dv : list double),
     wf_table (g_handles w) (g_initialized w) →
     (Mmg3d.validate_handle h w).1 ≠ 0 →
     MMG3D_Get_solSize (mesh (entry_at (g_handles w) h))
       (sol (entry_at (g_handles w) h)) (kernel w)
     = (1, (typEntity, np, 1)) →
     np ≠ 0 →
     malloc_seq [size_t (np * sizeof_double)] (heap w) = Some (ps, h') →
     MMG3D_Get_scalarSols (sol (entry_at (g_handles w) h)) (kernel w)
     = (1, dv) →
     let r := Mmg3d.mmg3d_get_scalar_sols h out_count w in
     ∃ p, ps !! 0%nat = Some p ∧
       r.1 = (p, store_out out_count np) ∧
       bytes <$> live (heap r.2) !! p = Some (size_t (np * sizeof_double)) ∧
       ∀ i x, dv !! i = Some x →
         load p (Z.of_nat i) (heap r.2) = Some (CDouble x)) ∧
  (∀ (h : Z) (out_count : OutInt) (w : World K) (typEntity np : Z)
       (ps : list ptr) (h' : Heap) (dv : list double),
     wf_table (g_handles w) (g_initialized w) →
     (Mmg3d.validate_handle h w).1 ≠ 0 →
     MMG3D_Get_solSize (mesh (entry_at (g_handles w) h))
       (sol (entry_at (g_handles w) h)) (kernel w)
     = (1, (typEntity, np, 3)) →
     np ≠ 0 →
     malloc_seq [size_t (np * 6 * sizeof_double)] (heap w) = Some (ps, h') →
     MMG3D_Get_tensorSols (sol (entry_at (g_handles w) h)) (kernel w)
     = (1, dv) →
     let r := Mmg3d.mmg3d_get_tensor_sols h out_count w in
     ∃ p, ps !! 0%nat = Some p ∧
       r.1 = (p, store_out out_count np) ∧
       bytes <$> live (heap r.2) !! p = Some (size_t (np * 6 * sizeof_double)) ∧
       ∀ i x, dv !! i = Some x →
         load p (Z.of_nat i) (heap r.2) = Some (CDouble x)) ∧
  (∀ (h : Z) (out_count : OutInt) (w : World K) (typEntity np : Z)
       (ps : list ptr) (h' : Heap) (dv : list double),
     wf_table (g_handles_s w) (g_initialized_s w) →
     (Mmgs.validate_handle_s h w).1 ≠ 0 →
     MMGS_Get_solSize (mesh (entry_at (g_handles_s w) h))
       (sol (entry_at (g_handles_s w) h)) (kernel w)
     = (1, (typEntity, np, 1)) →
     np ≠ 0 →
     malloc_seq [size_t (np * sizeof_double)] (heap w) = Some (ps, h') →
     MMGS_Get_scalarSols (sol (entry_at (g_handles_s w) h)) (kernel w)
     = (1, dv) →
     let r := Mmgs.mmgs_get_scalar_sols h out_count w in
     ∃ p, ps !! 0%nat = Some p ∧
       r.1 = (p, store_out out_count np) ∧
       bytes <$> live (heap r.2) !! p = Some (size_t (np * sizeof_double)) ∧
       ∀ i x, dv !! i = Some x →
         load p (Z.of_nat i) (heap r.2) = Some (CDouble x)) ∧
  (∀ (h : Z) (out_count : OutInt) (w : World K) (typEntity np : Z)
       (ps : list ptr) (h' : Heap) (dv : list double),
     wf_table (g_handles_s w) (g_initialized_s w) →
     (Mmgs.validate_handle_s h w).1 ≠ 0 →
     MMGS_Get_solSize (mesh (entry_at (g_handles_s w) h))
       (sol (entry_at (g_handles_s w) h)) (kernel w)
     = (1, (typEntity, np, 3)) →
     np ≠ 0 →
     malloc_seq [size_t (np * 6 * sizeof_double)] (heap w) = Some (ps, h') →
     MMGS_Get_tensorSols (sol (entry_at (g_handles_s w) h)) (kernel w)
     = (1, dv) →
     let r := Mmgs.mmgs_get_tensor_sols h out_count w in
     ∃ p, ps !! 0%nat = Some p ∧
       r.1 = (p, store_out out_count np) ∧
       bytes <$> live (heap r.2) !! p = Some (size_t (np * 6 * sizeof_double)) ∧
       ∀ i x, dv !! i = Some x →
         load p (Z.of_nat i) (heap r.2) = Some (CDouble x)).
Proof.
  refine (conj _ (conj _ (conj _ (conj _ (conj _ _))))).
  - intros. by eapply get_scalar_sols_2d_delivers.
  - intros. by eapply get_tensor_sols_2d_delivers.
  - intros. by eapply get_scalar_sols_3d_delivers.
  - intros. by eapply get_tensor_sols_3d_delivers.
  - intros. by eapply get_scalar_sols_s_delivers.
  - intros. by eapply get_tensor_sols_s_delivers.
Qed.

(** X12.  Whatever a bulk getter (of vertices, triangles, edges,
    tetrahedra, of the solution, of the qualities) is called with, valid
    handle or not, allocations failing or not: it leaves behind at most
    the block it returns.  With [NULL] the live blocks are those of
    before the call; with a pointer they are those of before and the new
    block.  Handing the result to [free_array] restores the live blocks
    of before the call; [free_array(NULL)] does nothing. *)
Theorem X12_get_then_free_array_restores :
  (∀ (c : Mmg2d.call) (w : World K),
     wf_table (g_handles_2d w) (g_initialized_2d w) →
     bulk_getter_2d c = true →
     ∃ p n, (Mmg2d.exec c w).1 = RBuf p n ∧
       leaves_only (heap w) p (heap (Mmg2d.exec c w).2) ∧
       live (heap (Mmg2d.mmg2d_free_array p (Mmg2d.exec c w).2).2)
       = live (heap w)) ∧
  (∀ w : World K, Mmg2d.mmg2d_free_array NULL w = (tt, w)) ∧
  (∀ (c : Mmg3d.call) (w : World K),
     wf_table (g_handles w) (g_initialized w) →
     bulk_getter_3d c = true →
     ∃ p n, (Mmg3d.exec c w).1 = RBuf p n ∧
       leaves_only (heap w) p (heap (Mmg3d.exec c w).2) ∧
       live (heap (Mmg3d.mmg3d_free_array p (Mmg3d.exec c w).2).2)
       = live (heap w)) ∧
  (∀ w : World K, Mmg3d.mmg3d_free_array NULL w = (tt, w)) ∧
  (∀ (c : Mmgs.call) (w : World K),
     wf_table (g_handles_s w) (g_initialized_s w) →
     bulk_getter_s c = true →
     ∃ p n, (Mmgs.exec c w).1 = RBuf p n ∧
       leaves_only (heap w) p (heap (Mmgs.exec c w).2) ∧
       live (heap (Mmgs.mmgs_free_array p (Mmgs.exec c w).2).2)
       = live (heap w)) ∧
  (∀ w : World K, Mmgs.mmgs_free_array NULL w = (tt, w)).
Proof.
  refine (conj _ (conj _ (conj _ (conj _ (conj _ _))))).
  - intros c w Hwf Hc.
    destruct (exec_2d_leaves c w Hwf Hc) as (p & n & E & L).
    exists p, n. split_and!; [done | done |].
    rewrite free_array_2d_eq. cbn [snd]. wp_simpl.
    by apply leaves_only_free.
  - intros w. rewrite free_array_2d_eq, free_NULL. by destruct w.
  - intros c w Hwf Hc.
    destruct (exec_3d_leaves c w Hwf Hc) as (p & n & E & L).
    exists p, n. split_and!; [done | done |].
    rewrite free_array_3d_eq. cbn [snd]. wp_simpl.
    by apply leaves_only_free.
  - intros w. rewrite free_array_3d_eq, free_NULL. by destruct w.
  - intros c w Hwf Hc.
    destruct (exec_s_leaves c w Hwf Hc) as (p & n & E & L).
    exists p, n. split_and!; [done | done |].
    rewrite free_array_s_eq. cbn [snd]. wp_simpl.
    by apply leaves_only_free.
  - intros w. rewrite free_array_s_eq, free_NULL. by destruct w.
Qed.

(** X13.  Only the bulk getters and [free_array] use the allocator:
    every other entry point ([init], [free], the setters, the size
    queries, the parameters, the remesher, the file operations, the
    single quality) leaves the memory exactly as it was, whatever it is
    called with. *)
Theorem X13_allocator_used_by_getters_only :
  (∀ (c : Mmg2d.call) (w : World K),
     uses_heap_2d c = false → heap (Mmg2d.exec c w).2 = heap w) ∧
  (∀ (c : Mmg3d.call) (w : World K),
     uses_heap_3d c = false → heap (Mmg3d.exec c w).2 = heap w) ∧
  (∀ (c : Mmgs.call) (w : World K),
     uses_heap_s c = false → heap (Mmgs.exec c w).2 = heap w).
Proof.
  refine (conj _ (conj _ _)).
  - intros c w Hc. by apply exec_2d_heap.
  - intros c w Hc. by apply exec_3d_heap.
  - intros c w Hc. by apply exec_s_heap.
Qed.

(** X14.  The instance the kernel constructs for an [init] that hands
    out a handle stays bound to the handle through every sequence of
    calls without the [free] of that handle, and the operations called
    with the handle reach it: the remesher, [set_mesh_size] and the
    single quality pass exactly these pointers to the kernel, and [free]
    asks the kernel to release them. *)
Theorem X14_handle_reaches_its_instance :
  (∀ (w : World K) (m s : ptr) (k1 : K) (cs : list Mmg2d.call),
     wf_table (g_handles_2d w) (g_initialized_2d w) →
     MMG2D_Init_mesh (kernel w) = ((1, m, s), k1) → m ≠ NULL →
     let h := (Mmg2d.mmg2d_init w).1 in
     h ≠ -1 → (Mmg2d.Free h ∉ cs) →
     let w' := (Mmg2d.run cs (Mmg2d.mmg2d_init w).2).2 in
     entry_at (g_handles_2d w') h = mkEntry m s 1 ∧
     Mmg2d.mmg2d_remesh h w' = kcall (MMG2D_mmg2dlib m s) w' ∧
     (∀ np nt nquad na,
        Mmg2d.mmg2d_set_mesh_size h np nt nquad na w'
        = kcall (MMG2D_Set_meshSize m np nt nquad na) w') ∧
     (∀ j, Mmg2d.mmg2d_get_triangle_quality h j w'
           = (MMG2D_Get_triangleQuality m s j (kernel w'), w')) ∧
     kernel (Mmg2d.mmg2d_free h w').2 = MMG2D_Free_all m s (kernel w')) ∧
  (∀ (w : World K) (m s : ptr) (k1 : K) (cs : list Mmg3d.call),
     wf_table (g_handles w) (g_initialized w) →
     MMG3D_Init_mesh (kernel w) = ((1, m, s), k1) → m ≠ NULL →
     let h := (Mmg3d.mmg3d_init w).1 in
     h ≠ -1 → (Mmg3d.Free h ∉ cs) →
     let w' := (Mmg3d.run cs (Mmg3d.mmg3d_init w).2).2 in
     entry_at (g_handles w') h = mkEntry m s 1 ∧
     Mmg3d.mmg3d_remesh h w' = kcall (MMG3D_mmg3dlib m s) w' ∧
     (∀ np ne nprism nt nquad na,
        Mmg3d.mmg3d_set_mesh_size h np ne nprism nt nquad na w'
        = kcall (MMG3D_Set_meshSize m np ne nprism nt nquad na) w') ∧
     (∀ j, Mmg3d.mmg3d_get_tetrahedron_quality h j w'
           = (MMG3D_Get_tetrahedronQuality m s j (kernel w'), w')) ∧
     kernel (Mmg3d.mmg3d_free h w').2 = MMG3D_Free_all m s (kernel w')) ∧
  (∀ (w : World K) (m s : ptr) (k1 : K) (cs : list Mmgs.call),
     wf_table (g_handles_s w) (g_initialized_s w) →
     MMGS_Init_mesh (kernel w) = ((1, m, s), k1) → m ≠ NULL →
     let h := (Mmgs.mmgs_init w).1 in
     h ≠ -1 → (Mmgs.Free h ∉ cs) →
     let w' := (Mmgs.run cs (Mmgs.mmgs_init w).2).2 in
     entry_at (g_handles_s w') h = mkEntry m s 1 ∧
     Mmgs.mmgs_remesh h w' = kcall (MMGS_mmgslib m s) w' ∧
     (∀ np nt na,
        Mmgs.mmgs_set_mesh_size h np nt na w'
        = kcall (MMGS_Set_meshSize m np nt na) w') ∧
     (∀ j, Mmgs.mmgs_get_triangle_quality h j w'
           = (MMGS_Get_triangleQuality m s j (kernel w'), w')) ∧
     kernel (Mmgs.mmgs_free h w').2 = MMGS_Free_all m s (kernel w')).
Proof.
  refine (conj _ (conj _ _)).
  - intros w m s k1 cs Hwf E Hm. cbv zeta. intros Hne Hcs.
    destruct (binding_2d_lasts w m s k1 cs Hwf E Hm Hne Hcs)
      as (Hwf' & Hv & He).
    assert ((Mmg2d.validate_handle_2d (Mmg2d.mmg2d_init w).1
               (Mmg2d.run cs (Mmg2d.mmg2d_init w).2).2).1 ≠ 0) as Hv'
      by (rewrite Hv; done).
    refine (conj _ (conj _ (conj _ (conj _ _)))).
    + done.
    + rewrite remesh_2d_valid by done. by rewrite He.
    + intros. rewrite set_mesh_size_2d_valid by done. by rewrite He.
    + intros j. rewrite quality_2d_valid by done. by rewrite He.
    + destruct (free_2d_outcome (Mmg2d.mmg2d_init w).1 _ Hwf') as [_ Ho].
      cbv zeta in Ho. rewrite <- validate_2d_wf, Hv in Ho by done.
      simpl in Ho. destruct Ho as (_ & _ & ->). by rewrite He.
  - intros w m s k1 cs Hwf E Hm. cbv zeta. intros Hne Hcs.
    destruct (binding_3d_lasts w m s k1 cs Hwf E Hm Hne Hcs)
      as (Hwf' & Hv & He).
    assert ((Mmg3d.validate_handle (Mmg3d.mmg3d_init w).1
               (Mmg3d.run cs (Mmg3d.mmg3d_init w).2).2).1 ≠ 0) as Hv'
      by (rewrite Hv; done).
    refine (conj _ (conj _ (conj _ (conj _ _)))).
    + done.
    + rewrite remesh_3d_valid by done. by rewrite He.
    + intros. rewrite set_mesh_size_3d_valid by done. by rewrite He.
    + intros j. rewrite quality_3d_valid by done. by rewrite He.
    + destruct (free_3d_outcome (Mmg3d.mmg3d_init w).1 _ Hwf') as [_ Ho].
      cbv zeta in Ho. rewrite <- validate_3d_wf, Hv in Ho by done.
      simpl in Ho. destruct Ho as (_ & _ & ->). by rewrite He.
  - intros w m s k1 cs Hwf E Hm. cbv zeta. intros Hne Hcs.
    destruct (binding_s_lasts w m s k1 cs Hwf E Hm Hne Hcs)
      as (Hwf' & Hv & He).
    assert ((Mmgs.validate_handle_s (Mmgs.mmgs_init w).1
               (Mmgs.run cs (Mmgs.mmgs_init w).2).2).1 ≠ 0) as Hv'
      by (rewrite Hv; done).
    refine (conj _ (conj _ (conj _ (conj _ _)))).
    + done.
    + rewrite remesh_s_valid by done. by rewrite He.
    + intros. rewrite set_mesh_size_s_valid by done. by rewrite He.
    + intros j. rewrite quality_s_valid by done. by rewrite He.
    + destruct (free_s_outcome (Mmgs.mmgs_init w).1 _ Hwf') as [_ Ho].
      cbv zeta in Ho. rewrite <- validate_s_wf, Hv in Ho by done.
      simpl in Ho. destruct Ho as (_ & _ & ->). by rewrite He.
Qed.

(** X16.  From the start of the program, [n] calls of [init] in a row
    that each hand out a handle return 0, 1, ..., [n - 1] in this
    order. *)
Theorem X16_handles_in_order_of_creation :
  (∀ (n : nat) (hp : Heap) (k : K),
     let r := Mmg2d.run (replicate n Mmg2d.Init) (boot hp k) in
     (∀ x, x ∈ r.1 → x ≠ RInt (-1)) →
     r.1 = RInt <$> seqZ 0 (Z.of_nat n)) ∧
  (∀ (n : nat) (hp : Heap) (k : K),
     let r := Mmg3d.run (replicate n Mmg3d.Init) (boot hp k) in
     (∀ x, x ∈ r.1 → x ≠ RInt (-1)) →
     r.1 = RInt <$> seqZ 0 (Z.of_nat n)) ∧
  (∀ (n : nat) (hp : Heap) (k : K),
     let r := Mmgs.run (replicate n Mmgs.Init) (boot hp k) in
     (∀ x, x ∈ r.1 → x ≠ RInt (-1)) →
     r.1 = RInt <$> seqZ 0 (Z.of_nat n)).
Proof.
  refine (conj _ (conj _ _)).
  - intros n hp k. cbv zeta. intros Hok.
    apply run_inits_2d_order;
      [apply wf_table_boot | lia | apply prefix_full_memset | done].
  - intros n hp k. cbv zeta. intros Hok.
    apply run_inits_3d_order;
      [apply wf_table_boot | lia | apply prefix_full_memset | done].
  - intros n hp k. cbv zeta. intros Hok.
    apply run_inits_s_order;
      [apply wf_table_boot | lia | apply prefix_full_memset | done].
Qed.

(** X17.  From the start of the program, after every sequence of calls
    to the entry points of a file, what [get_available_handles] reads is
    the capacity, less the calls of [init] that handed out a handle,
    plus the calls of [free] that returned 1. *)
Theorem X17_available_handles_account :
  (∀ (cs : list Mmg2d.call) (hp : Heap) (k : K),
     let r := Mmg2d.run cs (boot hp k) in
     (Mmg2d.mmg2d_get_available_handles r.2).1
     = MAX_HANDLES - issued_2d cs r.1 + released_2d cs r.1) ∧
  (∀ (cs : list Mmg3d.call) (hp : Heap) (k : K),
     let r := Mmg3d.run cs (boot hp k) in
     (Mmg3d.mmg3d_get_available_handles r.2).1
     = MAX_HANDLES - issued_3d cs r.1 + released_3d cs r.1) ∧
  (∀ (cs : list Mmgs.call) (hp : Heap) (k : K),
     let r := Mmgs.run cs (boot hp k) in
     (Mmgs.mmgs_get_available_handles r.2).1
     = MAX_HANDLES - issued_s cs r.1 + released_s cs r.1).
Proof.
  refine (conj _ (conj _ _)).
  - intros cs hp k. cbv zeta.
    rewrite run_2d_account by apply wf_table_boot.
    rewrite (available_2d_wf (boot hp k)) by apply wf_table_boot.
    cbn [boot g_handles_2d]. by rewrite free_count_memset.
  - intros cs hp k. cbv zeta.
    rewrite run_3d_account by apply wf_table_boot.
    rewrite (available_3d_wf (boot hp k)) by apply wf_table_boot.
    cbn [boot g_handles]. by rewrite free_count_memset.
  - intros cs hp k. cbv zeta.
    rewrite run_s_account by apply wf_table_boot.
    rewrite (available_s_wf (boot hp k)) by apply wf_table_boot.
    cbn [boot g_handles_s]. by rewrite free_count_memset.
Qed.

(** X15.  The self-test [mmg_test_init] of [stub.c] returns 1 when
    the kernel constructs an instance (result 1 and a mesh other than
    [NULL]) and 0 otherwise.  It takes no handle: the three tables and
    the memory are as before, so every handle keeps its validity and
    [get_available_handles] reads the same.  The instance it
    constructed is released before it returns. *)
Theorem X15_self_test_takes_no_handle (w : World K) :
  let r := Stub.mmg_test_init w in
  (r.1 = 1 ↔
   (MMG3D_Init_mesh (kernel w)).1.1.1 = 1 ∧
   (MMG3D_Init_mesh (kernel w)).1.1.2 ≠ NULL) ∧
  (r.1 = 0 ∨ r.1 = 1) ∧
  tables_2d r.2 = tables_2d w ∧ tables_3d r.2 = tables_3d w ∧
  tables_s r.2 = tables_s w ∧ heap r.2 = heap w ∧
  (∀ h, (Mmg3d.validate_handle h r.2).1 = (Mmg3d.validate_handle h w).1) ∧
  (Mmg3d.mmg3d_get_available_handles r.2).1
  = (Mmg3d.mmg3d_get_available_handles w).1 ∧
  (r.1 = 1 →
   kernel r.2
   = (let '((_, m, s), k1) := MMG3D_Init_mesh (kernel w) in
      MMG3D_Free_all m s (MMG3D_Init_parameters m k1))).
Proof.
  cbv zeta. pose proof (test_init_outcome w) as Ho.
  destruct (MMG3D_Init_mesh (kernel w)) as [[[res m] s] k1]. cbv zeta in Ho.
  destruct Ho as (E2 & E3 & Es & Eh & Ho). cbn [fst snd].
  destruct (reads_3d (Stub.mmg_test_init w).2 w E3) as [Hval Hav].
  assert (((Stub.mmg_test_init w).1 = 1 ↔ res = 1 ∧ m ≠ NULL)
          ∧ ((Stub.mmg_test_init w).1 = 0 ∨ (Stub.mmg_test_init w).1 = 1)
          ∧ ((Stub.mmg_test_init w).1 = 1 →
             kernel (Stub.mmg_test_init w).2
             = MMG3D_Free_all m s (MMG3D_Init_parameters m k1)))
    as (H1 & H2 & H3).
  { destruct (negb (res =? 1) || (m =? NULL)) eqn:Hc;
      destruct Ho as [Hr Hk]; rewrite Hr.
    - apply orb_true_iff in Hc.
      rewrite negb_true_iff, Z.eqb_neq, Z.eqb_eq in Hc.
      split_and!; [| by left | done].
      split; [done |]. intros [? ?]. by destruct Hc.
    - apply orb_false_elim in Hc as [Hc1 Hc2].
      apply negb_false_iff, Z.eqb_eq in Hc1. apply Z.eqb_neq in Hc2.
      split_and!; [done | by right | done]. }
  split_and!; done.
Qed.
End Extras.

(** ** The statements on the small kernel *)

(** A hypothesis on a world that was computed. *)
Ltac toy_hyp :=
  first [ toy_wf | reflexivity | by vm_compute | lia | discriminate
        | not_in_calls | all_handles ].

(** X1 on the small kernel: declaring the sizes of the mesh of handle 0. *)
Lemma X1_table_changes_with_init_and_free_only_witness :
  let c := Mmg2d.Set_mesh_size 0 4 2 0 4 in
  let w := fresh_2d in
  (wf_table (g_handles_2d w) (g_initialized_2d w)) ∧
  (lifecycle_2d c = false) ∧
  (g_handles_2d (Mmg2d.exec c w).2 = g_handles_2d w).
Proof.
  intros c w.
  split; [toy_hyp |].
  split; [toy_hyp |].
  eapply ((proj1 (@X1_table_changes_with_init_and_free_only ToyK _ _ _)) c
      w);
    [toy_hyp | toy_hyp].
Defined.

(** X2 on the small kernel: the one handle in use is freed. *)
Lemma X2_free_releases_its_slot_only_witness :
  let h := 0 in
  let w := fresh_2d in
  let t := g_handles_2d w in
  let r := Mmg2d.mmg2d_free h w in
  (wf_table (g_handles_2d w) (g_initialized_2d w)) ∧
  (heap r.2 = heap w ∧
     ((r.1 = 0 ∧ (Mmg2d.validate_handle_2d h w).1 = 0 ∧
       g_handles_2d r.2 = t ∧ kernel r.2 = kernel w) ∨
      (r.1 = 1 ∧ (Mmg2d.validate_handle_2d h w).1 ≠ 0 ∧
       entry_at (g_handles_2d r.2) h = zero_entry ∧
       (∀ j, 0 ≤ j → j ≠ h →
          entry_at (g_handles_2d r.2) j = entry_at t j) ∧
       kernel r.2
       = MMG2D_Free_all (mesh (entry_at t h)) (sol (entry_at t h))
           (kernel w)))).
Proof.
  intros h w t r.
  subst t r.
  split; [toy_hyp |].
  eapply ((proj1 (@X2_free_releases_its_slot_only ToyK _ _ _)) h w);
    [toy_hyp..].
Defined.

(** X3 on the small kernel: a second [init] while the handle 0 is valid. *)
Lemma X3_init_spares_handles_in_use_witness :
  let h := 0 in
  let w := fresh_2d in
  (wf_table (g_handles_2d w) (g_initialized_2d w)) ∧
  ((Mmg2d.validate_handle_2d h w).1 ≠ 0) ∧
  ((Mmg2d.mmg2d_init w).1 ≠ h ∧
     entry_at (g_handles_2d (Mmg2d.mmg2d_init w).2) h
     = entry_at (g_handles_2d w) h ∧
     (Mmg2d.validate_handle_2d h (Mmg2d.mmg2d_init w).2).1
     = (Mmg2d.validate_handle_2d h w).1).
Proof.
  intros h w.
  split; [toy_hyp |].
  split; [toy_hyp |].
  eapply ((proj1 (@X3_init_spares_handles_in_use ToyK _ _ _)) h w);
    [toy_hyp | toy_hyp].
Defined.

(** X4 on the small kernel: from a table with one handle in use. *)
Lemma X4_available_handles_steps_witness :
  let w := fresh_2d in
  (wf_table (g_handles_2d w) (g_initialized_2d w)) ∧
  ((Mmg2d.mmg2d_get_available_handles (Mmg2d.mmg2d_init w).2).1
     = (Mmg2d.mmg2d_get_available_handles w).1
       - (if (Mmg2d.mmg2d_init w).1 =? -1 then 0 else 1) ∧
     ∀ h, (Mmg2d.mmg2d_get_available_handles (Mmg2d.mmg2d_free h w).2).1
          = (Mmg2d.mmg2d_get_available_handles w).1
            + (Mmg2d.mmg2d_free h w).1).
Proof.
  intros w.
  split; [toy_hyp |].
  eapply ((proj1 (@X4_available_handles_steps ToyK _ _ _)) w);
    [toy_hyp..].
Defined.

(** X5 on the small kernel: the handle 0 is freed and handed out again. *)
Lemma X5_freed_handle_is_reused_witness :
  let h := 0 in
  let w := fresh_2d in
  let w1 := (Mmg2d.mmg2d_free h w).2 in
  let r := (Mmg2d.mmg2d_init w1).1 in
  (wf_table (g_handles_2d w) (g_initialized_2d w)) ∧
  ((Mmg2d.mmg2d_free h w).1 = 1) ∧
  ((r = -1 ∨ 0 ≤ r ≤ h) ∧
     (∀ m s k1, MMG2D_Init_mesh (kernel w1) = ((1, m, s), k1) →
        m ≠ NULL → 0 ≤ r ≤ h) ∧
     ((∀ j, 0 ≤ j < h → (Mmg2d.validate_handle_2d j w).1 ≠ 0) →
      r ≠ -1 → r = h)).
Proof.
  intros h w w1 r.
  subst w1 r.
  split; [toy_hyp |].
  split; [toy_hyp |].
  eapply ((proj1 (@X5_freed_handle_is_reused ToyK _ _ _)) h w);
    [toy_hyp | toy_hyp].
Defined.

(** X8 on the small kernel: the sizes of the square, with no cell for
    the quadrilaterals. *)
Lemma X8_size_queries_write_on_success_only_witness :
  let h := 0 in
  let np := Some 9 in
  let nt := Some 9 in
  let nquad := None in
  let na := Some 9 in
  let w := square_2d [] in
  let r := 1 in
  let a := 4 in
  let b := 2 in
  let c := 0 in
  let d := 4 in
  let o := Mmg2d.mmg2d_get_mesh_size h np nt nquad na w in
  (wf_table (g_handles_2d w) (g_initialized_2d w)) ∧
  ((Mmg2d.validate_handle_2d h w).1 ≠ 0) ∧
  (MMG2D_Get_meshSize (mesh (entry_at (g_handles_2d w) h)) (kernel w)
     = (r, (a, b, c, d))) ∧
  (o.2 = w ∧ o.1.1 = r ∧
     (r = 1 →
      o.1.2 = (store_out np a, store_out nt b, store_out nquad c,
               store_out na d)) ∧
     (r ≠ 1 → o.1.2 = (np, nt, nquad, na))).
Proof.
  intros h np nt nquad na w r a b c d o.
  subst o.
  split; [toy_hyp |].
  split; [toy_hyp |].
  split; [toy_hyp |].
  eapply ((proj1 (@X8_size_queries_write_on_success_only ToyK _ _ _)) h np
      nt nquad na w);
    [toy_hyp | toy_hyp | toy_hyp].
Defined.

(** X9 on the small kernel: a scalar solution on the four vertices of
    the square, with an allocator that refuses, and with an allocator
    that gives the address 4096. *)
Lemma X9_solution_get_rollback_witness :
  (let h := 0 in
   let out_count := Some 9 in
   let w := scalar_2d [] in
   let typEntity := 1 in
   let np := 4 in
   let p := NULL in
   let h1 := (malloc (size_t (np * sizeof_double)) (heap w)).2 in
   let kres :=
     (MMG2D_Get_scalarSols (sol (entry_at (g_handles_2d w) h))
        (kernel w)).1 in
   let dv :=
     (MMG2D_Get_scalarSols (sol (entry_at (g_handles_2d w) h))
        (kernel w)).2 in
   let r := Mmg2d.mmg2d_get_scalar_sols h out_count w in
   (wf_table (g_handles_2d w) (g_initialized_2d w)) ∧
   ((Mmg2d.validate_handle_2d h w).1 ≠ 0) ∧
   (MMG2D_Get_solSize (mesh (entry_at (g_handles_2d w) h))
      (sol (entry_at (g_handles_2d w) h)) (kernel w)
    = (1, (typEntity, np, 1))) ∧
   (np ≠ 0) ∧
   (malloc (size_t (np * sizeof_double)) (heap w) = (p, h1)) ∧
   (MMG2D_Get_scalarSols (sol (entry_at (g_handles_2d w) h)) (kernel w)
    = (kres, dv)) ∧
   (p = NULL ∨ kres ≠ 1) ∧
   (r.1 = (NULL, store_out out_count 0) ∧
    live (heap r.2) = live (heap w)) ∧
   supply (heap r.2) = supply h1 ∧
   r.2 = set_heap (heap r.2) w) ∧
  (let h := 0 in
   let out_count := Some 9 in
   let w := scalar_2d [4096] in
   let typEntity := 1 in
   let np := 4 in
   let p := 4096 in
   let h1 := (malloc (size_t (np * sizeof_double)) (heap w)).2 in
   let kres :=
     (MMG2D_Get_scalarSols (sol (entry_at (g_handles_2d w) h))
        (kernel w)).1 in
   let dv :=
     (MMG2D_Get_scalarSols (sol (entry_at (g_handles_2d w) h))
        (kernel w)).2 in
   let r := Mmg2d.mmg2d_get_scalar_sols h out_count w in
   (wf_table (g_handles_2d w) (g_initialized_2d w)) ∧
   ((Mmg2d.validate_handle_2d h w).1 ≠ 0) ∧
   (MMG2D_Get_solSize (mesh (entry_at (g_handles_2d w) h))
      (sol (entry_at (g_handles_2d w) h)) (kernel w)
    = (1, (typEntity, np, 1))) ∧
   (np ≠ 0) ∧
   (malloc (size_t (np * sizeof_double)) (heap w) = (p, h1)) ∧
   (MMG2D_Get_scalarSols (sol (entry_at (g_handles_2d w) h)) (kernel w)
    = (kres, dv)) ∧
   (p ≠ NULL ∧ kres = 1) ∧
   (r.1 = (p, store_out out_count np) ∧
    live (heap w) !! p = None ∧
    bytes <$> live (heap r.2) !! p = Some (size_t (np * sizeof_double)) ∧
    delete p (live (heap r.2)) = live (heap w)) ∧
   supply (heap r.2) = supply h1 ∧
   r.2 = set_heap (heap r.2) w).
Proof.
  split.
  - intros h out_count w typEntity np p h1 kres dv r. subst r.
    assert (wf_table (g_handles_2d w) (g_initialized_2d w)) as Hwf
      by toy_hyp.
    assert ((Mmg2d.validate_handle_2d h w).1 ≠ 0) as Hv by toy_hyp.
    assert (MMG2D_Get_solSize (mesh (entry_at (g_handles_2d w) h))
              (sol (entry_at (g_handles_2d w) h)) (kernel w)
            = (1, (typEntity, np, 1))) as Hsz by toy_hyp.
    assert (np ≠ 0) as Hn by toy_hyp.
    assert (malloc (size_t (np * sizeof_double)) (heap w) = (p, h1)) as Em
      by toy_hyp.
    assert (MMG2D_Get_scalarSols (sol (entry_at (g_handles_2d w) h))
              (kernel w) = (kres, dv)) as Eget by toy_hyp.
    assert (p = NULL ∨ kres ≠ 1) as Hcase by (by left).
    pose proof ((proj1 (@X9_solution_get_rollback ToyK _ _ _)) h out_count
                  w typEntity np p h1 kres dv Hwf Hv Hsz Hn Em Eget) as H.
    cbv zeta in H. destruct H as (Hfail & _ & Hsup & Hst).
    do 7 (split; [assumption |]).
    split; [exact (Hfail Hcase) |].
    split; [exact Hsup | exact Hst].
  - intros h out_count w typEntity np p h1 kres dv r. subst r.
    assert (wf_table (g_handles_2d w) (g_initialized_2d w)) as Hwf
      by toy_hyp.
    assert ((Mmg2d.validate_handle_2d h w).1 ≠ 0) as Hv by toy_hyp.
    assert (MMG2D_Get_solSize (mesh (entry_at (g_handles_2d w) h))
              (sol (entry_at (g_handles_2d w) h)) (kernel w)
            = (1, (typEntity, np, 1))) as Hsz by toy_hyp.
    assert (np ≠ 0) as Hn by toy_hyp.
    assert (malloc (size_t (np * sizeof_double)) (heap w) = (p, h1)) as Em
      by toy_hyp.
    assert (MMG2D_Get_scalarSols (sol (entry_at (g_handles_2d w) h))
              (kernel w) = (kres, dv)) as Eget by toy_hyp.
    assert (p ≠ NULL ∧ kres = 1) as Hcase
      by (split; [discriminate | reflexivity]).
    pose proof ((proj1 (@X9_solution_get_rollback ToyK _ _ _)) h out_count
                  w typEntity np p h1 kres dv Hwf Hv Hsz Hn Em Eget) as H.
    cbv zeta in H. destruct H as (_ & Hok & Hsup & Hst).
    do 7 (split; [assumption |]).
    split; [exact (Hok Hcase) |].
    split; [exact Hsup | exact Hst].
Defined.

(** X10 on the small kernel: the vertices of the square and the
    tetrahedra of the cube. *)
Lemma X10_mesh_get_delivers_witness :
  (let h := 0 in
    let out_count := Some 9 in
    let w := square_2d [4096; 4104; 4112; 4120] in
    let np := 4 in
    let nt := 2 in
    let nquad := 0 in
    let na := 4 in
    let ps :=
      default [] (fst <$> malloc_seq [size_t (2 * np * sizeof_double);
        size_t (np * sizeof_MMG5_int); size_t (np * sizeof_int); size_t (np
        * sizeof_int)] (heap w)) in
    let h' :=
      default (heap w) (snd <$> malloc_seq [size_t (2 * np * sizeof_double);
        size_t (np * sizeof_MMG5_int); size_t (np * sizeof_int); size_t (np
        * sizeof_int)] (heap w)) in
    let dv :=
      (MMG2D_Get_vertices (mesh (entry_at (g_handles_2d w) h)) (kernel
        w)).2.1.1.1 in
    let dr :=
      (MMG2D_Get_vertices (mesh (entry_at (g_handles_2d w) h)) (kernel
        w)).2.1.1.2 in
    let dc :=
      (MMG2D_Get_vertices (mesh (entry_at (g_handles_2d w) h)) (kernel
        w)).2.1.2 in
    let dq :=
      (MMG2D_Get_vertices (mesh (entry_at (g_handles_2d w) h)) (kernel
        w)).2.2 in
    let r := Mmg2d.mmg2d_get_vertices h out_count w in
    (wf_table (g_handles_2d w) (g_initialized_2d w)) ∧
    ((Mmg2d.validate_handle_2d h w).1 ≠ 0) ∧
    (MMG2D_Get_meshSize (mesh (entry_at (g_handles_2d w) h)) (kernel w)
       = (1, (np, nt, nquad, na))) ∧
    (np ≠ 0) ∧
    (malloc_seq
         [size_t (2 * np * sizeof_double); size_t (np * sizeof_MMG5_int);
          size_t (np * sizeof_int); size_t (np * sizeof_int)] (heap w)
       = Some (ps, h')) ∧
    (MMG2D_Get_vertices (mesh (entry_at (g_handles_2d w) h)) (kernel w)
       = (1, (dv, dr, dc, dq))) ∧
    (∃ p, ps !! 0%nat = Some p ∧
         r.1 = (p, store_out out_count np) ∧
         bytes <$> live (heap r.2) !! p
         = Some (size_t (2 * np * sizeof_double)) ∧
         ∀ i x, dv !! i = Some x →
           load p (Z.of_nat i) (heap r.2) = Some (CDouble x))) ∧
  (let h := 0 in
    let out_count := Some 9 in
    let w := cube_3d [4096; 4104; 4112] in
    let np := 4 in
    let ne := 2 in
    let nprism := 0 in
    let nt := 2 in
    let nquad := 0 in
    let na := 0 in
    let ps :=
      default [] (fst <$> malloc_seq [size_t (4 * ne * sizeof_MMG5_int);
        size_t (ne * sizeof_MMG5_int); size_t (ne * sizeof_int)] (heap w)) in
    let h' :=
      default (heap w) (snd <$> malloc_seq [size_t (4 * ne *
        sizeof_MMG5_int); size_t (ne * sizeof_MMG5_int); size_t (ne *
        sizeof_int)] (heap w)) in
    let dt :=
      (MMG3D_Get_tetrahedra (mesh (entry_at (g_handles w) h)) (kernel
        w)).2.1.1 in
    let dr :=
      (MMG3D_Get_tetrahedra (mesh (entry_at (g_handles w) h)) (kernel
        w)).2.1.2 in
    let dq :=
      (MMG3D_Get_tetrahedra (mesh (entry_at (g_handles w) h)) (kernel
        w)).2.2 in
    let r := Mmg3d.mmg3d_get_tetrahedra h out_count w in
    (wf_table (g_handles w) (g_initialized w)) ∧
    ((Mmg3d.validate_handle h w).1 ≠ 0) ∧
    (MMG3D_Get_meshSize (mesh (entry_at (g_handles w) h)) (kernel w)
       = (1, (np, ne, nprism, nt, nquad, na))) ∧
    (ne ≠ 0) ∧
    (malloc_seq
         [size_t (4 * ne * sizeof_MMG5_int); size_t (ne * sizeof_MMG5_int);
          size_t (ne * sizeof_int)] (heap w)
       = Some (ps, h')) ∧
    (MMG3D_Get_tetrahedra (mesh (entry_at (g_handles w) h)) (kernel w)
       = (1, (dt, dr, dq))) ∧
    (∃ p, ps !! 0%nat = Some p ∧
         r.1 = (p, store_out out_count ne) ∧
         bytes <$> live (heap r.2) !! p
         = Some (size_t (4 * ne * sizeof_MMG5_int)) ∧
         ∀ i x, dt !! i = Some x →
           load p (Z.of_nat i) (heap r.2) = Some (CInt x))).
Proof.
  split.
  - intros h out_count w np nt nquad na ps h' dv dr dc dq r.
    subst r.
    split; [toy_hyp |].
    split; [toy_hyp |].
    split; [toy_hyp |].
    split; [toy_hyp |].
    split; [toy_hyp |].
    split; [toy_hyp |].
    eapply ((proj1 (@X10_mesh_get_delivers ToyK _ _ _)) h out_count w np nt
        nquad na ps h' dv dr dc dq);
      [toy_hyp | toy_hyp | toy_hyp | toy_hyp | toy_hyp | toy_hyp].
  - intros h out_count w np ne nprism nt nquad na ps h' dt dr dq r.
    subst r.
    split; [toy_hyp |].
    split; [toy_hyp |].
    split; [toy_hyp |].
    split; [toy_hyp |].
    split; [toy_hyp |].
    split; [toy_hyp |].
    eapply ((proj1 (proj2 (proj2 (proj2 (proj2 (@X10_mesh_get_delivers ToyK _
        _ _)))))) h out_count w np ne nprism nt nquad na ps h' dt dr dq);
      [toy_hyp | toy_hyp | toy_hyp | toy_hyp | toy_hyp | toy_hyp].
Defined.

(** X11 on the small kernel: a scalar solution on the four vertices of
    the square. *)
Lemma X11_solution_get_delivers_witness :
  let h := 0 in
  let out_count := Some 9 in
  let w := scalar_2d [4096] in
  let typEntity := 1 in
  let np := 4 in
  let ps :=
    default [] (fst <$> malloc_seq [size_t (np * sizeof_double)] (heap w)) in
  let h' :=
    default (heap w) (snd <$> malloc_seq [size_t (np * sizeof_double)]
      (heap w)) in
  let dv :=
    (MMG2D_Get_scalarSols (sol (entry_at (g_handles_2d w) h)) (kernel
      w)).2 in
  let r := Mmg2d.mmg2d_get_scalar_sols h out_count w in
  (wf_table (g_handles_2d w) (g_initialized_2d w)) ∧
  ((Mmg2d.validate_handle_2d h w).1 ≠ 0) ∧
  (MMG2D_Get_solSize (mesh (entry_at (g_handles_2d w) h))
       (sol (entry_at (g_handles_2d w) h)) (kernel w)
     = (1, (typEntity, np, 1))) ∧
  (np ≠ 0) ∧
  (malloc_seq [size_t (np * sizeof_double)] (heap w) = Some (ps, h')) ∧
  (MMG2D_Get_scalarSols (sol (entry_at (g_handles_2d w) h)) (kernel w)
     = (1, dv)) ∧
  (∃ p, ps !! 0%nat = Some p ∧
       r.1 = (p, store_out out_count np) ∧
       bytes <$> live (heap r.2) !! p = Some (size_t (np * sizeof_double)) ∧
       ∀ i x, dv !! i = Some x →
         load p (Z.of_nat i) (heap r.2) = Some (CDouble x)).
Proof.
  intros h out_count w typEntity np ps h' dv r.
  subst r.
  split; [toy_hyp |].
  split; [toy_hyp |].
  split; [toy_hyp |].
  split; [toy_hyp |].
  split; [toy_hyp |].
  split; [toy_hyp |].
  eapply ((proj1 (@X11_solution_get_delivers ToyK _ _ _)) h out_count w
      typEntity np ps h' dv);
    [toy_hyp | toy_hyp | toy_hyp | toy_hyp | toy_hyp | toy_hyp].
Defined.

(** X12 on the small kernel: the vertices of the square, with an
    allocator whose third answer is a failure. *)
Lemma X12_get_then_free_array_restores_witness :
  let c := Mmg2d.Get_vertices 0 (Some 9) in
  let w := square_2d [4096; 4104; 0] in
  (wf_table (g_handles_2d w) (g_initialized_2d w)) ∧
  (bulk_getter_2d c = true) ∧
  (∃ p n, (Mmg2d.exec c w).1 = RBuf p n ∧
       leaves_only (heap w) p (heap (Mmg2d.exec c w).2) ∧
       live (heap (Mmg2d.mmg2d_free_array p (Mmg2d.exec c w).2).2)
       = live (heap w)).
Proof.
  intros c w.
  split; [toy_hyp |].
  split; [toy_hyp |].
  eapply ((proj1 (@X12_get_then_free_array_restores ToyK _ _ _)) c w);
    [toy_hyp | toy_hyp].
Defined.

(** X13 on the small kernel: the remesher on the square. *)
Lemma X13_allocator_used_by_getters_only_witness :
  let c := Mmg2d.Remesh 0 in
  let w := square_2d [4096] in
  (uses_heap_2d c = false) ∧
  (heap (Mmg2d.exec c w).2 = heap w).
Proof.
  intros c w.
  split; [toy_hyp |].
  eapply ((proj1 (@X13_allocator_used_by_getters_only ToyK _ _ _)) c w);
    [toy_hyp..].
Defined.

(** X14 on the small kernel: the first handle, through the creation and
    the release of a second one. *)
Lemma X14_handle_reaches_its_instance_witness :
  let w := boot (toy_heap []) (toy_kernel []) in
  let m := 1000 in
  let s := 1001 in
  let k1 := (toy_init (toy_kernel [])).2 in
  let cs := [Mmg2d.Set_mesh_size 0 4 2 0 4; Mmg2d.Init; Mmg2d.Free 1] in
  let h := (Mmg2d.mmg2d_init w).1 in
  let w' := (Mmg2d.run cs (Mmg2d.mmg2d_init w).2).2 in
  (wf_table (g_handles_2d w) (g_initialized_2d w)) ∧
  (MMG2D_Init_mesh (kernel w) = ((1, m, s), k1)) ∧
  (m ≠ NULL) ∧
  (h ≠ -1) ∧
  ((Mmg2d.Free h ∉ cs)) ∧
  (entry_at (g_handles_2d w') h = mkEntry m s 1 ∧
     Mmg2d.mmg2d_remesh h w' = kcall (MMG2D_mmg2dlib m s) w' ∧
     (∀ np nt nquad na,
        Mmg2d.mmg2d_set_mesh_size h np nt nquad na w'
        = kcall (MMG2D_Set_meshSize m np nt nquad na) w') ∧
     (∀ j, Mmg2d.mmg2d_get_triangle_quality h j w'
           = (MMG2D_Get_triangleQuality m s j (kernel w'), w')) ∧
     kernel (Mmg2d.mmg2d_free h w').2 = MMG2D_Free_all m s (kernel w')).
Proof.
  intros w m s k1 cs h w'.
  subst h w'.
  split; [toy_hyp |].
  split; [toy_hyp |].
  split; [toy_hyp |].
  split; [toy_hyp |].
  split; [toy_hyp |].
  eapply ((proj1 (@X14_handle_reaches_its_instance ToyK _ _ _)) w m s k1
      cs);
    [toy_hyp | toy_hyp | toy_hyp | toy_hyp | toy_hyp].
Defined.

(** X16 on the small kernel: three handles. *)
Lemma X16_handles_in_order_of_creation_witness :
  let n := 3%nat in
  let hp := toy_heap [] in
  let k := toy_kernel [] in
  let r := Mmg2d.run (replicate n Mmg2d.Init) (boot hp k) in
  ((∀ x, x ∈ r.1 → x ≠ RInt (-1))) ∧
  (r.1 = RInt <$> seqZ 0 (Z.of_nat n)).
Proof.
  intros n hp k r.
  subst r.
  split; [toy_hyp |].
  eapply ((proj1 (@X16_handles_in_order_of_creation ToyK _ _ _)) n hp k);
    [toy_hyp..].
Defined.

(** X6 on the small kernel: after an [init] and the [free] of its
    handle, the slot 0 is zeroed. *)
Lemma X6_slots_zeroed_or_bound_witness :
  let w := (grun [In2d Mmg2d.Init; In3d Mmg3d.Init; In2d (Mmg2d.Free 0)]
              (boot (toy_heap []) (toy_kernel []))).2 in
  (0 ≤ 0 < MAX_HANDLES) ∧
  ((Mmg2d.validate_handle_2d 0 w).1 = 0) ∧
  (entry_at (g_handles_2d w) 0 = zero_entry).
Proof.
  intros w.
  split; [toy_hyp |].
  split; [toy_hyp |].
  eapply (proj2 (proj1 (@X6_slots_zeroed_or_bound ToyK _ _ _
                          (toy_heap []) (toy_kernel []) _))); toy_hyp.
Defined.

(** X7 on the small kernel: the second handle of the planar table is
    created and given back. *)
Lemma X7_free_undoes_init_witness :
  let w := (grun [In2d Mmg2d.Init; In3d Mmg3d.Init]
              (boot (toy_heap []) (toy_kernel []))).2 in
  let h := (Mmg2d.mmg2d_init w).1 in
  let r := Mmg2d.mmg2d_free h (Mmg2d.mmg2d_init w).2 in
  (h ≠ -1) ∧
  (r.1 = 1 ∧ g_handles_2d r.2 = g_handles_2d w ∧
   (Mmg2d.mmg2d_get_available_handles r.2).1
   = (Mmg2d.mmg2d_get_available_handles w).1 ∧
   kernel r.2
   = (let '((_, m, s), k1) := MMG2D_Init_mesh (kernel w) in
      MMG2D_Free_all m s (MMG2D_Init_parameters m k1))).
Proof.
  intros w h r. subst r.
  split; [toy_hyp |].
  eapply (proj1 (@X7_free_undoes_init ToyK _ _ _
                   (toy_heap []) (toy_kernel []) _)); toy_hyp.
Defined.

(** X15 on the small kernel: the self-test at the start of the
    program. *)
Lemma X15_self_test_takes_no_handle_witness :
  let w := boot (toy_heap []) (toy_kernel []) in
  let r := Stub.mmg_test_init w in
  (r.1 = 1) ∧
  (kernel r.2
   = (let '((_, m, s), k1) := MMG3D_Init_mesh (kernel w) in
      MMG3D_Free_all m s (MMG3D_Init_parameters m k1))).
Proof.
  intros w r. subst r.
  split; [toy_hyp |].
  destruct (@X15_self_test_takes_no_handle ToyK _ w)
    as (_ & _ & _ & _ & _ & _ & _ & _ & Hk).
  apply Hk. toy_hyp.
Defined.
